(* ===== verification/_CoqProject ===== *)
-Q . S2P
Prelude.v
Types.v
Catalog.v
Tips.v
Storage.v
Codec.v
RawStorage.v
Builder.v
Session.v
Demo.v
SessionInv.v
SessionSets.v
SessionFlow.v
SessionData.v
SessionLog.v
SessionRest.v
SessionUI.v
SessionTimer.v
EngineSpec.v
Pages.v
Launch.v
App.v
AppInv.v
AppFlow.v
Views.v
SessionView.v
AppView.v
AppStorage.v
AppTips.v
