(* ===== verification/Prelude.v ===== *)
(** * Mobilify: a verification development for the workout tracker

    The program is a single-page React application in TypeScript: a
    catalog of mobility exercises and premade routines ([constants.ts]), a
    data model ([types.ts]), a storage module over [localStorage]
    ([services/storageService.ts]), a tip service over a text generator
    ([services/geminiService.ts]) and the pages ([App.tsx]): home,
    training, routine builder, session and profile.  The session page is
    the core: it walks the user through the exercises of a routine, keeps
    the sets performed, runs the rest countdown and hands the finished
    workout to the storage, which also updates the statistics.

    ** The files, in dependency order

    - [Prelude] (this file): the JavaScript built-ins the sources call
      ([Math.max], [Math.round], [Math.floor], [Array.from({length})],
      [slice(0,-1)], [||] on strings, [Array.prototype.find]), the
      [outcome] type for handlers that may throw, the object store
      ([alloc], [allocs], [deref], [live]) that gives set objects their
      identity, the tactics, the hint databases [mob] and [mob_rw], and
      the lemmas on stores and lists the components share.
    - [Types]: the data model of [types.ts], one Record or Inductive per
      interface or enum; logs are polymorphic in what a set is (a
      reference while the session runs, a value once stored).
    - [Catalog]: [constants.ts] transcribed: [EXERCISE_LIBRARY],
      [PREMADE_ROUTINES], [INITIAL_STATS], the Portuguese translations and
      the two localization functions; and the two conditions a routine
      must meet for a session, [routine_ok] and [routine_in].
    - [Tips]: [geminiService.ts]: the two functions over an abstract
      client whose call is rejected or fulfilled.
    - [Storage]: [storageService.ts] function by function over an
      environment [Env] (the three [localStorage] items and the contents
      of the object [INITIAL_STATS]); [updateStats] is the statistics
      update inside [saveLog]; the class [Gateway] is what clients rely
      on, and [Env] is its instance.
    - [Codec]: what the storage module needs from [JSON.stringify] and
      [JSON.parse], as the class [Codec] with its two laws, the three
      ways a parse can end ([Parse]), and an instance for every
      countable type on which the examples run.
    - [RawStorage]: [storageService.ts] once more, one level down: the
      items are texts in a map from keys to strings, a function is a
      computation [Run] that returns or throws, and [typed] reads the
      environment of [Storage] out of the texts.
    - [Builder]: [CreateRoutinePage] of [App.tsx]: state cells,
      [handleAdd], [handleSave], [filteredLibrary], and the states the
      page reaches ([builds]).
    - [Session]: [SessionPage] of [App.tsx]: its state cells as the
      record [SessionState] with the store of set objects [heap], the
      effects [loadSetsEffect] and [restTimerEffect] (the redirect is
      in [App]), every handler ([handleToggleSet],
      [handleUpdateValue], [handleAddSet], [handleRemoveSet],
      [saveCurrentExerciseData], [handleNextExercise],
      [handlePrevExercise], [handleFinishWorkout]), the inline callbacks
      of the buttons, the figures and conditions of the markup, and
      React's part: [react] re-runs the effects whose dependencies
      changed, [dispatch] is one event, [run] a sequence of events.
    - [Demo]: the concrete routine, library and states of the witnesses.
    - [SessionInv]: the invariant [wf] of the session state and its
      preservation by every event.
    - [SessionSets]: the four handlers that act on the sets.
    - [SessionFlow]: next and previous.
    - [SessionData]: the sets the page holds and records are well
      formed (numbers, targets, values).
    - [SessionLog]: what recorded entries hold, which of them can still
      change, and the log that finishing stores.
    - [SessionRest]: the rest timer.
    - [SessionUI]: the events the markup lets happen ([enabled]), the
      states the user can reach ([ui_reachable], an inductive relation)
      and the phases of the session.
    - [SessionTimer]: the timer effect of [SessionPage] with its
      interval as a resource of the window: [setInterval] hands out an
      id, [clearInterval] gives it back, [timerEffect] and
      [timerCleanup] are the body of the effect and the function it
      returns, [commitTimer] is React running both when [showRestTimer]
      or [restTime] changed, [fire] the callback of a live interval,
      [timed_reachable] the states of the page with its interval.
    - [EngineSpec]: the engine of the specification ([Engine], one
      definition per operation), the engine a page state stands for
      ([abs]) and the runs on which the page implements it.
    - [Pages]: the root component's [stats] state and what the other
      pages do with the storage: [togglePremium], [handleStart], the
      create card, the recent logs, and the save that ends
      [handleFinishWorkout].
      It also holds the figures the home and profile pages compute
      ([minutesShown], [weeklyData], [data]).
    - [Launch]: the routines the application hands to the session page
      (premade ones in every language, built ones) can be run.
    - [App]: the application as a whole: the five routes of [App], the
      history of the router, the page that is mounted with its state
      ([PageState]), the root's state, the storage and the window's
      intervals ([World]); one definition per callback of a page
      ([navLinkClick], [start], [saveClick], [finishClick], ...),
      [wstep] for an event, [pageOffers] for the events the mounted page
      renders enabled, [boot] and the worlds [reachable] from it.
    - [AppInv]: the invariant [world_ok] of the reachable worlds.
    - [AppFlow]: finishing a workout from the click to the home page,
      and the redirect of the session page.
    - [Views]: the markup of the home, training, builder and profile
      pages as data: a view is the list of the texts, figures, chart
      data and controls a page renders ([Node]), each control with its
      callback ([Control]) and its disabled flag; the shared components
      ([Button], [Card], [SectionHeader], [Chip], [Navigation],
      [MainLayout]) are functions on such lists.
    - [SessionView]: the markup of the session page, with its layers:
      the rest overlay and the summary cover the page, and a click
      reaches the topmost layer ([topLayer]).
    - [AppView]: the view of the application in a world ([appView]) and
      its agreement with the events of [App].
    - [AppStorage]: the calls of the writers of [storageService.ts] that
      the pages make ([writesOf]), followed through [RawStorage].
    - [AppTips]: the promises of [getAITip] that are pending and the tip
      the home page shows.

    ** How state and effects are modelled

    - A JavaScript [number] that holds a count, an index, a number of
      seconds or a timestamp in milliseconds is a [Z] (an array index or
      length a [nat]); the one fractional number, a log's
      [totalDurationSeconds], is a [Q], and [Math.round] is computed on
      it exactly.  For durations below 2^53 milliseconds the floating
      point result is the same: the quotient is a half-integer only when
      it is exact.  NaN and infinities do not arise from integer inputs.
    - A clock reading ([Date.now()]) is an argument of the definition
      that takes it; [handleFinishWorkout] takes two and [saveLog] a
      third.
    - React renders between two events, so a handler reads the state of
      the last render: [dispatch] is a handler followed by the render and
      the effects whose dependencies changed.
    - A handler that can throw returns an [outcome]: [Done st] or
      [Threw e st], where [st] is the state at the throw.  The only
      exception the pages can raise is the [TypeError] of reading a
      property of [undefined]; the storage module can raise the
      [SyntaxError] of [JSON.parse] ([RawStorage]).
    - The [WorkoutSetResult] objects of the session page are assigned to
      in place while arrays that hold them are shared, so they live in a
      store and arrays hold their locations; [currentSetValues] and
      [entryValues] read the values behind the references.  Arrays are
      copied before they are changed, so they are lists.
    - [JSON.parse (JSON.stringify v)] is a deep copy of [v]: in
      [Storage] a stored item is a value.  [RawStorage] keeps the text
      and assumes of JSON only the laws of [Codec]; a text that is not
      JSON makes the computation throw, and a text that is JSON of
      another shape than the cast says leaves the model ([Unmodelled]).
      The statistics object [getStats] returns is the constant
      [INITIAL_STATS] or a fresh object ([StatsRef]).
    - An effect with a cleanup is a resource: the interval the timer
      effect sets is an id in the set of live intervals of the window,
      the page holds the id its last effect run returned, and React
      runs the cleanup before the next run and at unmount.  The event
      [Tick] of [Session] is the firing of that interval.
    - A page is mounted when its route is entered and unmounted when it
      is left; its cells start from their initial values and its mount
      effects have run when the next event is taken.  The router is a
      library: the model takes from it that [navigate] pushes an entry,
      [navigate(-1)] and the back button pop one, an entry keeps its
      [state], and a link to the current path mounts nothing.
    - A page's markup is the list of its dynamic parts in document
      order; nesting, class names and decorative icons are dropped.  A
      text of the string table [t] is its key, since the table is not
      among the sources.  A render that would read a property of
      [undefined] has no view.
    - The one asynchronous call of the pages, [getAITip] in the mount
      effect of the home page, is a promise in the world
      ([Promises]): made at mount, fulfilled by an event of its own at
      any later moment, and without effect when the page that made it
      is gone.  The text generator is a function of the prompt.
    - What the application reads once and never changes (the language,
      the string [t.loading], the time [constants.ts] was loaded, the
      tip client) is the record [AppContext], a section variable of the
      application's files.
    - Record fields carry a prefix naming their interface
      ([ws_completed] is [WorkoutSetResult.completed]); every other
      definition keeps the name it has in the sources.
    - No definition needs fuel: every loop of the sources is a [map], a
      [find] or a [filter] over a list, and the countdown is driven by
      the firings of the interval.  The two liveness theorems give the
      bound themselves: [restTime] firings end the countdown, and three
      clicks end a session.

    ** What the theorems show

    - Invariant ([SessionInv]): every state a session reaches satisfies
      [wf]: the position is an exercise of the routine, the exercises
      before it are recorded, entry [j] is the log of exercise [j], no
      reference dangles, the page's set objects are distinct and not
      shared with entries of other exercises, the rest time is not
      negative.  No event throws in such a state when the set index is
      in range ([SessionSets]); an empty routine throws at the first
      render.  On an accepted routine every list of sets is well formed
      ([SessionData]).
    - Behaviour of each handler on every branch ([SessionSets],
      [SessionFlow], [SessionRest]): toggling twice, the floor at zero of
      a value, adding then removing a set, the walk through a routine by
      next, previous on the first exercise, going back and forth, the
      countdown to zero and its buttons.
    - The log ([SessionLog], [Pages]): finishing always produces a log,
      with the entries in routine order, and saves it; entries of other
      exercises are frozen; the statistics gain one workout and the
      rounded minutes.
    - Storage ([Storage]): reads after writes, logs and routines only
      grow, the statistics count the logs as long as nobody writes stale
      counters.
    - Text layer ([RawStorage]): on every [localStorage] whose three
      items can be read, the functions over texts do what the functions
      of [Storage] do and touch no other key; what is written is read
      back; a statistics item that is not JSON makes [saveLog] throw
      after the log is stored.
    - Timer ([SessionTimer]): the window never holds an interval but
      the page's own, at most one, and none after unmount; the page of
      [Session] is the page with its interval, intervals erased; the
      countdown stops by itself after [restTime] firings.
    - Application ([AppInv], [AppFlow]): in every world reachable from
      boot the home page lists the newest stored logs, the training
      page the stored routines, every stored routine can be run, no
      page crashes, and an interval is live only under a resting
      session; the finish button stores the log, updates the
      statistics, clears the interval and opens the home page with the
      log first; a mounted session can always be finished in at most
      three clicks.
    - Markup ([Views], [SessionView], [AppView]): in every reachable
      world the mounted page renders, and the events the model offers
      are exactly those the topmost layer of the markup has an enabled
      control for, which derives [SessionUI.enabled] and
      [App.pageOffers] from the markup; the builder's list of selected
      exercises never has a blank row.
    - Tips ([AppTips]): the home page shows [t.loading] exactly until
      the promise of its own mount is fulfilled, whatever the order in
      which earlier promises are fulfilled.
    - Application and storage ([AppStorage]): opened on a
      [localStorage] that can be read, the application only ever leaves
      one that can be read, holding the texts of the storage its pages
      work on; no call of the storage module throws.
    - Builder and catalog ([Builder], [Launch]): what [handleSave]
      refuses and stores; built and premade routines can be run;
      localization changes texts only.
    - The user interface ([SessionUI]): no event the markup enables
      throws, the two overlays are never shown together, and the phase
      moves along the transitions of the specification.
    - Refinement ([EngineSpec]): on runs that only move forward the
      engine read out of the page is the engine of the specification;
      "previous" from a later exercise is where they part.
    - Tips ([Tips]): a tip is never empty; an advice can be.
    - Where the code departs from the specification or from its own
      intent, a theorem states what it does: going back loads fresh sets
      and the next save overwrites the recorded ones; the entry of the
      current exercise shares the page's objects; the summary counts one
      exercise too many after next; the last workout date is the saving
      time; [saveLog] assigns to [INITIAL_STATS]; the pages show stale
      statistics and [togglePremium] writes them back; the routine limit
      is not enforced; the redirect of the session page leaves an entry
      that traps the back button; the home page rounds minutes down
      where the statistics round them to the nearest.

    ** Not modelled

    - The text generator behind [services/geminiService.ts]: a network
      call, of which the model keeps only how it ends.
    - Styling (class names), nesting of elements, decorative icons, the
      drawing of the charts by [recharts] and the formatting of dates:
      of the markup the model keeps texts, figures, chart data and
      controls.
    - The router's internals, and navigation outside the application
      (forward after back, editing the address): the history is the
      list of entries below the current one.
    - [services/localization], which [App.tsx] imports, is not among
      the sources: the language and the strings the model needs are
      fields of [AppContext].
    - JSON itself, a full [localStorage] ([setItem] throwing), and
      texts that are JSON of another shape than the code expects.
    - Planned next: a [localStorage] that is full ([setItem]
      throwing), and a text generator whose answers differ from call
      to call. *)

From stdpp Require Export prelude strings list pretty.
From Stdlib Require Export ZArith QArith Qround.

Declare Scope mob_scope.
Delimit Scope mob_scope with mob.
Open Scope Z_scope.

Create HintDb mob discriminated.
Create Rewrite HintDb mob_rw.

(** ** Handlers that may throw *)

(** The one exception the sources can raise: reading a property of
    [undefined]. *)
Inductive JsError : Type :=
| TypeError.

Inductive outcome (S : Type) : Type :=
| Done (s : S)
| Threw (e : JsError) (s : S).

Arguments Done {S} s.
Arguments Threw {S} e s.

(** The state an outcome leaves behind, thrown or not. *)
Definition final {S} (o : outcome S) : S :=
  match o with Done s => s | Threw _ s => s end.

Definition threw {S} (o : outcome S) : bool :=
  match o with Done _ => false | Threw _ _ => true end.

(** Sequencing: a throw stops the handler. *)
Definition andThen {S} (o : outcome S) (k : S → outcome S) : outcome S :=
  match o with Done s => k s | Threw e s => Threw e s end.

Notation "o >>> k" := (andThen o k)
  (at level 50, left associativity) : mob_scope.
Open Scope mob_scope.

(** ** The object store *)

(** A store of objects of type [A]: a location is an index, allocation
    appends, and nothing is ever freed (JavaScript references never
    dangle). *)
Abbreviation loc := nat (only parsing).
Abbreviation store A := (list A) (only parsing).

Definition alloc {A} (h : store A) (v : A) : store A * loc :=
  (h ++ [v], length h).

(** Allocation of several objects at once, in order. *)
Definition allocs {A} (h : store A) (vs : list A) : store A * list loc :=
  (h ++ vs, seq (length h) (length vs)).

(** What a list of references points to, when none dangles. *)
Definition deref {A} (h : store A) (ls : list loc) : option (list A) :=
  mapM (λ l, h !! l) ls.

(** Every reference of the list points into the store. *)
Definition live {A} (h : store A) (ls : list loc) : Prop :=
  Forall (λ l, l < length h)%nat ls.

#[export] Instance live_dec {A} (h : store A) ls : Decision (live h ls).
Proof. unfold live. apply _. Defined.

(** ** JavaScript built-ins used by the sources *)

Module JS.

(** [Math.max(a, b)] on integers. *)
Definition Math_max (a b : Z) : Z := Z.max a b.

(** [Math.round(x)]: the nearest integer, halves towards plus infinity. *)
Definition Math_round (x : Q) : Z := Qfloor (x + (1 # 2))%Q.

(** [Math.floor(x)]. *)
Definition Math_floor (x : Q) : Z := Qfloor x.

(** [Array.from({length: n})] has [ToLength(n)] elements: none when [n]
    is negative. *)
Definition Array_from_length (n : Z) : list nat := seq 0 (Z.to_nat n).

(** [a.slice(0, -1)]: all but the last element. *)
Definition slice_0_m1 {A} (a : list A) : list A := take (length a - 1) a.

(** [s || d] on strings: the empty string is falsy. *)
Definition or_string (s d : string) : string :=
  if decide (s = "") then d else s.

(** [a.find(p)]. *)
Definition find {A} (p : A → bool) (a : list A) : option A :=
  List.find p a.

(** [a[a.length - 1]]: [undefined] on the empty array. *)
Definition last_elem {A} (a : list A) : option A := last a.

End JS.

(** ** Tactics *)

(** Case analysis on the first [match] or [if] scrutinee of the goal that
    is an outcome, keeping the equation. *)
Ltac case_outcome :=
  match goal with
  | |- context [andThen ?o _] =>
      let E := fresh "E" in destruct o eqn:E; simpl
  end.

(** Unfold the store operations and simplify pairs. *)
Ltac unstore := unfold alloc, allocs, deref in *; simpl in *.

(** ** Lemmas on outcomes *)

Lemma andThen_Done {S} (s : S) (k : S → outcome S) : Done s >>> k = k s.
Proof. done. Qed.

Lemma andThen_Threw {S} e (s : S) (k : S → outcome S) :
  Threw e s >>> k = Threw e s.
Proof. done. Qed.

Lemma andThen_assoc {S} (o : outcome S) (k1 k2 : S → outcome S) :
  o >>> k1 >>> k2 = o >>> (λ s, k1 s >>> k2).
Proof. by destruct o. Qed.

Lemma andThen_inv_Done {S} (o : outcome S) k s' :
  o >>> k = Done s' → ∃ s, o = Done s ∧ k s = Done s'.
Proof. destruct o; naive_solver. Qed.

#[export] Hint Rewrite @andThen_Done @andThen_Threw : mob_rw.

(** ** Lemmas on the store *)

Section store.
Context {A : Type}.
Implicit Types (h : store A) (v : A) (l : loc) (ls : list loc).

Lemma alloc_lookup_new h v : (alloc h v).1 !! (alloc h v).2 = Some v.
Proof. unstore. by rewrite list_lookup_middle. Qed.

Lemma alloc_lookup_old h v l x : h !! l = Some x → (alloc h v).1 !! l = Some x.
Proof. unstore. apply lookup_app_l_Some. Qed.

Lemma alloc_fresh h v : h !! (alloc h v).2 = None.
Proof. unstore. by apply lookup_ge_None_2. Qed.

Lemma allocs_length h vs : length (allocs h vs).1 = (length h + length vs)%nat.
Proof. unstore. by rewrite length_app. Qed.

Lemma allocs_locs_length h vs : length (allocs h vs).2 = length vs.
Proof. unstore. by rewrite length_seq. Qed.

Lemma allocs_lookup_old h vs l x :
  h !! l = Some x → (allocs h vs).1 !! l = Some x.
Proof. unstore. apply lookup_app_l_Some. Qed.

Lemma allocs_lookup_new h vs i l :
  (allocs h vs).2 !! i = Some l → (allocs h vs).1 !! l = vs !! i.
Proof.
  unstore. intros [-> Hi]%lookup_seq.
  by rewrite lookup_app_r, Nat.add_comm, Nat.add_sub by lia.
Qed.

Lemma allocs_fresh h vs l : l ∈ (allocs h vs).2 → h !! l = None.
Proof.
  unstore. intros [? ?]%elem_of_seq. by apply lookup_ge_None_2.
Qed.

Lemma allocs_NoDup h vs : NoDup (allocs h vs).2.
Proof. unstore. apply NoDup_seq. Qed.

Lemma allocs_deref h vs : deref (allocs h vs).1 (allocs h vs).2 = Some vs.
Proof.
  unfold deref. apply mapM_Some, Forall2_same_length_lookup_2.
  { by rewrite allocs_locs_length. }
  intros i l x Hl Hx. by rewrite (allocs_lookup_new _ _ _ _ Hl).
Qed.

Lemma deref_length h ls vs : deref h ls = Some vs → length vs = length ls.
Proof. intros H. symmetry. by eapply length_mapM. Qed.

Lemma deref_lookup h ls vs i l :
  deref h ls = Some vs → ls !! i = Some l → h !! l = vs !! i.
Proof.
  unfold deref. intros H%mapM_Some Hl.
  destruct (Forall2_lookup_l _ _ _ _ _ H Hl) as (x & -> & Hx). done.
Qed.

Lemma deref_is_Some h ls :
  is_Some (deref h ls) ↔ ∀ l, l ∈ ls → is_Some (h !! l).
Proof. unfold deref. rewrite mapM_is_Some, Forall_forall. done. Qed.

(** Dereferencing only reads the locations listed. *)
Lemma deref_ext h h' ls :
  (∀ l, l ∈ ls → h !! l = h' !! l) → deref h ls = deref h' ls.
Proof.
  intros H. unfold deref. apply Forall_mapM_ext, Forall_forall. auto.
Qed.

Lemma deref_insert_notin h ls l v :
  l ∉ ls → deref (<[l := v]> h) ls = deref h ls.
Proof.
  intros Hl. apply deref_ext. intros l' Hl'.
  apply list_lookup_insert_ne. set_solver.
Qed.

(** *** References that point into the store *)

Lemma live_nil h : live h [].
Proof. constructor. Qed.

Lemma live_mono h h' ls :
  (length h ≤ length h')%nat → live h ls → live h' ls.
Proof. intros Hle H. eapply Forall_impl; [done|]. simpl. intros; lia. Qed.

Lemma live_insert h ls l v : live h ls → live (<[l := v]> h) ls.
Proof. apply live_mono. by rewrite length_insert. Qed.

Lemma live_alloc h ls v : live h ls → live (alloc h v).1 (ls ++ [(alloc h v).2]).
Proof.
  intros H. unstore. apply Forall_app. split.
  - eapply live_mono; [|done]. rewrite length_app. lia.
  - repeat constructor. rewrite length_app. simpl. lia.
Qed.

Lemma live_allocs_old h ls vs : live h ls → live (allocs h vs).1 ls.
Proof. apply live_mono. rewrite allocs_length. lia. Qed.

Lemma live_allocs_new h vs : live (allocs h vs).1 (allocs h vs).2.
Proof.
  apply Forall_forall. intros l [? ?]%elem_of_seq.
  rewrite allocs_length. lia.
Qed.

Lemma live_sublist h ls ls' : ls' ⊆ ls → live h ls → live h ls'.
Proof. intros Hsub H. apply Forall_forall. intros l Hl. by eapply Forall_forall in H; [|apply Hsub]. Qed.

Lemma live_lookup h ls i l : live h ls → ls !! i = Some l → is_Some (h !! l).
Proof.
  intros H Hl. apply lookup_lt_is_Some.
  by eapply (Forall_lookup_1 _ _ _ _ H).
Qed.

Lemma live_deref h ls : live h ls ↔ is_Some (deref h ls).
Proof.
  rewrite deref_is_Some. unfold live. rewrite Forall_forall.
  by setoid_rewrite lookup_lt_is_Some.
Qed.

(** Allocation does not change what live references point to. *)
Lemma deref_app_live h vs ls : live h ls → deref (h ++ vs) ls = deref h ls.
Proof.
  intros H. apply deref_ext. intros l Hl. apply lookup_app_l.
  by eapply Forall_forall in H.
Qed.

(** An assignment through the [i]-th of distinct references changes the
    [i]-th object and no other. *)
Lemma deref_insert h ls vs i l v :
  NoDup ls → ls !! i = Some l → deref h ls = Some vs →
  deref (<[l := v]> h) ls = Some (<[i := v]> vs).
Proof.
  intros Hnd Hl Hd. pose proof (deref_length _ _ _ Hd) as Hlen.
  apply mapM_Some, Forall2_same_length_lookup_2; [by rewrite length_insert|].
  intros j l' x Hl' Hx. destruct (decide (j = i)) as [->|Hne].
  - assert (l' = l) as -> by congruence.
    rewrite list_lookup_insert_eq in Hx by (apply lookup_lt_Some in Hl; lia).
    injection Hx as <-. apply list_lookup_insert_eq.
    destruct (live_lookup h ls i l) as [? ?]; [by apply live_deref|done|].
    by eapply lookup_lt_Some.
  - rewrite list_lookup_insert_ne in Hx by done.
    rewrite list_lookup_insert_ne.
    + by rewrite (deref_lookup _ _ _ _ _ Hd Hl').
    + intros ->. by apply Hne, (NoDup_lookup ls j i l').
Qed.

Lemma deref_app h ls1 ls2 vs1 vs2 :
  deref h ls1 = Some vs1 → deref h ls2 = Some vs2 →
  deref h (ls1 ++ ls2) = Some (vs1 ++ vs2).
Proof. unfold deref. rewrite !mapM_Some. apply Forall2_app. Qed.

Lemma deref_take h ls vs n :
  deref h ls = Some vs → deref h (take n ls) = Some (take n vs).
Proof. unfold deref. rewrite !mapM_Some. apply Forall2_take. Qed.

(** The references of a list extended by a fresh object. *)
Lemma deref_alloc h ls vs v :
  deref h ls = Some vs →
  deref (alloc h v).1 (ls ++ [(alloc h v).2]) = Some (vs ++ [v]).
Proof.
  intros Hd. apply deref_app.
  - unfold alloc. simpl. rewrite deref_app_live; [done|].
    apply live_deref. by eexists.
  - unfold deref, alloc. simpl. by rewrite list_lookup_middle.
Qed.

(** A fresh location is none of the live ones. *)
Lemma live_fresh h ls : live h ls → length h ∉ ls.
Proof. intros H Hin. eapply Forall_forall in H; [|done]. lia. Qed.

Lemma live_allocs_fresh h ls vs : live h ls → ls ## (allocs h vs).2.
Proof.
  intros H l Hl [? ?]%elem_of_seq. eapply Forall_forall in H; [|done]. lia.
Qed.

End store.

#[export] Hint Resolve live_nil live_insert live_alloc live_allocs_old
  live_allocs_new : mob.

(** ** Lemmas on the built-ins *)

Lemma Math_max_0_nonneg x : 0 ≤ JS.Math_max 0 x.
Proof. unfold JS.Math_max. lia. Qed.

Lemma Array_from_length_length n :
  length (JS.Array_from_length n) = Z.to_nat n.
Proof. apply length_seq. Qed.

Lemma slice_0_m1_app {A} (a : list A) x : JS.slice_0_m1 (a ++ [x]) = a.
Proof.
  unfold JS.slice_0_m1. rewrite length_app. simpl.
  replace (length a + 1 - 1)%nat with (length a) by lia.
  by rewrite take_app_length.
Qed.

Lemma slice_0_m1_length {A} (a : list A) :
  length (JS.slice_0_m1 a) = (length a - 1)%nat.
Proof. unfold JS.slice_0_m1. rewrite length_take. lia. Qed.

Lemma slice_0_m1_sublist {A} (a : list A) : JS.slice_0_m1 a `sublist_of` a.
Proof. apply sublist_take. Qed.

Lemma slice_0_m1_subseteq {A} (a : list A) : JS.slice_0_m1 a ⊆ a.
Proof. apply sublist_subseteq, slice_0_m1_sublist. Qed.

Lemma slice_0_m1_NoDup {A} (a : list A) : NoDup a → NoDup (JS.slice_0_m1 a).
Proof. intros H. eapply sublist_NoDup; [done|apply slice_0_m1_sublist]. Qed.

Lemma last_elem_app {A} (a : list A) x : JS.last_elem (a ++ [x]) = Some x.
Proof. apply last_snoc. Qed.

Lemma or_string_nonempty s d : d ≠ "" → JS.or_string s d ≠ "".
Proof. unfold JS.or_string. by case_decide. Qed.

(** [Math.round] of a fraction with a positive denominator, as integer
    division. *)
Lemma Math_round_frac (n : Z) (d : positive) :
  JS.Math_round (n # d) = (2 * n + Z.pos d) `div` (2 * Z.pos d).
Proof.
  unfold JS.Math_round, Qfloor, Qplus. simpl.
  f_equal; lia.
Qed.
