(* ===== verification/Types.v ===== *)
(** * Types: the data model of [types.ts]

    One definition per exported enum or interface, fields in the order of
    the source.  Field prefixes: [ex_] Exercise, [re_] RoutineExercise,
    [r_] Routine, [ws_] WorkoutSetResult, [wel_] WorkoutExerciseLog,
    [wl_] WorkoutLog, [us_] UserStats.

    [WorkoutExerciseLog] and [WorkoutLog] take the type of a set as a
    parameter: while a session runs, the [sets] of a log entry are
    references to the set objects the page still mutates ([loc]); once the
    log is written to storage they are the objects' contents
    ([WorkoutSetResult]). *)

From S2P Require Import Prelude.

(** [enum MuscleGroup]. *)
Inductive MuscleGroup : Type :=
| Ankle | Calf | Hamstrings | Hips | Thoracic | Shoulder
| Neck | Wrists | LowerBack | UpperBack | Glutes | FullBody.

(** The string each member of the enum stands for. *)
Definition MuscleGroup_value (g : MuscleGroup) : string :=
  match g with
  | Ankle => "Ankle" | Calf => "Calf" | Hamstrings => "Hamstrings"
  | Hips => "Hips" | Thoracic => "Thoracic Spine" | Shoulder => "Shoulder"
  | Neck => "Neck" | Wrists => "Wrists" | LowerBack => "Lower Back"
  | UpperBack => "Upper Back" | Glutes => "Glutes" | FullBody => "Full Body"
  end.

(** [Object.values(MuscleGroup)], in declaration order. *)
Definition MuscleGroup_values : list MuscleGroup :=
  [Ankle; Calf; Hamstrings; Hips; Thoracic; Shoulder;
   Neck; Wrists; LowerBack; UpperBack; Glutes; FullBody].

(** The union ['reps' | 'time'] of [Exercise.type]. *)
Inductive ExerciseType : Type :=
| reps
| time.

(** [interface Exercise]; the two optional fields are options. *)
Record Exercise : Type := mkExercise {
  ex_id : string;
  ex_name : string;
  ex_description : string;
  ex_detailedDescription : string;
  ex_muscleGroup : MuscleGroup;
  ex_defaultReps : option Z;
  ex_defaultDurationSeconds : option Z;
  ex_defaultSets : Z;
  ex_thumbnailUrl : string;
  ex_type : ExerciseType;
}.

(** [interface RoutineExercise]. *)
Record RoutineExercise : Type := mkRoutineExercise {
  re_exerciseId : string;
  re_sets : Z;
  re_repsOrDuration : Z;
  re_restSeconds : Z;
}.

(** [interface Routine]. *)
Record Routine : Type := mkRoutine {
  r_id : string;
  r_name : string;
  r_exercises : list RoutineExercise;
  r_isPremium : bool;
  r_createdAt : Z;
}.

(** [interface WorkoutSetResult]. *)
Record WorkoutSetResult : Type := mkWorkoutSetResult {
  ws_setNumber : Z;
  ws_completed : bool;
  ws_repsOrDuration : Z;
  ws_target : Z;
}.

(** [interface WorkoutExerciseLog], over the representation of a set. *)
Record WorkoutExerciseLog (X : Type) : Type := mkWorkoutExerciseLog {
  wel_exerciseId : string;
  wel_exerciseName : string;
  wel_sets : list X;
}.

Arguments mkWorkoutExerciseLog {X} _ _ _.
Arguments wel_exerciseId {X} _.
Arguments wel_exerciseName {X} _.
Arguments wel_sets {X} _.

(** [interface WorkoutLog], over the representation of a set. *)
Record WorkoutLog (X : Type) : Type := mkWorkoutLog {
  wl_id : string;
  wl_routineId : string;
  wl_routineName : string;
  wl_startTime : Z;
  wl_endTime : Z;
  wl_totalDurationSeconds : Q;
  wl_exercises : list (WorkoutExerciseLog X);
}.

Arguments mkWorkoutLog {X} _ _ _ _ _ _ _.
Arguments wl_id {X} _.
Arguments wl_routineId {X} _.
Arguments wl_routineName {X} _.
Arguments wl_startTime {X} _.
Arguments wl_endTime {X} _.
Arguments wl_totalDurationSeconds {X} _.
Arguments wl_exercises {X} _.

(** [interface UserStats]; [lastWorkoutDate] is [number | null]. *)
Record UserStats : Type := mkUserStats {
  us_totalWorkouts : Z;
  us_totalMinutes : Z;
  us_streakDays : Z;
  us_lastWorkoutDate : option Z;
  us_isPremium : bool;
}.

(** ** Decidable equality *)

#[export] Instance MuscleGroup_eq_dec : EqDecision MuscleGroup.
Proof. solve_decision. Defined.

#[export] Instance ExerciseType_eq_dec : EqDecision ExerciseType.
Proof. solve_decision. Defined.

#[export] Instance Exercise_eq_dec : EqDecision Exercise.
Proof. solve_decision. Defined.

#[export] Instance RoutineExercise_eq_dec : EqDecision RoutineExercise.
Proof. solve_decision. Defined.

#[export] Instance Routine_eq_dec : EqDecision Routine.
Proof. solve_decision. Defined.

#[export] Instance WorkoutSetResult_eq_dec : EqDecision WorkoutSetResult.
Proof. solve_decision. Defined.

#[export] Instance WorkoutExerciseLog_eq_dec `{EqDecision X} :
  EqDecision (WorkoutExerciseLog X).
Proof. solve_decision. Defined.

#[export] Instance Q_eq_dec : EqDecision Q.
Proof. solve_decision. Defined.

#[export] Instance WorkoutLog_eq_dec `{EqDecision X} :
  EqDecision (WorkoutLog X).
Proof. solve_decision. Defined.

#[export] Instance UserStats_eq_dec : EqDecision UserStats.
Proof. solve_decision. Defined.

(** ** Mapping and resolving the sets of a log *)

(** A log entry with its sets read through [f]; [None] when a set cannot
    be read. *)
Definition resolve_entry {X Y} (f : list X → option (list Y))
    (e : WorkoutExerciseLog X) : option (WorkoutExerciseLog Y) :=
  sets ← f (wel_sets e);
  Some (mkWorkoutExerciseLog (wel_exerciseId e) (wel_exerciseName e) sets).

(** A whole log read through [f]. *)
Definition resolve_log {X Y} (f : list X → option (list Y))
    (l : WorkoutLog X) : option (WorkoutLog Y) :=
  es ← mapM (resolve_entry f) (wl_exercises l);
  Some (mkWorkoutLog (wl_id l) (wl_routineId l) (wl_routineName l)
          (wl_startTime l) (wl_endTime l) (wl_totalDurationSeconds l) es).

(** ** Lemmas *)

Lemma MuscleGroup_value_inj : Inj (=) (=) MuscleGroup_value.
Proof. intros [] [] H; done. Qed.

Lemma MuscleGroup_values_complete g : g ∈ MuscleGroup_values.
Proof. unfold MuscleGroup_values. destruct g; set_solver. Qed.

Lemma MuscleGroup_values_NoDup : NoDup MuscleGroup_values.
Proof. compute_done. Qed.

Lemma resolve_entry_id {X Y} (f : list X → option (list Y)) e e' :
  resolve_entry f e = Some e' →
  wel_exerciseId e' = wel_exerciseId e ∧
  wel_exerciseName e' = wel_exerciseName e ∧
  f (wel_sets e) = Some (wel_sets e').
Proof.
  unfold resolve_entry. destruct (f (wel_sets e)); simpl; naive_solver.
Qed.

Lemma resolve_log_length {X Y} (f : list X → option (list Y)) l l' :
  resolve_log f l = Some l' →
  length (wl_exercises l') = length (wl_exercises l).
Proof.
  unfold resolve_log. destruct (mapM _ _) eqn:E; simpl; [|done].
  intros [= <-]. simpl. symmetry. by eapply length_mapM.
Qed.
