(* ===== verification/Catalog.v ===== *)
(** * Catalog: the static data and the localization of [constants.ts]

    The exercise library, the premade routines, the initial statistics and
    the Portuguese translations, transcribed field by field, and the two
    functions that localize them.  The objects of [EXERCISE_LIBRARY] are
    named after their ids.  [PREMADE_ROUTINES] reads the clock once, when
    the module is loaded; that reading is its argument. *)

From S2P Require Import Prelude Types.

(** ** The exercise library *)

Definition e1 : Exercise :=
  mkExercise "e1" "Deep Squat Hold"
    "Improves hip mobility and ankle dorsiflexion."
    "Sink into a deep squat, keeping heels flat on the ground. Keep chest up and use elbows to push knees out."
    Hips None (Some 45) 3
    "https://picsum.photos/id/73/400/400" time.

Definition e2 : Exercise :=
  mkExercise "e2" "Cat-Cow Stretch"
    "Mobilizes the spine and relieves tension."
    "Start on all fours. Inhale as you drop your belly (Cow), exhale as you arch your back (Cat)."
    Thoracic (Some 10) None 3
    "https://picsum.photos/id/102/400/400" reps.

Definition e3 : Exercise :=
  mkExercise "e3" "90/90 Hip Switch"
    "Internal and external rotation of the hips."
    "Sit with legs at 90 degree angles. Rotate hips to switch leg positions without using hands if possible."
    Hips (Some 8) None 3
    "https://picsum.photos/id/160/400/400" reps.

Definition e4 : Exercise :=
  mkExercise "e4" "Doorway Pec Stretch"
    "Opens up the chest and shoulders."
    "Place forearms on a doorframe at 90 degrees. Lean forward gently until a stretch is felt in the chest."
    Shoulder None (Some 30) 2
    "https://picsum.photos/id/211/400/400" time.

Definition e5 : Exercise :=
  mkExercise "e5" "Ankle Dorsiflexion"
    "Increases ankle range of motion."
    "Kneel near a wall. Push knee forward over toe towards wall, keeping heel down."
    Ankle None (Some 40) 3
    "https://picsum.photos/id/338/400/400" time.

Definition e6 : Exercise :=
  mkExercise "e6" "World's Greatest Stretch"
    "Targets hips, thoracic spine, and hamstrings."
    "Lunge forward, place opposite hand on floor, and rotate top arm to ceiling."
    FullBody (Some 5) None 3
    "https://picsum.photos/id/425/400/400" reps.

Definition e7 : Exercise :=
  mkExercise "e7" "Wrist Flexor Stretch"
    "Relieves forearm tension."
    "Extend arm with palm facing up. Pull fingers back gently with other hand."
    Wrists None (Some 30) 2
    "https://picsum.photos/id/531/400/400" time.

Definition e8 : Exercise :=
  mkExercise "e8" "Jefferson Curl"
    "Strengthens and lengthens the posterior chain."
    "Stand on a box. Slowly roll your spine down vertebrae by vertebrae, letting a light weight pull you down."
    Hamstrings (Some 5) None 3
    "https://picsum.photos/id/619/400/400" reps.

Definition EXERCISE_LIBRARY : list Exercise :=
  [e1; e2; e3; e4; e5; e6; e7; e8].


(** ** The premade routines *)

Definition pm1 (loadTime : Z) : Routine :=
  mkRoutine "pm1" "Daily Morning Mobility"
    [mkRoutineExercise "e2" 2 10 30;
     mkRoutineExercise "e1" 2 30 30;
     mkRoutineExercise "e6" 2 5 45]
    true loadTime.

Definition pm2 (loadTime : Z) : Routine :=
  mkRoutine "pm2" "Desk Worker Rescue"
    [mkRoutineExercise "e4" 3 30 30;
     mkRoutineExercise "e7" 2 30 30;
     mkRoutineExercise "e2" 3 12 30;
     mkRoutineExercise "e3" 2 8 45]
    true loadTime.

Definition PREMADE_ROUTINES (loadTime : Z) : list Routine :=
  [pm1 loadTime; pm2 loadTime].

Definition INITIAL_STATS : UserStats :=
  mkUserStats 0 0 0 None false.

(** ** Localization *)

(** The fields a translation overrides. *)
Record Translation : Type := mkTranslation {
  t_name : string;
  t_description : string;
  t_detailedDescription : string;
}.

(** [EXERCISE_TRANSLATIONS.pt], keyed by exercise id. *)
Definition EXERCISE_TRANSLATIONS_pt : list (string * Translation) :=
  [
   ("e1",
      mkTranslation "Agachamento Profundo Isométrico"
        "Melhora mobilidade de quadril e tornozelo."
        "Afunde em um agachamento profundo, mantendo os calcanhares no chão. Mantenha o peito erguido e use os cotovelos para empurrar os joelhos para fora.");
   ("e2",
      mkTranslation "Postura Gato-Vaca"
        "Mobiliza a coluna e alivia tensão."
        "Comece em quatro apoios. Inspire ao deixar a barriga descer (Vaca), expire ao arquear as costas (Gato).");
   ("e3",
      mkTranslation "Rotação de Quadril 90/90"
        "Rotação interna e externa dos quadris."
        "Sente-se com as pernas em ângulos de 90 graus. Gire os quadris para trocar a posição das pernas sem usar as mãos, se possível.");
   ("e4",
      mkTranslation "Alongamento de Peitoral"
        "Abre o peito e ombros."
        "Coloque os antebraços no batente da porta a 90 graus. Incline-se para frente suavemente até sentir o alongamento no peito.");
   ("e5",
      mkTranslation "Dorsiflexão de Tornozelo"
        "Aumenta a amplitude de movimento do tornozelo."
        "Ajoelhe-se perto de uma parede. Empurre o joelho para frente sobre o dedo do pé em direção à parede, mantendo o calcanhar no chão.");
   ("e6",
      mkTranslation "O Maior Alongamento do Mundo"
        "Trabalha quadris, coluna torácica e posteriores."
        "Avance em afundo, coloque a mão oposta no chão e gire o braço de cima em direção ao teto.");
   ("e7",
      mkTranslation "Alongamento Flexor de Punho"
        "Alivia tensão no antebraço."
        "Estenda o braço com a palma para cima. Puxe os dedos para trás suavemente com a outra mão.");
   ("e8",
      mkTranslation "Jefferson Curl"
        "Fortalece e alonga a cadeia posterior."
        "Fique em cima de uma caixa. Enrole lentamente a coluna vértebra por vértebra, deixando um peso leve puxá-lo para baixo.")
  ].

(** [PREMADE_TRANSLATIONS.pt], keyed by routine id: the name only. *)
Definition PREMADE_TRANSLATIONS_pt : list (string * string) :=
  [("pm1", "Mobilidade Matinal Diária");
   ("pm2", "Resgate do Trabalhador de Mesa")].

(** [table[key]] on an object used as a dictionary. *)
Definition property {V} (table : list (string * V)) (key : string) : option V :=
  snd <$> List.find (λ kv, bool_decide (kv.1 = key)) table.

(** [{ ...e, ...t }] for an exercise and a translation. *)
Definition spreadExercise (e : Exercise) (t : Translation) : Exercise :=
  mkExercise (ex_id e) (t_name t) (t_description t) (t_detailedDescription t)
    (ex_muscleGroup e) (ex_defaultReps e) (ex_defaultDurationSeconds e)
    (ex_defaultSets e) (ex_thumbnailUrl e) (ex_type e).

(** [{ ...r, ...t }] for a routine and a translated name. *)
Definition spreadRoutine (r : Routine) (name : string) : Routine :=
  mkRoutine (r_id r) name (r_exercises r) (r_isPremium r) (r_createdAt r).

Definition getLocalizedExercises (lang : string) : list Exercise :=
  if bool_decide (lang ≠ "pt") then EXERCISE_LIBRARY
  else
    (λ e, match property EXERCISE_TRANSLATIONS_pt (ex_id e) with
          | Some t => spreadExercise e t
          | None => e
          end) <$> EXERCISE_LIBRARY.

Definition getLocalizedPremadeRoutines (loadTime : Z) (lang : string)
    : list Routine :=
  if bool_decide (lang ≠ "pt") then PREMADE_ROUTINES loadTime
  else
    (λ r, match property PREMADE_TRANSLATIONS_pt (r_id r) with
          | Some t => spreadRoutine r t
          | None => r
          end) <$> PREMADE_ROUTINES loadTime.

(** ** What a routine must satisfy for a session to run on it *)

(** At least one exercise, every exercise with at least one set, a planned
    value that is not negative and a rest that is not negative. *)
Definition routine_ok (r : Routine) : Prop :=
  r_exercises r ≠ [] ∧
  Forall (λ re, 1 ≤ re_sets re ∧ 0 ≤ re_repsOrDuration re ∧ 0 ≤ re_restSeconds re)
    (r_exercises r).

#[export] Instance routine_ok_dec r : Decision (routine_ok r).
Proof. unfold routine_ok. apply _. Defined.

(** Every exercise of the routine is in the library. *)
Definition routine_in (lib : list Exercise) (r : Routine) : Prop :=
  Forall (λ re, re_exerciseId re ∈ ex_id <$> lib) (r_exercises r).

#[export] Instance routine_in_dec lib r : Decision (routine_in lib r).
Proof. unfold routine_in. apply _. Defined.
