(* ===== verification/Tips.v ===== *)
(** * Tips: the tip service ([services/geminiService.ts])

    The two functions of the module over an abstract text generator: a
    call of [generateContent] either is rejected or is fulfilled with a
    response whose [text] may be absent.  The promise each function
    returns is always fulfilled, so the functions are total here; their
    result is the string the promise resolves to.  [trim] removes the
    ASCII white space; the other Unicode spaces JavaScript also trims do
    not occur in the module's own strings. *)

From S2P Require Import Prelude.
From Stdlib Require Import Ascii.

(** How a call of [genAI.models.generateContent] ends. *)
Inductive Generation : Type :=
  | Rejected
  | Fulfilled (text : option string).

(** The client: the prompt it is given determines how the call ends. *)
Record GoogleGenAI : Type := mkGoogleGenAI {
  generateContent : string → Generation;
}.

(** The module's initialization: a client when an API key is set and the
    constructor does not throw. *)
Definition initGenAI (API_KEY : option string)
    (construct : string → option GoogleGenAI) : option GoogleGenAI :=
  match API_KEY with
  | Some key => if decide (key = "") then None else construct key
  | None => None
  end.

Definition is_space (a : ascii) : bool :=
  bool_decide (a ∈ [" "; "009"; "010"; "011"; "012"; "013"]%char).

Fixpoint trimStart (s : string) : string :=
  match s with
  | String a s' => if is_space a then trimStart s' else s
  | EmptyString => EmptyString
  end.

(** The string without its trailing white space. *)
Fixpoint trimEnd (s : string) : string :=
  match s with
  | String a s' =>
      match trimEnd s' with
      | EmptyString => if is_space a then EmptyString else String a EmptyString
      | t => String a t
      end
  | EmptyString => EmptyString
  end.

Definition trim (s : string) : string := trimEnd (trimStart s).

(** [response.text?.trim() || fallback]. *)
Definition textOr (text : option string) (fallback : string) : string :=
  match text with
  | Some t => JS.or_string (trim t) fallback
  | None => fallback
  end.

Definition getAITip (genAI : option GoogleGenAI) (context lang : string)
    : string :=
  match genAI with
  | None =>
      if decide (lang = "pt")
      then "Mantenha a consistência! Pequenos esforços diários se somam."
      else "Stay consistent! Small daily efforts compound over time."
  | Some genAI =>
      let prompt :=
        if decide (lang = "pt")
        then "Forneça uma frase curta e motivadora sobre treinamento de mobilidade relacionado a: "
             +:+ context
             +:+ ". Mantenha abaixo de 20 palavras. Responda em Português do Brasil."
        else "Provide a single, short, motivating sentence about mobility training related to: "
             +:+ context +:+ ". Keep it under 20 words." in
      match generateContent genAI prompt with
      | Fulfilled text =>
          textOr text
            (if decide (lang = "pt")
             then "Movimento é vida. Continue se mexendo!"
             else "Motion is lotion. Keep moving!")
      | Rejected =>
          if decide (lang = "pt")
          then "Mobilidade é a chave para a longevidade."
          else "Mobility is the key to longevity."
      end
  end.

Definition getDetailedExerciseAdvice (genAI : option GoogleGenAI)
    (exerciseName lang : string) : string :=
  match genAI with
  | None =>
      if decide (lang = "pt")
      then "Concentre-se em movimentos controlados e respiração profunda."
      else "Focus on controlled movements and deep breathing for maximum benefit."
  | Some genAI =>
      let prompt :=
        if decide (lang = "pt")
        then "Explique por que '" +:+ exerciseName
             +:+ "' é benéfico para o corpo em 2 frases. Foque na biomecânica. Responda em Português."
        else "Explain why '" +:+ exerciseName
             +:+ "' is beneficial for the body in 2 sentences. Focus on biomechanics." in
      match generateContent genAI prompt with
      | Fulfilled text => textOr text ""
      | Rejected =>
          if decide (lang = "pt")
          then "Foque na forma e não na intensidade."
          else "Focus on form over intensity."
      end
  end.

(** A client that always answers [text], and one that always fails. *)
Definition answering (text : option string) : GoogleGenAI :=
  mkGoogleGenAI (λ _, Fulfilled text).

Definition failing : GoogleGenAI := mkGoogleGenAI (λ _, Rejected).

(** ** [trim] *)

Lemma trimStart_head s a s' : trimStart s = String a s' → is_space a = false.
Proof.
  induction s as [|b s IH]; simpl; [done|].
  destruct (is_space b) eqn:E; [done|]. by intros [= <- _].
Qed.

Lemma trimStart_idemp s : trimStart (trimStart s) = trimStart s.
Proof.
  induction s as [|a s IH]; simpl; [done|].
  destruct (is_space a) eqn:E; [done|]. simpl. by rewrite E.
Qed.

Lemma trimEnd_idemp s : trimEnd (trimEnd s) = trimEnd s.
Proof.
  induction s as [|a s IH]; simpl; [done|].
  destruct (trimEnd s) as [|b t] eqn:E.
  - destruct (is_space a) eqn:Ea; simpl; [done|]. by rewrite Ea.
  - simpl in *. by rewrite IH.
Qed.

Lemma trimEnd_head s a s' :
  s = String a s' → is_space a = false → ∃ t, trimEnd s = String a t.
Proof.
  intros -> Ha. simpl. destruct (trimEnd s'); [|by eexists].
  rewrite Ha. by eexists.
Qed.

Lemma trimStart_trimEnd s : trimStart (trim s) = trim s.
Proof.
  unfold trim. destruct (trimStart s) as [|a s'] eqn:E; [done|].
  pose proof (trimStart_head _ _ _ E) as Ha.
  destruct (trimEnd_head _ a s' eq_refl Ha) as [t Ht]. rewrite Ht. simpl.
  by rewrite Ha.
Qed.

Lemma textOr_nonempty text fallback : fallback ≠ "" → textOr text fallback ≠ "".
Proof.
  intros Hf. destruct text as [t|]; simpl; [|done].
  unfold JS.or_string. by case_decide.
Qed.

(** ** Properties *)

(** C40: a tip is never empty.  Whatever the client does (absent,
    rejecting, answering nothing, answering white space), in either
    language [getAITip] resolves to a sentence: the client's answer
    trimmed when that is not empty, one of the three fixed sentences of
    the language otherwise. *)
Theorem getAITip_never_empty genAI context lang :
  getAITip genAI context lang ≠ "" ∧
  (genAI = None ∨ (∃ g, genAI = Some g ∧ ∀ p, generateContent g p = Rejected) →
   getAITip genAI context lang
   ∈ ["Mantenha a consistência! Pequenos esforços diários se somam.";
      "Stay consistent! Small daily efforts compound over time.";
      "Mobilidade é a chave para a longevidade.";
      "Mobility is the key to longevity."]).
Proof.
  split.
  - unfold getAITip. destruct genAI as [g|]; [|by case_decide].
    destruct (generateContent g _); [by case_decide|].
    apply textOr_nonempty. by case_decide.
  - intros [->|(g & -> & Hr)]; unfold getAITip; rewrite ?Hr;
      case_decide; set_solver.
Qed.

(** The advice on an exercise can be empty.  When the client answers
    without text, or with white space only, [getDetailedExerciseAdvice]
    resolves to the empty string: only a rejected call and an absent
    client get a fixed sentence. *)
Theorem advice_can_be_empty g exerciseName lang text :
  (∀ p, generateContent g p = Fulfilled text) →
  from_option trim "" text = "" →
  getDetailedExerciseAdvice (Some g) exerciseName lang = "".
Proof.
  intros Hg Ht. unfold getDetailedExerciseAdvice. rewrite Hg.
  destruct text as [t|]; simpl in *; [|done].
  unfold JS.or_string. by rewrite Ht.
Qed.

(** [trim] is idempotent: a trimmed string has no white space left at
    either end. *)
Theorem trim_idemp s : trim (trim s) = trim s.
Proof.
  unfold trim at 1. rewrite trimStart_trimEnd. unfold trim. apply trimEnd_idemp.
Qed.

(** ** Witnesses *)

Lemma advice_can_be_empty_witness :
  getDetailedExerciseAdvice (Some (answering (Some "  "))) "Cat-Cow Stretch" "en" = "".
Proof. by apply (advice_can_be_empty _ _ _ (Some "  ")). Defined.
