(* ===== verification/Storage.v ===== *)
(** * Storage: the persistence gateway ([services/storageService.ts])

    The three items the module keeps in [localStorage] and the functions
    that read and write them.  An item is either absent or holds the value
    last written: [JSON.parse (JSON.stringify v)] is taken to be a deep
    copy of [v], which it is for the data stored here (finite numbers,
    strings, booleans, [null], arrays and plain objects).

    [getStats] returns an object, and [saveLog] assigns to its fields: the
    object is a fresh one when the item is stored, and the module-level
    constant [INITIAL_STATS] itself when it is not.  The environment
    therefore carries the current contents of that constant, and a
    [StatsRef] says which of the two objects a caller holds. *)

From S2P Require Import Prelude Types Catalog.

(** A log as it is stored: the set objects by value. *)
Abbreviation StoredLog := (WorkoutLog WorkoutSetResult) (only parsing).

(** The items named by [KEYS], each absent ([None]) or stored. *)
Record LocalStorage : Type := mkLocalStorage {
  ROUTINES : option (list Routine);
  LOGS : option (list StoredLog);
  STATS : option UserStats;
}.

(** What the module's functions act on: the storage, and the contents of
    the object [INITIAL_STATS] of [constants.ts]. *)
Record Env : Type := mkEnv {
  localStorage : LocalStorage;
  INITIAL_STATS_obj : UserStats;
}.

(** The object a caller of [getStats] holds: the shared constant, or an
    object of its own with the given contents. *)
Inductive StatsRef : Type :=
  | TheInitial
  | Fresh (stats : UserStats).

#[export] Instance LocalStorage_eq_dec : EqDecision LocalStorage.
Proof. solve_decision. Defined.
#[export] Instance Env_eq_dec : EqDecision Env.
Proof. solve_decision. Defined.
#[export] Instance StatsRef_eq_dec : EqDecision StatsRef.
Proof. solve_decision. Defined.

(** The environment of a first visit: nothing stored. *)
Definition emptyEnv : Env := mkEnv (mkLocalStorage None None None) INITIAL_STATS.

Definition setROUTINES (v : list Routine) (env : Env) : Env :=
  let ls := localStorage env in
  mkEnv (mkLocalStorage (Some v) (LOGS ls) (STATS ls)) (INITIAL_STATS_obj env).

Definition setLOGS (v : list StoredLog) (env : Env) : Env :=
  let ls := localStorage env in
  mkEnv (mkLocalStorage (ROUTINES ls) (Some v) (STATS ls)) (INITIAL_STATS_obj env).

Definition setSTATS (v : UserStats) (env : Env) : Env :=
  let ls := localStorage env in
  mkEnv (mkLocalStorage (ROUTINES ls) (LOGS ls) (Some v)) (INITIAL_STATS_obj env).

(** The contents of the object a reference stands for. *)
Definition readStats (env : Env) (ref : StatsRef) : UserStats :=
  match ref with
  | TheInitial => INITIAL_STATS_obj env
  | Fresh stats => stats
  end.

(** Assignments to the fields of the object a reference stands for. *)
Definition assignStats (f : UserStats → UserStats) (ref : StatsRef) (env : Env)
    : StatsRef * Env :=
  match ref with
  | TheInitial =>
      (TheInitial, mkEnv (localStorage env) (f (INITIAL_STATS_obj env)))
  | Fresh stats => (Fresh (f stats), env)
  end.

Definition getRoutines (env : Env) : list Routine :=
  match ROUTINES (localStorage env) with
  | Some stored => stored
  | None => []
  end.

Definition saveRoutine (routine : Routine) (env : Env) : Env :=
  let routines := getRoutines env in
  let routines := routines ++ [routine] in
  setROUTINES routines env.

Definition getLogs (env : Env) : list StoredLog :=
  match LOGS (localStorage env) with
  | Some stored => stored
  | None => []
  end.

Definition getStats (env : Env) : StatsRef :=
  match STATS (localStorage env) with
  | Some stored => Fresh stored
  | None => TheInitial
  end.

Definition saveStats (stats : UserStats) (env : Env) : Env :=
  setSTATS stats env.

(** The four assignments of [saveLog], in its order; [now] is the clock
    reading of [Date.now()]. *)
Definition updateStats (now : Z) (log : StoredLog) (stats : UserStats)
    : UserStats :=
  let stats :=
    mkUserStats (us_totalWorkouts stats + 1) (us_totalMinutes stats)
      (us_streakDays stats) (us_lastWorkoutDate stats) (us_isPremium stats) in
  let stats :=
    mkUserStats (us_totalWorkouts stats)
      (us_totalMinutes stats
       + JS.Math_round (wl_totalDurationSeconds log / (60 # 1))%Q)
      (us_streakDays stats) (us_lastWorkoutDate stats) (us_isPremium stats) in
  let stats :=
    mkUserStats (us_totalWorkouts stats) (us_totalMinutes stats)
      (us_streakDays stats) (Some now) (us_isPremium stats) in
  mkUserStats (us_totalWorkouts stats) (us_totalMinutes stats)
    (us_streakDays stats + 1) (us_lastWorkoutDate stats) (us_isPremium stats).

Definition saveLog (now : Z) (log : StoredLog) (env : Env) : Env :=
  let logs := getLogs env in
  let logs := logs ++ [log] in
  let env := setLOGS logs env in
  let stats := getStats env in
  let '(stats, env) := assignStats (updateStats now log) stats env in
  saveStats (readStats env stats) env.

(** The statistics a reader of the storage sees. *)
Definition currentStats (env : Env) : UserStats := readStats env (getStats env).

(** The writes of the module, as data. *)
Inductive StorageOp : Type :=
  | SaveRoutine (routine : Routine)
  | SaveLog (now : Z) (log : StoredLog)
  | SaveStats (stats : UserStats).

Definition exec (op : StorageOp) (env : Env) : Env :=
  match op with
  | SaveRoutine routine => saveRoutine routine env
  | SaveLog now log => saveLog now log env
  | SaveStats stats => saveStats stats env
  end.

Definition execs (ops : list StorageOp) (env : Env) : Env :=
  foldl (λ env op, exec op env) env ops.

(** The minutes [saveLog] counts for a log. *)
Definition minutesOf (log : StoredLog) : Z :=
  JS.Math_round (wl_totalDurationSeconds log / (60 # 1))%Q.

(** The statistics that count the logs [logs], saved last at [last]. *)
Definition statsOf (logs : list StoredLog) (last : option Z) : UserStats :=
  mkUserStats (Z.of_nat (length logs)) (foldr Z.add 0 (minutesOf <$> logs))
    (Z.of_nat (length logs)) last false.

(** What the gateway promises its clients. *)
Class Gateway (G : Type) : Type := {
  listRoutines : G → list Routine;
  appendRoutine : Routine → G → G;
  listLogs : G → list StoredLog;
  appendLog : Z → StoredLog → G → G;
  theStats : G → UserStats;
  setStats : UserStats → G → G;
  listRoutines_appendRoutine r g :
    listRoutines (appendRoutine r g) = listRoutines g ++ [r];
  listLogs_appendRoutine r g : listLogs (appendRoutine r g) = listLogs g;
  theStats_appendRoutine r g : theStats (appendRoutine r g) = theStats g;
  listLogs_appendLog now log g :
    listLogs (appendLog now log g) = listLogs g ++ [log];
  listRoutines_appendLog now log g :
    listRoutines (appendLog now log g) = listRoutines g;
  theStats_appendLog now log g :
    theStats (appendLog now log g) = updateStats now log (theStats g);
  theStats_setStats s g : theStats (setStats s g) = s;
  listRoutines_setStats s g : listRoutines (setStats s g) = listRoutines g;
  listLogs_setStats s g : listLogs (setStats s g) = listLogs g;
}.

(** A log of [ms] milliseconds that started at clock reading [start], for
    the examples. *)
Definition sampleLog (start ms : Z) : StoredLog :=
  mkWorkoutLog (pretty (start + ms)) "pm1" "Morning Flow" start (start + ms)
    (ms # 1000) [].

(** The three counters of the statistics. *)
Definition totals (stats : UserStats) : Z * Z * Z :=
  (us_totalWorkouts stats, us_totalMinutes stats, us_streakDays stats).

(** The statistics count the stored logs. *)
Definition counted (env : Env) : Prop :=
  totals (currentStats env)
  = (Z.of_nat (length (getLogs env)), foldr Z.add 0 (minutesOf <$> getLogs env),
     Z.of_nat (length (getLogs env))).

(** A write that leaves the counters to [saveLog]. *)
Definition keepsTotals (op : StorageOp) (env : Env) : Prop :=
  match op with
  | SaveStats stats => totals stats = totals (currentStats env)
  | _ => True
  end.

Fixpoint keepTotals (ops : list StorageOp) (env : Env) : Prop :=
  match ops with
  | [] => True
  | op :: ops => keepsTotals op env ∧ keepTotals ops (exec op env)
  end.

#[export] Instance counted_dec env : Decision (counted env).
Proof. unfold counted. apply _. Defined.

#[export] Instance keepsTotals_dec op env : Decision (keepsTotals op env).
Proof. destruct op; simpl; apply _. Defined.

#[export] Instance keepTotals_dec ops env : Decision (keepTotals ops env).
Proof. revert env. induction ops; simpl; apply _. Defined.

Arguments saveRoutine : simpl never.
Arguments saveLog : simpl never.
Arguments saveStats : simpl never.
Arguments currentStats : simpl never.
Arguments getLogs : simpl never.
Arguments getRoutines : simpl never.

(** ** Reading after writing *)

Lemma getRoutines_saveRoutine routine env :
  getRoutines (saveRoutine routine env) = getRoutines env ++ [routine].
Proof. done. Qed.

Lemma getLogs_saveRoutine routine env :
  getLogs (saveRoutine routine env) = getLogs env.
Proof. done. Qed.

Lemma currentStats_saveRoutine routine env :
  currentStats (saveRoutine routine env) = currentStats env.
Proof. done. Qed.

Lemma saveLog_eq now log env :
  saveLog now log env
  = let stats := updateStats now log (currentStats env) in
    mkEnv (mkLocalStorage (ROUTINES (localStorage env))
             (Some (getLogs env ++ [log])) (Some stats))
      (if STATS (localStorage env) is Some _ then INITIAL_STATS_obj env else stats).
Proof.
  unfold saveLog, currentStats, getStats. simpl.
  by destruct (STATS (localStorage env)).
Qed.

Lemma getLogs_saveLog now log env :
  getLogs (saveLog now log env) = getLogs env ++ [log].
Proof. by rewrite saveLog_eq. Qed.

Lemma getRoutines_saveLog now log env :
  getRoutines (saveLog now log env) = getRoutines env.
Proof. by rewrite saveLog_eq. Qed.

Lemma currentStats_saveLog now log env :
  currentStats (saveLog now log env) = updateStats now log (currentStats env).
Proof. by rewrite saveLog_eq. Qed.

Lemma currentStats_saveStats stats env :
  currentStats (saveStats stats env) = stats.
Proof. done. Qed.

Lemma getRoutines_saveStats stats env :
  getRoutines (saveStats stats env) = getRoutines env.
Proof. done. Qed.

Lemma getLogs_saveStats stats env : getLogs (saveStats stats env) = getLogs env.
Proof. done. Qed.

#[export] Instance Env_Gateway : Gateway Env := {|
  listRoutines := getRoutines;
  appendRoutine := saveRoutine;
  listLogs := getLogs;
  appendLog := saveLog;
  theStats := currentStats;
  setStats := saveStats;
  listRoutines_appendRoutine := getRoutines_saveRoutine;
  listLogs_appendRoutine := getLogs_saveRoutine;
  theStats_appendRoutine := currentStats_saveRoutine;
  listLogs_appendLog := getLogs_saveLog;
  listRoutines_appendLog := getRoutines_saveLog;
  theStats_appendLog := currentStats_saveLog;
  theStats_setStats := currentStats_saveStats;
  listRoutines_setStats := getRoutines_saveStats;
  listLogs_setStats := getLogs_saveStats;
|}.

#[export] Hint Rewrite getRoutines_saveRoutine getLogs_saveRoutine
  currentStats_saveRoutine getLogs_saveLog getRoutines_saveLog
  currentStats_saveLog currentStats_saveStats getRoutines_saveStats
  getLogs_saveStats : mob_rw.

(** ** The statistics *)

Lemma updateStats_eq now log stats :
  updateStats now log stats
  = mkUserStats (us_totalWorkouts stats + 1)
      (us_totalMinutes stats + minutesOf log) (us_streakDays stats + 1)
      (Some now) (us_isPremium stats).
Proof. done. Qed.

Lemma minutesOf_ms (log : StoredLog) ms :
  wl_totalDurationSeconds log = ms # 1000 →
  minutesOf log = (ms + 30000) `div` 60000.
Proof.
  intros E. unfold minutesOf. rewrite E.
  change ((ms # 1000) / (60 # 1))%Q with (ms * 1 # 60000).
  rewrite Math_round_frac, Z.mul_1_r.
  change (2 * Z.pos 60000) with (2 * 60000).
  replace (2 * ms + Z.pos 60000) with (2 * (ms + 30000)) by lia.
  by rewrite Z.div_mul_cancel_l.
Qed.

Lemma execs_app ops1 ops2 env :
  execs (ops1 ++ ops2) env = execs ops2 (execs ops1 env).
Proof. apply foldl_app. Qed.

Lemma exec_getLogs op env :
  getLogs (exec op env)
  = getLogs env ++ match op with SaveLog _ log => [log] | _ => [] end.
Proof.
  destruct op; simpl; autorewrite with mob_rw; by rewrite ?app_nil_r.
Qed.

Lemma exec_getRoutines op env :
  getRoutines (exec op env)
  = getRoutines env ++ match op with SaveRoutine r => [r] | _ => [] end.
Proof.
  destruct op; simpl; autorewrite with mob_rw; by rewrite ?app_nil_r.
Qed.

Lemma totals_eq (a a' b b' c c' : Z) :
  a = a' → b = b' → c = c' → (a, b, c) = (a', b', c').
Proof. congruence. Qed.

Lemma minutes_snoc (logs : list StoredLog) log :
  foldr Z.add 0 (minutesOf <$> logs ++ [log])
  = foldr Z.add 0 (minutesOf <$> logs) + minutesOf log.
Proof.
  rewrite fmap_app, foldr_app. simpl. generalize (minutesOf <$> logs).
  intros l. induction l as [|x l IH]; simpl; lia.
Qed.

Lemma exec_counted op env :
  counted env → keepsTotals op env → counted (exec op env).
Proof.
  unfold counted. intros Hc Hk. rewrite exec_getLogs.
  destruct op as [r|now log|stats]; simpl in *; rewrite ?app_nil_r.
  - by rewrite currentStats_saveRoutine.
  - rewrite currentStats_saveLog, updateStats_eq, minutes_snoc, length_app.
    unfold totals in *. simpl. injection Hc as -> -> ->.
    apply totals_eq; lia.
  - by rewrite currentStats_saveStats, Hk.
Qed.

(** ** Properties *)

(** C6: what saving a log does to the statistics a reader sees: one more
    workout, the log's duration in minutes rounded to the nearest (halves
    up) more minutes, one more streak day whatever the dates, the date of
    the last workout set to the clock reading at the time of saving (not
    to the log's end time), the premium flag kept; and these statistics
    are stored. *)
Theorem saveLog_stats now log env :
  let old := currentStats env in
  let new := currentStats (saveLog now log env) in
  us_totalWorkouts new = us_totalWorkouts old + 1 ∧
  us_totalMinutes new = us_totalMinutes old + minutesOf log ∧
  us_streakDays new = us_streakDays old + 1 ∧
  us_lastWorkoutDate new = Some now ∧
  us_isPremium new = us_isPremium old ∧
  STATS (localStorage (saveLog now log env)) = Some new.
Proof. cbv zeta. by rewrite saveLog_eq. Qed.

(** The minutes counted for a log whose duration is [ms]
    milliseconds, as the session page computes it, are
    [(ms + 30000) / 60000]: within half a minute of the duration, and zero
    for every workout shorter than thirty seconds. *)
Theorem minutes_rounding (log : StoredLog) ms :
  wl_totalDurationSeconds log = ms # 1000 → 0 ≤ ms →
  let m := minutesOf log in
  m = (ms + 30000) `div` 60000 ∧
  ms - 30000 < 60000 * m ≤ ms + 30000 ∧ (ms < 30000 → m = 0).
Proof.
  intros E Hms. cbv zeta. rewrite (minutesOf_ms _ _ E).
  split; [done|]. split; [|intros; apply Z.div_small; lia].
  pose proof (Z.mul_div_le (ms + 30000) 60000).
  pose proof (Z.mul_succ_div_gt (ms + 30000) 60000). lia.
Qed.

(** C28: two logs saved in sequence count as two workouts and two streak
    days, their minutes add up, and the last date is the second clock
    reading; the three counters do not depend on the order of the two
    logs, the stored logs and the date do. *)
Theorem saveLog_twice now1 log1 now2 log2 env :
  let old := currentStats env in
  let env12 := saveLog now2 log2 (saveLog now1 log1 env) in
  let env21 := saveLog now1 log1 (saveLog now2 log2 env) in
  totals (currentStats env12)
  = (us_totalWorkouts old + 2,
     us_totalMinutes old + minutesOf log1 + minutesOf log2,
     us_streakDays old + 2) ∧
  us_lastWorkoutDate (currentStats env12) = Some now2 ∧
  getLogs env12 = getLogs env ++ [log1; log2] ∧
  totals (currentStats env21) = totals (currentStats env12).
Proof.
  cbv zeta. autorewrite with mob_rw. rewrite !updateStats_eq. unfold totals.
  simpl. rewrite <-app_assoc. split_and!; try done; apply totals_eq; lia.
Qed.

(** The stored logs and routines only grow: whatever writes are
    made, the logs and the routines read before them are a prefix of
    those read after, and each write appends at most its own argument. *)
Theorem logs_append_only ops env :
  getLogs env `prefix_of` getLogs (execs ops env) ∧
  getRoutines env `prefix_of` getRoutines (execs ops env).
Proof.
  revert env. induction ops as [|op ops IH]; intros env; simpl; [done|].
  destruct (IH (exec op env)) as [Hl Hr].
  rewrite exec_getLogs in Hl. rewrite exec_getRoutines in Hr.
  split; (etrans; [apply prefix_app_r; reflexivity|eassumption]).
Qed.

(** C23: the statistics count the stored logs.  From an environment where
    they do (the empty one does), they still do after any sequence of
    writes in which every direct write of the statistics keeps the three
    counters: total workouts and streak days are the number of stored
    logs, total minutes the sum of their rounded minutes. *)
Theorem stats_count_logs ops env :
  counted env → keepTotals ops env → counted (execs ops env).
Proof.
  revert env. induction ops as [|op ops IH]; intros env Hc Hk; simpl; [done|].
  destruct Hk as [Hk1 Hk2]. apply IH; [by apply exec_counted|done].
Qed.

(** C35: [saveLog] on a storage without statistics assigns to the fields
    of the constant [INITIAL_STATS]: afterwards the constant holds the
    statistics of that workout, and every holder of the constant sees
    them.  With statistics stored the constant is left alone. *)
Theorem saveLog_assigns_INITIAL_STATS now log env :
  INITIAL_STATS_obj (saveLog now log env)
  = match STATS (localStorage env) with
    | None => updateStats now log (INITIAL_STATS_obj env)
    | Some _ => INITIAL_STATS_obj env
    end ∧
  (getStats env = TheInitial →
   readStats (saveLog now log env) (getStats env)
   ≠ readStats env (getStats env)).
Proof.
  rewrite saveLog_eq. unfold currentStats, getStats. simpl.
  destruct (STATS (localStorage env)); simpl; [done|]. split; [done|].
  intros _ E. apply (f_equal us_totalWorkouts) in E. simpl in E. lia.
Qed.

(** ** Witnesses *)

Lemma minutes_rounding_witness :
  let m := minutesOf (sampleLog 1700000000000 95000) in
  m = (95000 + 30000) `div` 60000 ∧
  95000 - 30000 < 60000 * m ≤ 95000 + 30000 ∧ (95000 < 30000 → m = 0).
Proof. by apply minutes_rounding. Defined.

Lemma stats_count_logs_witness :
  counted
    (execs [SaveLog 1700000095010 (sampleLog 1700000000000 95000);
            SaveRoutine (pm1 1700000000000);
            SaveStats (mkUserStats 1 2 1 (Some 1700000095010) true);
            SaveLog 1700000400000 (sampleLog 1700000200000 29999)]
       emptyEnv).
Proof. apply stats_count_logs; vm_compute; auto. Defined.
