(* ===== verification/Codec.v ===== *)
(** * Codec: what the storage module needs from JSON

    [storageService.ts] writes [JSON.stringify v] and reads
    [JSON.parse text] cast to the type it expects.  The class [Codec]
    states what the module relies on: a value written is read back, and
    the text of a value is never the empty string (which the module takes
    for an absent item).  [Parse] keeps apart the two ways a read can go
    wrong: a text that is not JSON makes [JSON.parse] throw, and a text
    that is the JSON of something else passes the unchecked cast.

    JSON itself is the browser's; the instance [bitsCodec] given here,
    for any countable type, shows that the laws can be met and lets the
    examples run. *)

From S2P Require Import Prelude Types.
From stdpp Require Import countable.
From Stdlib Require Import Ascii.

(** How [JSON.parse text as A] ends. *)
Inductive Parse (A : Type) : Type :=
  | Value (v : A)
  | Foreign
  | Malformed.

Arguments Value {A} v.
Arguments Foreign {A}.
Arguments Malformed {A}.

Class Codec (A : Type) : Type := {
  stringify : A → string;
  parse : string → Parse A;
  parse_stringify v : parse (stringify v) = Value v;
  stringify_truthy v : stringify v ≠ "";
}.

(** ** A codec for the examples *)

(** The binary digits of a positive number below its leading one, lowest
    first. *)
Fixpoint bits (p : positive) : string :=
  match p with
  | xH => ""
  | xO p => String "0" (bits p)
  | xI p => String "1" (bits p)
  end.

Fixpoint unbits (s : string) : option positive :=
  match s with
  | EmptyString => Some xH
  | String a s =>
      if decide (a = "0"%char) then xO <$> unbits s
      else if decide (a = "1"%char) then xI <$> unbits s
      else None
  end.

(** The text of a value: a sharp sign and the digits of its code. *)
Definition bitsStringify `{Countable A} (v : A) : string :=
  String "#" (bits (encode v)).

Definition bitsParse `{Countable A} (text : string) : Parse A :=
  match text with
  | String a s =>
      if decide (a = "#"%char)
      then from_option Value Malformed (unbits s ≫= decode)
      else Malformed
  | EmptyString => Malformed
  end.

#[export] Instance RoutineExercise_countable : Countable RoutineExercise.
Proof.
  apply (inj_countable'
    (λ x, (re_exerciseId x, re_sets x, re_repsOrDuration x, re_restSeconds x))
    (λ '(a, b, c, d), mkRoutineExercise a b c d)).
  by intros [].
Defined.

#[export] Instance Routine_countable : Countable Routine.
Proof.
  apply (inj_countable'
    (λ x, (r_id x, r_name x, r_exercises x, r_isPremium x, r_createdAt x))
    (λ '(a, b, c, d, e), mkRoutine a b c d e)).
  by intros [].
Defined.

#[export] Instance WorkoutSetResult_countable : Countable WorkoutSetResult.
Proof.
  apply (inj_countable'
    (λ x, (ws_setNumber x, ws_completed x, ws_repsOrDuration x, ws_target x))
    (λ '(a, b, c, d), mkWorkoutSetResult a b c d)).
  by intros [].
Defined.

#[export] Instance WorkoutExerciseLog_countable `{Countable X} :
  Countable (WorkoutExerciseLog X).
Proof.
  apply (inj_countable'
    (λ x, (wel_exerciseId x, wel_exerciseName x, wel_sets x))
    (λ '(a, b, c), mkWorkoutExerciseLog a b c)).
  by intros [].
Defined.

#[export] Instance Q_countable : Countable Q.
Proof.
  apply (inj_countable' (λ q, (Qnum q, Qden q)) (λ '(n, d), Qmake n d)).
  by intros [].
Defined.

#[export] Instance WorkoutLog_countable `{Countable X} : Countable (WorkoutLog X).
Proof.
  apply (inj_countable'
    (λ x, (wl_id x, wl_routineId x, wl_routineName x, wl_startTime x,
           wl_endTime x, wl_totalDurationSeconds x, wl_exercises x))
    (λ '(a, b, c, d, e, f, g), mkWorkoutLog a b c d e f g)).
  by intros [].
Defined.

#[export] Instance UserStats_countable : Countable UserStats.
Proof.
  apply (inj_countable'
    (λ x, (us_totalWorkouts x, us_totalMinutes x, us_streakDays x,
           us_lastWorkoutDate x, us_isPremium x))
    (λ '(a, b, c, d, e), mkUserStats a b c d e)).
  by intros [].
Defined.

Lemma unbits_bits p : unbits (bits p) = Some p.
Proof. induction p as [p IH|p IH|]; simpl; by rewrite ?IH. Qed.

Lemma bitsParse_bitsStringify `{Countable A} (v : A) :
  bitsParse (bitsStringify v) = Value v.
Proof.
  unfold bitsParse, bitsStringify. simpl. rewrite unbits_bits. simpl.
  by rewrite decode_encode.
Qed.

Lemma bitsStringify_truthy `{Countable A} (v : A) : bitsStringify v ≠ "".
Proof. done. Qed.

(** The codec of a countable type. *)
Definition bitsCodec (A : Type) `{Countable A} : Codec A :=
  {| stringify := bitsStringify; parse := bitsParse;
     parse_stringify := bitsParse_bitsStringify;
     stringify_truthy := bitsStringify_truthy |}.
