(* ===== verification/RawStorage.v ===== *)
(** * RawStorage: the storage module over the texts of [localStorage]

    [Storage] takes an item to be the value last written.  This file
    models [storageService.ts] one level down: [localStorage] is a map
    from keys to texts, [getItem] and [setItem] are lookup and insert,
    and the values go through [JSON.stringify] and [JSON.parse] (the
    class [Codec]).  A function of the module is a computation [Run] on
    the environment that returns, throws (the [SyntaxError] of
    [JSON.parse], which nothing catches) or leaves the model (a text
    that is JSON of another shape than the cast says).

    [typed] reads the environment of [Storage] out of a raw one, and the
    theorems show that on every raw environment that has one, the
    functions here do what those of [Storage] do; that what is written is
    read back; and what a text that is not JSON does to the module.
    [same] relates the raw environments that read the same, and the
    functions of the module respect it. *)

From S2P Require Import Prelude Types Catalog Storage Codec.
From stdpp Require Import gmap.

#[local] Open Scope Z_scope.

(** The items of [localStorage], and the contents of the object
    [INITIAL_STATS]. *)
Record RawEnv : Type := mkRawEnv {
  items : gmap string string;
  initialStats : UserStats;
}.

(** The keys of the module ([KEYS]). *)
Definition KEYS_ROUTINES : string := "mobilify_routines".
Definition KEYS_LOGS : string := "mobilify_logs".
Definition KEYS_STATS : string := "mobilify_stats".

(** How a function of the module ends. *)
Inductive result (A : Type) : Type :=
  | Returned (v : A) (env : RawEnv)
  | Thrown (env : RawEnv)
  | Unmodelled.

Arguments Returned {A} v env.
Arguments Thrown {A} env.
Arguments Unmodelled {A}.

Definition Run (A : Type) : Type := RawEnv → result A.

#[export] Instance Run_ret : MRet Run := λ A v env, Returned v env.

#[export] Instance Run_bind : MBind Run := λ A B k m env,
  match m env with
  | Returned v env' => k v env'
  | Thrown env' => Thrown env'
  | Unmodelled => Unmodelled
  end.

(** [localStorage.getItem(key)]. *)
Definition getItem (key : string) : Run (option string) :=
  λ env, Returned (items env !! key) env.

(** [localStorage.setItem(key, value)]. *)
Definition setItem (key value : string) : Run unit :=
  λ env, Returned tt (mkRawEnv (<[key := value]> (items env)) (initialStats env)).

(** [JSON.parse(text)], cast to [A]. *)
Definition JSON_parse `{Codec A} (text : string) : Run A :=
  λ env,
    match parse text with
    | Value v => Returned v env
    | Foreign => Unmodelled
    | Malformed => Thrown env
    end.

Section raw.
Context `{Codec (list Routine), Codec (list StoredLog), Codec UserStats}.

(** [stored ? JSON.parse(stored) : fallback]: an absent item and the
    empty text give the fallback. *)
Definition parseOr {A B} `{Codec A} (found : A → B) (fallback : B)
    (stored : option string) : Run B :=
  match stored with
  | Some text =>
      if decide (text = "") then mret fallback
      else v ← JSON_parse text; mret (found v)
  | None => mret fallback
  end.

Definition getRoutines_raw : Run (list Routine) :=
  stored ← getItem KEYS_ROUTINES;
  parseOr id [] stored.

Definition saveRoutine_raw (routine : Routine) : Run unit :=
  routines ← getRoutines_raw;
  let routines := routines ++ [routine] in
  setItem KEYS_ROUTINES (stringify routines).

Definition getLogs_raw : Run (list StoredLog) :=
  stored ← getItem KEYS_LOGS;
  parseOr id [] stored.

(** [getStats]: a fresh object with the stored contents, or the constant
    [INITIAL_STATS] itself. *)
Definition getStats_raw : Run StatsRef :=
  stored ← getItem KEYS_STATS;
  parseOr Storage.Fresh TheInitial stored.

Definition saveStats_raw (stats : UserStats) : Run unit :=
  setItem KEYS_STATS (stringify stats).

(** Assignments to the fields of the object a reference stands for. *)
Definition assignStats_raw (f : UserStats → UserStats) (ref : StatsRef)
    : Run UserStats :=
  λ env,
    match ref with
    | TheInitial =>
        Returned (f (initialStats env)) (mkRawEnv (items env) (f (initialStats env)))
    | Storage.Fresh stats => Returned (f stats) env
    end.

Definition saveLog_raw (now : Z) (log : StoredLog) : Run unit :=
  logs ← getLogs_raw;
  let logs := logs ++ [log] in
  _ ← setItem KEYS_LOGS (stringify logs);
  stats ← getStats_raw;
  stats ← assignStats_raw (updateStats now log) stats;
  saveStats_raw stats.

(** [seedDatabase] has an empty body. *)
Definition seedDatabase : Run unit := mret tt.

Definition exec_raw (op : StorageOp) : Run unit :=
  match op with
  | SaveRoutine routine => saveRoutine_raw routine
  | SaveLog now log => saveLog_raw now log
  | SaveStats stats => saveStats_raw stats
  end.

(** The writes of [ops], one after the other. *)
Fixpoint execs_raw (ops : list StorageOp) : Run unit :=
  match ops with
  | [] => mret tt
  | op :: ops => _ ← exec_raw op; execs_raw ops
  end.

(** ** The environment of [Storage] a raw one stands for *)

(** The value of an item: absent, a value, or [None] when the text
    cannot be read as [A]. *)
Definition itemOf {A} `{Codec A} (stored : option string) : option (option A) :=
  match stored with
  | Some text =>
      if decide (text = "") then Some None
      else match parse text with
           | Value v => Some (Some v)
           | _ => None
           end
  | None => Some None
  end.

Definition typed (env : RawEnv) : option Env :=
  routines ← itemOf (items env !! KEYS_ROUTINES);
  logs ← itemOf (items env !! KEYS_LOGS);
  stats ← itemOf (items env !! KEYS_STATS);
  Some (mkEnv (mkLocalStorage routines logs stats) (initialStats env)).

(** The keys of the module. *)
Definition KEYS : list string := [KEYS_ROUTINES; KEYS_LOGS; KEYS_STATS].

(** The items a write leaves alone. *)
Definition framed (renv renv' : RawEnv) : Prop :=
  ∀ key, key ∉ KEYS → items renv' !! key = items renv !! key.

(** Two raw environments that can be read and stand for the same
    environment.  Their texts may differ: an absent item and an empty
    one, two texts of one value, items under other keys. *)
Definition same (renv1 renv2 : RawEnv) : Prop :=
  is_Some (typed renv1) ∧ typed renv1 = typed renv2.

(** Two computations that return the same value in environments that
    read the same. *)
Definition ends_same {A} (r1 r2 : result A) : Prop :=
  match r1, r2 with
  | Returned v1 renv1, Returned v2 renv2 => v1 = v2 ∧ same renv1 renv2
  | _, _ => False
  end.

End raw.

(** The raw environment of a first visit. *)
Definition emptyRawEnv : RawEnv := mkRawEnv ∅ INITIAL_STATS.

(** The codecs of the examples. *)
Definition demo_codec_routines : Codec (list Routine) := bitsCodec _.
Definition demo_codec_logs : Codec (list StoredLog) := bitsCodec _.
Definition demo_codec_stats : Codec UserStats := bitsCodec _.

Arguments getRoutines_raw : simpl never.
Arguments getLogs_raw : simpl never.
Arguments getStats_raw : simpl never.

(** ** Reading an item *)

Section raw_facts.
Context `{Codec (list Routine), Codec (list StoredLog), Codec UserStats}.
Implicit Types (renv : RawEnv) (env : Env).

Lemma parseOr_itemOf {A B} `{Codec A} (found : A → B) fallback stored o renv :
  itemOf stored = Some o →
  parseOr found fallback stored renv = Returned (from_option found fallback o) renv.
Proof.
  unfold itemOf, parseOr. destruct stored as [text|]; [|by intros [= <-]].
  case_decide; [by intros [= <-]|]. unfold mbind, Run_bind, JSON_parse.
  destruct (parse text); [|done..]. by intros [= <-].
Qed.

Lemma parseOr_Malformed {A B} `{Codec A} (found : A → B) fallback text renv :
  text ≠ "" → parse text = Malformed →
  parseOr found fallback (Some text) renv = Thrown renv.
Proof.
  intros Hne Hp. unfold parseOr. rewrite decide_False by done.
  unfold mbind, Run_bind, JSON_parse. by rewrite Hp.
Qed.

Lemma itemOf_stringify {A} `{Codec A} (v : A) :
  itemOf (Some (stringify v)) = Some (Some v).
Proof.
  unfold itemOf. rewrite decide_False by apply stringify_truthy.
  by rewrite parse_stringify.
Qed.

(** ** The typed environment *)

Lemma typed_Some renv env :
  typed renv = Some env ↔
  itemOf (items renv !! KEYS_ROUTINES) = Some (ROUTINES (localStorage env)) ∧
  itemOf (items renv !! KEYS_LOGS) = Some (LOGS (localStorage env)) ∧
  itemOf (items renv !! KEYS_STATS) = Some (STATS (localStorage env)) ∧
  initialStats renv = INITIAL_STATS_obj env.
Proof.
  unfold typed. destruct env as [[r l s] i]. simpl.
  destruct (itemOf (items renv !! KEYS_ROUTINES)) as [r'|]; simpl;
    [|by split; [|intros []]].
  destruct (itemOf (items renv !! KEYS_LOGS)) as [l'|]; simpl;
    [|by split; [|intros (_ & ? & _)]].
  destruct (itemOf (items renv !! KEYS_STATS)) as [s'|]; simpl;
    [|by split; [|intros (_ & _ & ? & _)]].
  split; [by intros [= -> -> -> ->]|by intros ([= ->] & [= ->] & [= ->] & ->)].
Qed.

Lemma getRoutines_raw_typed renv env :
  typed renv = Some env → getRoutines_raw renv = Returned (getRoutines env) renv.
Proof.
  intros (Hr & _)%typed_Some. unfold getRoutines_raw, mbind, Run_bind, getItem.
  rewrite (parseOr_itemOf _ _ _ _ _ Hr). unfold getRoutines.
  by destruct (ROUTINES _).
Qed.

Lemma getLogs_raw_typed renv env :
  typed renv = Some env → getLogs_raw renv = Returned (getLogs env) renv.
Proof.
  intros (_ & Hl & _)%typed_Some. unfold getLogs_raw, mbind, Run_bind, getItem.
  rewrite (parseOr_itemOf _ _ _ _ _ Hl). unfold getLogs. by destruct (LOGS _).
Qed.

Lemma getStats_raw_typed renv env :
  typed renv = Some env → getStats_raw renv = Returned (getStats env) renv.
Proof.
  intros (_ & _ & Hs & _)%typed_Some.
  unfold getStats_raw, mbind, Run_bind, getItem.
  rewrite (parseOr_itemOf _ _ _ _ _ Hs). unfold getStats. by destruct (STATS _).
Qed.

(** The typed environment after [setItem] on each key. *)
Lemma typed_set_ROUTINES v renv env :
  typed renv = Some env →
  typed (mkRawEnv (<[KEYS_ROUTINES := stringify v]> (items renv)) (initialStats renv))
  = Some (setROUTINES v env).
Proof.
  intros (Hr & Hl & Hs & Hi)%typed_Some. apply typed_Some. simpl.
  rewrite lookup_insert_eq, !lookup_insert_ne by done.
  by rewrite itemOf_stringify.
Qed.

Lemma typed_set_LOGS v renv env :
  typed renv = Some env →
  typed (mkRawEnv (<[KEYS_LOGS := stringify v]> (items renv)) (initialStats renv))
  = Some (setLOGS v env).
Proof.
  intros (Hr & Hl & Hs & Hi)%typed_Some. apply typed_Some. simpl.
  rewrite lookup_insert_eq, !lookup_insert_ne by done.
  by rewrite itemOf_stringify.
Qed.

Lemma typed_set_STATS v renv env :
  typed renv = Some env →
  typed (mkRawEnv (<[KEYS_STATS := stringify v]> (items renv)) (initialStats renv))
  = Some (setSTATS v env).
Proof.
  intros (Hr & Hl & Hs & Hi)%typed_Some. apply typed_Some. simpl.
  rewrite lookup_insert_eq, !lookup_insert_ne by done.
  by rewrite itemOf_stringify.
Qed.

Lemma typed_initialStats s renv env :
  typed renv = Some env →
  typed (mkRawEnv (items renv) s) = Some (mkEnv (localStorage env) s).
Proof. intros (? & ? & ? & ?)%typed_Some. by apply typed_Some. Qed.

End raw_facts.

(** ** The writes *)

Section raw_writes.
Context `{Codec (list Routine), Codec (list StoredLog), Codec UserStats}.
Implicit Types (renv : RawEnv) (env : Env).

Lemma framed_insert key v renv s :
  key ∈ KEYS → framed renv (mkRawEnv (<[key := v]> (items renv)) s).
Proof. intros Hk key' Hk'. simpl. apply lookup_insert_ne. by intros ->. Qed.

Lemma framed_trans renv1 renv2 renv3 :
  framed renv1 renv2 → framed renv2 renv3 → framed renv1 renv3.
Proof. intros H12 H23 key Hk. by rewrite H23, H12. Qed.

Lemma saveRoutine_raw_eq routine rs renv :
  getRoutines_raw renv = Returned rs renv →
  saveRoutine_raw routine renv
  = Returned tt
      (mkRawEnv (<[KEYS_ROUTINES := stringify (rs ++ [routine])]> (items renv))
         (initialStats renv)).
Proof. intros Hg. unfold saveRoutine_raw, mbind, Run_bind. by rewrite Hg. Qed.

Lemma getRoutines_raw_set rs renv s :
  let renv' := mkRawEnv (<[KEYS_ROUTINES := stringify rs]> (items renv)) s in
  getRoutines_raw renv' = Returned rs renv'.
Proof.
  cbv zeta. unfold getRoutines_raw, mbind, Run_bind, getItem. simpl.
  rewrite lookup_insert_eq. by rewrite (parseOr_itemOf _ _ _ _ _ (itemOf_stringify rs)).
Qed.

Lemma getLogs_raw_set logs renv s :
  let renv' := mkRawEnv (<[KEYS_LOGS := stringify logs]> (items renv)) s in
  getLogs_raw renv' = Returned logs renv'.
Proof.
  cbv zeta. unfold getLogs_raw, mbind, Run_bind, getItem. simpl.
  rewrite lookup_insert_eq. by rewrite (parseOr_itemOf _ _ _ _ _ (itemOf_stringify logs)).
Qed.

Lemma getStats_raw_set stats renv s :
  let renv' := mkRawEnv (<[KEYS_STATS := stringify stats]> (items renv)) s in
  getStats_raw renv' = Returned (Storage.Fresh stats) renv'.
Proof.
  cbv zeta. unfold getStats_raw, mbind, Run_bind, getItem. simpl.
  rewrite lookup_insert_eq. by rewrite (parseOr_itemOf _ _ _ _ _ (itemOf_stringify stats)).
Qed.

(** [saveLog_raw] up to its read of the statistics. *)
Lemma saveLog_raw_eq now log logs renv :
  getLogs_raw renv = Returned logs renv →
  saveLog_raw now log renv
  = (stats ← getStats_raw;
     stats ← assignStats_raw (updateStats now log) stats;
     saveStats_raw stats)
      (mkRawEnv (<[KEYS_LOGS := stringify (logs ++ [log])]> (items renv))
         (initialStats renv)).
Proof. intros Hg. unfold saveLog_raw, mbind, Run_bind at 1. by rewrite Hg. Qed.

Lemma saveRoutine_raw_typed routine renv env :
  typed renv = Some env →
  ∃ renv', saveRoutine_raw routine renv = Returned tt renv' ∧
    typed renv' = Some (saveRoutine routine env) ∧ framed renv renv'.
Proof.
  intros Ht. rewrite (saveRoutine_raw_eq _ _ _ (getRoutines_raw_typed _ _ Ht)).
  eexists. split_and!; [done|by apply typed_set_ROUTINES|].
  apply framed_insert. set_solver.
Qed.

Lemma saveStats_raw_typed stats renv env :
  typed renv = Some env →
  ∃ renv', saveStats_raw stats renv = Returned tt renv' ∧
    typed renv' = Some (saveStats stats env) ∧ framed renv renv'.
Proof.
  intros Ht. eexists. split_and!; [done|by apply typed_set_STATS|].
  apply framed_insert. set_solver.
Qed.

Lemma saveLog_raw_typed now log renv env :
  typed renv = Some env →
  ∃ renv', saveLog_raw now log renv = Returned tt renv' ∧
    typed renv' = Some (saveLog now log env) ∧ framed renv renv'.
Proof.
  intros Ht. rewrite (saveLog_raw_eq _ _ _ _ (getLogs_raw_typed _ _ Ht)).
  pose proof (typed_set_LOGS (getLogs env ++ [log]) _ _ Ht) as Ht1.
  apply typed_Some in Ht as (_ & _ & _ & Hi).
  unfold mbind, Run_bind. rewrite (getStats_raw_typed _ _ Ht1).
  unfold saveLog. destruct (getStats (setLOGS _ env)) as [|s]; simpl.
  - rewrite Hi. eexists. split_and!; [done| |].
    + by apply (typed_set_STATS _ (mkRawEnv _ _)), (typed_initialStats _ _ _ Ht1).
    + eapply framed_trans; apply framed_insert; set_solver.
  - eexists. split_and!; [done|by apply typed_set_STATS|].
    eapply framed_trans; apply framed_insert; set_solver.
Qed.

Lemma framed_refl renv : framed renv renv.
Proof. done. Qed.

Lemma exec_raw_typed op renv env :
  typed renv = Some env →
  ∃ renv', exec_raw op renv = Returned tt renv' ∧
    typed renv' = Some (exec op env) ∧ framed renv renv'.
Proof.
  destruct op; simpl;
    [apply saveRoutine_raw_typed|apply saveLog_raw_typed|apply saveStats_raw_typed].
Qed.

Lemma execs_raw_typed ops renv env :
  typed renv = Some env →
  ∃ renv', execs_raw ops renv = Returned tt renv' ∧
    typed renv' = Some (execs ops env) ∧ framed renv renv'.
Proof.
  revert renv env. induction ops as [|op ops IH]; intros renv env Ht.
  { exists renv. split_and!; [done..|apply framed_refl]. }
  destruct (exec_raw_typed op _ _ Ht) as (renv1 & Hop & Ht1 & Hf1).
  destruct (IH _ _ Ht1) as (renv' & Hops & Ht' & Hf').
  exists renv'. simpl. unfold mbind, Run_bind. rewrite Hop.
  split_and!; [done..|by eapply framed_trans].
Qed.

(** ** Storages that read the same *)

#[export] Instance same_per : RelationClasses.PER same.
Proof.
  split.
  - intros renv1 renv2 [Hs He]. split; [by rewrite <-He|done].
  - intros renv1 renv2 renv3 [Hs He] [_ He']. split; [done|congruence].
Qed.

Lemma same_typed renv1 renv2 :
  same renv1 renv2 → ∃ env, typed renv1 = Some env ∧ typed renv2 = Some env.
Proof. intros [[env Hs] He]. exists env. split; congruence. Qed.

Lemma typed_same renv1 renv2 env :
  typed renv1 = Some env → typed renv2 = Some env → same renv1 renv2.
Proof. intros Ha Hb. split; [by rewrite Ha|congruence]. Qed.

(** The module does not tell apart two storages that read the same. *)
#[export] Instance getRoutines_raw_proper : Proper (same ==> ends_same) getRoutines_raw.
Proof.
  intros renv1 renv2 (env & Ha & Hb)%same_typed.
  rewrite (getRoutines_raw_typed _ _ Ha), (getRoutines_raw_typed _ _ Hb).
  split; [done|by eapply typed_same].
Qed.

#[export] Instance getLogs_raw_proper : Proper (same ==> ends_same) getLogs_raw.
Proof.
  intros renv1 renv2 (env & Ha & Hb)%same_typed.
  rewrite (getLogs_raw_typed _ _ Ha), (getLogs_raw_typed _ _ Hb).
  split; [done|by eapply typed_same].
Qed.

#[export] Instance getStats_raw_proper : Proper (same ==> ends_same) getStats_raw.
Proof.
  intros renv1 renv2 (env & Ha & Hb)%same_typed.
  rewrite (getStats_raw_typed _ _ Ha), (getStats_raw_typed _ _ Hb).
  split; [done|by eapply typed_same].
Qed.

#[export] Instance execs_raw_proper ops : Proper (same ==> ends_same) (execs_raw ops).
Proof.
  intros renv1 renv2 (env & Ha & Hb)%same_typed.
  destruct (execs_raw_typed ops _ _ Ha) as (renv1' & -> & Ht1 & _).
  destruct (execs_raw_typed ops _ _ Hb) as (renv2' & -> & Ht2 & _).
  split; [done|by eapply typed_same].
Qed.

(** An empty text reads as an absent item. *)
Lemma empty_item_same key renv :
  is_Some (typed renv) → items renv !! key = None →
  same renv (mkRawEnv (<[key := ""]> (items renv)) (initialStats renv)).
Proof.
  intros Hs Hk. split; [done|]. unfold typed. simpl.
  assert (∀ key', <[key := ""]> (items renv) !! key' = items renv !! key'
                  ∨ (<[key := ""]> (items renv) !! key' = Some "" ∧
                     items renv !! key' = None)) as Hl.
  { intros key'. destruct (decide (key = key')) as [<-|];
      [right; by rewrite lookup_insert_eq|left; by rewrite lookup_insert_ne]. }
  by destruct (Hl KEYS_ROUTINES) as [->|[-> ->]],
       (Hl KEYS_LOGS) as [->|[-> ->]], (Hl KEYS_STATS) as [->|[-> ->]].
Qed.

(** So nothing the module does afterwards tells the two apart. *)
Lemma empty_item_unobservable key ops renv :
  is_Some (typed renv) → items renv !! key = None →
  ends_same (execs_raw ops renv)
    (execs_raw ops (mkRawEnv (<[key := ""]> (items renv)) (initialStats renv))).
Proof. intros Hs Hk. f_equiv. by apply empty_item_same. Qed.

(** ** Properties *)

(** C9: the text layer implements the storage of values.  From every raw
    environment whose three items can be read (absent, empty, or the text
    of a value of the right type), any sequence of writes of the module
    returns without throwing, leaves a raw environment that stands for
    the environment the writes of [Storage] give, and touches no item
    under another key; and the three readers then return what those of
    [Storage] return.  In particular a storage that only this module
    writes never makes it throw. *)
Theorem text_layer_refines ops renv env :
  typed renv = Some env →
  ∃ renv', execs_raw ops renv = Returned tt renv' ∧
    typed renv' = Some (execs ops env) ∧ framed renv renv' ∧
    getRoutines_raw renv' = Returned (getRoutines (execs ops env)) renv' ∧
    getLogs_raw renv' = Returned (getLogs (execs ops env)) renv' ∧
    getStats_raw renv' = Returned (getStats (execs ops env)) renv'.
Proof.
  intros Ht. destruct (execs_raw_typed ops _ _ Ht) as (renv' & Hops & Ht' & Hf).
  exists renv'.
  split_and!; [done..|by apply getRoutines_raw_typed|by apply getLogs_raw_typed
              |by apply getStats_raw_typed].
Qed.

(** What is written is read back, whatever else the storage holds.
    After [saveStats] the statistics read are a fresh object with the
    contents written; when the routines can be read, [saveRoutine]
    returns and the routines read afterwards are those read before
    followed by the new one. *)
Theorem written_is_read stats routine renv :
  (∃ renv', saveStats_raw stats renv = Returned tt renv' ∧
     getStats_raw renv' = Returned (Storage.Fresh stats) renv') ∧
  (∀ rs, getRoutines_raw renv = Returned rs renv →
     ∃ renv', saveRoutine_raw routine renv = Returned tt renv' ∧
       getRoutines_raw renv' = Returned (rs ++ [routine]) renv').
Proof.
  split.
  - eexists. split; [done|]. apply getStats_raw_set.
  - intros rs Hg. rewrite (saveRoutine_raw_eq _ _ _ Hg). eexists.
    split; [done|]. apply getRoutines_raw_set.
Qed.

(** C20: a statistics item that is not JSON.  [getStats] throws the
    [SyntaxError] of [JSON.parse]; [saveLog] throws it too, after it has
    stored the log and before it has touched the statistics; the log can
    be read afterwards, and a second attempt to save stores it a second
    time. *)
Theorem malformed_stats_breaks_saveLog now log text logs renv :
  items renv !! KEYS_STATS = Some text → text ≠ "" →
  parse (A := UserStats) text = Malformed →
  getLogs_raw renv = Returned logs renv →
  let stored logs' :=
    mkRawEnv (<[KEYS_LOGS := stringify logs']> (items renv)) (initialStats renv) in
  getStats_raw renv = Thrown renv ∧
  saveLog_raw now log renv = Thrown (stored (logs ++ [log])) ∧
  getLogs_raw (stored (logs ++ [log])) = Returned (logs ++ [log]) (stored (logs ++ [log])) ∧
  saveLog_raw now log (stored (logs ++ [log])) = Thrown (stored (logs ++ [log; log])).
Proof.
  intros Hs Hne Hp Hg. cbv zeta.
  assert (∀ renv', items renv' !! KEYS_STATS = Some text →
            getStats_raw renv' = Thrown renv') as Hthrow.
  { intros renv' Hs'. unfold getStats_raw, mbind, Run_bind, getItem. rewrite Hs'.
    by apply parseOr_Malformed. }
  split_and!; [by apply Hthrow| |apply getLogs_raw_set|].
  - rewrite (saveLog_raw_eq _ _ _ _ Hg). unfold mbind, Run_bind.
    by rewrite Hthrow by (simpl; by rewrite lookup_insert_ne).
  - rewrite (saveLog_raw_eq _ _ _ _ (getLogs_raw_set _ _ _)). simpl.
    rewrite insert_insert_eq, <-app_assoc. unfold mbind, Run_bind.
    by rewrite Hthrow by (simpl; by rewrite lookup_insert_ne).
Qed.

End raw_writes.

(** ** Witnesses *)

Section raw_witnesses.

#[local] Existing Instances demo_codec_routines demo_codec_logs demo_codec_stats.

Lemma text_layer_refines_witness :
  let ops := [SaveRoutine (pm1 1700000000000);
              SaveLog 1700000095010 (sampleLog 1700000000000 95000)] in
  ∃ renv', execs_raw ops emptyRawEnv = Returned tt renv' ∧
    typed renv' = Some (execs ops emptyEnv) ∧ framed emptyRawEnv renv' ∧
    getRoutines_raw renv' = Returned (getRoutines (execs ops emptyEnv)) renv' ∧
    getLogs_raw renv' = Returned (getLogs (execs ops emptyEnv)) renv' ∧
    getStats_raw renv' = Returned (getStats (execs ops emptyEnv)) renv'.
Proof. by apply text_layer_refines. Defined.

Lemma malformed_stats_breaks_saveLog_witness :
  let renv := mkRawEnv {[KEYS_STATS := "oops"]} INITIAL_STATS in
  let log := sampleLog 1700000000000 95000 in
  let stored logs' :=
    mkRawEnv (<[KEYS_LOGS := stringify logs']> (items renv)) (initialStats renv) in
  getStats_raw renv = Thrown renv ∧
  saveLog_raw 1700000095010 log renv = Thrown (stored ([] ++ [log])) ∧
  getLogs_raw (stored ([] ++ [log])) = Returned ([] ++ [log]) (stored ([] ++ [log])) ∧
  saveLog_raw 1700000095010 log (stored ([] ++ [log]))
  = Thrown (stored ([] ++ [log; log])).
Proof.
  intros renv log.
  by apply (malformed_stats_breaks_saveLog 1700000095010 log "oops" [] renv).
Defined.

End raw_witnesses.
