(* ===== verification/Builder.v ===== *)
(** * Builder: the routine builder ([CreateRoutinePage] of [App.tsx])

    The page's three state cells (the name typed, the exercises selected,
    the muscle-group filter), its handlers [handleAdd] and [handleSave],
    and the filtered library it offers.  [handleSave] writes through
    [Storage.saveRoutine]; its early return is [None].  The routines it
    builds from the catalog satisfy [routine_ok] and [routine_in], which is
    what a session needs to start. *)

From S2P Require Import Prelude Types Catalog Storage.

Record BuilderState : Type := mkBuilderState {
  b_name : string;
  b_selectedExercises : list RoutineExercise;
  b_filter : option MuscleGroup;
}.

#[export] Instance BuilderState_eq_dec : EqDecision BuilderState.
Proof. solve_decision. Defined.

(** The state cells are [name], [selectedExercises] and [filter]; the
    filter ['All'] is [None]. *)

(** The state the page mounts with: no name, nothing selected, filter
    ['All']. *)
Definition initialBuilder : BuilderState := mkBuilderState "" [] None.

Definition setName (v : string) (st : BuilderState) : BuilderState :=
  mkBuilderState v (b_selectedExercises st) (b_filter st).

Definition setSelectedExercises (v : list RoutineExercise) (st : BuilderState)
    : BuilderState :=
  mkBuilderState (b_name st) v (b_filter st).

Definition setFilter (v : option MuscleGroup) (st : BuilderState)
    : BuilderState :=
  mkBuilderState (b_name st) (b_selectedExercises st) v.

(** [x || d] on an optional number: [undefined] and [0] give [d]. *)
Definition or_number (x : option Z) (d : Z) : Z :=
  match x with
  | Some v => if decide (v = 0) then d else v
  | None => d
  end.

(** The plan entry [handleAdd] makes of an exercise. *)
Definition planOf (ex : Exercise) : RoutineExercise :=
  mkRoutineExercise (ex_id ex) (ex_defaultSets ex)
    (match ex_type ex with
     | time => or_number (ex_defaultDurationSeconds ex) 30
     | reps => or_number (ex_defaultReps ex) 10
     end)
    30.

Definition handleAdd (ex : Exercise) (st : BuilderState) : BuilderState :=
  setSelectedExercises (b_selectedExercises st ++ [planOf ex]) st.

(** The condition under which [handleSave] returns at once and the save
    button is disabled. *)
Definition saveDisabled (st : BuilderState) : bool :=
  bool_decide (b_name st = "") || bool_decide (length (b_selectedExercises st) = 0%nat).

(** [handleSave] with the two clock readings it takes; [None] when it
    returns without saving. *)
Definition handleSave (idNow createdNow : Z) (st : BuilderState) (env : Env)
    : option (Routine * Env) :=
  if saveDisabled st then None
  else
    let newRoutine :=
      mkRoutine (pretty idNow) (b_name st) (b_selectedExercises st) false createdNow in
    Some (newRoutine, saveRoutine newRoutine env).

Definition filteredLibrary (library : list Exercise) (st : BuilderState)
    : list Exercise :=
  match b_filter st with
  | None => library
  | Some g => filter (λ e, ex_muscleGroup e = g) library
  end.

(** What the user does on the page. *)
Inductive BuilderEvent : Type :=
  | TypeName (v : string)
  | PickFilter (v : option MuscleGroup)
  | Add (ex : Exercise).

Definition builderStep (ev : BuilderEvent) (st : BuilderState) : BuilderState :=
  match ev with
  | TypeName v => setName v st
  | PickFilter v => setFilter v st
  | Add ex => handleAdd ex st
  end.

(** An event the page offers in a state: only exercises of the filtered
    library have an add button. *)
Definition offered (library : list Exercise) (ev : BuilderEvent)
    (st : BuilderState) : Prop :=
  match ev with
  | Add ex => ex ∈ filteredLibrary library st
  | _ => True
  end.

#[export] Instance offered_dec library ev st : Decision (offered library ev st).
Proof. destruct ev; simpl; apply _. Defined.

(** The states the page reaches from its initial one. *)
Inductive builds (library : list Exercise) : BuilderState → Prop :=
  | builds_initial : builds library initialBuilder
  | builds_step ev st :
      builds library st → offered library ev st →
      builds library (builderStep ev st).

(** An exercise whose defaults make a plan entry a session can run. *)
Definition exercise_ok (ex : Exercise) : Prop :=
  1 ≤ ex_defaultSets ex ∧
  match ex_type ex with
  | time => from_option (λ v, 0 ≤ v) True (ex_defaultDurationSeconds ex)
  | reps => from_option (λ v, 0 ≤ v) True (ex_defaultReps ex)
  end.

#[export] Instance exercise_ok_dec ex : Decision (exercise_ok ex).
Proof.
  unfold exercise_ok.
  destruct (ex_type ex), (ex_defaultDurationSeconds ex), (ex_defaultReps ex);
    simpl; apply _.
Defined.

(** A state of the examples: the name "Mine" typed, the filter set to the
    group of the first library exercise, that exercise added, then the
    filter reset and the second exercise added. *)
Definition demo_builder : BuilderState :=
  foldl (λ st ev, builderStep ev st) initialBuilder
    [TypeName "Mine"; PickFilter (Some (ex_muscleGroup e1)); Add e1;
     PickFilter None; Add e2].

Section builder.
Context (library : list Exercise).
Implicit Types (st : BuilderState) (ex : Exercise).

Lemma or_number_nonneg x d :
  0 ≤ d → from_option (λ v, 0 ≤ v) True x → 0 ≤ or_number x d.
Proof. intros Hd Hx. destruct x as [v|]; simpl in *; [case_decide|]; lia. Qed.

Lemma planOf_ok ex :
  exercise_ok ex →
  1 ≤ re_sets (planOf ex) ∧ 0 ≤ re_repsOrDuration (planOf ex) ∧
  0 ≤ re_restSeconds (planOf ex).
Proof.
  intros [Hs Hv]. split_and!; simpl; [done| |lia].
  destruct (ex_type ex); by apply or_number_nonneg.
Qed.

Lemma filteredLibrary_elem ex st :
  ex ∈ filteredLibrary library st ↔
  ex ∈ library ∧ from_option (λ g, ex_muscleGroup ex = g) True (b_filter st).
Proof.
  unfold filteredLibrary. destruct (b_filter st) as [g|]; simpl; [|tauto].
  rewrite list_elem_of_filter. tauto.
Qed.

(** The selection of a reachable state: plan entries of library
    exercises, in the order they were added. *)
Lemma builds_selected st :
  builds library st →
  Forall (λ re, ∃ ex, ex ∈ library ∧ re = planOf ex) (b_selectedExercises st).
Proof.
  induction 1 as [|ev st Hb IH Hoff]; [by constructor|].
  destruct ev as [v|v|ex]; simpl; try done.
  apply Forall_app. split; [done|]. constructor; [|done].
  exists ex. split; [|done]. by eapply filteredLibrary_elem.
Qed.

(** ** Properties *)

(** C30: [handleSave] refuses, storing nothing, exactly when the name is
    empty or nothing is selected; otherwise it appends one routine to the
    stored ones and leaves logs and statistics alone: the routine has the
    clock reading in decimal as id, the name as typed, the selected
    entries in the order of selection, no premium flag and the clock
    reading as creation time.  The number of routines already stored
    plays no role. *)
Theorem handleSave_spec idNow createdNow st env :
  (b_name st = "" ∨ b_selectedExercises st = [] →
   handleSave idNow createdNow st env = None) ∧
  (b_name st ≠ "" → b_selectedExercises st ≠ [] →
   let r := mkRoutine (pretty idNow) (b_name st) (b_selectedExercises st) false
              createdNow in
   let env' := saveRoutine r env in
   handleSave idNow createdNow st env = Some (r, env') ∧
   getRoutines env' = getRoutines env ++ [r] ∧
   getLogs env' = getLogs env ∧ currentStats env' = currentStats env).
Proof.
  unfold handleSave, saveDisabled. split.
  - intros [->| ->]; [done|]. simpl. by rewrite orb_true_r.
  - intros Hn Hs. rewrite !bool_decide_false; [done|by destruct (b_selectedExercises st)|done].
Qed.

(** The offered exercises are the library's exercises of the selected
    muscle group, in library order, and all of them with the filter
    ['All']. *)
Theorem filteredLibrary_spec st :
  filteredLibrary library st `sublist_of` library ∧
  (∀ ex, ex ∈ filteredLibrary library st ↔
         ex ∈ library ∧ from_option (λ g, ex_muscleGroup ex = g) True (b_filter st)) ∧
  (b_filter st = None → filteredLibrary library st = library).
Proof.
  split_and!; [|intros ex; apply filteredLibrary_elem
              |by unfold filteredLibrary; intros ->].
  unfold filteredLibrary. destruct (b_filter st); [apply sublist_filter|done].
Qed.

(** Whatever the user does on the page, when every exercise of the
    library has at least one default set and no negative default, a
    routine that [handleSave] stores can be run: it has an exercise, every
    entry has a set and no negative value, and every entry names an
    exercise of the library. *)
Theorem built_routine_ok idNow createdNow st env r env' :
  Forall exercise_ok library → builds library st →
  handleSave idNow createdNow st env = Some (r, env') →
  routine_ok r ∧ routine_in library r.
Proof.
  intros Hlib Hb Hsave. unfold handleSave, saveDisabled in Hsave.
  destruct (bool_decide (b_name st = "")); [done|]. simpl in Hsave.
  case_bool_decide as Hlen; [done|]. injection Hsave as <- <-.
  pose proof (builds_selected _ Hb) as Hsel. unfold routine_ok, routine_in. simpl.
  split_and!; [by destruct (b_selectedExercises st)|..];
    (eapply Forall_impl; [exact Hsel|]); intros re (ex & Hin & ->).
  - apply planOf_ok. by eapply Forall_forall.
  - apply list_elem_of_fmap. by exists ex.
Qed.

End builder.

(** ** Witnesses *)

Lemma demo_builder_builds : builds EXERCISE_LIBRARY demo_builder.
Proof. repeat (apply builds_step || apply builds_initial); compute_done. Qed.

Lemma built_routine_ok_witness :
  let r := mkRoutine "1700000000001" "Mine" [planOf e1; planOf e2] false
             1700000000002 in
  routine_ok r ∧ routine_in EXERCISE_LIBRARY r.
Proof.
  intros r.
  apply (built_routine_ok EXERCISE_LIBRARY 1700000000001 1700000000002
           demo_builder emptyEnv r (saveRoutine r emptyEnv));
    [compute_done|exact demo_builder_builds|reflexivity].
Defined.
