(* ===== verification/Session.v ===== *)
(** * Session: the workout session page ([SessionPage] of [App.tsx])

    The state of the page is the seven [useState] cells of the component
    plus the store of the [WorkoutSetResult] objects it has created
    ([heap]).  The sets of the current exercise and the sets recorded in
    [workoutData] are lists of references into that store: the handlers
    copy the array ([[...currentSets]]) and then assign to a field of one
    of its elements, so a set object that a log entry also holds is
    changed under it.

    One definition per effect, handler and inline callback of the
    component; [react] runs a handler and then the effects that React
    re-runs when their dependencies have changed.  The props and the
    context the component reads ([routine], [library]) are the section's
    variables. *)

From S2P Require Import Prelude Types.

(** The state cells of [SessionPage], and the store of set objects. *)
Record SessionState : Type := mkSessionState {
  exerciseIndex : nat;
  startTime : Z;
  workoutData : list (WorkoutExerciseLog loc);
  currentSets : list loc;
  showRestTimer : bool;
  restTime : Z;
  showSummary : bool;
  heap : store WorkoutSetResult;
}.

(** ** The state setters *)

Definition setExerciseIndex (v : nat) (st : SessionState) : SessionState :=
  mkSessionState v (startTime st) (workoutData st) (currentSets st)
    (showRestTimer st) (restTime st) (showSummary st) (heap st).

Definition setWorkoutData (v : list (WorkoutExerciseLog loc))
    (st : SessionState) : SessionState :=
  mkSessionState (exerciseIndex st) (startTime st) v (currentSets st)
    (showRestTimer st) (restTime st) (showSummary st) (heap st).

Definition setCurrentSets (v : list loc) (st : SessionState) : SessionState :=
  mkSessionState (exerciseIndex st) (startTime st) (workoutData st) v
    (showRestTimer st) (restTime st) (showSummary st) (heap st).

Definition setShowRestTimer (v : bool) (st : SessionState) : SessionState :=
  mkSessionState (exerciseIndex st) (startTime st) (workoutData st)
    (currentSets st) v (restTime st) (showSummary st) (heap st).

Definition setRestTime (v : Z) (st : SessionState) : SessionState :=
  mkSessionState (exerciseIndex st) (startTime st) (workoutData st)
    (currentSets st) (showRestTimer st) v (showSummary st) (heap st).

Definition setShowSummary (v : bool) (st : SessionState) : SessionState :=
  mkSessionState (exerciseIndex st) (startTime st) (workoutData st)
    (currentSets st) (showRestTimer st) (restTime st) v (heap st).

(** The store after an allocation or an assignment to a field. *)
Definition setHeap (v : store WorkoutSetResult) (st : SessionState)
    : SessionState :=
  mkSessionState (exerciseIndex st) (startTime st) (workoutData st)
    (currentSets st) (showRestTimer st) (restTime st) (showSummary st) v.

(** Assignments to the two fields of a set that the handlers write. *)
Definition with_completed (b : bool) (s : WorkoutSetResult) : WorkoutSetResult :=
  mkWorkoutSetResult (ws_setNumber s) b (ws_repsOrDuration s) (ws_target s).

Definition with_repsOrDuration (v : Z) (s : WorkoutSetResult)
    : WorkoutSetResult :=
  mkWorkoutSetResult (ws_setNumber s) (ws_completed s) v (ws_target s).

(** "Update or append": [if (a[i]) a[i] = x; else a.push(x)] on a copy of
    [a].  An absent entry is appended at the end, wherever [i] is. *)
Definition upsert {A} (i : nat) (x : A) (a : list A) : list A :=
  match a !! i with
  | Some _ => <[i := x]> a
  | None => a ++ [x]
  end.

(** The state of the first render: the initial values of the cells. *)
Definition initialState (now : Z) : SessionState :=
  mkSessionState 0 now [] [] false 0 false [].

Section session.
Context (routine : Routine) (library : list Exercise).

(** [library.find(e => e.id === id)]. *)
Definition findExercise (id : string) : option Exercise :=
  JS.find (λ e, bool_decide (ex_id e = id)) library.

(** ** Effects *)

(** The sets the plan gives an exercise: [routineEx.sets] of them, numbered
    from 1, not completed, performed value and target both the planned
    value. *)
Definition initialSets (routineEx : RoutineExercise) : list WorkoutSetResult :=
  (λ i : nat,
     mkWorkoutSetResult (Z.of_nat i + 1) false
       (re_repsOrDuration routineEx) (re_repsOrDuration routineEx))
  <$> JS.Array_from_length (re_sets routineEx).

(** The effect "load sets for current exercise": it allocates fresh set
    objects, whatever [workoutData] holds for the exercise. *)
Definition loadSetsEffect (st : SessionState) : SessionState :=
  match r_exercises routine !! exerciseIndex st with
  | Some routineEx =>
      let hl := allocs (heap st) (initialSets routineEx) in
      setCurrentSets hl.2 (setHeap hl.1 st)
  | None => st
  end.

(** The callback of the rest timer's interval. *)
Definition restTick (st : SessionState) : SessionState :=
  setRestTime (restTime st - 1) st.

(** The effect "timer tick": an interval that calls [restTick] every
    second exists exactly while the overlay is shown and time remains. *)
Definition restTimerEffect (st : SessionState)
    : option (SessionState → SessionState) :=
  if showRestTimer st && bool_decide (0 < restTime st)
  then Some restTick else None.

(** The effects React re-runs after a render: [loadSetsEffect] depends on
    [exerciseIndex] (and on [routine], which never changes). *)
Definition afterRender (old new : SessionState) : SessionState :=
  if decide (exerciseIndex new = exerciseIndex old) then new
  else loadSetsEffect new.

(** ** Render *)

(** The two lookups the render starts with; [None] when it throws
    ([routineEx.exerciseId] on [undefined]). *)
Definition render (st : SessionState)
    : option (RoutineExercise * option Exercise) :=
  routineEx ← r_exercises routine !! exerciseIndex st;
  Some (routineEx, findExercise (re_exerciseId routineEx)).

(** The "exercises completed" figure of the summary. *)
Definition exercisesCompletedShown (st : SessionState) : Z :=
  Z.of_nat (length (workoutData st)) + 1.

(** The "total time" figure of the summary, in minutes, at clock reading
    [now]. *)
Definition totalTimeShown (now : Z) (st : SessionState) : Z :=
  JS.Math_floor ((now - startTime st) # 60000).

(** The position shown in the header: "[exerciseIndex + 1] / [length]". *)
Definition positionShown (st : SessionState) : Z * Z :=
  (Z.of_nat (exerciseIndex st) + 1, Z.of_nat (length (r_exercises routine))).

(** Whether the "remove set" button is rendered. *)
Definition removeSetShown (st : SessionState) : bool :=
  bool_decide (1 < length (currentSets st))%nat.

(** Whether the "previous" button is disabled. *)
Definition prevDisabled (st : SessionState) : bool :=
  bool_decide (exerciseIndex st = 0%nat).

(** Whether the "next" button is labelled "finish". *)
Definition nextIsFinish (st : SessionState) : bool :=
  bool_decide (Z.of_nat (exerciseIndex st)
               = Z.of_nat (length (r_exercises routine)) - 1).

(** Whether the minus and plus buttons of a set are rendered. *)
Definition valueButtonsShown (set : WorkoutSetResult) : bool :=
  negb (ws_completed set).

(** Mounting the page on a routine: the first render, then the effects. *)
Definition startSession (now : Z) : outcome SessionState :=
  let st := initialState now in
  match render st with
  | None => Threw TypeError st
  | Some _ => Done (loadSetsEffect st)
  end.

(** ** Handlers *)

Definition handleToggleSet (index : nat) (st : SessionState)
    : outcome SessionState :=
  let newSets := currentSets st in
  match newSets !! index ≫= λ l, (l,.) <$> heap st !! l with
  | None => Threw TypeError st
  | Some (l, s) =>
      let s' := with_completed (negb (ws_completed s)) s in
      let st1 := setCurrentSets newSets (setHeap (<[l := s']> (heap st)) st) in
      if ws_completed s' then
        match r_exercises routine !! exerciseIndex st with
        | None => Threw TypeError st1
        | Some routineEx =>
            if bool_decide (0 < re_restSeconds routineEx)
            then Done (setShowRestTimer true
                         (setRestTime (re_restSeconds routineEx) st1))
            else Done st1
        end
      else Done st1
  end.

Definition handleUpdateValue (index : nat) (delta : Z) (st : SessionState)
    : outcome SessionState :=
  let newSets := currentSets st in
  match newSets !! index ≫= λ l, (l,.) <$> heap st !! l with
  | None => Threw TypeError st
  | Some (l, s) =>
      let s' :=
        with_repsOrDuration (JS.Math_max 0 (ws_repsOrDuration s + delta)) s in
      Done (setCurrentSets newSets (setHeap (<[l := s']> (heap st)) st))
  end.

Definition handleAddSet (st : SessionState) : SessionState :=
  let lastSet := JS.last_elem (currentSets st) ≫= λ l, heap st !! l in
  let hl :=
    alloc (heap st)
      (mkWorkoutSetResult (Z.of_nat (length (currentSets st)) + 1) false
         (match lastSet with Some s => ws_repsOrDuration s | None => 10 end)
         (match lastSet with Some s => ws_target s | None => 10 end)) in
  setCurrentSets (currentSets st ++ [hl.2]) (setHeap hl.1 st).

Definition handleRemoveSet (st : SessionState) : SessionState :=
  if bool_decide (1 < length (currentSets st))%nat
  then setCurrentSets (JS.slice_0_m1 (currentSets st)) st
  else st.

(** [exercise?.name || "Unknown"] for the exercise of a routine entry. *)
Definition exerciseName (routineEx : RoutineExercise) : string :=
  match findExercise (re_exerciseId routineEx) with
  | Some exercise => JS.or_string (ex_name exercise) "Unknown"
  | None => "Unknown"
  end.

(** The log entry of the current exercise: its [sets] is the array
    [currentSets] itself. *)
Definition exerciseLog (routineEx : RoutineExercise) (st : SessionState)
    : WorkoutExerciseLog loc :=
  mkWorkoutExerciseLog (re_exerciseId routineEx) (exerciseName routineEx)
    (currentSets st).

Definition saveCurrentExerciseData (st : SessionState) : outcome SessionState :=
  match r_exercises routine !! exerciseIndex st with
  | None => Threw TypeError st
  | Some routineEx =>
      let newData :=
        upsert (exerciseIndex st) (exerciseLog routineEx st) (workoutData st) in
      Done (setWorkoutData newData st)
  end.

Definition handleNextExercise (st : SessionState) : outcome SessionState :=
  saveCurrentExerciseData st >>> λ st1,
  Done (if bool_decide (exerciseIndex st < length (r_exercises routine) - 1)%nat
        then setExerciseIndex (exerciseIndex st + 1) st1
        else setShowSummary true st1).

Definition handlePrevExercise (st : SessionState) : outcome SessionState :=
  saveCurrentExerciseData st >>> λ st1,
  Done (if bool_decide (0 < exerciseIndex st)%nat
        then setExerciseIndex (exerciseIndex st - 1) st1
        else st1).

(** The log [handleFinishWorkout] hands to [Storage.saveLog]: [endTime] and
    [idNow] are its two readings of the clock.  [None] when it throws,
    which is before anything is stored. *)
Definition handleFinishWorkout (endTime idNow : Z) (st : SessionState)
    : option (WorkoutLog loc) :=
  finalData ←
    match workoutData st !! exerciseIndex st with
    | Some _ => Some (workoutData st)
    | None =>
        routineEx ← r_exercises routine !! exerciseIndex st;
        Some (workoutData st ++ [exerciseLog routineEx st])
    end;
  Some (mkWorkoutLog (pretty idNow) (r_id routine) (r_name routine)
          (startTime st) endTime ((endTime - startTime st) # 1000) finalData).

(** The log as [JSON.stringify] reads it when it is stored: every set
    reference replaced by the object's contents at that moment. *)
Definition storedLog (st : SessionState) (log : WorkoutLog loc)
    : option (WorkoutLog WorkoutSetResult) :=
  resolve_log (deref (heap st)) log.

(** ** Inline callbacks of the overlays and the header *)

(** The "+10s" button of the rest overlay. *)
Definition extendRest (st : SessionState) : SessionState :=
  setRestTime (restTime st + 10) st.

(** The "skip" button of the rest overlay. *)
Definition skipRest (st : SessionState) : SessionState :=
  setShowRestTimer false st.

(** The "finish" button of the header. *)
Definition requestFinish (st : SessionState) : SessionState :=
  setShowSummary true st.

(** The "cancel" button of the summary. *)
Definition cancelSummary (st : SessionState) : SessionState :=
  setShowSummary false st.

(** ** Events *)

(** The outcome of a handler run from [st], then the effects of the render
    that follows.  A handler that throws leaves the updates it had queued,
    and they are rendered too. *)
Definition react (st : SessionState) (o : outcome SessionState)
    : outcome SessionState :=
  match o with
  | Done st' => Done (afterRender st st')
  | Threw e st' => Threw e (afterRender st st')
  end.

(** What the page can be asked to do. *)
Inductive Event : Type :=
| ToggleSet (index : nat)
| UpdateValue (index : nat) (delta : Z)
| AddSet
| RemoveSet
| NextExercise
| PrevExercise
| Tick
| ExtendRest
| SkipRest
| RequestFinish
| CancelSummary.

Definition handler (ev : Event) (st : SessionState) : outcome SessionState :=
  match ev with
  | ToggleSet index => handleToggleSet index st
  | UpdateValue index delta => handleUpdateValue index delta st
  | AddSet => Done (handleAddSet st)
  | RemoveSet => Done (handleRemoveSet st)
  | NextExercise => handleNextExercise st
  | PrevExercise => handlePrevExercise st
  | Tick =>
      match restTimerEffect st with
      | Some callback => Done (callback st)
      | None => Done st
      end
  | ExtendRest => Done (extendRest st)
  | SkipRest => Done (skipRest st)
  | RequestFinish => Done (requestFinish st)
  | CancelSummary => Done (cancelSummary st)
  end.

Definition dispatch (ev : Event) (st : SessionState) : outcome SessionState :=
  react st (handler ev st).

(** A sequence of events from a state.  The page stays mounted when a
    handler throws, so the events that follow act on the state the throw
    left. *)
Fixpoint run (evs : list Event) (st : SessionState) : SessionState :=
  match evs with
  | [] => st
  | ev :: evs' => run evs' (final (dispatch ev st))
  end.

(** Whether any handler of the sequence throws. *)
Fixpoint throws (evs : list Event) (st : SessionState) : bool :=
  match evs with
  | [] => false
  | ev :: evs' =>
      threw (dispatch ev st) || throws evs' (final (dispatch ev st))
  end.

(** What the set references of the page point to. *)
Definition currentSetValues (st : SessionState)
    : option (list WorkoutSetResult) :=
  deref (heap st) (currentSets st).

End session.

Arguments handleToggleSet : simpl never.
Arguments handleUpdateValue : simpl never.
Arguments handleAddSet : simpl never.
Arguments handleRemoveSet : simpl never.
Arguments saveCurrentExerciseData : simpl never.
Arguments handleNextExercise : simpl never.
Arguments handlePrevExercise : simpl never.
Arguments handleFinishWorkout : simpl never.
Arguments loadSetsEffect : simpl never.
Arguments afterRender : simpl never.
Arguments restTimerEffect : simpl never.
Arguments react : simpl never.
Arguments dispatch : simpl never.

#[export] Instance SessionState_eq_dec : EqDecision SessionState.
Proof. solve_decision. Defined.

#[export] Instance Event_eq_dec : EqDecision Event.
Proof. solve_decision. Defined.

(** ** Basic facts *)

Section upsert.
Context {A : Type}.
Implicit Types (a : list A) (x : A) (i j : nat).

Lemma upsert_length a i x :
  (i ≤ length a)%nat → length (upsert i x a) = (length a `max` S i)%nat.
Proof.
  intros Hi. unfold upsert. destruct (a !! i) eqn:E.
  - apply lookup_lt_Some in E. rewrite length_insert. lia.
  - apply lookup_ge_None in E. rewrite length_app. simpl. lia.
Qed.

Lemma upsert_lookup_eq a i x : (i ≤ length a)%nat → upsert i x a !! i = Some x.
Proof.
  intros Hi. unfold upsert. destruct (a !! i) eqn:E.
  - apply list_lookup_insert_eq. by eapply lookup_lt_Some.
  - apply lookup_ge_None in E. replace i with (length a) by lia.
    apply list_lookup_middle. done.
Qed.

Lemma upsert_lookup_ne a i j x :
  (i ≤ length a)%nat → j ≠ i → upsert i x a !! j = a !! j.
Proof.
  intros Hi Hne. unfold upsert. destruct (a !! i) eqn:E.
  - by apply list_lookup_insert_ne.
  - apply lookup_ge_None in E. destruct (decide (j < length a)%nat).
    + by apply lookup_app_l.
    + rewrite !lookup_ge_None_2; [done|lia|]. rewrite length_app. simpl. lia.
Qed.

(** Every entry after an update-or-append is the new one or an old one. *)
Lemma upsert_lookup_inv a i j x y :
  (i ≤ length a)%nat → upsert i x a !! j = Some y →
  (j = i ∧ y = x) ∨ (j ≠ i ∧ a !! j = Some y).
Proof.
  intros Hi H. destruct (decide (j = i)) as [->|Hne].
  - rewrite upsert_lookup_eq in H by done. naive_solver.
  - rewrite upsert_lookup_ne in H by done. naive_solver.
Qed.

(** Without the bound the new entry lands at the end, not at [i]. *)
Lemma upsert_beyond a i x :
  (length a < i)%nat → upsert i x a !! i = None ∧ upsert i x a = a ++ [x].
Proof.
  intros Hi. unfold upsert. rewrite (lookup_ge_None_2 a i) by lia.
  split; [|done]. apply lookup_ge_None_2. rewrite length_app. simpl. lia.
Qed.

End upsert.

Section facts.
Context (routine : Routine) (library : list Exercise).
Implicit Types (st : SessionState).

Lemma afterRender_same old new :
  exerciseIndex new = exerciseIndex old → afterRender routine old new = new.
Proof. intros H. unfold afterRender. by case_decide. Qed.

Lemma initialSets_length routineEx :
  length (initialSets routineEx) = Z.to_nat (re_sets routineEx).
Proof. unfold initialSets. by rewrite length_fmap, Array_from_length_length. Qed.

Lemma initialSets_lookup routineEx i s :
  initialSets routineEx !! i = Some s →
  s = mkWorkoutSetResult (Z.of_nat i + 1) false
        (re_repsOrDuration routineEx) (re_repsOrDuration routineEx).
Proof.
  unfold initialSets, JS.Array_from_length. rewrite list_lookup_fmap.
  intros [k [[-> ?]%lookup_seq ->]]%fmap_Some. done.
Qed.

(** The handlers on sets leave the position and the recorded data alone. *)
Lemma handleToggleSet_frame index st :
  let st' := final (handleToggleSet routine index st) in
  exerciseIndex st' = exerciseIndex st ∧ workoutData st' = workoutData st ∧
  currentSets st' = currentSets st ∧ startTime st' = startTime st ∧
  showSummary st' = showSummary st ∧ length (heap st') = length (heap st).
Proof.
  unfold handleToggleSet.
  destruct (currentSets st !! index ≫= _) as [[l s]|]; simpl; [|done].
  repeat case_match; simpl; by rewrite ?length_insert.
Qed.

Lemma handleUpdateValue_frame index delta st :
  let st' := final (handleUpdateValue index delta st) in
  exerciseIndex st' = exerciseIndex st ∧ workoutData st' = workoutData st ∧
  currentSets st' = currentSets st ∧ startTime st' = startTime st ∧
  showSummary st' = showSummary st ∧ showRestTimer st' = showRestTimer st ∧
  restTime st' = restTime st ∧ length (heap st') = length (heap st).
Proof.
  unfold handleUpdateValue.
  destruct (currentSets st !! index ≫= _) as [[l s]|]; simpl; [|done].
  by rewrite ?length_insert.
Qed.

Lemma run_cons ev evs st :
  run routine library (ev :: evs) st
  = run routine library evs (final (dispatch routine library ev st)).
Proof. done. Qed.

Lemma run_app evs1 evs2 st :
  run routine library (evs1 ++ evs2) st
  = run routine library evs2 (run routine library evs1 st).
Proof. revert st. induction evs1 as [|ev evs1 IH]; intros st; simpl; auto. Qed.

Lemma saveCurrentExerciseData_Done st routineEx :
  r_exercises routine !! exerciseIndex st = Some routineEx →
  saveCurrentExerciseData routine library st
  = Done (setWorkoutData
            (upsert (exerciseIndex st) (exerciseLog library routineEx st)
               (workoutData st)) st).
Proof. intros H. unfold saveCurrentExerciseData. by rewrite H. Qed.

Lemma saveCurrentExerciseData_Threw st :
  r_exercises routine !! exerciseIndex st = None →
  saveCurrentExerciseData routine library st = Threw TypeError st.
Proof. intros H. unfold saveCurrentExerciseData. by rewrite H. Qed.

End facts.
