(* ===== verification/Demo.v ===== *)
(** * Demo: the concrete inputs the witnesses run on

    A session on the first premade routine of the catalog with the English
    exercise library, mounted at a fixed clock reading, and the states a
    few event sequences lead to.  Everything here evaluates by
    [vm_compute]. *)

From S2P Require Import Prelude Types Catalog Session.

(** The clock reading of the demo, in milliseconds. *)
Definition demo_now : Z := 1700000000000.

Definition demo_routine : Routine := pm1 demo_now.

Definition demo_library : list Exercise := getLocalizedExercises "en".

(** The session just mounted: exercise 0 ("e2"), two sets of 10. *)
Definition demo_start : SessionState :=
  final (startSession demo_routine demo_library demo_now).

(** The events of the demo, from the mounted session. *)
Definition demo_run (evs : list Event) : SessionState :=
  run demo_routine demo_library evs demo_start.

(** A routine with no exercise, which the storage can hold. *)
Definition empty_routine : Routine := mkRoutine "r0" "Empty" [] false demo_now.

(** The routine of the specification's example: one exercise, two sets of
    thirty seconds, thirty seconds of rest. *)
Definition spec_routine : Routine :=
  mkRoutine "r1" "Example" [mkRoutineExercise "e1" 2 30 30] false demo_now.

Lemma demo_routine_ok : routine_ok demo_routine.
Proof. compute_done. Qed.

Lemma demo_routine_in : routine_in demo_library demo_routine.
Proof. compute_done. Qed.

Lemma demo_start_Done :
  startSession demo_routine demo_library demo_now = Done demo_start.
Proof. reflexivity. Qed.
