(* ===== verification/SessionInv.v ===== *)
(** * SessionInv: the invariant of the session page

    [wf] collects what every state of a mounted session satisfies: the
    position is an exercise of the routine, every exercise before it has
    been recorded, the entry at position [j] of [workoutData] is the log of
    exercise [j], no set reference dangles, the sets of the current
    exercise are distinct objects, the entries recorded for other
    exercises share no object with them, and the rest time is not
    negative.  The file proves that mounting establishes [wf] and that
    every handler and effect preserves it, thrown or not. *)

From S2P Require Import Prelude Types Catalog Session Demo.

Section invariant.
Context (routine : Routine) (library : list Exercise).
Implicit Types (st : SessionState) (e : WorkoutExerciseLog loc).

(** The entry [e] is the log of exercise [j] of the routine. *)
Definition entry_of (j : nat) e : Prop :=
  ∃ routineEx, r_exercises routine !! j = Some routineEx ∧
    wel_exerciseId e = re_exerciseId routineEx ∧
    wel_exerciseName e = exerciseName library routineEx.

Record wf st : Prop := mkWf {
  wf_index : (exerciseIndex st < length (r_exercises routine))%nat;
  wf_visited : (exerciseIndex st ≤ length (workoutData st))%nat;
  wf_entries : ∀ j e, workoutData st !! j = Some e → entry_of j e;
  wf_current_live : live (heap st) (currentSets st);
  wf_current_NoDup : NoDup (currentSets st);
  wf_data_live :
    ∀ j e, workoutData st !! j = Some e → live (heap st) (wel_sets e);
  wf_separate :
    ∀ j e, workoutData st !! j = Some e → j ≠ exerciseIndex st →
           wel_sets e ## currentSets st;
  wf_rest : 0 ≤ restTime st;
}.

(** ** Consequences *)

Lemma wf_routineEx st :
  wf st → ∃ routineEx, r_exercises routine !! exerciseIndex st = Some routineEx.
Proof. intros [Hi _ _ _ _ _ _ _]. by apply lookup_lt_is_Some_2. Qed.

Lemma wf_data_length st :
  wf st → (length (workoutData st) ≤ length (r_exercises routine))%nat.
Proof.
  intros H. destruct (workoutData st) as [|e0 d] eqn:E using rev_ind; [simpl; lia|].
  destruct (wf_entries st H (length d) e0) as (rex & Hrex & _).
  { rewrite E. by apply list_lookup_middle. }
  apply lookup_lt_Some in Hrex. rewrite length_app. simpl. lia.
Qed.

Lemma wf_render st : wf st → is_Some (render routine library st).
Proof.
  intros [rex Hrex]%wf_routineEx. unfold render. rewrite Hrex. by eexists.
Qed.

Lemma wf_current_lookup st i l :
  wf st → currentSets st !! i = Some l → is_Some (heap st !! l).
Proof. intros H. eapply live_lookup, wf_current_live, H. Qed.

Lemma wf_currentSetValues st : wf st → is_Some (currentSetValues st).
Proof. intros H. apply live_deref, wf_current_live, H. Qed.

(** ** Preservation by the primitive updates *)

(** [wf] reads the store only through its size, and does not read the
    overlays. *)
Lemma wf_congr st st' :
  exerciseIndex st' = exerciseIndex st → workoutData st' = workoutData st →
  currentSets st' = currentSets st → length (heap st') = length (heap st) →
  0 ≤ restTime st' → wf st → wf st'.
Proof.
  intros Hi Hd Hc Hh Hr [? ? ? ? ? ? ? ?].
  split; rewrite ?Hi, ?Hd, ?Hc; unfold live in *; rewrite ?Hh; auto.
Qed.

Lemma wf_handleAddSet st : wf st → wf (handleAddSet st).
Proof.
  intros [? ? ? Hcl Hnd Hdl Hsep ?]. unfold handleAddSet.
  set (obj := mkWorkoutSetResult _ _ _ _).
  split; simpl; auto.
  - by apply live_alloc.
  - apply NoDup_app. split_and!; [done| |apply NoDup_singleton].
    intros l Hl ->%list_elem_of_singleton. by eapply live_fresh.
  - intros j e Hj. eapply live_mono; [|by eapply Hdl].
    rewrite length_app. lia.
  - intros j e Hj Hne l Hl [Hc| ->%list_elem_of_singleton]%elem_of_app.
    + by eapply Hsep.
    + by eapply live_fresh; [eapply Hdl|].
Qed.

Lemma wf_handleRemoveSet st : wf st → wf (handleRemoveSet st).
Proof.
  intros H. unfold handleRemoveSet. case_bool_decide; [|done].
  destruct H as [? ? ? Hcl Hnd Hdl Hsep ?].
  split; simpl; auto using slice_0_m1_NoDup.
  - eapply live_sublist; [apply slice_0_m1_subseteq|done].
  - intros j e Hj Hne l Hl Hc%slice_0_m1_subseteq. by eapply Hsep.
Qed.

(** Recording the current exercise. *)
Lemma wf_save st routineEx :
  wf st → r_exercises routine !! exerciseIndex st = Some routineEx →
  wf (setWorkoutData
        (upsert (exerciseIndex st) (exerciseLog library routineEx st)
           (workoutData st)) st).
Proof.
  intros [? Hv Hen Hcl Hnd Hdl Hsep ?] Hrex.
  split; simpl; auto.
  - rewrite upsert_length by done. lia.
  - intros j e [[-> ->]|[? ?]]%upsert_lookup_inv; [|by eauto|done].
    by exists routineEx.
  - intros j e [[-> ->]|[? ?]]%upsert_lookup_inv; [done|by eauto|done].
  - intros j e [[-> ->]|[? ?]]%upsert_lookup_inv; [done|by eauto|done].
Qed.

(** Moving to another exercise: the effect allocates its sets afresh. *)
Lemma wf_move st j :
  wf st → (j < length (r_exercises routine))%nat →
  (j ≤ length (workoutData st))%nat →
  wf (loadSetsEffect routine (setExerciseIndex j st)).
Proof.
  intros [? Hv Hen Hcl Hnd Hdl Hsep ?] Hj Hjd. unfold loadSetsEffect. simpl.
  destruct (lookup_lt_is_Some_2 _ _ Hj) as [rex ->].
  split; simpl; auto.
  - apply live_allocs_new.
  - apply allocs_NoDup.
  - intros k e Hk. by eapply live_allocs_old, Hdl.
  - intros k e Hk _. by eapply live_allocs_fresh, Hdl.
Qed.

(** ** Mounting *)

Lemma initialState_render now :
  r_exercises routine ≠ [] →
  is_Some (render routine library (initialState now)).
Proof.
  intros Hne. unfold render. simpl.
  destruct (r_exercises routine); [done|]. by eexists.
Qed.

Lemma wf_initialState now : r_exercises routine ≠ [] → wf (initialState now).
Proof.
  intros Hne. split; simpl; try done; try apply live_nil; try lia.
  - destruct (r_exercises routine); [done|simpl; lia].
  - apply NoDup_nil_2.
Qed.

Lemma wf_startSession now st :
  startSession routine library now = Done st → wf st.
Proof.
  unfold startSession. destruct (render _ _ _) as [v|] eqn:E; [|done].
  intros [= <-].
  assert (r_exercises routine ≠ []) as Hne.
  { intros H. unfold render in E. by rewrite H in E. }
  apply (wf_move (initialState now) 0); [by apply wf_initialState| |simpl; lia].
  destruct (r_exercises routine); [done|simpl; lia].
Qed.

(** ** Preservation by the handlers *)

Lemma wf_handleToggleSet index st :
  wf st → wf (final (handleToggleSet routine index st)).
Proof.
  intros H. pose proof (handleToggleSet_frame routine index st) as F.
  simpl in F. destruct_and!. eapply wf_congr; eauto.
  unfold handleToggleSet. pose proof (wf_rest _ H).
  repeat case_match; simpl; try done. case_bool_decide; simpl; lia.
Qed.

Lemma wf_handleUpdateValue index delta st :
  wf st → wf (final (handleUpdateValue index delta st)).
Proof.
  intros H. pose proof (handleUpdateValue_frame index delta st) as F.
  simpl in F. destruct_and!. eapply wf_congr; eauto.
  replace (restTime _) with (restTime st). apply H.
Qed.

Lemma wf_saveCurrentExerciseData st :
  wf st → ∃ st1, saveCurrentExerciseData routine library st = Done st1 ∧
    wf st1 ∧ exerciseIndex st1 = exerciseIndex st ∧
    (exerciseIndex st < length (workoutData st1))%nat.
Proof.
  intros H. destruct (wf_routineEx _ H) as [rex Hrex].
  rewrite (saveCurrentExerciseData_Done _ _ _ _ Hrex).
  eexists. split_and!; [done|by apply wf_save|done|]. simpl.
  rewrite upsert_length by apply H. lia.
Qed.

Lemma wf_dispatch_Next st :
  wf st → ∃ st', dispatch routine library NextExercise st = Done st' ∧ wf st'.
Proof.
  intros H. destruct (wf_saveCurrentExerciseData _ H) as (st1 & E & H1 & Hi & Hd).
  unfold dispatch, react, handler, handleNextExercise. rewrite E. simpl.
  eexists. split; [done|]. unfold afterRender. case_bool_decide; simpl.
  - rewrite decide_False by lia. rewrite <-Hi. apply wf_move; [done|lia..].
  - rewrite decide_True by done. eapply wf_congr; [..|exact H1]; try done.
    apply H1.
Qed.

Lemma wf_dispatch_Prev st :
  wf st → ∃ st', dispatch routine library PrevExercise st = Done st' ∧ wf st'.
Proof.
  intros H. destruct (wf_saveCurrentExerciseData _ H) as (st1 & E & H1 & Hi & Hd).
  unfold dispatch, react, handler, handlePrevExercise. rewrite E. simpl.
  eexists. split; [done|]. unfold afterRender. case_bool_decide; simpl.
  - rewrite decide_False by lia. rewrite <-Hi. apply wf_move; [done| |lia].
    pose proof (wf_index _ H1). lia.
  - by rewrite decide_True.
Qed.

Lemma wf_restTick st : wf st → 0 < restTime st → wf (restTick st).
Proof. intros H Hr. eapply wf_congr; [..|exact H]; simpl; try done. lia. Qed.

Lemma wf_overlay st st' :
  wf st → exerciseIndex st' = exerciseIndex st →
  workoutData st' = workoutData st → currentSets st' = currentSets st →
  heap st' = heap st → restTime st ≤ restTime st' → wf st'.
Proof.
  intros H ? ? ? Hh ?. eapply wf_congr; [..|exact H]; try done.
  - by rewrite Hh.
  - pose proof (wf_rest _ H). lia.
Qed.

(** ** Preservation by every event *)

Lemma react_same_index st o :
  exerciseIndex (final o) = exerciseIndex st → final (react routine st o) = final o.
Proof.
  intros Hi. unfold react. destruct o; simpl in *; by rewrite afterRender_same.
Qed.

Lemma react_Done_same_index st st' :
  exerciseIndex st' = exerciseIndex st → react routine st (Done st') = Done st'.
Proof. intros Hi. unfold react. by rewrite afterRender_same. Qed.

Lemma dispatch_Tick st :
  dispatch routine library Tick st
  = Done (if showRestTimer st && bool_decide (0 < restTime st)
          then restTick st else st).
Proof.
  unfold dispatch, handler, restTimerEffect.
  by destruct (showRestTimer st && _); rewrite react_Done_same_index.
Qed.

Lemma dispatch_ToggleSet index st :
  dispatch routine library (ToggleSet index) st = handleToggleSet routine index st.
Proof.
  unfold dispatch, handler, react.
  pose proof (handleToggleSet_frame routine index st) as [F _].
  by destruct (handleToggleSet _ _ _); simpl in *; rewrite afterRender_same.
Qed.

Lemma dispatch_UpdateValue index delta st :
  dispatch routine library (UpdateValue index delta) st
  = handleUpdateValue index delta st.
Proof.
  unfold dispatch, handler, react.
  pose proof (handleUpdateValue_frame index delta st) as [F _].
  by destruct (handleUpdateValue _ _ _); simpl in *; rewrite afterRender_same.
Qed.

Lemma dispatch_AddSet st :
  dispatch routine library AddSet st = Done (handleAddSet st).
Proof. unfold dispatch, handler. by rewrite react_Done_same_index. Qed.

Lemma dispatch_RemoveSet st :
  dispatch routine library RemoveSet st = Done (handleRemoveSet st).
Proof.
  unfold dispatch, handler. rewrite react_Done_same_index; [done|].
  unfold handleRemoveSet. by case_bool_decide.
Qed.

Lemma dispatch_ExtendRest st :
  dispatch routine library ExtendRest st = Done (extendRest st).
Proof. unfold dispatch, handler. by rewrite react_Done_same_index. Qed.

Lemma dispatch_SkipRest st :
  dispatch routine library SkipRest st = Done (skipRest st).
Proof. unfold dispatch, handler. by rewrite react_Done_same_index. Qed.

Lemma dispatch_RequestFinish st :
  dispatch routine library RequestFinish st = Done (requestFinish st).
Proof. unfold dispatch, handler. by rewrite react_Done_same_index. Qed.

Lemma dispatch_CancelSummary st :
  dispatch routine library CancelSummary st = Done (cancelSummary st).
Proof. unfold dispatch, handler. by rewrite react_Done_same_index. Qed.

Lemma wf_dispatch ev st :
  wf st → wf (final (dispatch routine library ev st)).
Proof.
  intros H. destruct ev.
  - rewrite dispatch_ToggleSet. by apply wf_handleToggleSet.
  - rewrite dispatch_UpdateValue. by apply wf_handleUpdateValue.
  - rewrite dispatch_AddSet. by apply wf_handleAddSet.
  - rewrite dispatch_RemoveSet. by apply wf_handleRemoveSet.
  - by destruct (wf_dispatch_Next _ H) as (st' & -> & ?).
  - by destruct (wf_dispatch_Prev _ H) as (st' & -> & ?).
  - rewrite dispatch_Tick. simpl. destruct (showRestTimer st); simpl; [|done].
    case_bool_decide; [by apply wf_restTick|done].
  - rewrite dispatch_ExtendRest.
    eapply wf_overlay; [exact H|done..|simpl; lia].
  - rewrite dispatch_SkipRest. by eapply wf_overlay; [exact H|..].
  - rewrite dispatch_RequestFinish. by eapply wf_overlay; [exact H|..].
  - rewrite dispatch_CancelSummary. by eapply wf_overlay; [exact H|..].
Qed.

Lemma wf_run evs st : wf st → wf (run routine library evs st).
Proof.
  revert st. induction evs as [|ev evs IH]; intros st H; simpl; [done|].
  by apply IH, wf_dispatch.
Qed.

(** ** Mounted sessions *)

(** C1: every state that a mounted session reaches, by any sequence of
    events of the page, satisfies the invariant [wf]; in particular it has
    a current exercise, its render does not throw, and no set reference
    dangles. *)
Theorem reachable_wf now evs st :
  startSession routine library now = Done st →
  wf (run routine library evs st).
Proof. intros H. by eapply wf_run, wf_startSession. Qed.

(** Mounting the page on a routine with at least one exercise starts
    the session at exercise 0 with nothing recorded, no overlay, the clock
    reading as start time, and one fresh set per planned set of the first
    exercise, each uncompleted with performed value and target equal to
    the planned value. *)
Theorem startSession_nonempty now routineEx rest :
  r_exercises routine = routineEx :: rest →
  ∃ st, startSession routine library now = Done st ∧
    exerciseIndex st = 0%nat ∧ startTime st = now ∧ workoutData st = [] ∧
    showRestTimer st = false ∧ showSummary st = false ∧
    currentSetValues st = Some (initialSets routineEx).
Proof.
  intros E. unfold startSession, render, loadSetsEffect. simpl. rewrite E. simpl.
  eexists. split_and!; try done. apply (allocs_deref []).
Qed.


End invariant.

Lemma demo_start_wf : wf demo_routine demo_library demo_start.
Proof. apply (wf_startSession _ _ demo_now). exact demo_start_Done. Qed.

Lemma demo_run_wf evs : wf demo_routine demo_library (demo_run evs).
Proof. apply wf_run, demo_start_wf. Qed.

Lemma reachable_wf_witness :
  wf demo_routine demo_library
    (demo_run [ToggleSet 0; SkipRest; NextExercise; AddSet; PrevExercise]).
Proof. apply (reachable_wf _ _ demo_now). reflexivity. Defined.

Lemma startSession_nonempty_witness :
  ∃ st, startSession demo_routine demo_library demo_now = Done st ∧
    exerciseIndex st = 0%nat ∧ startTime st = demo_now ∧ workoutData st = [] ∧
    showRestTimer st = false ∧ showSummary st = false ∧
    currentSetValues st
    = Some (initialSets (mkRoutineExercise "e2" 2 10 30)).
Proof. by eapply startSession_nonempty. Defined.


#[export] Hint Resolve wf_handleAddSet wf_handleRemoveSet wf_handleToggleSet
  wf_handleUpdateValue wf_restTick wf_dispatch wf_run : mob.

#[export] Hint Rewrite dispatch_ToggleSet dispatch_UpdateValue dispatch_AddSet
  dispatch_RemoveSet dispatch_Tick dispatch_ExtendRest dispatch_SkipRest
  dispatch_RequestFinish dispatch_CancelSummary : mob_rw.
