(* ===== verification/SessionSets.v ===== *)
(** * SessionSets: the handlers that act on the sets of the current exercise

    [handleToggleSet], [handleUpdateValue], [handleAddSet] and
    [handleRemoveSet], described by what they do to the values the set
    references point to ([currentSetValues]): which set changes and how,
    what the other sets and the rest of the state keep, and where they
    throw. *)

From S2P Require Import Prelude Types Catalog Session Demo SessionInv.

(** The rest the page starts when a set of [routineEx] is ticked. *)
Definition startRest (routineEx : RoutineExercise) (st : SessionState)
    : SessionState :=
  if bool_decide (0 < re_restSeconds routineEx)
  then setShowRestTimer true (setRestTime (re_restSeconds routineEx) st)
  else st.

(** The set an [addSet] creates after the sets [vs]. *)
Definition addedSet (vs : list WorkoutSetResult) : WorkoutSetResult :=
  mkWorkoutSetResult (Z.of_nat (length vs) + 1) false
    (match last vs with Some s => ws_repsOrDuration s | None => 10 end)
    (match last vs with Some s => ws_target s | None => 10 end).

(** An index the two indexed handlers accept. *)
Definition valid (ev : Event) (st : SessionState) : Prop :=
  match ev with
  | ToggleSet index | UpdateValue index _ => (index < length (currentSets st))%nat
  | _ => True
  end.

#[export] Instance valid_dec ev st : Decision (valid ev st).
Proof. destruct ev; simpl; apply _. Defined.

Section sets.
Context (routine : Routine) (library : list Exercise).
Implicit Types (st : SessionState) (vs : list WorkoutSetResult).

(** ** Reading a set *)

Lemma current_lookup st vs i s :
  currentSetValues st = Some vs → vs !! i = Some s →
  ∃ l, currentSets st !! i = Some l ∧ heap st !! l = Some s.
Proof.
  intros Hd Hs. pose proof (deref_length _ _ _ Hd) as Hlen.
  destruct (lookup_lt_is_Some_2 (currentSets st) i) as [l Hl].
  { apply lookup_lt_Some in Hs. lia. }
  exists l. split; [done|]. by rewrite (deref_lookup _ _ _ _ _ Hd Hl).
Qed.

Lemma current_length st vs :
  currentSetValues st = Some vs → length (currentSets st) = length vs.
Proof. intros Hd. symmetry. by eapply deref_length. Qed.

(** ** [handleUpdateValue] *)

Lemma handleUpdateValue_eq st i l s delta :
  currentSets st !! i = Some l → heap st !! l = Some s →
  handleUpdateValue i delta st
  = Done (setHeap (<[l := with_repsOrDuration
                           (JS.Math_max 0 (ws_repsOrDuration s + delta)) s]>
                     (heap st)) st).
Proof.
  intros Hl Hh. unfold handleUpdateValue. rewrite Hl. simpl. by rewrite Hh.
Qed.

Lemma handleUpdateValue_Done st vs i s delta :
  NoDup (currentSets st) → currentSetValues st = Some vs → vs !! i = Some s →
  ∃ st', handleUpdateValue i delta st = Done st' ∧
    currentSetValues st'
    = Some (<[i := with_repsOrDuration
                     (JS.Math_max 0 (ws_repsOrDuration s + delta)) s]> vs).
Proof.
  intros Hnd Hd Hs. destruct (current_lookup _ _ _ _ Hd Hs) as (l & Hl & Hh).
  rewrite (handleUpdateValue_eq _ _ _ _ _ Hl Hh).
  eexists. split; [done|]. by apply deref_insert.
Qed.

Lemma handleUpdateValue_Threw st i delta :
  (length (currentSets st) ≤ i)%nat →
  handleUpdateValue i delta st = Threw TypeError st.
Proof.
  intros Hi. unfold handleUpdateValue. by rewrite lookup_ge_None_2.
Qed.

(** ** [handleToggleSet] *)

Lemma handleToggleSet_eq st i l s routineEx :
  currentSets st !! i = Some l → heap st !! l = Some s →
  r_exercises routine !! exerciseIndex st = Some routineEx →
  handleToggleSet routine i st
  = Done (let st1 :=
            setHeap (<[l := with_completed (negb (ws_completed s)) s]> (heap st))
              st in
          if ws_completed s then st1 else startRest routineEx st1).
Proof.
  intros Hl Hh Hrex. unfold handleToggleSet. rewrite Hl. simpl. rewrite Hh. simpl.
  rewrite Hrex. unfold startRest.
  destruct (ws_completed s); simpl; [done|]. by case_bool_decide.
Qed.

Lemma handleToggleSet_Done st vs i s routineEx :
  NoDup (currentSets st) → currentSetValues st = Some vs → vs !! i = Some s →
  r_exercises routine !! exerciseIndex st = Some routineEx →
  ∃ st1, currentSetValues st1
         = Some (<[i := with_completed (negb (ws_completed s)) s]> vs) ∧
    st1 = setHeap (heap st1) st ∧
    handleToggleSet routine i st
    = Done (if ws_completed s then st1 else startRest routineEx st1).
Proof.
  intros Hnd Hd Hs Hrex. destruct (current_lookup _ _ _ _ Hd Hs) as (l & Hl & Hh).
  rewrite (handleToggleSet_eq _ _ _ _ _ Hl Hh Hrex).
  exists (setHeap (<[l := with_completed (negb (ws_completed s)) s]> (heap st)) st).
  split_and!; [|done..]. by apply deref_insert.
Qed.

Lemma handleToggleSet_Threw st i :
  (length (currentSets st) ≤ i)%nat →
  handleToggleSet routine i st = Threw TypeError st.
Proof.
  intros Hi. unfold handleToggleSet. by rewrite lookup_ge_None_2.
Qed.

Lemma startRest_frame routineEx st :
  let st' := startRest routineEx st in
  exerciseIndex st' = exerciseIndex st ∧ workoutData st' = workoutData st ∧
  currentSets st' = currentSets st ∧ heap st' = heap st ∧
  showSummary st' = showSummary st ∧ startTime st' = startTime st.
Proof. unfold startRest. by case_bool_decide. Qed.

Lemma startRest_heap routineEx st : heap (startRest routineEx st) = heap st.
Proof. apply startRest_frame. Qed.

Lemma startRest_currentSets routineEx st :
  currentSets (startRest routineEx st) = currentSets st.
Proof. apply startRest_frame. Qed.

Lemma startRest_exerciseIndex routineEx st :
  exerciseIndex (startRest routineEx st) = exerciseIndex st.
Proof. apply startRest_frame. Qed.

Lemma startRest_values routineEx st :
  currentSetValues (startRest routineEx st) = currentSetValues st.
Proof. unfold startRest. by case_bool_decide. Qed.

(** ** [handleAddSet] and [handleRemoveSet] *)

Lemma last_elem_deref st vs :
  currentSetValues st = Some vs →
  JS.last_elem (currentSets st) ≫= (λ l, heap st !! l) = last vs.
Proof.
  intros Hd. pose proof (deref_length _ _ _ Hd) as Hlen.
  unfold JS.last_elem. rewrite !last_lookup, Hlen.
  destruct (currentSets st !! _) as [l|] eqn:E; simpl.
  - by rewrite (deref_lookup _ _ _ _ _ Hd E).
  - symmetry. apply lookup_ge_None. apply lookup_ge_None in E. lia.
Qed.

Lemma handleAddSet_values st vs :
  currentSetValues st = Some vs →
  currentSetValues (handleAddSet st) = Some (vs ++ [addedSet vs]).
Proof.
  intros Hd. unfold handleAddSet, currentSetValues. simpl.
  rewrite (last_elem_deref _ _ Hd), (current_length _ _ Hd).
  fold (addedSet vs). by apply (deref_alloc (heap st)).
Qed.

Lemma handleRemoveSet_values st vs :
  currentSetValues st = Some vs →
  currentSetValues (handleRemoveSet st)
  = Some (if bool_decide (1 < length vs)%nat then JS.slice_0_m1 vs else vs).
Proof.
  intros Hd. unfold handleRemoveSet. rewrite (current_length _ _ Hd).
  case_bool_decide; [|done]. unfold currentSetValues, JS.slice_0_m1. simpl.
  rewrite (current_length _ _ Hd). by apply deref_take.
Qed.

(** ** The indexed handlers do not throw on an index of the list *)

Lemma wf_valid_lookup st i :
  wf routine library st → (i < length (currentSets st))%nat →
  ∃ l s routineEx, currentSets st !! i = Some l ∧ heap st !! l = Some s ∧
    r_exercises routine !! exerciseIndex st = Some routineEx.
Proof.
  intros H Hi. destruct (lookup_lt_is_Some_2 _ _ Hi) as [l Hl].
  destruct (wf_current_lookup _ _ _ _ _ H Hl) as [s Hs].
  destruct (wf_routineEx _ _ _ H) as [rex Hrex]. eauto 10.
Qed.

Lemma setHeap_same st : setHeap (heap st) st = st.
Proof. by destruct st. Qed.

Lemma setHeap_setHeap h h' st : setHeap h (setHeap h' st) = setHeap h st.
Proof. done. Qed.

Lemma startRest_setHeap routineEx h st :
  startRest routineEx (setHeap h st) = setHeap h (startRest routineEx st).
Proof. unfold startRest. by case_bool_decide. Qed.

Lemma with_completed_twice s :
  let s' := with_completed (negb (ws_completed s)) s in
  with_completed (negb (ws_completed s')) s' = s.
Proof. destruct s as [? [] ? ?]; done. Qed.

(** ** Properties *)

(** C18: toggling the same set twice gives every set object, and so the
    [completed] flag toggled, its original contents back, but not the
    rest: exactly one of the two toggles completes the set, so the state
    after both is the original state with the rest of the exercise
    started (overlay shown, rest time reset to the planned seconds) when
    that rest is positive. *)
Theorem toggle_twice_restores_sets st i :
  wf routine library st → (i < length (currentSets st))%nat →
  ∃ routineEx, r_exercises routine !! exerciseIndex st = Some routineEx ∧
    handleToggleSet routine i st >>> handleToggleSet routine i
    = Done (startRest routineEx st).
Proof.
  intros H Hi. destruct (wf_valid_lookup _ _ H Hi) as (l & s & rex & Hl & Hs & Hrex).
  exists rex. split; [done|]. rewrite (handleToggleSet_eq _ _ _ _ _ Hl Hs Hrex).
  assert (l < length (heap st))%nat as Hlt by by eapply lookup_lt_Some.
  simpl. set (s' := with_completed _ s).
  assert (∀ st1, heap st1 = <[l := s']> (heap st) →
    currentSets st1 = currentSets st → exerciseIndex st1 = exerciseIndex st →
    handleToggleSet routine i st1
    = Done (let st2 := setHeap (heap st) st1 in
            if ws_completed s' then st2 else startRest rex st2)) as Hsnd.
  { intros st1 Hh Hc He. erewrite handleToggleSet_eq; [|by rewrite Hc| |by rewrite He].
    2: { rewrite Hh. by apply list_lookup_insert_eq. }
    rewrite Hh, list_insert_insert_eq. unfold s'.
    by rewrite with_completed_twice, list_insert_id. }
  destruct (ws_completed s) eqn:Ec; rewrite Hsnd; simpl;
    rewrite ?startRest_heap, ?startRest_currentSets, ?startRest_exerciseIndex;
    try done;
    by rewrite <-?startRest_setHeap, setHeap_setHeap, setHeap_same.
Qed.

(** C29: [handleUpdateValue] replaces the performed value of the set at
    [index] by [max 0 (value + delta)], which is never negative whatever
    [delta] is; it does so whether or not the set is completed, and it
    changes no other field of that set and no other set. *)
Theorem update_value_never_negative st vs i s delta :
  wf routine library st → currentSetValues st = Some vs → vs !! i = Some s →
  ∃ st' s', handleUpdateValue i delta st = Done st' ∧
    currentSetValues st' = Some (<[i := s']> vs) ∧
    ws_repsOrDuration s' = Z.max 0 (ws_repsOrDuration s + delta) ∧
    0 ≤ ws_repsOrDuration s' ∧
    ws_setNumber s' = ws_setNumber s ∧ ws_completed s' = ws_completed s ∧
    ws_target s' = ws_target s.
Proof.
  intros H Hd Hs.
  destruct (handleUpdateValue_Done st vs i s delta) as (st' & E & Hv);
    [apply H|done..|].
  eexists _, _. split_and!; [done..| |done|done|done]. simpl. apply Math_max_0_nonneg.
Qed.

(** C26: [handleAddSet] followed by [handleRemoveSet] gives the page the
    same set references and the same set values as before, provided there
    was a set to begin with.  On an empty list, which the page never makes
    from a plan with a positive set count, the added set (number 1, value
    and target 10) stays: the list does not shrink back to empty. *)
Theorem add_then_remove_restores st vs :
  currentSetValues st = Some vs →
  currentSetValues (handleRemoveSet (handleAddSet st))
  = Some (if decide (vs = []) then [mkWorkoutSetResult 1 false 10 10] else vs) ∧
  (vs ≠ [] → currentSets (handleRemoveSet (handleAddSet st)) = currentSets st).
Proof.
  intros Hd. pose proof (handleAddSet_values _ _ Hd) as Ha.
  rewrite (handleRemoveSet_values _ _ Ha), length_app. simpl. split.
  - destruct vs; simpl; [done|].
    rewrite bool_decide_true by lia. apply f_equal, (slice_0_m1_app (_ :: _)).
  - intros Hne. unfold handleRemoveSet, handleAddSet. simpl.
    rewrite length_app, bool_decide_true; simpl.
    + apply slice_0_m1_app.
    + rewrite (current_length _ _ Hd). destruct vs; [done|simpl; lia].
Qed.

(** [handleRemoveSet] drops the last set when there are at least two
    and does nothing otherwise, so a list with a set never becomes empty;
    the sets that remain keep their values. *)
Theorem remove_keeps_one_set st vs :
  currentSetValues st = Some vs → vs ≠ [] →
  ∃ vs', currentSetValues (handleRemoveSet st) = Some vs' ∧
    vs' = take (Nat.max 1 (length vs - 1)) vs ∧ (1 ≤ length vs')%nat.
Proof.
  intros Hd Hne. rewrite (handleRemoveSet_values _ _ Hd). eexists. split; [done|].
  assert (1 ≤ length vs)%nat by (destruct vs; [done|simpl; lia]).
  unfold JS.slice_0_m1. case_bool_decide.
  - rewrite Nat.max_r, length_take by lia. split; [done|lia].
  - rewrite Nat.max_l, take_ge by lia. split; [done|lia].
Qed.

(** [handleAddSet] appends one set, numbered one more than the number
    of sets, not completed, whose performed value and target are copied
    from the last set as it stands (adjusted value included), or are
    both 10 when there is no set. *)
Theorem add_set_copies_last st vs :
  currentSetValues st = Some vs →
  currentSetValues (handleAddSet st)
  = Some (vs ++ [mkWorkoutSetResult (Z.of_nat (length vs) + 1) false
                   (from_option ws_repsOrDuration 10 (last vs))
                   (from_option ws_target 10 (last vs))]).
Proof.
  intros Hd. rewrite (handleAddSet_values _ _ Hd). unfold addedSet.
  by destruct (last vs).
Qed.

(** An index past the end of the set list makes [handleToggleSet]
    and [handleUpdateValue] throw a [TypeError] before they change
    anything: the state at the throw is the state before the call. *)
Theorem indexed_handlers_throw_out_of_range st i delta :
  (length (currentSets st) ≤ i)%nat →
  dispatch routine library (ToggleSet i) st = Threw TypeError st ∧
  dispatch routine library (UpdateValue i delta) st = Threw TypeError st.
Proof.
  intros Hi. rewrite dispatch_ToggleSet, dispatch_UpdateValue.
  by rewrite handleToggleSet_Threw, handleUpdateValue_Threw.
Qed.

(** In a state that satisfies the invariant no event of the page
    throws, as long as the two indexed events name a set of the list. *)
Theorem valid_events_never_throw ev st :
  wf routine library st → valid ev st →
  threw (dispatch routine library ev st) = false.
Proof.
  intros H Hv. destruct ev; simpl in Hv;
    autorewrite with mob_rw; try done.
  - destruct (wf_valid_lookup _ _ H Hv) as (l & s & rex & Hl & Hs & Hrex).
    by rewrite (handleToggleSet_eq _ _ _ _ _ Hl Hs Hrex).
  - destruct (wf_valid_lookup _ _ H Hv) as (l & s & rex & Hl & Hs & Hrex).
    by rewrite (handleUpdateValue_eq _ _ _ _ _ Hl Hs).
  - by destruct (wf_dispatch_Next _ _ _ H) as (st' & -> & _).
  - by destruct (wf_dispatch_Prev _ _ _ H) as (st' & -> & _).
Qed.

End sets.

(** ** Witnesses *)

Lemma toggle_twice_restores_sets_witness :
  ∃ routineEx,
    r_exercises demo_routine !! exerciseIndex demo_start = Some routineEx ∧
    handleToggleSet demo_routine 1 demo_start >>> handleToggleSet demo_routine 1
    = Done (startRest routineEx demo_start).
Proof.
  apply (toggle_twice_restores_sets demo_routine demo_library).
  - exact demo_start_wf.
  - vm_compute. lia.
Defined.

Lemma update_value_never_negative_witness :
  ∃ st' s', handleUpdateValue 0 (-1000) demo_start = Done st' ∧
    currentSetValues st'
    = Some (<[0%nat := s']> [mkWorkoutSetResult 1 false 10 10;
                             mkWorkoutSetResult 2 false 10 10]) ∧
    ws_repsOrDuration s' = Z.max 0 (10 + -1000) ∧
    0 ≤ ws_repsOrDuration s' ∧
    ws_setNumber s' = 1 ∧ ws_completed s' = false ∧ ws_target s' = 10.
Proof.
  apply (update_value_never_negative demo_routine demo_library demo_start
           [mkWorkoutSetResult 1 false 10 10; mkWorkoutSetResult 2 false 10 10]
           0 (mkWorkoutSetResult 1 false 10 10)).
  - exact demo_start_wf.
  - reflexivity.
  - reflexivity.
Defined.

Lemma add_then_remove_restores_witness :
  currentSetValues (handleRemoveSet (handleAddSet demo_start))
  = Some [mkWorkoutSetResult 1 false 10 10; mkWorkoutSetResult 2 false 10 10] ∧
  ([mkWorkoutSetResult 1 false 10 10; mkWorkoutSetResult 2 false 10 10] ≠ [] →
   currentSets (handleRemoveSet (handleAddSet demo_start))
   = currentSets demo_start).
Proof.
  apply (add_then_remove_restores demo_start
           [mkWorkoutSetResult 1 false 10 10; mkWorkoutSetResult 2 false 10 10]).
  reflexivity.
Defined.

Lemma remove_keeps_one_set_witness :
  ∃ vs', currentSetValues (handleRemoveSet (handleRemoveSet demo_start))
         = Some vs' ∧
    vs' = take (Nat.max 1 (1 - 1)) [mkWorkoutSetResult 1 false 10 10] ∧
    (1 ≤ length vs')%nat.
Proof.
  apply (remove_keeps_one_set (handleRemoveSet demo_start)
           [mkWorkoutSetResult 1 false 10 10]).
  - reflexivity.
  - discriminate.
Defined.

Lemma add_set_copies_last_witness :
  currentSetValues (handleAddSet demo_start)
  = Some [mkWorkoutSetResult 1 false 10 10; mkWorkoutSetResult 2 false 10 10;
          mkWorkoutSetResult 3 false 10 10].
Proof.
  apply (add_set_copies_last demo_start
           [mkWorkoutSetResult 1 false 10 10; mkWorkoutSetResult 2 false 10 10]).
  reflexivity.
Defined.

Lemma indexed_handlers_throw_out_of_range_witness :
  dispatch demo_routine demo_library (ToggleSet 2) demo_start
  = Threw TypeError demo_start ∧
  dispatch demo_routine demo_library (UpdateValue 2 1) demo_start
  = Threw TypeError demo_start.
Proof.
  apply (indexed_handlers_throw_out_of_range demo_routine demo_library).
  vm_compute. lia.
Defined.

Lemma valid_events_never_throw_witness :
  threw (dispatch demo_routine demo_library (ToggleSet 1) demo_start) = false.
Proof.
  apply valid_events_never_throw.
  - exact demo_start_wf.
  - vm_compute. lia.
Defined.
