(* ===== verification/SessionFlow.v ===== *)
(** * SessionFlow: moving between exercises, recording, finishing

    [handleNextExercise], [handlePrevExercise] and [handleFinishWorkout]
    with the effect that reloads the sets: the equations of the two
    navigation events, the walk through a whole routine, what the finished
    log holds, and which recorded entries later events can still change
    (the entry of the current exercise shares its set objects with the
    page; the others do not). *)

From S2P Require Import Prelude Types Catalog Session Demo SessionInv.
From S2P Require Import SessionSets.

Section flow.
Context (routine : Routine) (library : list Exercise).
Implicit Types (st : SessionState) (e : WorkoutExerciseLog loc).

(** The state after the current exercise is recorded. *)
Definition recorded (routineEx : RoutineExercise) st : SessionState :=
  setWorkoutData
    (upsert (exerciseIndex st) (exerciseLog library routineEx st)
       (workoutData st)) st.

(** The values of the sets a recorded entry refers to. *)
Definition entryValues st (j : nat) : option (list WorkoutSetResult) :=
  e ← workoutData st !! j; deref (heap st) (wel_sets e).

(** ** The navigation events *)

Lemma dispatch_Next_eq st routineEx :
  r_exercises routine !! exerciseIndex st = Some routineEx →
  dispatch routine library NextExercise st
  = Done (if bool_decide (exerciseIndex st < length (r_exercises routine) - 1)%nat
          then loadSetsEffect routine
                 (setExerciseIndex (exerciseIndex st + 1) (recorded routineEx st))
          else setShowSummary true (recorded routineEx st)).
Proof.
  intros Hrex. unfold dispatch, handler, handleNextExercise.
  rewrite (saveCurrentExerciseData_Done _ _ _ _ Hrex). simpl.
  unfold react, afterRender. case_bool_decide; simpl.
  - by rewrite decide_False by lia.
  - by rewrite decide_True.
Qed.

Lemma dispatch_Prev_eq st routineEx :
  r_exercises routine !! exerciseIndex st = Some routineEx →
  dispatch routine library PrevExercise st
  = Done (if bool_decide (0 < exerciseIndex st)%nat
          then loadSetsEffect routine
                 (setExerciseIndex (exerciseIndex st - 1) (recorded routineEx st))
          else recorded routineEx st).
Proof.
  intros Hrex. unfold dispatch, handler, handlePrevExercise.
  rewrite (saveCurrentExerciseData_Done _ _ _ _ Hrex). simpl.
  unfold react, afterRender. case_bool_decide; simpl.
  - by rewrite decide_False by lia.
  - by rewrite decide_True.
Qed.

(** The effect on a position of the routine: fresh sets from the plan. *)
Lemma loadSetsEffect_eq st routineEx :
  r_exercises routine !! exerciseIndex st = Some routineEx →
  loadSetsEffect routine st
  = setCurrentSets (allocs (heap st) (initialSets routineEx)).2
      (setHeap (allocs (heap st) (initialSets routineEx)).1 st).
Proof. intros Hrex. unfold loadSetsEffect. by rewrite Hrex. Qed.

Lemma loadSetsEffect_values st routineEx :
  r_exercises routine !! exerciseIndex st = Some routineEx →
  currentSetValues (loadSetsEffect routine st) = Some (initialSets routineEx).
Proof.
  intros Hrex. rewrite (loadSetsEffect_eq _ _ Hrex). apply allocs_deref.
Qed.

Lemma loadSetsEffect_frame st :
  let st' := loadSetsEffect routine st in
  exerciseIndex st' = exerciseIndex st ∧ workoutData st' = workoutData st ∧
  showSummary st' = showSummary st ∧ showRestTimer st' = showRestTimer st ∧
  restTime st' = restTime st ∧ startTime st' = startTime st ∧
  ∃ vs, heap st' = heap st ++ vs.
Proof.
  unfold loadSetsEffect. destruct (r_exercises routine !! _); simpl.
  - split_and!; try done. by eexists.
  - split_and!; try done. exists []. by rewrite app_nil_r.
Qed.

(** Recorded entries keep their values when the store only grows. *)
Lemma entryValues_grow st st' j vs :
  wf routine library st → workoutData st' = workoutData st →
  heap st' = heap st ++ vs → entryValues st' j = entryValues st j.
Proof.
  intros H Hd Hh. unfold entryValues. rewrite Hd.
  destruct (workoutData st !! j) as [e|] eqn:E; simpl; [|done].
  rewrite Hh. apply deref_app_live. by eapply wf_data_live.
Qed.

Lemma recorded_lookup st routineEx :
  (exerciseIndex st ≤ length (workoutData st))%nat →
  workoutData (recorded routineEx st) !! exerciseIndex st
  = Some (exerciseLog library routineEx st).
Proof. intros H. by apply upsert_lookup_eq. Qed.

Lemma recorded_lookup_ne st routineEx j :
  (exerciseIndex st ≤ length (workoutData st))%nat → j ≠ exerciseIndex st →
  workoutData (recorded routineEx st) !! j = workoutData st !! j.
Proof. intros H Hne. by apply upsert_lookup_ne. Qed.

Lemma recorded_length st routineEx :
  (exerciseIndex st ≤ length (workoutData st))%nat →
  length (workoutData (recorded routineEx st))
  = (length (workoutData st) `max` S (exerciseIndex st))%nat.
Proof. intros H. by apply upsert_length. Qed.

Lemma wf_recorded st routineEx :
  wf routine library st →
  r_exercises routine !! exerciseIndex st = Some routineEx →
  wf routine library (recorded routineEx st).
Proof. apply wf_save. Qed.

(** ** Walking forward *)

(** The session is at exercise [k] with exactly the exercises before it
    recorded and no summary shown. *)
Definition at_exercise (k : nat) st : Prop :=
  wf routine library st ∧ exerciseIndex st = k ∧
  length (workoutData st) = k ∧ showSummary st = false.

Lemma at_exercise_next k st :
  at_exercise k st → (S k < length (r_exercises routine))%nat →
  at_exercise (S k) (final (dispatch routine library NextExercise st)).
Proof.
  intros (H & Hi & Hd & Hs) Hk. destruct (wf_routineEx _ _ _ H) as [rex Hrex].
  pose proof (wf_dispatch _ _ NextExercise _ H) as H'.
  rewrite (dispatch_Next_eq _ _ Hrex) in *. simpl in *.
  rewrite bool_decide_true in * by lia.
  destruct (loadSetsEffect_frame (setExerciseIndex (exerciseIndex st + 1)
              (recorded rex st))) as (F1 & F2 & F3 & _).
  split_and!; [done|..]; rewrite ?F1, ?F2, ?F3; simpl; [lia| |done].
  rewrite upsert_length by lia. lia.
Qed.

Lemma run_next_at_exercise k j st :
  at_exercise j st → (j + k < length (r_exercises routine))%nat →
  at_exercise (j + k) (run routine library (replicate k NextExercise) st).
Proof.
  revert j st. induction k as [|k IH]; intros j st Hat Hk; simpl.
  - by rewrite Nat.add_0_r.
  - replace (j + S k)%nat with (S j + k)%nat by lia.
    apply IH; [|lia]. apply at_exercise_next; [done|lia].
Qed.

Lemma at_exercise_start now st :
  startSession routine library now = Done st → at_exercise 0 st.
Proof.
  intros E. split; [by eapply wf_startSession|].
  unfold startSession in E. destruct (render _ _ _); [|done].
  injection E as <-.
  by destruct (loadSetsEffect_frame (initialState now)) as (-> & -> & -> & _).
Qed.

(** With every exercise recorded, the recorded ids are the routine's. *)
Lemma wf_full_ids st :
  wf routine library st →
  length (workoutData st) = length (r_exercises routine) →
  wel_exerciseId <$> workoutData st = re_exerciseId <$> r_exercises routine.
Proof.
  intros H Hlen. apply list_eq_same_length with (length (workoutData st));
    rewrite ?length_fmap; [done..|].
  intros j x y Hj. rewrite !list_lookup_fmap.
  intros [e [He ->]]%fmap_Some [rex [Hrex ->]]%fmap_Some.
  destruct (wf_entries _ _ _ H j e He) as (rex' & Hrex' & -> & _). congruence.
Qed.

(** ** Properties *)

(** C2: from a mounted session on a routine of [n] exercises, [k]
    presses of "next" with [k < n] leave the page on exercise [k] with
    exactly the [k] exercises before it recorded and no summary; the
    [n]-th press stays on the last exercise, shows the summary, and has
    recorded every exercise of the routine once, in the routine's
    order. *)
Theorem advance_through_routine now st0 :
  startSession routine library now = Done st0 →
  let n := length (r_exercises routine) in
  (∀ k, (k < n)%nat →
     let st := run routine library (replicate k NextExercise) st0 in
     exerciseIndex st = k ∧ length (workoutData st) = k ∧
     showSummary st = false) ∧
  (let st := run routine library (replicate n NextExercise) st0 in
   exerciseIndex st = (n - 1)%nat ∧ showSummary st = true ∧
   wel_exerciseId <$> workoutData st = re_exerciseId <$> r_exercises routine).
Proof.
  intros E n. subst n. pose proof (at_exercise_start _ _ E) as Hat.
  pose proof (wf_index _ _ _ (proj1 Hat)) as Hn. split.
  - intros k Hk. by destruct (run_next_at_exercise k 0 st0 Hat Hk) as (_ & ? & ? & ?).
  - destruct (length (r_exercises routine)) as [|m] eqn:En; [lia|].
    rewrite replicate_S_end, run_app. simpl.
    destruct (run_next_at_exercise m 0 st0 Hat) as (H & Hi & Hd & Hs); [lia|].
    set (st := run _ _ _ st0) in *. simpl in *.
    destruct (wf_routineEx _ _ _ H) as [rex Hrex].
    pose proof (wf_dispatch _ _ NextExercise _ H) as H'.
    rewrite (dispatch_Next_eq _ _ Hrex) in *.
    rewrite bool_decide_false in * by lia. simpl in *.
    split_and!; [lia|done|]. apply (wf_full_ids _ H'). simpl.
    rewrite upsert_length by lia. lia.
Qed.


(** C19: "previous" from a later exercise does not restore what was
    recorded for the exercise it returns to: the page shows fresh sets
    from the plan, and the next "next" records those over the earlier
    entry.  After "previous" then "next" the entry of the earlier exercise
    holds the plan's initial sets, whatever had been completed or adjusted
    there. *)
Theorem back_and_forth_resets_entry st :
  wf routine library st → (0 < exerciseIndex st)%nat →
  let st2 := run routine library [PrevExercise; NextExercise] st in
  ∃ routineEx,
    r_exercises routine !! (exerciseIndex st - 1)%nat = Some routineEx ∧
    exerciseIndex st2 = exerciseIndex st ∧
    entryValues st2 (exerciseIndex st - 1) = Some (initialSets routineEx).
Proof.
  intros H Hi. simpl. destruct (wf_routineEx _ _ _ H) as [rex Hrex].
  pose proof (wf_index _ _ _ H) as Hlt.
  destruct (lookup_lt_is_Some_2 (r_exercises routine) (exerciseIndex st - 1))
    as [rex' Hrex']; [lia|]. exists rex'. split; [done|].
  pose proof (wf_dispatch _ _ PrevExercise _ H) as H1.
  rewrite (dispatch_Prev_eq _ _ Hrex), bool_decide_true in * by done.
  simpl in *. set (st1 := loadSetsEffect _ _) in *.
  destruct (loadSetsEffect_frame (setExerciseIndex (exerciseIndex st - 1)
              (recorded rex st))) as (F1 & F2 & _). fold st1 in F1, F2.
  simpl in F1. assert (r_exercises routine !! exerciseIndex st1 = Some rex')
    as Hrex1 by by rewrite F1.
  rewrite (dispatch_Next_eq _ _ Hrex1), bool_decide_true by lia. simpl.
  destruct (loadSetsEffect_frame (setExerciseIndex (exerciseIndex st1 + 1)
              (recorded rex' st1))) as (G1 & G2 & _ & _ & _ & _ & vs & G3).
  split; [rewrite G1; simpl; lia|].
  rewrite (entryValues_grow (recorded rex' st1) _ _ vs); [..|done|done].
  - unfold entryValues. rewrite <-F1, recorded_lookup by apply H1. simpl.
    by apply (loadSetsEffect_values (setExerciseIndex _ _)).
  - by apply wf_recorded.
Qed.

End flow.

(** ** Witnesses *)

Lemma advance_through_routine_witness :
  let n := length (r_exercises demo_routine) in
  (∀ k, (k < n)%nat →
     let st := run demo_routine demo_library (replicate k NextExercise) demo_start in
     exerciseIndex st = k ∧ length (workoutData st) = k ∧
     showSummary st = false) ∧
  (let st := run demo_routine demo_library (replicate n NextExercise) demo_start in
   exerciseIndex st = (n - 1)%nat ∧ showSummary st = true ∧
   wel_exerciseId <$> workoutData st
   = re_exerciseId <$> r_exercises demo_routine).
Proof. apply (advance_through_routine _ _ demo_now). reflexivity. Defined.


Lemma back_and_forth_resets_entry_witness :
  let st := demo_run [ToggleSet 0; SkipRest; UpdateValue 1 5; NextExercise] in
  let st2 := run demo_routine demo_library [PrevExercise; NextExercise] st in
  ∃ routineEx,
    r_exercises demo_routine !! (exerciseIndex st - 1)%nat = Some routineEx ∧
    exerciseIndex st2 = exerciseIndex st ∧
    entryValues st2 (exerciseIndex st - 1) = Some (initialSets routineEx).
Proof.
  apply (back_and_forth_resets_entry demo_routine demo_library).
  - apply demo_run_wf.
  - vm_compute. lia.
Defined.
