(* ===== verification/SessionData.v ===== *)
(** * SessionData: the sets a session holds and records are well formed

    On a routine that a session accepts ([routine_ok]), every list of
    sets the page holds or has recorded is not empty, its sets are
    numbered from 1 without gap, their target is the planned value of
    their exercise and their performed value is not negative.  The
    property is stated on the objects of the store, so that it does not
    matter which lists share them. *)

From S2P Require Import Prelude Types Catalog Session Demo SessionInv.
From S2P Require Import SessionSets SessionFlow.

(** The set object at position [i] of a list of exercise [routineEx]. *)
Definition obj_ok (routineEx : RoutineExercise) (i : nat) (s : WorkoutSetResult)
    : Prop :=
  ws_setNumber s = Z.of_nat i + 1 ∧
  ws_target s = re_repsOrDuration routineEx ∧
  0 ≤ ws_repsOrDuration s.

(** A list of set references of exercise [routineEx] in the store [h]. *)
Definition list_ok (h : store WorkoutSetResult) (routineEx : RoutineExercise)
    (ls : list loc) : Prop :=
  ls ≠ [] ∧
  ∀ i l, ls !! i = Some l → ∃ s, h !! l = Some s ∧ obj_ok routineEx i s.

(** A list of set values of exercise [routineEx]. *)
Definition sets_ok (routineEx : RoutineExercise) (vs : list WorkoutSetResult)
    : Prop :=
  vs ≠ [] ∧ ∀ i s, vs !! i = Some s → obj_ok routineEx i s.

(** The store changed, but no object changed its number or target or got
    a negative value. *)
Definition extends (h h' : store WorkoutSetResult) : Prop :=
  ∀ l s, h !! l = Some s →
    ∃ s', h' !! l = Some s' ∧ ws_setNumber s' = ws_setNumber s ∧
      ws_target s' = ws_target s ∧
      (0 ≤ ws_repsOrDuration s → 0 ≤ ws_repsOrDuration s').

#[export] Instance obj_ok_dec routineEx i s : Decision (obj_ok routineEx i s).
Proof. unfold obj_ok. apply _. Defined.

Section data.
Context (routine : Routine) (library : list Exercise).
Implicit Types (st : SessionState) (h : store WorkoutSetResult).

(** The sets of every recorded entry are well formed. *)
Definition entries_ok st : Prop :=
  ∀ j e, workoutData st !! j = Some e →
    ∃ routineEx, r_exercises routine !! j = Some routineEx ∧
      list_ok (heap st) routineEx (wel_sets e).

(** The sets of the page and of every recorded entry are well formed. *)
Definition data_ok st : Prop :=
  (∃ routineEx, r_exercises routine !! exerciseIndex st = Some routineEx ∧
     list_ok (heap st) routineEx (currentSets st)) ∧
  entries_ok st.

(** ** The store *)

Lemma extends_refl h : extends h h.
Proof. intros l s Hs. by exists s. Qed.

Lemma extends_app h vs : extends h (h ++ vs).
Proof. intros l s Hs. exists s. split; [by apply lookup_app_l_Some|done]. Qed.

Lemma extends_insert h l s s' :
  h !! l = Some s → ws_setNumber s' = ws_setNumber s →
  ws_target s' = ws_target s →
  (0 ≤ ws_repsOrDuration s → 0 ≤ ws_repsOrDuration s') →
  extends h (<[l := s']> h).
Proof.
  intros Hl Hn Ht Hv l' x Hx. destruct (decide (l' = l)) as [->|Hne].
  - exists s'. rewrite list_lookup_insert_eq by by eapply lookup_lt_Some.
    by simplify_eq.
  - exists x. by rewrite list_lookup_insert_ne.
Qed.

Lemma list_ok_extends h h' routineEx ls :
  extends h h' → list_ok h routineEx ls → list_ok h' routineEx ls.
Proof.
  intros Hext [Hne Hall]. split; [done|]. intros i l Hl.
  destruct (Hall i l Hl) as (s & Hs & Hn & Ht & Hv).
  destruct (Hext l s Hs) as (s' & Hs' & Hn' & Ht' & Hv').
  exists s'. split; [done|]. split_and!; [congruence..|auto].
Qed.

Lemma list_ok_sets_ok h routineEx ls vs :
  deref h ls = Some vs → list_ok h routineEx ls ↔ sets_ok routineEx vs.
Proof.
  intros Hd. pose proof (deref_length _ _ _ Hd) as Hlen. split.
  - intros [Hne Hall]. split; [by destruct ls, vs|]. intros i s Hs.
    destruct (lookup_lt_is_Some_2 ls i) as [l Hl];
      [apply lookup_lt_Some in Hs; lia|].
    destruct (Hall i l Hl) as (s' & Hs' & Hok).
    rewrite (deref_lookup _ _ _ _ _ Hd Hl) in Hs'. by simplify_eq.
  - intros [Hne Hall]. split; [by destruct ls, vs|]. intros i l Hl.
    destruct (lookup_lt_is_Some_2 vs i) as [s Hs];
      [apply lookup_lt_Some in Hl; lia|].
    exists s. split; [by rewrite (deref_lookup _ _ _ _ _ Hd Hl)|by apply Hall].
Qed.

(** A step that only changes the store. *)
Lemma data_ok_extends st st' :
  extends (heap st) (heap st') → exerciseIndex st' = exerciseIndex st →
  workoutData st' = workoutData st → currentSets st' = currentSets st →
  data_ok st → data_ok st'.
Proof.
  intros Hext Hi Hd Hc [(rex & Hrex & Hcur) Hall]. split.
  - exists rex. rewrite Hi, Hc. split; [done|by eapply list_ok_extends].
  - unfold entries_ok. rewrite Hd. intros j e He.
    destruct (Hall j e He) as (rex' & ? & ?).
    exists rex'. split; [done|by eapply list_ok_extends].
Qed.

(** ** The handlers *)

Lemma indexed_lookup st index l s :
  currentSets st !! index ≫= (λ l, (l,.) <$> heap st !! l) = Some (l, s) →
  heap st !! l = Some s.
Proof.
  destruct (currentSets st !! index) as [l'|]; simpl; [|done].
  destruct (heap st !! l') eqn:E; simpl; [|done]. by intros [= <- <-].
Qed.

Lemma handleToggleSet_extends st index :
  extends (heap st) (heap (final (handleToggleSet routine index st))).
Proof.
  unfold handleToggleSet.
  destruct (currentSets st !! index ≫= _) as [[l s]|] eqn:E; simpl;
    [|apply extends_refl].
  apply indexed_lookup in E.
  repeat case_match; simpl; by apply (extends_insert _ _ s).
Qed.

Lemma handleUpdateValue_extends st index delta :
  extends (heap st) (heap (final (handleUpdateValue index delta st))).
Proof.
  unfold handleUpdateValue.
  destruct (currentSets st !! index ≫= _) as [[l s]|] eqn:E; simpl;
    [|apply extends_refl].
  apply indexed_lookup in E. apply (extends_insert _ _ s); try done.
  intros _. simpl. apply Math_max_0_nonneg.
Qed.

Lemma list_ok_last h routineEx ls :
  list_ok h routineEx ls →
  ∃ s, JS.last_elem ls ≫= (λ l, h !! l) = Some s ∧
    obj_ok routineEx (length ls - 1) s.
Proof.
  intros [Hne Hall]. unfold JS.last_elem. rewrite last_lookup.
  destruct (lookup_lt_is_Some_2 ls (pred (length ls))) as [l Hl];
    [destruct ls; [done|simpl; lia]|].
  rewrite Hl. simpl. rewrite Nat.sub_1_r. by apply Hall.
Qed.

Lemma list_ok_add h routineEx ls s :
  list_ok h routineEx ls → obj_ok routineEx (length ls) s →
  list_ok (h ++ [s]) routineEx (ls ++ [length h]).
Proof.
  intros Hok Hs. split; [by destruct ls|]. intros i l Hl.
  apply lookup_app_Some in Hl as [Hl|[Hi Hl]].
  - destruct (proj2 Hok i l Hl) as (x & Hx & ?). exists x.
    split; [by apply lookup_app_l_Some|done].
  - apply list_lookup_singleton_Some in Hl as [Hi' <-].
    exists s. split; [by apply list_lookup_middle|].
    by replace i with (length ls) by lia.
Qed.

Lemma data_ok_handleAddSet st : data_ok st → data_ok (handleAddSet st).
Proof.
  intros [(rex & Hrex & Hcur) Hall]. split.
  - exists rex. split; [done|]. unfold handleAddSet, alloc. simpl.
    apply list_ok_add; [done|].
    destruct (list_ok_last _ _ _ Hcur) as (s & -> & _ & Ht & Hv).
    by split_and!.
  - intros j e He. destruct (Hall j e He) as (rex' & ? & ?). exists rex'.
    split; [done|]. eapply list_ok_extends; [apply extends_app|done].
Qed.

Lemma data_ok_handleRemoveSet st : data_ok st → data_ok (handleRemoveSet st).
Proof.
  intros Hd. unfold handleRemoveSet. case_bool_decide as Hlen; [|done].
  destruct Hd as [(rex & Hrex & [Hne Hcur]) Hall]. split; [|done]. exists rex.
  split; [done|]. simpl. unfold JS.slice_0_m1. split.
  - destruct (currentSets st) as [|? [|? ?]]; simpl in *; (done || lia).
  - intros i l Hl. apply lookup_take_Some in Hl as [Hl _]. by apply Hcur.
Qed.

Lemma data_ok_recorded st routineEx :
  wf routine library st →
  r_exercises routine !! exerciseIndex st = Some routineEx →
  data_ok st → data_ok (recorded library routineEx st).
Proof.
  intros H Hrex [(rex & Hrex' & Hcur) Hall]. simplify_eq.
  split; [by exists routineEx|]. intros j e He. simpl in He.
  apply upsert_lookup_inv in He as [[-> ->]|[_ He]]; [|by apply Hall|apply H].
  by exists routineEx.
Qed.

Lemma list_ok_initialSets h routineEx :
  1 ≤ re_sets routineEx → 0 ≤ re_repsOrDuration routineEx →
  list_ok (allocs h (initialSets routineEx)).1 routineEx
    (allocs h (initialSets routineEx)).2.
Proof.
  intros Hs Hv. split.
  - intros E. apply (f_equal length) in E.
    rewrite allocs_locs_length, initialSets_length in E. simpl in E. lia.
  - intros i l Hl. rewrite (allocs_lookup_new _ _ _ _ Hl).
    destruct (lookup_lt_is_Some_2 (initialSets routineEx) i) as [s Hs'].
    { apply lookup_lt_Some in Hl. by rewrite allocs_locs_length in Hl. }
    exists s. split; [done|]. by rewrite (initialSets_lookup _ _ _ Hs').
Qed.

Lemma data_ok_load st k :
  routine_ok routine → (k < length (r_exercises routine))%nat →
  entries_ok st → data_ok (loadSetsEffect routine (setExerciseIndex k st)).
Proof.
  intros [_ Hok] Hk Hall.
  destruct (lookup_lt_is_Some_2 _ _ Hk) as [rex Hrex].
  rewrite (loadSetsEffect_eq routine _ rex) by done.
  destruct (proj1 (Forall_forall _ _) Hok rex) as (Hs & Hv & _);
    [by eapply list_elem_of_lookup_2|].
  split; [exists rex; split; [done|by apply list_ok_initialSets]|].
  intros j e He. destruct (Hall j e He) as (rex' & ? & ?). exists rex'.
  split; [done|]. eapply list_ok_extends; [apply extends_app|done].
Qed.

Lemma data_ok_dispatch ev st :
  routine_ok routine → wf routine library st → data_ok st →
  data_ok (final (dispatch routine library ev st)).
Proof.
  intros Hok H Hd. destruct (wf_routineEx _ _ _ H) as [rex Hrex].
  pose proof (wf_index _ _ _ H) as Hi.
  destruct ev; autorewrite with mob_rw; simpl;
    try (by eapply data_ok_extends; [apply extends_refl|..]).
  - eapply data_ok_extends; [apply handleToggleSet_extends|..|done];
      apply handleToggleSet_frame.
  - eapply data_ok_extends; [apply handleUpdateValue_extends|..|done];
      apply handleUpdateValue_frame.
  - by apply data_ok_handleAddSet.
  - by apply data_ok_handleRemoveSet.
  - rewrite (dispatch_Next_eq _ _ _ _ Hrex). simpl. case_bool_decide.
    + apply data_ok_load; [done|lia|by apply data_ok_recorded].
    + eapply data_ok_extends; [apply extends_refl|..|by apply data_ok_recorded];
        done.
  - rewrite (dispatch_Prev_eq _ _ _ _ Hrex). simpl. case_bool_decide.
    + apply data_ok_load; [done|lia|by apply data_ok_recorded].
    + by apply data_ok_recorded.
  - destruct (showRestTimer st && _); [|done].
    by eapply data_ok_extends; [apply extends_refl|..].
Qed.

Lemma data_ok_run evs st :
  routine_ok routine → wf routine library st → data_ok st →
  data_ok (run routine library evs st).
Proof.
  intros Hok. revert st. induction evs as [|ev evs IH]; intros st H Hd; [done|].
  rewrite run_cons. apply IH; [by apply wf_dispatch|by apply data_ok_dispatch].
Qed.

Lemma data_ok_start now st :
  routine_ok routine → startSession routine library now = Done st → data_ok st.
Proof.
  intros Hok Hst. unfold startSession in Hst.
  destruct (render _ _ _) eqn:E; [|done]. injection Hst as <-.
  apply (data_ok_load (initialState now) 0 Hok); [|done].
  destruct Hok as [Hne _]. destruct (r_exercises routine); [done|simpl; lia].
Qed.

(** ** Properties *)

(** C24: the sets are always well formed.  On a routine whose exercises
    have at least one set and no negative planned value, in every state a
    session reaches the page's list of sets and the list of every
    recorded entry is not empty, set [i] (from 0) carries the number
    [i + 1], every target is the planned value of the entry's exercise,
    and no performed value is negative. *)
Theorem sets_always_ok now evs st0 :
  routine_ok routine → startSession routine library now = Done st0 →
  let st := run routine library evs st0 in
  (∃ routineEx vs, r_exercises routine !! exerciseIndex st = Some routineEx ∧
     currentSetValues st = Some vs ∧ sets_ok routineEx vs) ∧
  ∀ j vs, entryValues st j = Some vs →
    ∃ routineEx, r_exercises routine !! j = Some routineEx ∧ sets_ok routineEx vs.
Proof.
  intros Hok Hst. cbv zeta. pose proof (wf_startSession _ _ _ _ Hst) as H0.
  pose proof (wf_run _ _ evs _ H0) as H.
  destruct (data_ok_run evs st0 Hok H0 (data_ok_start _ _ Hok Hst))
    as [(rex & Hrex & Hcur) Hall].
  split.
  - destruct (wf_currentSetValues _ _ _ H) as [vs Hv]. exists rex, vs.
    split_and!; [done..|]. by apply (list_ok_sets_ok _ _ _ _ Hv).
  - intros j vs Hv. unfold entryValues in Hv.
    destruct (workoutData _ !! j) as [e|] eqn:He; [|done]. simpl in Hv.
    destruct (Hall j e He) as (rex' & ? & ?). exists rex'.
    split; [done|]. by apply (list_ok_sets_ok _ _ _ _ Hv).
Qed.

End data.

(** ** Witnesses *)

Lemma sets_always_ok_witness :
  let st := demo_run [ToggleSet 0; SkipRest; UpdateValue 1 (-20); AddSet;
                      NextExercise; RemoveSet; PrevExercise] in
  (∃ routineEx vs,
     r_exercises demo_routine !! exerciseIndex st = Some routineEx ∧
     currentSetValues st = Some vs ∧ sets_ok routineEx vs) ∧
  ∀ j vs, entryValues st j = Some vs →
    ∃ routineEx, r_exercises demo_routine !! j = Some routineEx ∧
      sets_ok routineEx vs.
Proof.
  apply (sets_always_ok demo_routine demo_library demo_now);
    [exact demo_routine_ok|exact demo_start_Done].
Defined.
