(* ===== verification/SessionLog.v ===== *)
(** * SessionLog: what is recorded, what can still change, what is stored

    The entries of [workoutData] hold references to set objects.  An entry
    recorded for another exercise than the current one shares no object
    with the page and keeps its values under every event; the entry of the
    current exercise, once recorded without leaving the exercise, is the
    page's own set list and follows the toggles and adjustments made
    afterwards, though not the sets added or removed.
    [handleFinishWorkout] stores the entries as they stand at that
    moment. *)

From S2P Require Import Prelude Types Catalog Session Demo SessionInv.
From S2P Require Import SessionSets SessionFlow.

Section log.
Context (routine : Routine) (library : list Exercise).
Implicit Types (st : SessionState) (e : WorkoutExerciseLog loc).

(** The state whose [workoutData] is what [handleFinishWorkout] stores:
    the current exercise is recorded first when it is not yet. *)
Definition finishing (routineEx : RoutineExercise) st : SessionState :=
  if decide (is_Some (workoutData st !! exerciseIndex st)) then st
  else recorded library routineEx st.

(** The two ways of recording the current exercise without leaving it:
    "previous" on the first exercise, and "next" on the last one followed
    by closing the summary. *)
Definition records_in_place (evs : list Event) st : Prop :=
  (evs = [PrevExercise] ∧ exerciseIndex st = 0%nat) ∨
  (evs = [NextExercise; CancelSummary] ∧
   exerciseIndex st = (length (r_exercises routine) - 1)%nat).

(** ** Values of entries *)

Lemma entryValues_congr st st' j :
  workoutData st' !! j = workoutData st !! j →
  (∀ e, workoutData st !! j = Some e →
        deref (heap st') (wel_sets e) = deref (heap st) (wel_sets e)) →
  entryValues st' j = entryValues st j.
Proof.
  intros Hd Hh. unfold entryValues. rewrite Hd.
  destruct (workoutData st !! j); simpl; auto.
Qed.

Lemma entryValues_write st j l v :
  wf routine library st → j ≠ exerciseIndex st → l ∈ currentSets st →
  entryValues (setHeap (<[l := v]> (heap st)) st) j = entryValues st j.
Proof.
  intros H Hne Hl. apply entryValues_congr; [done|]. simpl. intros e He.
  apply deref_insert_notin. intros Hin.
  by apply (wf_separate _ _ _ H j e He Hne l).
Qed.

Lemma entryValues_recorded st routineEx j :
  wf routine library st → j ≠ exerciseIndex st →
  entryValues (recorded library routineEx st) j = entryValues st j.
Proof.
  intros H Hne. apply entryValues_congr; [|done].
  apply recorded_lookup_ne; [apply H|done].
Qed.

Lemma entryValues_recorded_current st routineEx :
  wf routine library st →
  entryValues (recorded library routineEx st) (exerciseIndex st)
  = currentSetValues st.
Proof.
  intros H. unfold entryValues.
  by rewrite recorded_lookup by apply H.
Qed.

Lemma entryValues_load st j :
  wf routine library st →
  entryValues (loadSetsEffect routine st) j = entryValues st j.
Proof.
  intros H. destruct (loadSetsEffect_frame routine st) as (_ & Hd & _ & _ & _ & _ & vs & Hh).
  by eapply entryValues_grow.
Qed.

Lemma entryValues_is_Some st j :
  wf routine library st → (j < length (workoutData st))%nat →
  is_Some (entryValues st j).
Proof.
  intros H Hj. unfold entryValues.
  destruct (lookup_lt_is_Some_2 _ _ Hj) as [e He]. rewrite He. simpl.
  by eapply live_deref, wf_data_live.
Qed.

(** ** Finishing *)

Lemma handleFinishWorkout_eq endTime idNow st routineEx :
  r_exercises routine !! exerciseIndex st = Some routineEx →
  (exerciseIndex st ≤ length (workoutData st))%nat →
  handleFinishWorkout routine library endTime idNow st
  = Some (mkWorkoutLog (pretty idNow) (r_id routine) (r_name routine)
            (startTime st) endTime ((endTime - startTime st) # 1000)
            (workoutData (finishing routineEx st))).
Proof.
  intros Hrex Hi. unfold handleFinishWorkout, finishing, recorded, upsert.
  rewrite Hrex. by destruct (workoutData st !! exerciseIndex st).
Qed.

Lemma wf_finishing st routineEx :
  wf routine library st →
  r_exercises routine !! exerciseIndex st = Some routineEx →
  wf routine library (finishing routineEx st).
Proof. intros H Hrex. unfold finishing. case_decide; [done|by apply wf_recorded]. Qed.

Lemma finishing_heap st routineEx : heap (finishing routineEx st) = heap st.
Proof. unfold finishing. by case_decide. Qed.

Lemma finishing_length st routineEx :
  (exerciseIndex st ≤ length (workoutData st))%nat →
  length (workoutData (finishing routineEx st))
  = (length (workoutData st) `max` S (exerciseIndex st))%nat.
Proof.
  intros Hi. unfold finishing. case_decide as Hs.
  - apply lookup_lt_is_Some in Hs. lia.
  - by apply recorded_length.
Qed.

(** The entries of a well-formed state can all be read, and reading them
    keeps ids and names. *)
Lemma wf_resolve st :
  wf routine library st →
  ∃ es, mapM (resolve_entry (deref (heap st))) (workoutData st) = Some es ∧
    length es = length (workoutData st) ∧
    ∀ j x, es !! j = Some x →
      entry_of routine library j
        (mkWorkoutExerciseLog (wel_exerciseId x) (wel_exerciseName x) [])
      ∧ entryValues st j = Some (wel_sets x).
Proof.
  intros H. destruct (mapM_is_Some_2 (resolve_entry (deref (heap st)))
                        (workoutData st)) as [es Hes].
  { apply Forall_lookup. intros j e He. unfold resolve_entry. simpl.
    destruct (proj1 (live_deref _ _) (wf_data_live _ _ _ H j e He)) as [vs ->].
    by eexists. }
  exists es. split; [done|]. split; [symmetry; by eapply length_mapM|].
  intros j x Hx. apply mapM_Some in Hes.
  destruct (Forall2_lookup_r _ _ _ _ _ Hes Hx) as (e & He & Hr).
  apply resolve_entry_id in Hr as (Hid & Hname & Hsets).
  destruct (wf_entries _ _ _ H j e He) as (rex & ? & ? & ?). split.
  - exists rex. simpl. by rewrite Hid, Hname.
  - unfold entryValues. by rewrite He.
Qed.

(** Finishing a well-formed state gives a log, and the log can be read. *)
Lemma finish_stored endTime idNow st :
  wf routine library st →
  ∃ log es, handleFinishWorkout routine library endTime idNow st = Some log ∧
    storedLog st log
    = Some (mkWorkoutLog (pretty idNow) (r_id routine) (r_name routine)
              (startTime st) endTime ((endTime - startTime st) # 1000) es).
Proof.
  intros H. destruct (wf_routineEx _ _ _ H) as [rex Hrex].
  destruct (wf_resolve _ (wf_finishing _ _ H Hrex)) as (es & Hes & _).
  rewrite (handleFinishWorkout_eq _ _ _ _ Hrex (wf_visited _ _ _ H)).
  eexists _, es. split; [done|]. unfold storedLog, resolve_log. simpl.
  by rewrite <-(finishing_heap st rex), Hes.
Qed.

(** ** Entries of the other exercises *)

Lemma entryValues_app st st' j vs :
  (∀ e, workoutData st !! j = Some e → live (heap st) (wel_sets e)) →
  workoutData st' !! j = workoutData st !! j → heap st' = heap st ++ vs →
  entryValues st' j = entryValues st j.
Proof.
  intros Hl Hd Hh. apply entryValues_congr; [done|]. intros e He.
  rewrite Hh. apply deref_app_live. by apply Hl.
Qed.

Lemma entryValues_move st routineEx k j :
  wf routine library st → j ≠ exerciseIndex st →
  entryValues
    (loadSetsEffect routine (setExerciseIndex k (recorded library routineEx st))) j
  = entryValues st j.
Proof.
  intros H Hne. rewrite <-(entryValues_recorded st routineEx j H Hne).
  destruct (loadSetsEffect_frame routine
              (setExerciseIndex k (recorded library routineEx st)))
    as (_ & Hd & _ & _ & _ & _ & vs & Hh).
  eapply entryValues_app; [|by rewrite Hd|exact Hh].
  intros e He.
  change (workoutData (recorded library routineEx st) !! j = Some e) in He.
  rewrite recorded_lookup_ne in He by (done || apply H).
  by eapply (wf_data_live _ _ _ H).
Qed.

Lemma entryValues_startRest routineEx st j :
  entryValues (startRest routineEx st) j = entryValues st j.
Proof. unfold startRest. by case_bool_decide. Qed.

Lemma entryValues_handleToggleSet st i j :
  wf routine library st → j ≠ exerciseIndex st →
  entryValues (final (handleToggleSet routine i st)) j = entryValues st j.
Proof.
  intros H Hne. destruct (decide (i < length (currentSets st))%nat) as [Hi|Hi].
  - destruct (wf_valid_lookup _ _ _ _ H Hi) as (l & s & rex & Hl & Hs & Hrex).
    rewrite (handleToggleSet_eq _ _ _ _ _ _ Hl Hs Hrex). simpl.
    destruct (ws_completed s); rewrite ?entryValues_startRest;
      apply entryValues_write; eauto using list_elem_of_lookup_2.
  - by rewrite handleToggleSet_Threw by lia.
Qed.

Lemma entryValues_handleUpdateValue st i delta j :
  wf routine library st → j ≠ exerciseIndex st →
  entryValues (final (handleUpdateValue i delta st)) j = entryValues st j.
Proof.
  intros H Hne. destruct (decide (i < length (currentSets st))%nat) as [Hi|Hi].
  - destruct (wf_valid_lookup _ _ _ _ H Hi) as (l & s & rex & Hl & Hs & Hrex).
    rewrite (handleUpdateValue_eq _ _ _ _ _ Hl Hs). simpl.
    apply entryValues_write; eauto using list_elem_of_lookup_2.
  - by rewrite handleUpdateValue_Threw by lia.
Qed.

Lemma entryValues_handleAddSet st j :
  wf routine library st →
  entryValues (handleAddSet st) j = entryValues st j.
Proof.
  intros H. eapply entryValues_app; [|done..].
  intros e He. by eapply wf_data_live.
Qed.

Lemma entryValues_handleRemoveSet st j :
  entryValues (handleRemoveSet st) j = entryValues st j.
Proof. unfold handleRemoveSet. by case_bool_decide. Qed.

(** ** The entry of the current exercise *)

Lemma setShowSummary_same st : setShowSummary (showSummary st) st = st.
Proof. by destruct st. Qed.

Lemma run_records_in_place evs st :
  wf routine library st → records_in_place evs st →
  ∃ routineEx b, r_exercises routine !! exerciseIndex st = Some routineEx ∧
    run routine library evs st
    = setShowSummary b (recorded library routineEx st).
Proof.
  intros H Hin. destruct (wf_routineEx _ _ _ H) as [rex Hrex]. exists rex.
  destruct Hin as [[-> Hi]|[-> Hi]]; simpl.
  - exists (showSummary st). split; [done|]. rewrite (dispatch_Prev_eq _ _ _ _ Hrex).
    rewrite bool_decide_false by lia. simpl.
    by rewrite <-(setShowSummary_same (recorded _ _ _)) at 1.
  - exists false. split; [done|]. rewrite (dispatch_Next_eq _ _ _ _ Hrex).
    rewrite bool_decide_false by lia. simpl. by rewrite afterRender_same.
Qed.

Lemma wf_recorded_overlay st routineEx b :
  wf routine library st →
  r_exercises routine !! exerciseIndex st = Some routineEx →
  wf routine library (setShowSummary b (recorded library routineEx st)).
Proof.
  intros H Hrex. eapply wf_overlay; [by apply wf_recorded|done..].
Qed.

(** A state whose entry for the current exercise is the page's own list
    of sets reads the same values in both. *)
Lemma entryValues_shared st st' k e :
  workoutData st !! k = Some e → wel_sets e = currentSets st →
  workoutData st' = workoutData st → currentSets st' = currentSets st →
  entryValues st' k = currentSetValues st'.
Proof.
  intros He Hs Hd Hc. unfold entryValues, currentSetValues.
  rewrite Hd, He, Hc. simpl. by rewrite Hs.
Qed.

(** ** Properties *)

(** C16: an entry recorded for another exercise than the current one is
    frozen: whatever the event (toggling, adjusting, adding or removing
    sets, moving, resting, the summary), the values of its sets are after
    the event what they were before.  [reachable_wf]'s separation of the
    page's set objects from those of the other entries is what makes the
    in-place writes of the toggle and of the adjustment harmless. *)
Theorem other_entries_frozen ev st j :
  wf routine library st → j ≠ exerciseIndex st →
  entryValues (final (dispatch routine library ev st)) j = entryValues st j.
Proof.
  intros H Hne. destruct (wf_routineEx _ _ _ H) as [rex Hrex].
  destruct ev; autorewrite with mob_rw; simpl;
    auto using entryValues_handleToggleSet, entryValues_handleUpdateValue,
      entryValues_handleAddSet, entryValues_handleRemoveSet.
  - rewrite (dispatch_Next_eq _ _ _ _ Hrex). simpl. case_bool_decide.
    + by apply entryValues_move.
    + by apply (entryValues_recorded st rex j).
  - rewrite (dispatch_Prev_eq _ _ _ _ Hrex). simpl. case_bool_decide.
    + by apply entryValues_move.
    + by apply entryValues_recorded.
  - by destruct (showRestTimer st && _).
Qed.

(** C4: finishing a session of a well-formed state succeeds and stores a
    log that can be read in full: the id is the clock reading printed in
    decimal, routine id and name are the routine's, start and end are the
    mount time and the given end time, the duration is their difference
    in seconds (a fraction, not rounded), and the exercises are the
    recorded entries in routine order without gap, up to the furthest of
    the recorded ones and the current one, each with the id and name of
    its position; the sets stored for the current exercise are the page's
    when it was not recorded yet, and the recorded ones otherwise. *)
Theorem finish_log endTime idNow st :
  wf routine library st →
  ∃ log stored,
    handleFinishWorkout routine library endTime idNow st = Some log ∧
    storedLog st log = Some stored ∧
    wl_id stored = pretty idNow ∧ wl_routineId stored = r_id routine ∧
    wl_routineName stored = r_name routine ∧
    wl_startTime stored = startTime st ∧ wl_endTime stored = endTime ∧
    wl_totalDurationSeconds stored = (endTime - startTime st) # 1000 ∧
    length (wl_exercises stored)
    = (length (workoutData st) `max` S (exerciseIndex st))%nat ∧
    ∀ j x, wl_exercises stored !! j = Some x →
      entry_of routine library j
        (mkWorkoutExerciseLog (wel_exerciseId x) (wel_exerciseName x) []) ∧
      Some (wel_sets x)
      = if decide (j = exerciseIndex st ∧ workoutData st !! j = None)
        then currentSetValues st else entryValues st j.
Proof.
  intros H. destruct (wf_routineEx _ _ _ H) as [rex Hrex].
  pose proof (wf_visited _ _ _ H) as Hi.
  destruct (wf_resolve _ (wf_finishing _ _ H Hrex)) as (es & Hes & Hlen & Hall).
  rewrite (handleFinishWorkout_eq _ _ _ _ Hrex Hi).
  eexists _, (mkWorkoutLog _ _ _ _ _ _ es). split; [done|].
  split. { unfold storedLog, resolve_log. simpl.
           by rewrite <-(finishing_heap st rex), Hes. }
  simpl. split_and!; try done.
  - by rewrite Hlen, finishing_length.
  - intros j x Hx. destruct (Hall j x Hx) as [Hent Hval]. split; [done|].
    rewrite <-Hval. unfold finishing. case_decide as Hrec.
    + rewrite decide_False; [done|]. intros [-> Hn].
      rewrite Hn in Hrec. by destruct Hrec.
    + case_decide as Hj.
      * destruct Hj as [-> _]. by apply entryValues_recorded_current.
      * apply entryValues_recorded; [done|]. intros ->. apply Hj. split; [done|].
        by apply eq_None_not_Some.
Qed.

(** C17: the entry recorded for the current exercise without leaving it
    (by "next" on the last exercise and closing the summary, or by
    "previous" on the first one, which the handler allows though its
    button is disabled there) holds the page's own set objects.  It reads
    the current values when recorded; a set toggled afterwards is toggled
    in the recorded entry as well; a set added afterwards appears on the
    page and not in the entry. *)
Theorem recorded_entry_shares_sets evs st vs i s :
  wf routine library st → records_in_place evs st →
  currentSetValues st = Some vs → vs !! i = Some s →
  let st1 := run routine library evs st in
  let k := exerciseIndex st in
  entryValues st1 k = Some vs ∧
  entryValues (final (dispatch routine library (ToggleSet i) st1)) k
  = Some (<[i := with_completed (negb (ws_completed s)) s]> vs) ∧
  currentSetValues (final (dispatch routine library AddSet st1))
  = Some (vs ++ [addedSet vs]) ∧
  entryValues (final (dispatch routine library AddSet st1)) k = Some vs.
Proof.
  intros H Hin Hvs Hs.
  destruct (run_records_in_place _ _ H Hin) as (rex & b & Hrex & ->).
  pose proof (wf_recorded_overlay st rex b H Hrex) as H1. cbv zeta.
  set (st1 := setShowSummary b _) in *.
  assert (workoutData st1 !! exerciseIndex st
          = Some (exerciseLog library rex st)) as He
    by (apply (recorded_lookup library st rex), H).
  assert (currentSetValues st1 = Some vs) as Hvs1 by done.
  assert (entryValues st1 (exerciseIndex st) = Some vs) as Hv1
    by by rewrite <-Hvs1; apply (entryValues_shared st1 st1 _ _ He).
  autorewrite with mob_rw. simpl.
  split_and!; [done| |by apply handleAddSet_values|].
  - destruct (handleToggleSet_Done routine st1 vs i s rex) as (st2 & Hv2 & _ & Ht);
      [apply H1|done..|].
    pose proof (handleToggleSet_frame routine i st1) as (_ & Hd & Hc & _).
    rewrite (entryValues_shared st1 _ _ _ He eq_refl Hd Hc), Ht.
    destruct (ws_completed s); simpl; by rewrite ?startRest_values.
  - by rewrite <-Hv1; apply (entryValues_handleAddSet st1).
Qed.

(** C37: the count of exercises the summary overlay shows is the length
    of [workoutData] plus one.  Against the log that finishing stores, it
    is right when the current exercise is not recorded yet (the header's
    finish button on a fresh exercise) and one too many when it is, which
    is always the case when the summary was opened by "next" on the last
    exercise. *)
Theorem summary_count_off_by_one endTime idNow st :
  wf routine library st →
  ∃ log, handleFinishWorkout routine library endTime idNow st = Some log ∧
    exercisesCompletedShown st
    = Z.of_nat (length (wl_exercises log))
      + (if decide (is_Some (workoutData st !! exerciseIndex st)) then 1 else 0).
Proof.
  intros H. destruct (wf_routineEx _ _ _ H) as [rex Hrex].
  pose proof (wf_visited _ _ _ H) as Hi.
  rewrite (handleFinishWorkout_eq _ _ _ _ Hrex Hi). eexists. split; [done|].
  simpl. rewrite (finishing_length _ _ Hi). unfold exercisesCompletedShown.
  case_decide as Hs; [apply lookup_lt_is_Some in Hs; lia|].
  assert (length (workoutData st) ≤ exerciseIndex st)%nat; [|lia].
  apply lookup_ge_None. by apply eq_None_not_Some.
Qed.

End log.

(** ** Witnesses and the example of the specification *)

Lemma other_entries_frozen_witness :
  let st := demo_run [ToggleSet 0; SkipRest; NextExercise] in
  entryValues (final (dispatch demo_routine demo_library (ToggleSet 1) st)) 0
  = entryValues st 0.
Proof. apply other_entries_frozen; [apply demo_run_wf|by vm_compute]. Defined.

Lemma finish_log_witness :
  let st := demo_run [ToggleSet 0; SkipRest; NextExercise; ToggleSet 1] in
  ∃ log stored,
    handleFinishWorkout demo_routine demo_library (demo_now + 95000)
      (demo_now + 95001) st = Some log ∧
    storedLog st log = Some stored ∧
    wl_id stored = pretty (demo_now + 95001) ∧
    wl_routineId stored = r_id demo_routine ∧
    wl_routineName stored = r_name demo_routine ∧
    wl_startTime stored = startTime st ∧ wl_endTime stored = demo_now + 95000 ∧
    wl_totalDurationSeconds stored = (demo_now + 95000 - startTime st) # 1000 ∧
    length (wl_exercises stored)
    = (length (workoutData st) `max` S (exerciseIndex st))%nat ∧
    ∀ j x, wl_exercises stored !! j = Some x →
      entry_of demo_routine demo_library j
        (mkWorkoutExerciseLog (wel_exerciseId x) (wel_exerciseName x) []) ∧
      Some (wel_sets x)
      = if decide (j = exerciseIndex st ∧ workoutData st !! j = None)
        then currentSetValues st else entryValues st j.
Proof. apply finish_log, demo_run_wf. Defined.

Lemma recorded_entry_shares_sets_witness :
  let st := final (startSession spec_routine demo_library demo_now) in
  let vs := [mkWorkoutSetResult 1 false 30 30; mkWorkoutSetResult 2 false 30 30] in
  let st1 := run spec_routine demo_library [NextExercise; CancelSummary] st in
  entryValues st1 0 = Some vs ∧
  entryValues (final (dispatch spec_routine demo_library (ToggleSet 0) st1)) 0
  = Some [mkWorkoutSetResult 1 true 30 30; mkWorkoutSetResult 2 false 30 30] ∧
  currentSetValues (final (dispatch spec_routine demo_library AddSet st1))
  = Some (vs ++ [addedSet vs]) ∧
  entryValues (final (dispatch spec_routine demo_library AddSet st1)) 0 = Some vs.
Proof.
  intros st.
  exact (recorded_entry_shares_sets spec_routine demo_library
           [NextExercise; CancelSummary] st
           [mkWorkoutSetResult 1 false 30 30; mkWorkoutSetResult 2 false 30 30]
           0%nat (mkWorkoutSetResult 1 false 30 30)
           (wf_startSession spec_routine demo_library demo_now st eq_refl)
           (or_intror (conj eq_refl eq_refl)) eq_refl eq_refl).
Defined.

Lemma summary_count_off_by_one_witness :
  let st := demo_run [NextExercise; NextExercise; NextExercise; NextExercise] in
  ∃ log, handleFinishWorkout demo_routine demo_library (demo_now + 60000)
           (demo_now + 60001) st = Some log ∧
    exercisesCompletedShown st
    = Z.of_nat (length (wl_exercises log))
      + (if decide (is_Some (workoutData st !! exerciseIndex st)) then 1 else 0).
Proof. apply summary_count_off_by_one, demo_run_wf. Defined.

(** The example of the specification.  On the routine with the single
    exercise "e1" (two sets of 30, rest 30), completing both sets and
    finishing 95 seconds after the start stores one exercise entry with
    two sets, both completed, and a duration of 95 seconds. *)
Example finish_spec_example :
  let st := run spec_routine demo_library
              [ToggleSet 0; SkipRest; ToggleSet 1; SkipRest]
              (final (startSession spec_routine demo_library demo_now)) in
  (handleFinishWorkout spec_routine demo_library (demo_now + 95000)
     (demo_now + 95001) st ≫= storedLog st)
  = Some (mkWorkoutLog "1700000095001" "r1" "Example" demo_now
            (demo_now + 95000) (95000 # 1000)
            [mkWorkoutExerciseLog "e1" "Deep Squat Hold"
               [mkWorkoutSetResult 1 true 30 30;
                mkWorkoutSetResult 2 true 30 30]]).
Proof. reflexivity. Qed.
