(* ===== verification/SessionRest.v ===== *)
(** * SessionRest: the rest timer

    The rest overlay and its countdown: which toggle starts a rest, how
    the one-second interval of [restTimerEffect] counts [restTime] down and
    stops at zero with the overlay still shown, and what the "+10s" and
    "skip" buttons do to it.  A tick is the event [Tick]; it changes the
    state only while [restTimerEffect] has an interval installed. *)

From S2P Require Import Prelude Types Catalog Session Demo SessionInv.
From S2P Require Import SessionSets.

Section rest.
Context (routine : Routine) (library : list Exercise).
Implicit Types (st : SessionState) (k : nat).

Lemma setRestTime_same st : setRestTime (restTime st) st = st.
Proof. by destruct st. Qed.

Lemma restTimerEffect_None st :
  restTimerEffect st = None ↔ showRestTimer st = false ∨ restTime st ≤ 0.
Proof.
  unfold restTimerEffect. destruct (showRestTimer st); simpl; [|naive_solver].
  case_bool_decide; (split; [|intros [|]]); (done || lia || (right; lia)).
Qed.

(** [k] ticks while the overlay is shown. *)
Lemma run_ticks k st :
  showRestTimer st = true → 0 ≤ restTime st →
  run routine library (replicate k Tick) st
  = setRestTime (Z.max 0 (restTime st - Z.of_nat k)) st.
Proof.
  revert st. induction k as [|k IH]; intros st Hs Hr.
  - simpl. rewrite Z.sub_0_r, Z.max_r by done. by rewrite setRestTime_same.
  - rewrite replicate_S, run_cons, dispatch_Tick, Hs. simpl. case_bool_decide.
    + rewrite IH by (simpl; done || lia). simpl.
      unfold setRestTime. simpl. do 2 f_equal. lia.
    + rewrite IH by done. f_equal. lia.
Qed.

Lemma run_ticks_effect k st :
  showRestTimer st = true → 0 ≤ restTime st →
  restTimerEffect (run routine library (replicate k Tick) st) = None
  ↔ restTime st ≤ Z.of_nat k.
Proof.
  intros Hs Hr. rewrite (run_ticks _ _ Hs Hr), restTimerEffect_None. simpl.
  rewrite Hs. split; [intros [?|?]; (done || lia)|right; lia].
Qed.

(** Ticks while the overlay is hidden. *)
Lemma run_ticks_hidden k st :
  showRestTimer st = false → run routine library (replicate k Tick) st = st.
Proof.
  intros Hs. induction k as [|k IH]; [done|].
  by rewrite replicate_S, run_cons, dispatch_Tick, Hs.
Qed.

(** ** Properties *)

(** C25: the countdown.  While the rest overlay is shown, [k] seconds of
    the interval bring [restTime] down by [k] and no further than zero,
    changing nothing else; the interval is gone exactly from the moment
    zero is reached, and the overlay is still shown then. *)
Theorem rest_countdown k st :
  showRestTimer st = true → 0 ≤ restTime st →
  let st' := run routine library (replicate k Tick) st in
  st' = setRestTime (Z.max 0 (restTime st - Z.of_nat k)) st ∧
  showRestTimer st' = true ∧
  (restTimerEffect st' = None ↔ restTime st ≤ Z.of_nat k).
Proof.
  intros Hs Hr. cbv zeta. split_and!; [by apply run_ticks| |by apply run_ticks_effect].
  by rewrite (run_ticks _ _ Hs Hr).
Qed.

(** Ticking a set starts the rest of its exercise and unticking it
    does not stop one: after the toggle of a set that was not completed
    the overlay is shown with the planned rest when that is positive;
    in every other case overlay and remaining time are what they were. *)
Theorem toggle_starts_rest st i l s routineEx :
  currentSets st !! i = Some l → heap st !! l = Some s →
  r_exercises routine !! exerciseIndex st = Some routineEx →
  let starts := negb (ws_completed s) && bool_decide (0 < re_restSeconds routineEx) in
  ∃ st', dispatch routine library (ToggleSet i) st = Done st' ∧
    showRestTimer st' = (if starts then true else showRestTimer st) ∧
    restTime st' = (if starts then re_restSeconds routineEx else restTime st).
Proof.
  intros Hl Hs Hrex. rewrite dispatch_ToggleSet.
  rewrite (handleToggleSet_eq _ _ _ _ _ _ Hl Hs Hrex). eexists. split; [done|].
  unfold startRest. destruct (ws_completed s); simpl; [done|].
  by case_bool_decide.
Qed.

(** "skip" hides the overlay and removes the interval: the seconds
    that pass afterwards change nothing, whatever time remained. *)
Theorem skip_rest_stops_timer k st :
  let st' := run routine library (SkipRest :: replicate k Tick) st in
  st' = setShowRestTimer false st ∧ restTimerEffect st' = None.
Proof.
  cbv zeta. rewrite run_cons, dispatch_SkipRest. simpl.
  rewrite run_ticks_hidden by done. split; [done|].
  apply restTimerEffect_None. by left.
Qed.

(** "+10s" adds ten seconds to the remaining time; pressed on a
    countdown that has reached zero it installs the interval again, and
    the countdown needs exactly ten more seconds to stop. *)
Theorem extend_rest_ten_more k st :
  showRestTimer st = true → 0 ≤ restTime st →
  let st' := run routine library (ExtendRest :: replicate k Tick) st in
  restTime st' = Z.max 0 (restTime st + 10 - Z.of_nat k) ∧
  (restTimerEffect st' = None ↔ restTime st + 10 ≤ Z.of_nat k).
Proof.
  intros Hs Hr. cbv zeta. rewrite run_cons, dispatch_ExtendRest. simpl.
  assert (0 ≤ restTime (extendRest st)) as Hr' by (simpl; lia).
  split; [by rewrite (run_ticks k (extendRest st) Hs Hr')|].
  by rewrite (run_ticks_effect k (extendRest st) Hs Hr').
Qed.

End rest.

(** ** Witnesses *)

Lemma rest_countdown_witness :
  let st := demo_run [ToggleSet 0] in
  let st' := run demo_routine demo_library (replicate 45 Tick) st in
  st' = setRestTime (Z.max 0 (restTime st - Z.of_nat 45)) st ∧
  showRestTimer st' = true ∧
  (restTimerEffect st' = None ↔ restTime st ≤ Z.of_nat 45).
Proof. by apply rest_countdown. Defined.

Lemma toggle_starts_rest_witness :
  ∃ st', dispatch demo_routine demo_library (ToggleSet 0) demo_start = Done st' ∧
    showRestTimer st' = true ∧ restTime st' = 30.
Proof.
  exact (toggle_starts_rest demo_routine demo_library demo_start 0%nat 0%nat
           (mkWorkoutSetResult 1 false 10 10) (mkRoutineExercise "e2" 2 10 30)
           eq_refl eq_refl eq_refl).
Defined.

Lemma extend_rest_ten_more_witness :
  let st := demo_run ([ToggleSet 0] ++ replicate 30 Tick) in
  let st' := run demo_routine demo_library (ExtendRest :: replicate 10 Tick) st in
  restTime st' = Z.max 0 (restTime st + 10 - Z.of_nat 10) ∧
  (restTimerEffect st' = None ↔ restTime st + 10 ≤ Z.of_nat 10).
Proof. by apply extend_rest_ten_more. Defined.
