(* ===== verification/SessionUI.v ===== *)
(** * SessionUI: the session page as the user can drive it

    The markup of [SessionPage] decides which events can happen: the rest
    overlay and the summary cover the page, the previous button is
    disabled on the first exercise, the remove button exists only with
    two sets or more, the value buttons only on sets that are not
    completed.  [enabled] collects these conditions, [ui_reachable] is
    the set of states reached from a mounted session through enabled
    events, and the theorems are proved by induction on it. *)

From S2P Require Import Prelude Types Catalog Session Demo SessionInv.
From S2P Require Import SessionSets SessionFlow.

(** The phases of a session while the page is open. *)
Inductive Phase : Type :=
  | InProgress
  | Resting
  | Reviewing.

#[export] Instance Phase_eq_dec : EqDecision Phase.
Proof. solve_decision. Defined.

(** The phase a state shows: the summary is drawn over everything, the
    rest overlay over the page. *)
Definition phase (st : SessionState) : Phase :=
  if showSummary st then Reviewing
  else if showRestTimer st then Resting
  else InProgress.

(** The phase changes the specification allows. *)
Definition transition (p q : Phase) : Prop :=
  match p, q with
  | InProgress, _ => True
  | Resting, (Resting | InProgress) => True
  | Reviewing, (Reviewing | InProgress) => True
  | _, _ => False
  end.

#[export] Instance transition_dec p q : Decision (transition p q).
Proof. destruct p, q; simpl; apply _. Defined.

(** The value buttons of set [index] are rendered. *)
Definition valueButtonsAt (index : nat) (st : SessionState) : bool :=
  from_option valueButtonsShown false (currentSetValues st ≫= (.!! index)).

(** An event the markup lets happen in a state.  A second of the clock
    can always pass; the buttons of the summary need the summary, those
    of the rest overlay the overlay on top, and every other button a
    page that no overlay covers. *)
Definition enabled (routine : Routine) (ev : Event) (st : SessionState) : Prop :=
  match ev with
  | Tick => True
  | CancelSummary => showSummary st = true
  | ExtendRest | SkipRest => showSummary st = false ∧ showRestTimer st = true
  | _ =>
      showSummary st = false ∧ showRestTimer st = false ∧
      match ev with
      | ToggleSet index => (index < length (currentSets st))%nat
      | UpdateValue index delta =>
          (delta = 1 ∨ delta = -1) ∧ valueButtonsAt index st = true
      | RemoveSet => removeSetShown st = true
      | PrevExercise => prevDisabled st = false
      | _ => True
      end
  end.

#[export] Instance enabled_dec routine ev st : Decision (enabled routine ev st).
Proof. destruct ev; simpl; apply _. Defined.

(** The states the user can bring the page to. *)
Inductive ui_reachable (routine : Routine) (library : list Exercise) (now : Z)
    : SessionState → Prop :=
  | ui_mounted st :
      startSession routine library now = Done st →
      ui_reachable routine library now st
  | ui_event ev st :
      ui_reachable routine library now st → enabled routine ev st →
      ui_reachable routine library now (final (dispatch routine library ev st)).

(** Every event of a sequence is enabled when its turn comes. *)
Fixpoint enabledAlong (routine : Routine) (library : list Exercise)
    (evs : list Event) (st : SessionState) : Prop :=
  match evs with
  | [] => True
  | ev :: evs =>
      enabled routine ev st ∧
      enabledAlong routine library evs (final (dispatch routine library ev st))
  end.

#[export] Instance enabledAlong_dec routine library evs st :
  Decision (enabledAlong routine library evs st).
Proof. revert st. induction evs; simpl; apply _. Defined.

(** No overlay over another. *)
Definition exclusive (st : SessionState) : Prop :=
  ¬ (showRestTimer st = true ∧ showSummary st = true).

Section ui.
Context (routine : Routine) (library : list Exercise).
Implicit Types (st : SessionState) (ev : Event).

Lemma valueButtonsAt_valid index st :
  valueButtonsAt index st = true → (index < length (currentSets st))%nat.
Proof.
  unfold valueButtonsAt. destruct (currentSetValues st) as [vs|] eqn:E; [|done].
  simpl. destruct (vs !! index) as [s|] eqn:Es; [|done]. intros _.
  rewrite (current_length _ _ E). by eapply lookup_lt_Some.
Qed.

Lemma enabled_valid ev st : enabled routine ev st → valid ev st.
Proof.
  destruct ev; simpl; try done; [tauto|].
  intros (_ & _ & _ & H). by apply valueButtonsAt_valid.
Qed.

(** The two overlay flags after an event. *)
Lemma dispatch_showSummary ev st :
  wf routine library st →
  showSummary (final (dispatch routine library ev st))
  = match ev with
    | NextExercise =>
        if bool_decide (exerciseIndex st < length (r_exercises routine) - 1)%nat
        then showSummary st else true
    | RequestFinish => true
    | CancelSummary => false
    | _ => showSummary st
    end.
Proof.
  intros H. destruct (wf_routineEx _ _ _ H) as [rex Hrex].
  destruct ev; autorewrite with mob_rw; simpl; try done.
  - apply handleToggleSet_frame.
  - apply handleUpdateValue_frame.
  - unfold handleRemoveSet. by case_bool_decide.
  - rewrite (dispatch_Next_eq _ _ _ _ Hrex). simpl. case_bool_decide; [|done].
    by destruct (loadSetsEffect_frame routine
                   (setExerciseIndex (exerciseIndex st + 1)
                      (recorded library rex st))) as (_ & _ & -> & _).
  - rewrite (dispatch_Prev_eq _ _ _ _ Hrex). simpl. case_bool_decide; [|done].
    by destruct (loadSetsEffect_frame routine
                   (setExerciseIndex (exerciseIndex st - 1)
                      (recorded library rex st))) as (_ & _ & -> & _).
  - by destruct (showRestTimer st && _).
Qed.

Lemma dispatch_showRestTimer ev st :
  wf routine library st → ev ≠ SkipRest → (∀ i, ev ≠ ToggleSet i) →
  showRestTimer (final (dispatch routine library ev st)) = showRestTimer st.
Proof.
  intros H Hs Ht. destruct (wf_routineEx _ _ _ H) as [rex Hrex].
  destruct ev; autorewrite with mob_rw; simpl; try done.
  - by destruct (Ht index).
  - apply handleUpdateValue_frame.
  - unfold handleRemoveSet. by case_bool_decide.
  - rewrite (dispatch_Next_eq _ _ _ _ Hrex). simpl. case_bool_decide; [|done].
    by destruct (loadSetsEffect_frame routine
                   (setExerciseIndex (exerciseIndex st + 1)
                      (recorded library rex st))) as (_ & _ & _ & -> & _).
  - rewrite (dispatch_Prev_eq _ _ _ _ Hrex). simpl. case_bool_decide; [|done].
    by destruct (loadSetsEffect_frame routine
                   (setExerciseIndex (exerciseIndex st - 1)
                      (recorded library rex st))) as (_ & _ & _ & -> & _).
  - by destruct (showRestTimer st && _).
Qed.

(** One enabled event: the overlays stay exclusive and the phase moves
    along an allowed transition. *)
Lemma enabled_step ev st :
  wf routine library st → exclusive st → enabled routine ev st →
  let st' := final (dispatch routine library ev st) in
  exclusive st' ∧ transition (phase st) (phase st').
Proof.
  intros H Hx Hen. cbv zeta. unfold exclusive, phase in *.
  rewrite (dispatch_showSummary ev st H).
  destruct ev; simpl in Hen; destruct_and?;
    try (rewrite (dispatch_showRestTimer _ st H) by congruence);
    autorewrite with mob_rw; simpl;
    destruct (showSummary st), (showRestTimer st); simplify_eq;
    try case_bool_decide; simpl;
    first [by split; [intros [? ?]|]|by destruct Hx].
Qed.

Lemma ui_reachable_inv now st :
  ui_reachable routine library now st → wf routine library st ∧ exclusive st.
Proof.
  induction 1 as [st Hst|ev st Hr [IHwf IHx] Hen].
  - split; [by eapply wf_startSession|].
    unfold startSession in Hst. destruct (render _ _ _); [|done].
    injection Hst as <-. unfold exclusive.
    destruct (loadSetsEffect_frame routine (initialState now))
      as (_ & _ & -> & _). simpl. by intros [_ ?].
  - split; [by apply wf_dispatch|]. by apply enabled_step.
Qed.

Lemma ui_reachable_run now evs st :
  ui_reachable routine library now st → enabledAlong routine library evs st →
  ui_reachable routine library now (run routine library evs st).
Proof.
  revert st. induction evs as [|ev evs IH]; intros st Hr Hen; [done|].
  destruct Hen as [Hen1 Hen2]. rewrite run_cons. apply IH; [|done].
  by apply ui_event.
Qed.

(** ** Properties *)

(** No event the page offers throws.  From a mounted session,
    through any sequence of events the markup enables, every handler runs
    to completion: the indices the buttons pass name existing sets, the
    position is always an exercise of the routine. *)
Theorem ui_never_throws now ev st :
  ui_reachable routine library now st → enabled routine ev st →
  ∃ st', dispatch routine library ev st = Done st' ∧
    ui_reachable routine library now st'.
Proof.
  intros Hr Hen. destruct (ui_reachable_inv _ _ Hr) as [H _].
  pose proof (valid_events_never_throw _ _ _ _ H (enabled_valid _ _ Hen)) as Ht.
  pose proof (ui_event _ _ _ _ _ Hr Hen) as Hr'.
  destruct (dispatch routine library ev st) as [st'|e st']; [|done].
  by exists st'.
Qed.

(** C31: the state machine of the page.  In every state the user can
    reach, the rest overlay and the summary are not shown together, and
    an enabled event moves the phase only along the transitions of the
    specification: in progress to resting and back, in progress to
    reviewing and back, never from resting to reviewing or from
    reviewing to resting. *)
Theorem ui_state_machine now ev st :
  ui_reachable routine library now st → enabled routine ev st →
  let st' := final (dispatch routine library ev st) in
  exclusive st ∧ exclusive st' ∧ transition (phase st) (phase st').
Proof.
  intros Hr Hen. destruct (ui_reachable_inv _ _ Hr) as [H Hx].
  split; [done|]. by apply enabled_step.
Qed.

End ui.

(** ** Witnesses *)

Lemma demo_ui_reachable :
  ui_reachable demo_routine demo_library demo_now
    (demo_run [ToggleSet 0; Tick; SkipRest; UpdateValue 1 1; NextExercise]).
Proof.
  apply ui_reachable_run; [|compute_done].
  apply ui_mounted. exact demo_start_Done.
Qed.

Lemma ui_never_throws_witness :
  let st := demo_run [ToggleSet 0; Tick; SkipRest; UpdateValue 1 1; NextExercise] in
  ∃ st', dispatch demo_routine demo_library PrevExercise st = Done st' ∧
    ui_reachable demo_routine demo_library demo_now st'.
Proof. apply ui_never_throws; [exact demo_ui_reachable|compute_done]. Defined.

Lemma ui_state_machine_witness :
  let st := demo_run [ToggleSet 0; Tick; SkipRest; UpdateValue 1 1; NextExercise] in
  let st' := final (dispatch demo_routine demo_library (ToggleSet 0) st) in
  exclusive st ∧ exclusive st' ∧ transition (phase st) (phase st').
Proof. apply (ui_state_machine _ _ demo_now); [exact demo_ui_reachable|compute_done]. Defined.
