(* ===== verification/SessionTimer.v ===== *)
(** * SessionTimer: the interval of the rest timer as a resource

    The effect "timer tick" of [SessionPage] asks the window for an
    interval with [setInterval] and returns a cleanup that gives it back
    with [clearInterval].  This file keeps the window's intervals in the
    state ([Timers]), runs the effect and its cleanup the way React does
    (when a dependency changed, the cleanup of the last run and then the
    effect; at unmount the cleanup), and lets an interval fire only
    while it has not been cleared.

    The theorems show that the page never holds more than one interval,
    that it holds one exactly while the overlay is shown with time left,
    that none is left when the page goes away, that the countdown ends,
    and that the event [Tick] of [Session] is what an interval's firing
    does to the state cells. *)

From S2P Require Import Prelude Types Catalog Session Demo SessionInv.
From S2P Require Import SessionSets SessionRest SessionUI.
From stdpp Require Import gmap.

#[local] Open Scope Z_scope.

(** ** The intervals of the window *)

(** [tm_next] is the id the next [setInterval] returns, [tm_live] the ids
    of the intervals that have not been cleared. *)
Record Timers : Type := mkTimers {
  tm_next : nat;
  tm_live : gset nat;
}.

#[export] Instance Timers_eq_dec : EqDecision Timers.
Proof. solve_decision. Defined.

(** A window in which no interval has been set; ids start at 1. *)
Definition noTimers : Timers := mkTimers 1 ∅.

(** [setInterval(callback, 1000)]: the id, and the timers with the new
    interval. *)
Definition setInterval (tm : Timers) : nat * Timers :=
  (tm_next tm, mkTimers (S (tm_next tm)) ({[tm_next tm]} ∪ tm_live tm)).

(** [clearInterval(id)]; an [undefined] id clears nothing. *)
Definition clearInterval (id : option nat) (tm : Timers) : Timers :=
  match id with
  | Some i => mkTimers (tm_next tm) (tm_live tm ∖ {[i]})
  | None => tm
  end.

(** Every id in use has been handed out. *)
Definition timers_ok (tm : Timers) : Prop :=
  ∀ i, i ∈ tm_live tm → (i < tm_next tm)%nat.

(** ** The page with its interval *)

(** The state cells, the variable [interval] that the cleanup of the
    effect's last run closes over, and the window's intervals. *)
Record Timed : Type := mkTimed {
  t_page : SessionState;
  t_interval : option nat;
  t_timers : Timers;
}.

#[export] Instance Timed_eq_dec : EqDecision Timed.
Proof. solve_decision. Defined.

(** The body of the effect "timer tick": the value its variable
    [interval] has when it returns, and the timers. *)
Definition timerEffect (st : SessionState) (tm : Timers) : option nat * Timers :=
  if showRestTimer st && bool_decide (0 < restTime st)
  then let r := setInterval tm in (Some r.1, r.2)
  else (None, tm).

(** The function the effect returns. *)
Definition timerCleanup (interval : option nat) (tm : Timers) : Timers :=
  clearInterval interval tm.

(** Whether a dependency of the effect, [showRestTimer] or [restTime],
    differs between two renders. *)
Definition timerDepsChanged (old new : SessionState) : bool :=
  negb (bool_decide (showRestTimer new = showRestTimer old ∧
                     restTime new = restTime old)).

(** What is left of the page's interval when it goes away: React runs the
    cleanup. *)
Definition unmountTimed (m : Timed) : Timers :=
  timerCleanup (t_interval m) (t_timers m).

(** What can happen to the mounted page: the user does something, or the
    interval [id] is due. *)
Inductive TimedEvent : Type :=
  | UserEvent (ev : Event)
  | IntervalDue (id : nat).

#[export] Instance TimedEvent_eq_dec : EqDecision TimedEvent.
Proof. solve_decision. Defined.

(** The ids the page holds. *)
Definition own (m : Timed) : gset nat :=
  match t_interval m with
  | Some id => {[id]}
  | None => ∅
  end.

Section timed.
Context (routine : Routine) (library : list Exercise).
Implicit Types (st : SessionState) (m : Timed) (tm : Timers).

(** The render of [st] after the render of [t_page m]: when a dependency
    changed, the cleanup of the last run, then the effect. *)
Definition commitTimer (m : Timed) (st : SessionState) : Timed :=
  if timerDepsChanged (t_page m) st
  then
    let r := timerEffect st (timerCleanup (t_interval m) (t_timers m)) in
    mkTimed st r.1 r.2
  else mkTimed st (t_interval m) (t_timers m).

(** Mounting the page: the first render and its effects.  The effect
    "timer tick" runs on the initial values of the cells. *)
Definition mountTimed (now : Z) (tm : Timers) : outcome Timed :=
  match startSession routine library now with
  | Done st =>
      let r := timerEffect (initialState now) tm in
      Done (commitTimer (mkTimed (initialState now) r.1 r.2) st)
  | Threw e st => Threw e (mkTimed st None tm)
  end.

(** The callback of interval [id]: it runs only while the interval has
    not been cleared; React then renders. *)
Definition fire (id : nat) (m : Timed) : Timed :=
  if decide (id ∈ tm_live (t_timers m))
  then commitTimer m (final (react routine (t_page m) (Done (restTick (t_page m)))))
  else m.

Definition tstep (tev : TimedEvent) (m : Timed) : Timed :=
  match tev with
  | UserEvent ev => commitTimer m (final (dispatch routine library ev (t_page m)))
  | IntervalDue id => fire id m
  end.

Definition trun (tevs : list TimedEvent) (m : Timed) : Timed :=
  foldl (λ m tev, tstep tev m) m tevs.

(** An event that can happen: the user's events are those the markup
    enables, and the window calls back only intervals that are live. *)
Definition possible (tev : TimedEvent) (m : Timed) : Prop :=
  match tev with
  | UserEvent ev => ev ≠ Tick ∧ enabled routine ev (t_page m)
  | IntervalDue id => id ∈ tm_live (t_timers m)
  end.

#[export] Instance possible_dec tev m : Decision (possible tev m).
Proof. destruct tev; simpl; apply _. Defined.

(** The states of the page and the window from a mount over the timers
    [tm]. *)
Inductive timed_reachable (now : Z) (tm : Timers) : Timed → Prop :=
  | timed_mounted m :
      mountTimed now tm = Done m → timed_reachable now tm m
  | timed_event tev m :
      timed_reachable now tm m → possible tev m →
      timed_reachable now tm (tstep tev m).

(** The event of [Session] a step of the page with its interval is. *)
Definition erase (tev : TimedEvent) : Event :=
  match tev with
  | UserEvent ev => ev
  | IntervalDue _ => Tick
  end.

(** The window's intervals are the page's own ([SessionPage] is the only
    caller of [setInterval] in the sources), and the page holds one
    exactly while the overlay is shown with time left. *)
Definition timer_ok (m : Timed) : Prop :=
  tm_live (t_timers m) = own m ∧ timers_ok (t_timers m) ∧
  (t_interval m = None ↔ restTimerEffect (t_page m) = None).

(** The interval the page holds fires. *)
Definition fireOwn (m : Timed) : Timed :=
  match t_interval m with
  | Some id => fire id m
  | None => m
  end.

End timed.

(** The demo session mounted in a window without intervals, the first
    set ticked, and two seconds later. *)
Definition demo_timed : Timed :=
  trun demo_routine demo_library
    [UserEvent (ToggleSet 0); IntervalDue 1; IntervalDue 2]
    (final (mountTimed demo_routine demo_library demo_now noTimers)).

Arguments timerEffect : simpl never.
Arguments commitTimer : simpl never.

(** ** The effect and its cleanup *)

Section timed_facts.
Context (routine : Routine) (library : list Exercise).
Implicit Types (st : SessionState) (m : Timed) (tm : Timers).

Lemma setInterval_ok tm :
  timers_ok tm → timers_ok (setInterval tm).2 ∧ (setInterval tm).1 ∉ tm_live tm.
Proof.
  intros Hok. split.
  - intros i [->%elem_of_singleton|Hi%Hok]%elem_of_union; simpl; lia.
  - intros Hi%Hok. simpl in Hi. lia.
Qed.

Lemma clearInterval_ok id tm : timers_ok tm → timers_ok (clearInterval id tm).
Proof.
  intros Hok. destruct id as [i|]; [|done]. intros j Hj. apply Hok.
  by apply elem_of_difference in Hj as [? _].
Qed.

(** The effect on a window without intervals: it holds one afterwards
    exactly when the overlay is shown with time left. *)
Lemma timerEffect_spec st tm :
  timers_ok tm → tm_live tm = ∅ →
  let r := timerEffect st tm in
  tm_live r.2 = from_option singleton ∅ r.1 ∧ timers_ok r.2 ∧
  (r.1 = None ↔ restTimerEffect st = None).
Proof.
  intros Hok He. cbv zeta. unfold timerEffect, restTimerEffect.
  destruct (showRestTimer st && _); simpl; [|done].
  split_and!; [|by apply setInterval_ok|done].
  by rewrite He, (right_id_L ∅ (∪)).
Qed.

Lemma t_page_commitTimer m st : t_page (commitTimer m st) = st.
Proof. unfold commitTimer. by destruct (timerDepsChanged _ _). Qed.

Lemma timerDepsChanged_false old new :
  timerDepsChanged old new = false →
  restTimerEffect new = restTimerEffect old.
Proof.
  unfold timerDepsChanged, restTimerEffect.
  intros [-> ->]%negb_false_iff%bool_decide_eq_true. done.
Qed.

Lemma timer_ok_unmount m :
  timer_ok m → tm_live (unmountTimed m) = ∅ ∧ timers_ok (unmountTimed m).
Proof.
  intros (Hl & Hok & _). split; [|by apply clearInterval_ok].
  unfold unmountTimed, timerCleanup, own in *.
  destruct (t_interval m); simpl; [|done]. rewrite Hl. apply difference_diag_L.
Qed.

Lemma timer_ok_commit m st : timer_ok m → timer_ok (commitTimer m st).
Proof.
  intros H. unfold commitTimer.
  destruct (timerDepsChanged (t_page m) st) eqn:E.
  - destruct (timer_ok_unmount _ H) as [He Hok].
    by destruct (timerEffect_spec st _ Hok He) as (? & ? & ?).
  - destruct H as (? & ? & Hi). split_and!; [done..|]. simpl.
    by rewrite (timerDepsChanged_false _ _ E).
Qed.

Lemma timer_ok_mount now tm m :
  timers_ok tm → tm_live tm = ∅ →
  mountTimed routine library now tm = Done m → timer_ok m.
Proof.
  intros Hok He. unfold mountTimed.
  destruct (startSession routine library now) as [st|]; [|done].
  intros [= <-]. apply timer_ok_commit.
  by destruct (timerEffect_spec (initialState now) _ Hok He) as (? & ? & ?).
Qed.

Lemma timer_ok_tstep tev m :
  timer_ok m → timer_ok (tstep routine library tev m).
Proof.
  intros H. destruct tev as [ev|id]; simpl; [by apply timer_ok_commit|].
  unfold fire. case_decide; [by apply timer_ok_commit|done].
Qed.

Lemma timed_reachable_ok now tm m :
  timers_ok tm → tm_live tm = ∅ →
  timed_reachable routine library now tm m → timer_ok m.
Proof.
  intros Hok He. induction 1; [by eapply timer_ok_mount|by apply timer_ok_tstep].
Qed.

(** ** The page with its interval against the page of [Session] *)

Lemma timer_ok_interval m :
  timer_ok m →
  is_Some (t_interval m)
  ↔ showRestTimer (t_page m) = true ∧ 0 < restTime (t_page m).
Proof.
  intros (_ & _ & Hi). rewrite <-not_eq_None_Some, Hi, restTimerEffect_None.
  destruct (showRestTimer (t_page m)); split; intros H.
  - split; [done|]. destruct (decide (0 < restTime (t_page m))); [done|].
    destruct H. right. lia.
  - intros [|]; [done|lia].
  - destruct H. by left.
  - by destruct H.
Qed.

Lemma dispatch_Tick_idle st :
  restTimerEffect st = None → dispatch routine library Tick st = Done st.
Proof.
  intros Hn. unfold dispatch, handler. rewrite Hn.
  by rewrite react_Done_same_index.
Qed.

Lemma possible_due m id :
  timer_ok m → possible routine (IntervalDue id) m → t_interval m = Some id.
Proof.
  intros (Hl & _) Hp. simpl in Hp. rewrite Hl in Hp. unfold own in Hp.
  destruct (t_interval m); [by apply elem_of_singleton in Hp as ->|].
  by apply elem_of_empty in Hp.
Qed.

Lemma fire_own m id :
  timer_ok m → t_interval m = Some id →
  t_page (fire routine id m) = final (dispatch routine library Tick (t_page m)).
Proof.
  intros H Hi. destruct (proj1 (timer_ok_interval _ H)) as [Hs Hr]; [by rewrite Hi|].
  unfold fire. rewrite decide_True.
  - rewrite t_page_commitTimer, react_Done_same_index, dispatch_Tick, Hs by done.
    by rewrite bool_decide_true.
  - destruct H as (-> & _). unfold own. rewrite Hi. by apply elem_of_singleton.
Qed.

Lemma tstep_page tev m :
  timer_ok m → possible routine tev m →
  t_page (tstep routine library tev m)
  = final (dispatch routine library (erase tev) (t_page m)).
Proof.
  intros H Hp. destruct tev as [ev|id]; simpl; [apply t_page_commitTimer|].
  by apply fire_own, possible_due.
Qed.

Lemma timed_ui_reachable now tm m :
  timers_ok tm → tm_live tm = ∅ → timed_reachable routine library now tm m →
  ui_reachable routine library now (t_page m).
Proof.
  intros Hok He. induction 1 as [m Hm|tev m Hr IH Hp].
  - apply ui_mounted. unfold mountTimed in Hm.
    destruct (startSession routine library now); [|done].
    injection Hm as <-. by rewrite t_page_commitTimer.
  - rewrite tstep_page by eauto using timed_reachable_ok.
    apply ui_event; [done|]. destruct tev; [apply Hp|done].
Qed.

Lemma ui_timed_reachable now tm st :
  timers_ok tm → tm_live tm = ∅ → ui_reachable routine library now st →
  ∃ m, timed_reachable routine library now tm m ∧ t_page m = st.
Proof.
  intros Hok He. induction 1 as [st Hst|ev st Hr (m & Hm & <-) Hen].
  - eexists. split; [apply timed_mounted; unfold mountTimed; by rewrite Hst|].
    apply t_page_commitTimer.
  - pose proof (timed_reachable_ok _ _ _ Hok He Hm) as H.
    destruct (decide (ev = Tick)) as [->|Hne];
      [destruct (t_interval m) as [id|] eqn:Hi|].
    + exists (fire routine id m). split; [|by apply fire_own].
      apply (timed_event _ _ _ _ (IntervalDue id)); [done|]. simpl.
      destruct H as (-> & _). unfold own. rewrite Hi. by apply elem_of_singleton.
    + exists m. split; [done|]. destruct H as (_ & _ & Hn).
      by rewrite dispatch_Tick_idle by by apply Hn.
    + exists (tstep routine library (UserEvent ev) m).
      split; [by apply timed_event|apply t_page_commitTimer].
Qed.

Lemma timer_ok_fireOwn m : timer_ok m → timer_ok (fireOwn routine m).
Proof.
  intros H. unfold fireOwn. destruct (t_interval m) as [id|]; [|done].
  by apply (timer_ok_tstep (IntervalDue id)).
Qed.

Lemma fireOwn_page m :
  timer_ok m →
  t_page (fireOwn routine m) = final (dispatch routine library Tick (t_page m)).
Proof.
  intros H. unfold fireOwn. destruct (t_interval m) as [id|] eqn:Hi;
    [by apply fire_own|].
  destruct H as (_ & _ & Hn). by rewrite dispatch_Tick_idle by by apply Hn.
Qed.

(** The page's interval fires [k] times. *)
Lemma iter_fireOwn k m :
  timer_ok m →
  timer_ok (Nat.iter k (fireOwn routine) m) ∧
  t_page (Nat.iter k (fireOwn routine) m)
  = run routine library (replicate k Tick) (t_page m).
Proof.
  intros H. induction k as [|k [IHok IHp]]; [done|].
  rewrite replicate_S_end, run_app, Nat.iter_succ, <-IHp.
  split; [by apply timer_ok_fireOwn|by apply fireOwn_page].
Qed.

End timed_facts.

(** ** Properties *)

Section timed_properties.
Context (routine : Routine) (library : list Exercise).
Context (now : Z) (tm : Timers).
Context (tm_ok : timers_ok tm) (tm_idle : tm_live tm = ∅).

(** C10: no dangling timer.  Whatever the user does and whenever the
    interval fires, the window holds no interval but the one the page's
    last effect run has set; the page holds one exactly while the rest
    overlay is shown with time left; and the cleanup React runs when the
    page goes away leaves the window without any. *)
Theorem one_interval m :
  timed_reachable routine library now tm m →
  tm_live (t_timers m) = own m ∧ (size (tm_live (t_timers m)) ≤ 1)%nat ∧
  (is_Some (t_interval m)
   ↔ showRestTimer (t_page m) = true ∧ 0 < restTime (t_page m)) ∧
  tm_live (unmountTimed m) = ∅.
Proof.
  intros Hr. pose proof (timed_reachable_ok _ _ _ _ _ tm_ok tm_idle Hr) as H.
  split_and!; [apply H| |by apply timer_ok_interval|by apply timer_ok_unmount].
  destruct H as (-> & _). unfold own.
  destruct (t_interval m); [by rewrite size_singleton|by rewrite size_empty; lia].
Qed.

(** The event [Tick] of the session page is the firing of its
    interval.  The state cells of the page with its interval are always a
    state the page of [Session] reaches; each step that can happen acts
    on them as the event it stands for, a firing as [Tick]; and every
    state the page of [Session] reaches is reached with the interval. *)
Theorem timed_refines_session :
  (∀ m, timed_reachable routine library now tm m →
     ui_reachable routine library now (t_page m) ∧
     ∀ tev, possible routine tev m →
       t_page (tstep routine library tev m)
       = final (dispatch routine library (erase tev) (t_page m))) ∧
  (∀ st, ui_reachable routine library now st →
     ∃ m, timed_reachable routine library now tm m ∧ t_page m = st).
Proof.
  split; [|intros st; by apply ui_timed_reachable].
  intros m Hr. split; [by eapply timed_ui_reachable|].
  intros tev. apply tstep_page. by eapply timed_reachable_ok.
Qed.

(** C14: the countdown ends.  From any state the page reaches with the
    rest overlay shown and [restTime] seconds left, when the user leaves
    the page alone the interval fires [restTime] times, being set each
    time, and then the time left is zero, nothing else has changed, and
    the page holds no interval: nothing fires any more. *)
Theorem countdown_ends m :
  timed_reachable routine library now tm m → showRestTimer (t_page m) = true →
  let k := Z.to_nat (restTime (t_page m)) in
  (∀ j, (j < k)%nat → is_Some (t_interval (Nat.iter j (fireOwn routine) m))) ∧
  let m' := Nat.iter k (fireOwn routine) m in
  t_page m' = setRestTime 0 (t_page m) ∧ t_interval m' = None ∧
  tm_live (t_timers m') = ∅.
Proof.
  intros Hr Hs. pose proof (timed_reachable_ok _ _ _ _ _ tm_ok tm_idle Hr) as H.
  destruct (ui_reachable_inv _ _ _ _ (timed_ui_reachable _ _ _ _ _ tm_ok tm_idle Hr))
    as [[_ _ _ _ _ _ _ Hrest] _].
  assert (∀ j, t_page (Nat.iter j (fireOwn routine) m)
               = setRestTime (Z.max 0 (restTime (t_page m) - Z.of_nat j)) (t_page m))
    as Hp by (intros j; destruct (iter_fireOwn routine library j m H) as [_ ->];
              by apply run_ticks).
  cbv zeta. split.
  - intros j Hj. destruct (iter_fireOwn routine library j m H) as [Hok _].
    apply (timer_ok_interval _ Hok). rewrite Hp. simpl. split; [done|lia].
  - destruct (iter_fireOwn routine library (Z.to_nat (restTime (t_page m))) m H)
      as [Hok _].
    assert (t_interval (Nat.iter (Z.to_nat (restTime (t_page m))) (fireOwn routine) m)
            = None) as Hi.
    { apply eq_None_not_Some. rewrite (timer_ok_interval _ Hok), Hp. simpl. lia. }
    split_and!; [|done|].
    + rewrite Hp. f_equal. lia.
    + destruct Hok as (-> & _). unfold own. by rewrite Hi.
Qed.

End timed_properties.

(** ** Witnesses *)

Lemma noTimers_ok : timers_ok noTimers.
Proof. intros i Hi. by apply elem_of_empty in Hi. Qed.

Lemma demo_timed_reachable :
  timed_reachable demo_routine demo_library demo_now noTimers demo_timed.
Proof.
  unfold demo_timed, trun, foldl.
  repeat (apply timed_event; [|compute_done]). by apply timed_mounted.
Qed.

Lemma one_interval_witness :
  tm_live (t_timers demo_timed) = own demo_timed ∧
  (size (tm_live (t_timers demo_timed)) ≤ 1)%nat ∧
  (is_Some (t_interval demo_timed)
   ↔ showRestTimer (t_page demo_timed) = true ∧ 0 < restTime (t_page demo_timed)) ∧
  tm_live (unmountTimed demo_timed) = ∅.
Proof.
  apply (one_interval demo_routine demo_library demo_now noTimers);
    [exact noTimers_ok|done|exact demo_timed_reachable].
Defined.

Lemma timed_refines_session_witness :
  (∀ m, timed_reachable demo_routine demo_library demo_now noTimers m →
     ui_reachable demo_routine demo_library demo_now (t_page m) ∧
     ∀ tev, possible demo_routine tev m →
       t_page (tstep demo_routine demo_library tev m)
       = final (dispatch demo_routine demo_library (erase tev) (t_page m))) ∧
  (∀ st, ui_reachable demo_routine demo_library demo_now st →
     ∃ m, timed_reachable demo_routine demo_library demo_now noTimers m ∧
       t_page m = st).
Proof. apply timed_refines_session; [exact noTimers_ok|done]. Defined.

Lemma countdown_ends_witness :
  let k := Z.to_nat (restTime (t_page demo_timed)) in
  (∀ j, (j < k)%nat →
     is_Some (t_interval (Nat.iter j (fireOwn demo_routine) demo_timed))) ∧
  let m' := Nat.iter k (fireOwn demo_routine) demo_timed in
  t_page m' = setRestTime 0 (t_page demo_timed) ∧ t_interval m' = None ∧
  tm_live (t_timers m') = ∅.
Proof.
  apply (countdown_ends demo_routine demo_library demo_now noTimers);
    [exact noTimers_ok|done|exact demo_timed_reachable|done].
Defined.
