(* ===== verification/EngineSpec.v ===== *)
(** * EngineSpec: the session engine of the specification, and the page as
    an implementation of it

    [Engine] is the engine as the specification describes it: a position,
    the working sets as values, the committed entries as a map from
    exercise index to frozen logs, the rest countdown and the reviewing
    flag; one definition per operation.  [abs] reads such an engine out
    of a state of the page.  The page implements the engine on every
    event taken while the current exercise is not yet recorded, except
    "previous" from a later exercise; past these, the code departs from
    the specification ([SessionFlow], [SessionLog]). *)

From S2P Require Import Prelude Types Catalog Session Demo SessionInv.
From S2P Require Import SessionSets SessionFlow SessionLog.
From stdpp Require Import gmap.

#[local] Open Scope Z_scope.

Record Engine : Type := mkEngine {
  e_position : nat;
  e_currentSets : list WorkoutSetResult;
  e_committed : gmap nat (WorkoutExerciseLog WorkoutSetResult);
  e_restRemaining : Z;
  e_restActive : bool;
  e_reviewing : bool;
}.

Definition withSets (v : list WorkoutSetResult) (e : Engine) : Engine :=
  mkEngine (e_position e) v (e_committed e) (e_restRemaining e)
    (e_restActive e) (e_reviewing e).

Definition withRest (active : bool) (remaining : Z) (e : Engine) : Engine :=
  mkEngine (e_position e) (e_currentSets e) (e_committed e) remaining active
    (e_reviewing e).

Definition withReviewing (v : bool) (e : Engine) : Engine :=
  mkEngine (e_position e) (e_currentSets e) (e_committed e)
    (e_restRemaining e) (e_restActive e) v.

Section spec.
Context (routine : Routine) (library : list Exercise).

(** One set per planned set, not completed, performed and target the
    planned value. *)
Definition freshSets (routineEx : RoutineExercise) : list WorkoutSetResult :=
  (λ i : nat,
     mkWorkoutSetResult (Z.of_nat i + 1) false (re_repsOrDuration routineEx)
       (re_repsOrDuration routineEx))
  <$> seq 0 (Z.to_nat (re_sets routineEx)).

(** Initialization; an empty routine is rejected. *)
Definition spec_init : option Engine :=
  routineEx ← r_exercises routine !! 0%nat;
  Some (mkEngine 0 (freshSets routineEx) ∅ 0 false false).

Definition toggleSet (index : nat) (e : Engine) : option Engine :=
  s ← e_currentSets e !! index;
  routineEx ← r_exercises routine !! e_position e;
  let e1 :=
    withSets (<[index := with_completed (negb (ws_completed s)) s]>
                (e_currentSets e)) e in
  Some (if negb (ws_completed s) && bool_decide (0 < re_restSeconds routineEx)
        then withRest true (re_restSeconds routineEx) e1
        else e1).

Definition adjustValue (index : nat) (delta : Z) (e : Engine) : option Engine :=
  s ← e_currentSets e !! index;
  Some (withSets
          (<[index := with_repsOrDuration
                        (Z.max 0 (ws_repsOrDuration s + delta)) s]>
             (e_currentSets e)) e).

Definition addSet (e : Engine) : Engine :=
  let sets := e_currentSets e in
  withSets
    (sets ++ [mkWorkoutSetResult (Z.of_nat (length sets) + 1) false
                (from_option ws_repsOrDuration 10 (last sets))
                (from_option ws_target 10 (last sets))]) e.

Definition removeSet (e : Engine) : Engine :=
  if bool_decide (1 < length (e_currentSets e))%nat
  then withSets (removelast (e_currentSets e)) e
  else e.

Definition spec_restTick (e : Engine) : Engine :=
  if e_restActive e && bool_decide (0 < e_restRemaining e)
  then withRest (e_restActive e) (e_restRemaining e - 1) e
  else e.

Definition spec_extendRest (seconds : Z) (e : Engine) : Engine :=
  withRest (e_restActive e) (e_restRemaining e + seconds) e.

Definition spec_skipRest (e : Engine) : Engine :=
  withRest false (e_restRemaining e) e.

(** The snapshot of the working sets, keyed by the position; the name
    comes from the catalog at commit time. *)
Definition commitCurrentExercise (e : Engine) : option Engine :=
  routineEx ← r_exercises routine !! e_position e;
  let entry :=
    mkWorkoutExerciseLog (re_exerciseId routineEx)
      (exerciseName library routineEx) (e_currentSets e) in
  Some (mkEngine (e_position e) (e_currentSets e)
          (<[e_position e := entry]> (e_committed e)) (e_restRemaining e)
          (e_restActive e) (e_reviewing e)).

Definition moveTo (position : nat) (sets : list WorkoutSetResult) (e : Engine)
    : Engine :=
  mkEngine position sets (e_committed e) (e_restRemaining e) (e_restActive e)
    (e_reviewing e).

Definition advance (e : Engine) : option Engine :=
  e1 ← commitCurrentExercise e;
  if bool_decide (e_position e < length (r_exercises routine) - 1)%nat
  then routineEx ← r_exercises routine !! (e_position e + 1)%nat;
       Some (moveTo (e_position e + 1) (freshSets routineEx) e1)
  else Some (withReviewing true e1).

(** Going back restores the committed sets of the earlier exercise when
    there are any. *)
Definition retreat (e : Engine) : option Engine :=
  e1 ← commitCurrentExercise e;
  if bool_decide (0 < e_position e)%nat
  then routineEx ← r_exercises routine !! (e_position e - 1)%nat;
       Some (moveTo (e_position e - 1)
               (match e_committed e1 !! (e_position e - 1)%nat with
                | Some entry => wel_sets entry
                | None => freshSets routineEx
                end) e1)
  else Some e1.

(** The operation of the engine an event of the page stands for; [None]
    where a precondition of the operation fails. *)
Definition spec_step (ev : Event) (e : Engine) : option Engine :=
  match ev with
  | ToggleSet index => toggleSet index e
  | UpdateValue index delta => adjustValue index delta e
  | AddSet => Some (addSet e)
  | RemoveSet => Some (removeSet e)
  | NextExercise => advance e
  | PrevExercise => retreat e
  | Tick => Some (spec_restTick e)
  | ExtendRest => Some (spec_extendRest 10 e)
  | SkipRest => Some (spec_skipRest e)
  | RequestFinish => Some (withReviewing true e)
  | CancelSummary => Some (withReviewing false e)
  end.

Fixpoint spec_run (evs : list Event) (e : Engine) : option Engine :=
  match evs with
  | [] => Some e
  | ev :: evs => spec_step ev e ≫= spec_run evs
  end.

(** ** The engine a state of the page stands for *)

(** The recorded entries with the values of their sets. *)
Definition committedOf (st : SessionState)
    : option (list (WorkoutExerciseLog WorkoutSetResult)) :=
  mapM (resolve_entry (deref (heap st))) (workoutData st).

Definition abs (st : SessionState) : option Engine :=
  sets ← currentSetValues st;
  entries ← committedOf st;
  Some (mkEngine (exerciseIndex st) sets (map_seq 0 entries) (restTime st)
          (showRestTimer st) (showSummary st)).

(** The current exercise is not recorded. *)
Definition fresh (st : SessionState) : Prop :=
  workoutData st !! exerciseIndex st = None.

(** An event on which the page follows the engine: an existing set for
    the indexed ones, the current exercise not recorded, and "previous"
    only on the first exercise. *)
Definition follows (ev : Event) (st : SessionState) : Prop :=
  valid ev st ∧ fresh st ∧ (ev = PrevExercise → exerciseIndex st = 0%nat).

Fixpoint followsAlong (evs : list Event) (st : SessionState) : Prop :=
  match evs with
  | [] => True
  | ev :: evs =>
      follows ev st ∧
      followsAlong evs (final (dispatch routine library ev st))
  end.

#[export] Instance fresh_dec st : Decision (fresh st).
Proof. unfold fresh. apply _. Defined.

#[export] Instance follows_dec ev st : Decision (follows ev st).
Proof. unfold follows. apply _. Defined.

#[export] Instance followsAlong_dec evs st : Decision (followsAlong evs st).
Proof. revert st. induction evs; simpl; apply _. Defined.

End spec.

Section refinement.
Context (routine : Routine) (library : list Exercise).
Implicit Types (st : SessionState) (e : Engine) (ev : Event).

Lemma mapM_ext_lookup {A B} (f g : A → option B) (l : list A) :
  (∀ j x, l !! j = Some x → f x = g x) → mapM f l = mapM g l.
Proof.
  induction l as [|a l IH]; intros H; [done|]. simpl.
  rewrite (H 0%nat a eq_refl), IH; [done|]. intros j x Hj. by apply (H (S j)).
Qed.

Lemma mapM_snoc {A B} (f : A → option B) (l : list A) x :
  mapM f (l ++ [x]) = es ← mapM f l; y ← f x; Some (es ++ [y]).
Proof.
  induction l as [|a l IH]; simpl.
  - by destruct (f x).
  - destruct (f a); simpl; [|done]. rewrite IH.
    destruct (mapM f l); simpl; [|done]. by destruct (f x).
Qed.

Lemma freshSets_initialSets routineEx : freshSets routineEx = initialSets routineEx.
Proof. done. Qed.

Lemma abs_eq st vs es :
  currentSetValues st = Some vs → committedOf st = Some es →
  abs st = Some (mkEngine (exerciseIndex st) vs (map_seq 0 es) (restTime st)
                   (showRestTimer st) (showSummary st)).
Proof. intros Hv Hc. unfold abs. by rewrite Hv, Hc. Qed.

Lemma abs_inv st e :
  abs st = Some e →
  ∃ vs es, currentSetValues st = Some vs ∧ committedOf st = Some es ∧
    e = mkEngine (exerciseIndex st) vs (map_seq 0 es) (restTime st)
          (showRestTimer st) (showSummary st).
Proof.
  unfold abs. destruct (currentSetValues st) as [vs|]; [|done].
  destruct (committedOf st) as [es|]; [|done]. simpl.
  intros [= <-]. by exists vs, es.
Qed.

(** The recorded entries read the same after a step that leaves
    [workoutData] alone and does not change the values of the entries of
    other exercises. *)
Lemma committedOf_congr st st' :
  fresh st → workoutData st' = workoutData st →
  (∀ j, j ≠ exerciseIndex st → entryValues st' j = entryValues st j) →
  committedOf st' = committedOf st.
Proof.
  intros Hf Hd Hv. unfold committedOf. rewrite Hd.
  apply mapM_ext_lookup. intros j x Hx.
  assert (j ≠ exerciseIndex st) as Hne by (intros ->; by rewrite Hf in Hx).
  specialize (Hv j Hne). unfold entryValues in Hv. rewrite Hd, Hx in Hv.
  simpl in Hv. unfold resolve_entry. by rewrite Hv.
Qed.

(** The states below are [st] before the event and [st'] after it, with
    [vs] and [es] the values and entries of [st]. *)
Lemma abs_step st st' vs es vs' :
  fresh st → currentSetValues st = Some vs → committedOf st = Some es →
  workoutData st' = workoutData st →
  (∀ j, j ≠ exerciseIndex st → entryValues st' j = entryValues st j) →
  currentSetValues st' = Some vs' →
  abs st' = Some (mkEngine (exerciseIndex st') vs' (map_seq 0 es)
                    (restTime st') (showRestTimer st') (showSummary st')).
Proof.
  intros Hf Hv Hc Hd He Hv'. apply abs_eq; [done|].
  by rewrite (committedOf_congr st st').
Qed.

Lemma abs_toggle st e index :
  wf routine library st → fresh st → (index < length (currentSets st))%nat →
  abs st = Some e →
  abs (final (handleToggleSet routine index st)) = toggleSet routine index e.
Proof.
  intros H Hf Hi (vs & es & Hv & Hc & ->)%abs_inv.
  destruct (wf_valid_lookup _ _ _ _ H Hi) as (l & s & rex & Hl & Hs & Hrex).
  assert (vs !! index = Some s) as Hvs by by rewrite <-(deref_lookup _ _ _ _ _ Hv Hl).
  destruct (handleToggleSet_Done routine st vs index s rex) as (st1 & Hv1 & Hst1 & Ht);
    [apply H|done..|].
  pose proof (handleToggleSet_frame routine index st) as (Hi' & Hd & _).
  pose proof (entryValues_handleToggleSet routine library st index) as He.
  rewrite (abs_step st _ vs es
             (<[index := with_completed (negb (ws_completed s)) s]> vs));
    [|done || by intros j Hj; apply He..|].
  2: { rewrite Ht. simpl. destruct (ws_completed s); by rewrite ?startRest_values. }
  unfold toggleSet. simpl. rewrite Hvs, Hrex. simpl.
  rewrite Ht, Hst1. unfold startRest. simpl.
  destruct (ws_completed s); simpl; [done|]. by case_bool_decide.
Qed.

Lemma abs_update st e index delta :
  wf routine library st → fresh st → (index < length (currentSets st))%nat →
  abs st = Some e →
  abs (final (handleUpdateValue index delta st)) = adjustValue index delta e.
Proof.
  intros H Hf Hi (vs & es & Hv & Hc & ->)%abs_inv.
  destruct (wf_valid_lookup _ _ _ _ H Hi) as (l & s & rex & Hl & Hs & Hrex).
  assert (vs !! index = Some s) as Hvs by by rewrite <-(deref_lookup _ _ _ _ _ Hv Hl).
  destruct (handleUpdateValue_Done st vs index s delta) as (st1 & Hu & Hv1);
    [apply H|done..|].
  pose proof (handleUpdateValue_frame index delta st) as (Hi' & Hd & _).
  pose proof (entryValues_handleUpdateValue routine library st index delta) as He.
  erewrite (abs_step st);
    [|done || by intros j Hj; apply He..|by rewrite Hu].
  unfold adjustValue. simpl. rewrite Hvs. simpl.
  rewrite (handleUpdateValue_eq _ _ _ _ _ Hl Hs). done.
Qed.

Lemma abs_add st e :
  wf routine library st → fresh st → abs st = Some e →
  abs (handleAddSet st) = Some (addSet e).
Proof.
  intros H Hf (vs & es & Hv & Hc & ->)%abs_inv.
  erewrite (abs_step st); [|done..| |by apply handleAddSet_values].
  - unfold addSet, addedSet. simpl. by destruct (last vs).
  - intros j _. by apply (entryValues_handleAddSet routine library).
Qed.

Lemma abs_remove st e :
  wf routine library st → fresh st → abs st = Some e →
  abs (handleRemoveSet st) = Some (removeSet e).
Proof.
  intros H Hf (vs & es & Hv & Hc & ->)%abs_inv.
  erewrite (abs_step st); [|done..| | |by apply handleRemoveSet_values].
  - unfold removeSet, handleRemoveSet, JS.slice_0_m1. simpl.
    rewrite (current_length _ _ Hv). case_bool_decide; [|done].
    unfold withSets. simpl. by rewrite removelast_firstn_len, Nat.sub_1_r.
  - unfold handleRemoveSet. by case_bool_decide.
  - intros j _. apply entryValues_handleRemoveSet.
Qed.

(** The events that change neither sets nor entries. *)
Lemma abs_overlay st e st' :
  abs st = Some e → heap st' = heap st → workoutData st' = workoutData st →
  currentSets st' = currentSets st → exerciseIndex st' = exerciseIndex st →
  abs st' = Some (mkEngine (e_position e) (e_currentSets e) (e_committed e)
                    (restTime st') (showRestTimer st') (showSummary st')).
Proof.
  intros (vs & es & Hv & Hc & ->)%abs_inv Hh Hd Hs Hi. simpl. rewrite <-Hi.
  apply abs_eq.
  - unfold currentSetValues. by rewrite Hh, Hs.
  - unfold committedOf. by rewrite Hh, Hd.
Qed.

(** ** Recording and moving *)

Lemma fresh_length st :
  wf routine library st → fresh st → length (workoutData st) = exerciseIndex st.
Proof.
  intros H Hf. apply lookup_ge_None in Hf. pose proof (wf_visited _ _ _ H). lia.
Qed.

Lemma committedOf_length st es :
  committedOf st = Some es → length es = length (workoutData st).
Proof. intros Hc. symmetry. by eapply length_mapM. Qed.

Lemma committedOf_recorded st routineEx vs es :
  fresh st → currentSetValues st = Some vs → committedOf st = Some es →
  committedOf (recorded library routineEx st)
  = Some (es ++ [mkWorkoutExerciseLog (re_exerciseId routineEx)
                   (exerciseName library routineEx) vs]).
Proof.
  intros Hf Hv Hc. unfold committedOf, recorded, upsert in *. rewrite Hf. simpl.
  rewrite mapM_snoc, Hc. simpl. unfold resolve_entry. simpl.
  unfold currentSetValues in Hv. by rewrite Hv.
Qed.

Lemma committedOf_grow st st' vs :
  (∀ j x, workoutData st !! j = Some x → live (heap st) (wel_sets x)) →
  workoutData st' = workoutData st → heap st' = heap st ++ vs →
  committedOf st' = committedOf st.
Proof.
  intros Hl Hd Hh. unfold committedOf. rewrite Hd, Hh.
  apply mapM_ext_lookup. intros j x Hx. unfold resolve_entry.
  by rewrite (deref_app_live _ _ _ (Hl j x Hx)).
Qed.

(** The engine after the commit of the current exercise. *)
Lemma abs_recorded st routineEx vs es :
  wf routine library st → fresh st →
  currentSetValues st = Some vs → committedOf st = Some es →
  abs (recorded library routineEx st)
  = Some (mkEngine (exerciseIndex st) vs
            (<[exerciseIndex st :=
                 mkWorkoutExerciseLog (re_exerciseId routineEx)
                   (exerciseName library routineEx) vs]> (map_seq 0 es))
            (restTime st) (showRestTimer st) (showSummary st)).
Proof.
  intros H Hf Hv Hc.
  rewrite (abs_eq (recorded library routineEx st) vs _ Hv
             (committedOf_recorded _ routineEx _ _ Hf Hv Hc)).
  rewrite map_seq_snoc. simpl.
  by rewrite (committedOf_length _ _ Hc), (fresh_length _ H Hf).
Qed.

Lemma abs_moved st routineEx routineEx' k vs es :
  wf routine library st → fresh st →
  r_exercises routine !! exerciseIndex st = Some routineEx →
  r_exercises routine !! k = Some routineEx' →
  currentSetValues st = Some vs → committedOf st = Some es →
  abs (loadSetsEffect routine (setExerciseIndex k (recorded library routineEx st)))
  = Some (mkEngine k (freshSets routineEx')
            (<[exerciseIndex st :=
                 mkWorkoutExerciseLog (re_exerciseId routineEx)
                   (exerciseName library routineEx) vs]> (map_seq 0 es))
            (restTime st) (showRestTimer st) (showSummary st)).
Proof.
  intros H Hf Hrex Hrex' Hv Hc.
  set (st1 := setExerciseIndex k (recorded library routineEx st)).
  destruct (loadSetsEffect_frame routine st1) as (Hi & Hd & Hs & Hr & Ht & _ & ws & Hh).
  pose proof (abs_recorded st routineEx vs es H Hf Hv Hc) as Ha.
  apply abs_inv in Ha as (vs1 & es1 & _ & Hc1 & [= _ Hm]).
  rewrite (abs_eq _ (freshSets routineEx') es1).
  - rewrite Hi, Hs, Hr, Ht. simpl. by rewrite <-Hm.
  - by apply (loadSetsEffect_values routine st1).
  - rewrite <-Hc1. eapply committedOf_grow; [|exact Hd|exact Hh].
    intros j x Hx. by eapply (wf_data_live _ _ _ (wf_recorded _ _ _ _ H Hrex)).
Qed.

Lemma abs_next st e :
  wf routine library st → fresh st → abs st = Some e →
  abs (final (dispatch routine library NextExercise st))
  = advance routine library e.
Proof.
  intros H Hf (vs & es & Hv & Hc & ->)%abs_inv.
  destruct (wf_routineEx _ _ _ H) as [rex Hrex].
  rewrite (dispatch_Next_eq _ _ _ _ Hrex). unfold advance, commitCurrentExercise.
  simpl. rewrite Hrex. simpl. case_bool_decide as Hlt; simpl.
  - destruct (lookup_lt_is_Some_2 (r_exercises routine) (exerciseIndex st + 1))
      as [rex' Hrex']; [lia|]. rewrite Hrex'. simpl.
    by rewrite (abs_moved st rex rex' _ vs es).
  - by rewrite (abs_overlay (recorded library rex st) _ _
                  (abs_recorded st rex vs es H Hf Hv Hc)).
Qed.

Lemma abs_prev_first st e :
  wf routine library st → fresh st → exerciseIndex st = 0%nat →
  abs st = Some e →
  abs (final (dispatch routine library PrevExercise st))
  = retreat routine library e.
Proof.
  intros H Hf H0 (vs & es & Hv & Hc & ->)%abs_inv.
  destruct (wf_routineEx _ _ _ H) as [rex Hrex].
  rewrite (dispatch_Prev_eq _ _ _ _ Hrex). unfold retreat, commitCurrentExercise.
  simpl. rewrite Hrex. simpl. rewrite !bool_decide_false by lia. simpl.
  by rewrite (abs_recorded st rex vs es).
Qed.

(** ** One event *)

Lemma abs_is_Some st : wf routine library st → is_Some (abs st).
Proof.
  intros H. destruct (wf_currentSetValues _ _ _ H) as [vs Hv].
  destruct (wf_resolve _ _ _ H) as (es & Hes & _).
  rewrite (abs_eq st vs es Hv Hes). by eexists.
Qed.

Lemma follows_step ev st e :
  wf routine library st → follows ev st → abs st = Some e →
  abs (final (dispatch routine library ev st)) = spec_step routine library ev e.
Proof.
  intros H (Hv & Hf & Hp) Ha.
  destruct ev; simpl in Hv; autorewrite with mob_rw; simpl.
  - by apply abs_toggle.
  - by apply abs_update.
  - by apply abs_add.
  - by apply abs_remove.
  - by apply abs_next.
  - apply abs_prev_first; auto.
  - rewrite (abs_overlay st e _ Ha); try by destruct (showRestTimer st && _).
    apply abs_inv in Ha as (vs & es & _ & _ & ->). unfold spec_restTick. simpl.
    by destruct (showRestTimer st && _).
  - rewrite (abs_overlay st e _ Ha); try done.
    by apply abs_inv in Ha as (vs & es & _ & _ & ->).
  - rewrite (abs_overlay st e _ Ha); try done.
    by apply abs_inv in Ha as (vs & es & _ & _ & ->).
  - rewrite (abs_overlay st e _ Ha); try done.
    by apply abs_inv in Ha as (vs & es & _ & _ & ->).
  - rewrite (abs_overlay st e _ Ha); try done.
    by apply abs_inv in Ha as (vs & es & _ & _ & ->).
Qed.

Lemma follows_run evs st e :
  wf routine library st → followsAlong routine library evs st →
  abs st = Some e →
  abs (run routine library evs st) = spec_run routine library evs e.
Proof.
  revert st e. induction evs as [|ev evs IH]; intros st e H Hf Ha; [done|].
  destruct Hf as [Hf1 Hf2]. rewrite run_cons. simpl.
  pose proof (follows_step ev st e H Hf1 Ha) as Hstep.
  destruct (abs_is_Some _ (wf_dispatch _ _ ev _ H)) as [e1 He1].
  rewrite He1 in Hstep. rewrite <-Hstep. simpl.
  by apply IH; [apply wf_dispatch|..].
Qed.

Lemma abs_start now st :
  startSession routine library now = Done st → abs st = spec_init routine.
Proof.
  unfold startSession, render, spec_init, loadSetsEffect. simpl.
  destruct (r_exercises routine !! 0%nat) as [rex|]; [|done]. simpl.
  intros [= <-]. by rewrite (abs_eq _ (freshSets rex) []); [|apply (allocs_deref [])|].
Qed.

(** ** Properties *)

(** C3: the page implements the engine of the specification on the runs
    that only move forward.  From a mounted session, through events each
    taken while the current exercise is not recorded yet (and "previous"
    only on the first exercise), the engine read out of the page's state
    is the engine the specification's operations produce from its
    initial one: same position, same working sets, same committed
    entries, same rest countdown, same reviewing flag. *)
Theorem page_refines_engine now evs st0 :
  startSession routine library now = Done st0 →
  followsAlong routine library evs st0 →
  ∃ e0 e, spec_init routine = Some e0 ∧ abs st0 = Some e0 ∧
    spec_run routine library evs e0 = Some e ∧
    abs (run routine library evs st0) = Some e.
Proof.
  intros Hst Hf. pose proof (wf_startSession _ _ _ _ Hst) as H0.
  destruct (abs_is_Some _ H0) as [e0 He0].
  destruct (abs_is_Some _ (wf_run _ _ evs _ H0)) as [e He].
  exists e0, e. rewrite <-(abs_start _ _ Hst).
  split_and!; try done. by rewrite <-(follows_run evs st0 e0 H0 Hf He0).
Qed.

(** C21: where the page leaves the engine.  "Previous" from a later
    exercise gives the engine of the specification the committed sets of
    the earlier exercise to work on, and the page fresh sets from the
    plan; position, committed entries and countdown agree. *)
Theorem retreat_departs st e routineEx entry :
  wf routine library st → fresh st → (0 < exerciseIndex st)%nat →
  abs st = Some e →
  r_exercises routine !! (exerciseIndex st - 1)%nat = Some routineEx →
  e_committed e !! (exerciseIndex st - 1)%nat = Some entry →
  ∃ e1 e2, retreat routine library e = Some e1 ∧
    abs (final (dispatch routine library PrevExercise st)) = Some e2 ∧
    e_currentSets e1 = wel_sets entry ∧
    e_currentSets e2 = freshSets routineEx ∧
    e2 = withSets (freshSets routineEx) e1.
Proof.
  intros H Hf Hpos (vs & es & Hv & Hc & ->)%abs_inv Hrex' Hent.
  destruct (wf_routineEx _ _ _ H) as [rex Hrex]. simpl in Hent.
  rewrite (dispatch_Prev_eq _ _ _ _ Hrex), bool_decide_true by done. simpl.
  rewrite (abs_moved st rex routineEx _ vs es) by done.
  unfold retreat, commitCurrentExercise. simpl. rewrite Hrex. simpl.
  rewrite bool_decide_true by done. rewrite Hrex'. simpl.
  rewrite lookup_insert_ne by lia. rewrite Hent.
  by eexists _, _.
Qed.

End refinement.

(** ** Witnesses *)

Lemma page_refines_engine_witness :
  let evs := [ToggleSet 0; Tick; Tick; ExtendRest; SkipRest; UpdateValue 1 (-3);
              AddSet; RemoveSet; NextExercise; ToggleSet 1; RequestFinish;
              CancelSummary; NextExercise] in
  ∃ e0 e, spec_init demo_routine = Some e0 ∧ abs demo_start = Some e0 ∧
    spec_run demo_routine demo_library evs e0 = Some e ∧
    abs (run demo_routine demo_library evs demo_start) = Some e.
Proof.
  apply (page_refines_engine _ _ demo_now); [exact demo_start_Done|compute_done].
Defined.

Lemma retreat_departs_witness :
  let st := demo_run [ToggleSet 0; SkipRest; UpdateValue 1 5; NextExercise] in
  ∃ e1 e2,
    retreat demo_routine demo_library (default (mkEngine 0 [] ∅ 0 false false) (abs st))
    = Some e1 ∧
    abs (final (dispatch demo_routine demo_library PrevExercise st)) = Some e2 ∧
    e_currentSets e1
    = [mkWorkoutSetResult 1 true 10 10; mkWorkoutSetResult 2 false 15 10] ∧
    e_currentSets e2 = freshSets (mkRoutineExercise "e2" 2 10 30) ∧
    e2 = withSets (freshSets (mkRoutineExercise "e2" 2 10 30)) e1.
Proof.
  intros st.
  apply (retreat_departs demo_routine demo_library st _ _
           (mkWorkoutExerciseLog "e2" "Cat-Cow Stretch"
              [mkWorkoutSetResult 1 true 10 10; mkWorkoutSetResult 2 false 15 10]));
    [apply demo_run_wf|compute_done|vm_compute; lia|by vm_compute..].
Defined.
