(* ===== verification/Pages.v ===== *)
(** * Pages: the application around the session ([App.tsx])

    The root component's [stats] state and the pages that read or write
    the storage: the boot effect of [App], [togglePremium] of the profile
    page, [handleStart] and the create card of the training page, the
    recent logs of the home page, and the end of [handleFinishWorkout],
    which hands the session's log to [Storage.saveLog].

    The [stats] state is an object reference ([StatsRef]): the constant
    [INITIAL_STATS], or an object of the root's own.  The pages render the
    contents of that object, not the storage. *)

From S2P Require Import Prelude Types Catalog Storage Builder Session Demo.
From S2P Require Import SessionInv SessionSets SessionFlow SessionLog.

(** The root component: its [stats] state, and the environment of the
    storage module. *)
Record AppState : Type := mkAppState {
  app_stats : StatsRef;
  app_env : Env;
}.

#[export] Instance AppState_eq_dec : EqDecision AppState.
Proof. solve_decision. Defined.

(** The root before its effect has run: [useState(INITIAL_STATS)]. *)
Definition App_initial (env : Env) : AppState := mkAppState TheInitial env.

(** The effect of the root: [setStats(Storage.getStats())]. *)
Definition App_mount (app : AppState) : AppState :=
  mkAppState (getStats (app_env app)) (app_env app).

(** The statistics the pages are given. *)
Definition statsShown (app : AppState) : UserStats :=
  readStats (app_env app) (app_stats app).

(** [togglePremium] of the profile page. *)
Definition togglePremium (app : AppState) : AppState :=
  let stats := statsShown app in
  let newStats :=
    mkUserStats (us_totalWorkouts stats) (us_totalMinutes stats)
      (us_streakDays stats) (us_lastWorkoutDate stats)
      (negb (us_isPremium stats)) in
  let env := saveStats newStats (app_env app) in
  mkAppState (Fresh newStats) env.

(** [handleStart] of the training page: the routine the session page is
    opened on, or [None] after the alert. *)
Definition handleStart (isPremium : bool) (routine : Routine) : option Routine :=
  if r_isPremium routine && negb isPremium then None else Some routine.

(** Whether the card that leads to the builder is rendered under the
    user's routines. *)
Definition createCardShown (isPremium : bool) (routines : list Routine) : bool :=
  bool_decide (Z.of_nat (length routines) < (if isPremium then 99 else 3)).

(** Whether the start button of a premade routine is disabled. *)
Definition premadeStartDisabled (isPremium : bool) (routine : Routine) : bool :=
  negb isPremium && r_isPremium routine.

(** The logs the home page lists: [getLogs().reverse().slice(0, 5)]. *)
Definition recentLogs (env : Env) : list StoredLog :=
  take 5 (reverse (getLogs env)).

(** The minutes the home page shows for a log of the list:
    [Math.floor(log.totalDurationSeconds / 60)]. *)
Definition minutesShown (log : StoredLog) : Z :=
  JS.Math_floor (wl_totalDurationSeconds log / (60 # 1))%Q.

(** Whether the home page shows the "no workouts" box instead of the
    list. *)
Definition noWorkoutsShown (logs : list StoredLog) : bool :=
  bool_decide (length logs = 0%nat).

(** The bars of the weekly chart of the home page: the memo is recomputed
    when [logs] changes and does not read it. *)
Definition weeklyData (logs : list StoredLog) : list (string * Z) :=
  [("S", 10); ("T", 25); ("Q", 0); ("Q", 30); ("S", 15); ("S", 45); ("D", 20)].

(** The points of the profile page's chart: five fixed months, and
    [stats.totalWorkouts || 1] for June. *)
Definition data (stats : UserStats) : list (string * Z) :=
  [("Jan", 12); ("Feb", 19); ("Mar", 3); ("Apr", 5); ("May", 2);
   ("Jun", or_number (Some (us_totalWorkouts stats)) 1)].

(** Whether the profile page draws the chart rather than the lock. *)
Definition chartShown (stats : UserStats) : bool := us_isPremium stats.

(** The end of the session page's [handleFinishWorkout]: the log is
    written out with the values its set objects hold, and saved.
    [endTime], [idNow] and [saveNow] are the three clock readings taken on
    the way. *)
Definition finishWorkout (routine : Routine) (library : list Exercise)
    (endTime idNow saveNow : Z) (st : SessionState) (app : AppState)
    : option AppState :=
  log ← handleFinishWorkout routine library endTime idNow st;
  stored ← storedLog st log;
  Some (mkAppState (app_stats app) (saveLog saveNow stored (app_env app))).

(** A log saved while the root is mounted. *)
Definition logSaved (now : Z) (log : StoredLog) (app : AppState) : AppState :=
  mkAppState (app_stats app) (saveLog now log (app_env app)).

(** The application of the examples, opened on a storage that holds one
    workout of 95 seconds. *)
Definition demo_app : AppState :=
  App_mount
    (App_initial
       (saveLog 1700000095010 (sampleLog 1700000000000 95000) emptyEnv)).

(** ** Lemmas *)


Lemma take_reverse_snoc {A} (l : list A) x n :
  take (S n) (reverse (l ++ [x])) = x :: take n (reverse l).
Proof. by rewrite reverse_app. Qed.

Lemma minutesShown_ms (log : StoredLog) ms :
  wl_totalDurationSeconds log = ms # 1000 → minutesShown log = ms `div` 60000.
Proof.
  intros E. unfold minutesShown. rewrite E.
  change ((ms # 1000) / (60 # 1))%Q with (ms * 1 # 60000).
  unfold JS.Math_floor, Qfloor. by rewrite Z.mul_1_r.
Qed.

(** The June point of the chart is the number of workouts, and 1 when
    there is none. *)
Lemma data_june stats :
  0 ≤ us_totalWorkouts stats →
  last (data stats) = Some ("Jun", Z.max 1 (us_totalWorkouts stats)).
Proof. intros H. simpl. do 2 f_equal. case_decide; lia. Qed.

Section pages.
Context (routine : Routine) (library : list Exercise).

(** ** Properties *)

(** C5: finishing a session of a well-formed state always saves: the log
    of [finish_log], read out with the current values of its sets, is
    appended to the stored logs; the stored statistics count one workout
    and one streak day more, and the minutes grow by the session's
    milliseconds rounded to the nearest minute,
    [(endTime - startTime + 30000) / 60000]. *)
Theorem finishWorkout_saves endTime idNow saveNow st app :
  wf routine library st →
  ∃ log stored app',
    handleFinishWorkout routine library endTime idNow st = Some log ∧
    storedLog st log = Some stored ∧
    finishWorkout routine library endTime idNow saveNow st app = Some app' ∧
    getLogs (app_env app') = getLogs (app_env app) ++ [stored] ∧
    currentStats (app_env app')
    = (let old := currentStats (app_env app) in
       mkUserStats (us_totalWorkouts old + 1)
         (us_totalMinutes old + (endTime - startTime st + 30000) `div` 60000)
         (us_streakDays old + 1) (Some saveNow) (us_isPremium old)).
Proof.
  intros H.
  destruct (finish_stored _ _ endTime idNow _ H) as (log & es & Hlog & Hst).
  unfold finishWorkout. rewrite Hlog. simpl. rewrite Hst. simpl.
  eexists _, _, _. split_and!; try done.
  - simpl. by rewrite getLogs_saveLog.
  - simpl. rewrite currentStats_saveLog, updateStats_eq.
    by erewrite minutesOf_ms by done.
Qed.


(** On a first visit, with no statistics stored, the root holds the
    constant [INITIAL_STATS] itself; the first workout saved assigns to
    that object, so the pages show it, and from the second workout on
    they are behind the storage. *)
Theorem shown_stats_first_visit now1 log1 now2 log2 app :
  app_stats app = TheInitial → STATS (localStorage (app_env app)) = None →
  let app1 := logSaved now1 log1 app in
  let app2 := logSaved now2 log2 app1 in
  statsShown app1 = currentStats (app_env app1) ∧
  statsShown app2 = statsShown app1 ∧
  us_totalWorkouts (currentStats (app_env app2))
  = us_totalWorkouts (statsShown app2) + 1.
Proof.
  intros Hs Hn. cbv zeta. unfold statsShown, logSaved. simpl. rewrite Hs. simpl.
  rewrite !saveLog_eq. unfold currentStats, getStats. simpl. by rewrite Hn.
Qed.

(** C22: switching the premium flag after a workout undoes the workout in
    the statistics.  The profile page writes the statistics it was given
    with the flag flipped; when the root's object dates from before a
    workout, the stored counters go back to their values before it while
    the log stays stored, so the statistics no longer count the logs. *)
Theorem togglePremium_loses_workout now log app s :
  app_stats app = Fresh s → currentStats (app_env app) = s →
  counted (app_env app) →
  let app' := togglePremium (logSaved now log app) in
  totals (currentStats (app_env app')) = totals s ∧
  getLogs (app_env app') = getLogs (app_env app) ++ [log] ∧
  us_isPremium (statsShown app') = negb (us_isPremium s) ∧
  ¬ counted (app_env app').
Proof.
  intros Hs Hc Hcnt. cbv zeta. unfold togglePremium, statsShown, logSaved. simpl.
  rewrite Hs. simpl. rewrite getLogs_saveStats, getLogs_saveLog.
  split_and!; try done. unfold counted in *.
  rewrite currentStats_saveStats, getLogs_saveStats, getLogs_saveLog, length_app.
  rewrite Hc in Hcnt. unfold totals in *. simpl.
  injection Hcnt as E1 _ _. intros [= E2 _ _]. lia.
Qed.

(** [handleStart] opens the session on the routine it is given
    unless the routine is premium and the user is not; a premium routine
    is never started for a free user, and exactly the premade routines
    whose start button is disabled are refused. *)
Theorem handleStart_gating isPremium r :
  (handleStart isPremium r = Some r ↔ (r_isPremium r = true → isPremium = true)) ∧
  (handleStart isPremium r = None ↔ premadeStartDisabled isPremium r = true) ∧
  (∀ r', handleStart isPremium r = Some r' → r' = r).
Proof.
  unfold handleStart, premadeStartDisabled.
  destruct (r_isPremium r), isPremium; simpl; (split_and!; [split|split|]);
    try done; try congruence; by intros H; specialize (H eq_refl).
Qed.

(** The home page lists the five most recent logs, newest first:
    after a log is saved it comes first, followed by the four that came
    first before. *)
Theorem recentLogs_saveLog now log env :
  recentLogs (saveLog now log env) = log :: take 4 (recentLogs env) ∧
  (length (recentLogs env) ≤ 5)%nat.
Proof.
  unfold recentLogs. rewrite getLogs_saveLog, take_reverse_snoc, take_take.
  split; [done|]. rewrite length_take. lia.
Qed.

(** C34: the home page and the statistics count the minutes of a workout
    differently.  For a log of [ms] milliseconds the list of recent
    activity shows [ms / 60000] minutes, rounded down, while [saveLog]
    added the duration rounded to the nearest minute to the total: the
    two agree when the seconds past the minute are fewer than thirty and
    differ by one otherwise, so the minutes shown for the logs can add
    up to less than the total. *)
Theorem minutes_shown_vs_counted (log : StoredLog) ms :
  wl_totalDurationSeconds log = ms # 1000 → 0 ≤ ms →
  minutesShown log = ms `div` 60000 ∧
  minutesOf log
  = minutesShown log + (if decide (ms `mod` 60000 < 30000) then 0 else 1).
Proof.
  intros E Hms. rewrite (minutesShown_ms _ _ E), (minutesOf_ms _ _ E).
  split; [done|]. case_decide; Z.div_mod_to_equations; lia.
Qed.

(** The limit on the number of routines (three for a free user,
    ninety-nine for a premium one) only hides the create card of the
    training page.  The builder, which the header's create button opens
    at any count, saves whatever the count is: with the card hidden the
    stored routines still grow by one. *)
Theorem routine_limit_not_enforced isPremium idNow createdNow st env :
  saveDisabled st = false →
  createCardShown isPremium (getRoutines env) = false →
  ∃ r env', handleSave idNow createdNow st env = Some (r, env') ∧
    length (getRoutines env') = S (length (getRoutines env)) ∧
    createCardShown isPremium (getRoutines env') = false.
Proof.
  intros Hs Hc. unfold handleSave. rewrite Hs. eexists _, _. split; [done|].
  unfold createCardShown in *. apply bool_decide_eq_false in Hc.
  rewrite bool_decide_eq_false, getRoutines_saveRoutine, length_app. simpl.
  destruct isPremium; lia.
Qed.

End pages.

(** ** Witnesses *)

Lemma finishWorkout_saves_witness :
  let st := demo_run [ToggleSet 0; SkipRest; NextExercise] in
  ∃ log stored app',
    handleFinishWorkout demo_routine demo_library (demo_now + 95000)
      (demo_now + 95001) st = Some log ∧
    storedLog st log = Some stored ∧
    finishWorkout demo_routine demo_library (demo_now + 95000)
      (demo_now + 95001) (demo_now + 95002) st demo_app = Some app' ∧
    getLogs (app_env app') = getLogs (app_env demo_app) ++ [stored] ∧
    currentStats (app_env app')
    = (let old := currentStats (app_env demo_app) in
       mkUserStats (us_totalWorkouts old + 1)
         (us_totalMinutes old
          + (demo_now + 95000 - startTime st + 30000) `div` 60000)
         (us_streakDays old + 1) (Some (demo_now + 95002)) (us_isPremium old)).
Proof. apply finishWorkout_saves, demo_run_wf. Defined.

Lemma minutes_shown_vs_counted_witness :
  let log := sampleLog 1700000000000 95000 in
  minutesShown log = 95000 `div` 60000 ∧
  minutesOf log
  = minutesShown log + (if decide (95000 `mod` 60000 < 30000) then 0 else 1).
Proof. by apply minutes_shown_vs_counted. Defined.


Lemma shown_stats_first_visit_witness :
  let app1 := logSaved 1700000095010 (sampleLog 1700000000000 95000)
                (App_mount (App_initial emptyEnv)) in
  let app2 := logSaved 1700000400000 (sampleLog 1700000200000 60000) app1 in
  statsShown app1 = currentStats (app_env app1) ∧
  statsShown app2 = statsShown app1 ∧
  us_totalWorkouts (currentStats (app_env app2))
  = us_totalWorkouts (statsShown app2) + 1.
Proof. by apply shown_stats_first_visit. Defined.

Lemma togglePremium_loses_workout_witness :
  let s := mkUserStats 1 2 1 (Some 1700000095010) false in
  let log := sampleLog 1700000200000 60000 in
  let app' := togglePremium (logSaved 1700000400000 log demo_app) in
  totals (currentStats (app_env app')) = totals s ∧
  getLogs (app_env app') = getLogs (app_env demo_app) ++ [log] ∧
  us_isPremium (statsShown app') = negb (us_isPremium s) ∧
  ¬ counted (app_env app').
Proof. by apply togglePremium_loses_workout. Defined.

Lemma routine_limit_not_enforced_witness :
  let env := execs (SaveRoutine <$> [pm1 1; pm1 2; pm1 3]) emptyEnv in
  ∃ r env', handleSave 1700000000001 1700000000002 demo_builder env
            = Some (r, env') ∧
    length (getRoutines env') = S (length (getRoutines env)) ∧
    createCardShown false (getRoutines env') = false.
Proof. by apply routine_limit_not_enforced. Defined.
