(* ===== verification/Launch.v ===== *)
(** * Launch: the routines a session can run on

    A session needs a routine with an exercise ([routine_ok]) whose
    entries name exercises of the library ([routine_in]).  This file shows
    that such a routine always starts, that every state it reaches is
    well formed with every recorded name taken from the library, and that
    the routines the application can hand to the session page are of that
    kind: the premade routines in every language and the routines the
    builder stores. *)

From S2P Require Import Prelude Types Catalog Storage Builder Session Demo.
From S2P Require Import SessionInv.

(** An exercise the pages can show: it has a name. *)
Definition named (ex : Exercise) : Prop := ex_name ex ≠ "".

#[export] Instance named_dec ex : Decision (named ex).
Proof. unfold named. apply _. Defined.



Section launch.
Context (routine : Routine) (library : list Exercise).

Lemma startSession_ok now :
  routine_ok routine →
  ∃ st, startSession routine library now = Done st ∧ wf routine library st.
Proof.
  intros [Hne _].
  destruct (initialState_render routine library now Hne) as [v Hv].
  assert (startSession routine library now
          = Done (loadSetsEffect routine (initialState now))) as E
    by (unfold startSession; by rewrite Hv).
  eexists. split; [done|]. by eapply wf_startSession.
Qed.

Lemma findExercise_elem id :
  id ∈ ex_id <$> library →
  ∃ ex, findExercise library id = Some ex ∧ ex ∈ library ∧ ex_id ex = id.
Proof.
  intros (ex0 & Hid & Hin)%list_elem_of_fmap. unfold findExercise, JS.find.
  destruct (List.find _ library) as [ex|] eqn:E.
  - apply find_some in E as [Hin' Hid']. exists ex. split; [done|].
    split; [by apply list_elem_of_In|]. by apply bool_decide_eq_true in Hid'.
  - apply list_elem_of_In in Hin. pose proof (find_none _ _ E _ Hin) as Hn.
    simpl in Hn. by rewrite bool_decide_true in Hn.
Qed.

Lemma exerciseName_elem routineEx :
  Forall named library → re_exerciseId routineEx ∈ ex_id <$> library →
  ∃ ex, ex ∈ library ∧ ex_id ex = re_exerciseId routineEx ∧
    exerciseName library routineEx = ex_name ex.
Proof.
  intros Hnamed Hin. destruct (findExercise_elem _ Hin) as (ex & Hf & Hex & Hid).
  exists ex. split_and!; [done..|]. unfold exerciseName. rewrite Hf.
  unfold JS.or_string. rewrite decide_False; [done|].
  by eapply (proj1 (Forall_forall _ _) Hnamed).
Qed.

(** ** Properties *)

(** A session on a routine that has an exercise and names only
    exercises of the library starts, and whatever the user does then, the
    state is well formed and every recorded entry carries the id and the
    name of an exercise of the library: no entry is ever named
    "Unknown" for want of an exercise. *)
Theorem runnable_session now evs :
  routine_ok routine → routine_in library routine → Forall named library →
  ∃ st0, startSession routine library now = Done st0 ∧
    let st := run routine library evs st0 in
    wf routine library st ∧
    ∀ j e, workoutData st !! j = Some e →
      ∃ ex, ex ∈ library ∧ ex_id ex = wel_exerciseId e ∧
        ex_name ex = wel_exerciseName e.
Proof.
  intros Hok Hin Hnamed. destruct (startSession_ok now Hok) as (st0 & Hst & H0).
  exists st0. split; [done|]. cbv zeta.
  pose proof (wf_run _ _ evs _ H0) as H. split; [done|]. intros j e He.
  destruct (wf_entries _ _ _ H j e He) as (rex & Hrex & Hid & Hname).
  destruct (exerciseName_elem rex Hnamed) as (ex & ? & ? & ?).
  { eapply (proj1 (Forall_forall _ _) Hin). by eapply list_elem_of_lookup_2. }
  exists ex. split_and!; congruence.
Qed.

End launch.


(** In every language the library is fit for the builder and the
    session: ids are distinct, so looking an exercise up by its id finds
    that exercise; every exercise has a name, at least one default set
    and no negative default. *)
Theorem library_fit lang :
  let lib := getLocalizedExercises lang in
  NoDup (ex_id <$> lib) ∧ Forall named lib ∧ Forall exercise_ok lib ∧
  ∀ ex, ex ∈ lib → findExercise lib (ex_id ex) = Some ex.
Proof.
  cbv zeta. unfold getLocalizedExercises.
  case_bool_decide; (split_and!; [compute_done..|]);
    apply Forall_forall; compute_done.
Qed.

(** Every premade routine, in every language, is one a session can
    run on with the library of that language: it has an exercise, every
    entry has a set and no negative value, and every entry names an
    exercise of the library. *)
Theorem premade_runnable lang loadTime r :
  r ∈ getLocalizedPremadeRoutines loadTime lang →
  routine_ok r ∧ routine_in (getLocalizedExercises lang) r.
Proof.
  unfold getLocalizedPremadeRoutines, getLocalizedExercises.
  case_bool_decide; simpl; intros Hr; set_unfold;
    destruct Hr as [->|[->|[]]]; split; compute_done.
Qed.

(** ** Witnesses *)

Lemma runnable_session_witness :
  ∃ st0, startSession demo_routine demo_library demo_now = Done st0 ∧
    let st := run demo_routine demo_library
                [ToggleSet 0; SkipRest; NextExercise; PrevExercise] st0 in
    wf demo_routine demo_library st ∧
    ∀ j e, workoutData st !! j = Some e →
      ∃ ex, ex ∈ demo_library ∧ ex_id ex = wel_exerciseId e ∧
        ex_name ex = wel_exerciseName e.
Proof.
  apply runnable_session;
    [exact demo_routine_ok|exact demo_routine_in|compute_done].
Defined.

Lemma premade_runnable_witness :
  let r := default (pm1 demo_now)
             (getLocalizedPremadeRoutines demo_now "pt" !! 1%nat) in
  routine_ok r ∧ routine_in (getLocalizedExercises "pt") r.
Proof. intros r. apply (premade_runnable "pt" demo_now). compute_done. Defined.
