(* ===== verification/App.v ===== *)
(** * App: the application as a whole ([App] and its routes in [App.tsx])

    The five routes of the root component, the history of the router and
    the page that is mounted, with the state of the root ([Pages]), the
    storage ([Storage]) and the window's intervals ([SessionTimer]).  An
    event is a click on something a page renders, the arrival of the tip,
    a step of the mounted session, or the browser's back button; [wstep]
    is what the handler behind it does, and [pageOffers] says when the page
    renders it enabled.

    A page is mounted when its route is entered and unmounted when it is
    left: its state cells start from their initial values and its mount
    effects run each time.  The root's [stats] are read once, at boot.

    The tip of the home page comes later: its mount effect asks for it,
    and the promise is fulfilled at some point, perhaps when the page is
    gone or mounted anew.  The world keeps the promises that are pending
    ([Promises]); the fulfilment of one is an event of its own.  The
    text generator is a function of the prompt, so every promise
    resolves to the same sentence.

    What the model takes from the router, which is a library: [navigate]
    pushes an entry, [navigate(-1)] and the back button pop one, an entry
    keeps its [state], a link to the current path mounts nothing. *)

From S2P Require Import Prelude Types Catalog Tips Storage Builder Session.
From S2P Require Import Demo SessionInv SessionSets SessionLog SessionUI.
From S2P Require Import SessionTimer Pages Launch.
From stdpp Require Import gmap.

#[local] Open Scope Z_scope.

(** The paths of the [Route]s. *)
Inductive Path : Type :=
  | PathHome
  | PathTraining
  | PathProfile
  | PathCreate
  | PathSession.

(** An entry of the history: the path, and the routine of
    [location.state] when there is one. *)
Record Location : Type := mkLocation {
  loc_path : Path;
  loc_routine : option Routine;
}.

(** The page that is mounted, with its state cells.  [Crashed]: a render
    threw, and React has unmounted the tree. *)
Inductive PageState : Type :=
  | HomePage (logs : list StoredLog) (aiTip : string)
  | TrainingPage (routines : list Routine)
  | ProfilePage
  | CreateRoutinePage (b : BuilderState)
  | SessionPage (routine : Routine) (st : SessionState) (interval : option nat)
  | Crashed.

(** The promises of [getAITip]: how many the home page has asked for,
    and which of them are pending.  Promise [i] is the one the home page
    asked for when it was mounted for the [i]-th time. *)
Record Promises : Type := mkPromises {
  pr_next : nat;
  pr_pending : gset nat;
}.

Record World : Type := mkWorld {
  w_app : AppState;
  w_past : list Location;
  w_here : Location;
  w_page : PageState;
  w_timers : Timers;
  w_promises : Promises;
}.

#[export] Instance Path_eq_dec : EqDecision Path.
Proof. solve_decision. Defined.
#[export] Instance Location_eq_dec : EqDecision Location.
Proof. solve_decision. Defined.
#[export] Instance PageState_eq_dec : EqDecision PageState.
Proof. solve_decision. Defined.
#[export] Instance Promises_eq_dec : EqDecision Promises.
Proof. solve_decision. Defined.
#[export] Instance World_eq_dec : EqDecision World.
Proof. solve_decision. Defined.

(** What can happen.  The events that may mount a session carry the
    clock reading its [startTime] takes. *)
Inductive AppEvent : Type :=
  | NavLinkTo (p : Path)
  | HomeStartWorkout
  | TipArrives (id : nat)
  | TrainingCreate
  | TrainingCreateCard
  | StartRoutine (i : nat) (now : Z)
  | StartPremade (i : nat) (now : Z)
  | Build (ev : BuilderEvent)
  | Save (idNow createdNow : Z)
  | CloseBuilder (now : Z)
  | InSession (tev : TimedEvent)
  | FinishWorkout (endTime idNow saveNow : Z)
  | CloseSession
  | TogglePremium
  | Back (now : Z).

(** The session with its interval that a session page stands for. *)
Definition timedOf (st : SessionState) (interval : option nat) (w : World)
    : Timed :=
  mkTimed st interval (w_timers w).

Definition withApp (app : AppState) (w : World) : World :=
  mkWorld app (w_past w) (w_here w) (w_page w) (w_timers w) (w_promises w).

Definition withPage (page : PageState) (w : World) : World :=
  mkWorld (w_app w) (w_past w) (w_here w) page (w_timers w) (w_promises w).

Definition withPromises (ps : Promises) (w : World) : World :=
  mkWorld (w_app w) (w_past w) (w_here w) (w_page w) (w_timers w) ps.

Definition noPromises : Promises := mkPromises 0 ∅.

(** A call of [getAITip]: one more promise, pending. *)
Definition issue (ps : Promises) : Promises :=
  mkPromises (S (pr_next ps)) ({[pr_next ps]} ∪ pr_pending ps).

(** A promise is fulfilled. *)
Definition settle (id : nat) (ps : Promises) : Promises :=
  mkPromises (pr_next ps) (pr_pending ps ∖ {[id]}).

(** The promises once the page of [l] is mounted: the effect of the home
    page asks for a tip. *)
Definition mountPromises (l : Location) (ps : Promises) : Promises :=
  if decide (loc_path l = PathHome) then issue ps else ps.

(** The window's intervals once the mounted page is gone: the session
    page's effects are cleaned up. *)
Definition unmountPage (w : World) : Timers :=
  match w_page w with
  | SessionPage _ st interval => unmountTimed (timedOf st interval w)
  | _ => w_timers w
  end.

(** The pages that [MainLayout] wraps show the bottom navigation. *)
Definition hasNavigation (page : PageState) : bool :=
  match page with
  | HomePage _ _ | TrainingPage _ | ProfilePage | CreateRoutinePage _ => true
  | _ => false
  end.

(** The three links of [Navigation]. *)
Definition navLinks : list Path := [PathHome; PathTraining; PathProfile].

(** What the application reads and never changes while it runs: the
    language [getSystemLanguage] returned, the string [t.loading], the
    clock reading at which [constants.ts] was loaded, and the client of
    the tip service. *)
Record AppContext : Type := mkAppContext {
  ctx_lang : string;
  ctx_loading : string;
  ctx_loadTime : Z;
  ctx_genAI : option GoogleGenAI;
}.

Section app.
Context (ctx : AppContext).

(** The catalog in the user's language, as [App] puts it into
    [LanguageContext]. *)
Definition library : list Exercise := getLocalizedExercises (ctx_lang ctx).
Definition premade : list Routine :=
  getLocalizedPremadeRoutines (ctx_loadTime ctx) (ctx_lang ctx).

(** ** Mounting *)

(** The state of the home page once its effect has run: the five newest
    logs, and [t.loading] until the tip arrives. *)
Definition HomePage_mount (env : Env) : PageState :=
  HomePage (recentLogs env) (ctx_loading ctx).

(** The state of the training page once its effect has run. *)
Definition TrainingPage_mount (env : Env) : PageState :=
  TrainingPage (getRoutines env).

(** The element of the route of [l], mounted: its first render and its
    mount effects.  [None] for the session page without a routine, which
    renders nothing. *)
Definition mountPage (now : Z) (l : Location) (app : AppState) (tm : Timers)
    : option (PageState * Timers) :=
  match loc_path l with
  | PathHome => Some (HomePage_mount (app_env app), tm)
  | PathTraining => Some (TrainingPage_mount (app_env app), tm)
  | PathProfile => Some (ProfilePage, tm)
  | PathCreate => Some (CreateRoutinePage initialBuilder, tm)
  | PathSession =>
      match loc_routine l with
      | Some routine =>
          match mountTimed routine library now tm with
          | Done m => Some (SessionPage routine (t_page m) (t_interval m), t_timers m)
          | Threw _ m => Some (Crashed, t_timers m)
          end
      | None => None
      end
  end.

(** The first effect of the session page, without a routine:
    [navigate('/training')] over the entry [l] of the session route. *)
Definition redirectToTraining (l : Location) (past : list Location)
    (app : AppState) (tm : Timers) (ps : Promises) : World :=
  mkWorld app (l :: past) (mkLocation PathTraining None)
    (TrainingPage_mount (app_env app)) tm ps.

(** The world once the location is [l] over the entries [past]. *)
Definition arrive (now : Z) (l : Location) (past : list Location)
    (app : AppState) (tm : Timers) (ps : Promises) : World :=
  match mountPage now l app tm with
  | Some (page, tm') => mkWorld app past l page tm' (mountPromises l ps)
  | None => redirectToTraining l past app tm ps
  end.

(** [navigate(path, { state })]: the mounted page goes, the page of [l]
    comes.  The clock reading [now] is used only when a session is
    mounted. *)
Definition navigate (now : Z) (l : Location) (w : World) : World :=
  arrive now l (w_here w :: w_past w) (w_app w) (unmountPage w) (w_promises w).

(** [navigate(-1)] and the back button; with no entry below the current
    one the application stays where it is. *)
Definition goBack (now : Z) (w : World) : World :=
  match w_past w with
  | l :: past => arrive now l past (w_app w) (unmountPage w) (w_promises w)
  | [] => w
  end.

(** The application opened at [path] on the storage [env]: the first
    render with [INITIAL_STATS], the mount effects of the page and then
    of the root. *)
Definition boot (env : Env) (path : Path) (now : Z) : World :=
  let w :=
    arrive now (mkLocation path None) [] (App_initial env) noTimers noPromises in
  withApp (App_mount (w_app w)) w.

(** The premium flag the pages are given. *)
Definition isPremium (w : World) : bool := us_isPremium (statsShown (w_app w)).

(** ** The callbacks of the pages *)

(** A link of the bottom navigation; a link to the current path mounts
    nothing. *)
Definition navLinkClick (p : Path) (w : World) : World :=
  if hasNavigation (w_page w) && negb (bool_decide (p = loc_path (w_here w)))
  then navigate 0 (mkLocation p None) w
  else w.

(** The button of the home page. *)
Definition startWorkoutClick (w : World) : World :=
  navigate 0 (mkLocation PathTraining None) w.

(** The tip [getAITip] resolves to. *)
Definition theTip : string :=
  getAITip (ctx_genAI ctx) "recovery and mobility" (ctx_lang ctx).

(** Promise [id] is fulfilled and calls the [setAiTip] it was given:
    that of the home page mounted now when the promise is its own,
    that of a page that is gone otherwise, which does nothing. *)
Definition tipArrives (id : nat) (w : World) : World :=
  let w := withPromises (settle id (w_promises w)) w in
  match w_page w with
  | HomePage logs _ =>
      if decide (S id = pr_next (w_promises w))
      then withPage (HomePage logs theTip) w else w
  | _ => w
  end.

(** The two controls of the training page that open the builder. *)
Definition createClick (w : World) : World :=
  navigate 0 (mkLocation PathCreate None) w.

(** A start button of the training page: [handleStart], which opens the
    session on the routine or alerts. *)
Definition start (now : Z) (routine : option Routine) (w : World) : World :=
  match routine ≫= handleStart (isPremium w) with
  | Some r => navigate now (mkLocation PathSession (Some r)) w
  | None => w
  end.

(** The save button of the builder: [handleSave], then the training
    page. *)
Definition saveClick (idNow createdNow : Z) (b : BuilderState) (w : World)
    : World :=
  match handleSave idNow createdNow b (app_env (w_app w)) with
  | Some (_, env) =>
      navigate 0 (mkLocation PathTraining None)
        (withApp (mkAppState (app_stats (w_app w)) env) w)
  | None => w
  end.

(** The finish button of the summary: [handleFinishWorkout], then the
    home page. *)
Definition finishClick (endTime idNow saveNow : Z) (routine : Routine)
    (st : SessionState) (w : World) : World :=
  match finishWorkout routine library endTime idNow saveNow st (w_app w) with
  | Some app => navigate 0 (mkLocation PathHome None) (withApp app w)
  | None => w
  end.

(** The close button of the session page's header. *)
Definition closeSessionClick (w : World) : World :=
  navigate 0 (mkLocation PathTraining None) w.

(** A step of the mounted session. *)
Definition sessionStep (tev : TimedEvent) (routine : Routine)
    (st : SessionState) (interval : option nat) (w : World) : World :=
  let m := tstep routine library tev (timedOf st interval w) in
  mkWorld (w_app w) (w_past w) (w_here w)
    (SessionPage routine (t_page m) (t_interval m)) (t_timers m) (w_promises w).

(** ** Events *)

Definition wstep (aev : AppEvent) (w : World) : World :=
  match aev, w_page w with
  | NavLinkTo p, _ => navLinkClick p w
  | HomeStartWorkout, HomePage _ _ => startWorkoutClick w
  | TipArrives id, _ => tipArrives id w
  | (TrainingCreate | TrainingCreateCard), TrainingPage _ => createClick w
  | StartRoutine i now, TrainingPage routines => start now (routines !! i) w
  | StartPremade i now, TrainingPage _ => start now (premade !! i) w
  | Build ev, CreateRoutinePage b => withPage (CreateRoutinePage (builderStep ev b)) w
  | Save idNow createdNow, CreateRoutinePage b => saveClick idNow createdNow b w
  | CloseBuilder now, CreateRoutinePage _ => goBack now w
  | InSession tev, SessionPage routine st interval =>
      sessionStep tev routine st interval w
  | FinishWorkout endTime idNow saveNow, SessionPage routine st _ =>
      finishClick endTime idNow saveNow routine st w
  | CloseSession, SessionPage _ _ _ => closeSessionClick w
  | TogglePremium, ProfilePage => withApp (togglePremium (w_app w)) w
  | Back now, page => if decide (page = Crashed) then w else goBack now w
  | _, _ => w
  end.

Definition wrun (aevs : list AppEvent) (w : World) : World :=
  foldl (λ w aev, wstep aev w) w aevs.

(** Whether the close button of the session page's header can be
    clicked: the overlays cover the header. *)
Definition closeSessionShown (st : SessionState) : Prop :=
  showSummary st = false ∧ showRestTimer st = false.

(** Whether a start button of the premade routines can be clicked. *)
Definition premadeStartOffered (i : nat) (w : World) : Prop :=
  from_option (λ r, premadeStartDisabled (isPremium w) r = false) False
    (premade !! i).

(** An event the mounted page offers: the control exists, is enabled and
    is not covered.  The back button belongs to the browser. *)
Definition pageOffers (aev : AppEvent) (w : World) : Prop :=
  match aev, w_page w with
  | NavLinkTo p, page => hasNavigation page = true ∧ p ∈ navLinks
  | HomeStartWorkout, HomePage _ _ => True
  | TipArrives id, _ => id ∈ pr_pending (w_promises w)
  | TrainingCreate, TrainingPage _ => True
  | TrainingCreateCard, TrainingPage routines =>
      createCardShown (isPremium w) routines = true
  | StartRoutine i _, TrainingPage routines => is_Some (routines !! i)
  | StartPremade i _, TrainingPage _ => premadeStartOffered i w
  | Build ev, CreateRoutinePage b => Builder.offered library ev b
  | Save _ _, CreateRoutinePage b => saveDisabled b = false
  | CloseBuilder _, CreateRoutinePage _ => True
  | InSession tev, SessionPage routine st interval =>
      possible routine tev (timedOf st interval w)
  | FinishWorkout _ _ _, SessionPage _ st _ => showSummary st = true
  | CloseSession, SessionPage _ st _ => closeSessionShown st
  | TogglePremium, ProfilePage => True
  | Back _, page => page ≠ Crashed ∧ w_past w ≠ []
  | _, _ => False
  end.

#[export] Instance pageOffers_dec aev w : Decision (pageOffers aev w).
Proof.
  unfold pageOffers, premadeStartOffered, closeSessionShown.
  destruct aev, (w_page w); try apply _. destruct (premade !! i); simpl; apply _.
Defined.

(** Every event of a sequence is pageOffers when its turn comes. *)
Fixpoint offeredAlong (aevs : list AppEvent) (w : World) : Prop :=
  match aevs with
  | [] => True
  | aev :: aevs => pageOffers aev w ∧ offeredAlong aevs (wstep aev w)
  end.

#[export] Instance offeredAlong_dec aevs w : Decision (offeredAlong aevs w).
Proof. revert w. induction aevs; simpl; apply _. Defined.

(** The worlds the application reaches from its boot on [env] at
    [path]. *)
Inductive reachable (env : Env) (path : Path) (now : Z) : World → Prop :=
  | reachable_boot : reachable env path now (boot env path now)
  | reachable_step aev w :
      reachable env path now w → pageOffers aev w →
      reachable env path now (wstep aev w).

End app.

(** The application of the examples: in English, without a tip client. *)
Definition demo_ctx : AppContext :=
  mkAppContext "en" "Loading..." demo_now None.

(** A first visit: a routine of one exercise is built, saved and
    started, its first set is ticked, and a second passes. *)
Definition demo_events : list AppEvent :=
  [NavLinkTo PathTraining; TrainingCreate; Build (TypeName "Mine");
   Build (Builder.Add e1); Save 1700000000001 1700000000002;
   StartRoutine 0 1700000001000; InSession (UserEvent (ToggleSet 0));
   InSession (IntervalDue 1)].

Definition demo_world : World :=
  wrun demo_ctx demo_events (boot demo_ctx emptyEnv PathHome demo_now).

(** The session mounted in a world, when one is. *)
Definition sessionOf (w : World)
    : option (Routine * SessionState * option nat) :=
  match w_page w with
  | SessionPage routine st interval => Some (routine, st, interval)
  | _ => None
  end.

(** The session of the example. *)
Definition demo_mounted : Routine * SessionState * option nat :=
  default (demo_routine, demo_start, None) (sessionOf demo_world).

(** ** Runs *)

Section runs.
Context (ctx : AppContext).

Lemma wrun_cons aev aevs w :
  wrun ctx (aev :: aevs) w = wrun ctx aevs (wstep ctx aev w).
Proof. done. Qed.

Lemma wrun_app aevs1 aevs2 w :
  wrun ctx (aevs1 ++ aevs2) w = wrun ctx aevs2 (wrun ctx aevs1 w).
Proof. apply foldl_app. Qed.

Lemma offeredAlong_app aevs1 aevs2 w :
  offeredAlong ctx (aevs1 ++ aevs2) w
  ↔ offeredAlong ctx aevs1 w ∧ offeredAlong ctx aevs2 (wrun ctx aevs1 w).
Proof.
  revert w. induction aevs1 as [|aev aevs1 IH]; intros w; simpl; [tauto|].
  rewrite IH. tauto.
Qed.

Lemma wrun_snoc aevs aev w :
  wrun ctx (aevs ++ [aev]) w = wstep ctx aev (wrun ctx aevs w).
Proof. by rewrite wrun_app. Qed.

Lemma offeredAlong_snoc aevs aev w :
  offeredAlong ctx (aevs ++ [aev]) w
  ↔ offeredAlong ctx aevs w ∧ pageOffers ctx aev (wrun ctx aevs w).
Proof. rewrite offeredAlong_app. simpl. tauto. Qed.

Lemma reachable_wrun env path now aevs w :
  reachable ctx env path now w → offeredAlong ctx aevs w →
  reachable ctx env path now (wrun ctx aevs w).
Proof.
  revert w. induction aevs as [|aev aevs IH]; intros w Hr Ho; [done|].
  destruct Ho as [Ho1 Ho2]. apply (IH _ (reachable_step _ _ _ _ _ _ Hr Ho1) Ho2).
Qed.

End runs.

Lemma demo_world_reachable :
  reachable demo_ctx emptyEnv PathHome demo_now demo_world.
Proof. apply reachable_wrun; [apply reachable_boot|compute_done]. Qed.

Lemma demo_world_page :
  w_page demo_world
  = SessionPage demo_mounted.1.1 demo_mounted.1.2 demo_mounted.2.
Proof. by vm_compute. Qed.
