(* ===== verification/AppInv.v ===== *)
(** * AppInv: what holds in every world the application reaches

    [world_ok] is the invariant of the whole application: every routine
    in the storage and in the history can be run; the mounted page is the
    page of the current path; the lists the home and training pages hold
    are those of the storage; the builder's state is one [builds]
    reaches; a mounted session is a state [timed_reachable] reaches on
    its routine; the window holds an interval only while a session is
    mounted; nothing has crashed.  The file proves it at boot and across
    every event a page offers. *)

From S2P Require Import Prelude Types Catalog Tips Storage Builder Session.
From S2P Require Import Demo SessionInv SessionSets SessionLog SessionUI.
From S2P Require Import SessionTimer Pages Launch App.
From stdpp Require Import gmap.

#[local] Open Scope Z_scope.

Section inv.
Context (ctx : AppContext).

(** A routine a session can run on with the catalog of the context. *)
Definition runnable (r : Routine) : Prop :=
  routine_ok r ∧ routine_in (library ctx) r.

#[export] Instance runnable_dec r : Decision (runnable r).
Proof. unfold runnable. apply _. Defined.

(** The routines of a storage can all be run. *)
Definition stored_ok (env : Env) : Prop := Forall runnable (getRoutines env).

(** The entry of the history carries no routine, or one that can be
    run. *)
Definition entry_ok (l : Location) : Prop :=
  from_option runnable True (loc_routine l).

(** The mounted page belongs to the current path and its state is what
    its mount and its events make of the storage. *)
Definition page_ok (w : World) : Prop :=
  match w_page w with
  | HomePage logs _ =>
      loc_path (w_here w) = PathHome ∧ logs = recentLogs (app_env (w_app w))
  | TrainingPage routines =>
      loc_path (w_here w) = PathTraining ∧
      routines = getRoutines (app_env (w_app w))
  | ProfilePage => loc_path (w_here w) = PathProfile
  | CreateRoutinePage b =>
      loc_path (w_here w) = PathCreate ∧ builds (library ctx) b
  | SessionPage routine st interval =>
      w_here w = mkLocation PathSession (Some routine) ∧
      ∃ now tm, timers_ok tm ∧ tm_live tm = ∅ ∧
        timed_reachable routine (library ctx) now tm (timedOf st interval w)
  | Crashed => False
  end.

(** No interval is live unless a session is mounted. *)
Definition idle (w : World) : Prop :=
  match w_page w with
  | SessionPage _ _ _ => True
  | _ => tm_live (w_timers w) = ∅
  end.

Record world_ok (w : World) : Prop := mkWorldOk {
  ok_stored : stored_ok (app_env (w_app w));
  ok_history : Forall entry_ok (w_here w :: w_past w);
  ok_timers : timers_ok (w_timers w);
  ok_idle : idle w;
  ok_page : page_ok w;
}.

(** ** The catalog of the context *)

Lemma library_ok : Forall named (library ctx) ∧ Forall exercise_ok (library ctx).
Proof. by destruct (library_fit (ctx_lang ctx)) as (_ & ? & ? & _). Qed.

Lemma premade_runnable_lookup i r : premade ctx !! i = Some r → runnable r.
Proof. intros Hr. eapply premade_runnable, list_elem_of_lookup_2, Hr. Qed.

(** ** Leaving and entering pages *)

Lemma timedOf_eta m w :
  w_timers w = t_timers m → timedOf (t_page m) (t_interval m) w = m.
Proof. unfold timedOf. intros ->. by destruct m. Qed.

Lemma session_timer_ok w routine st interval :
  world_ok w → w_page w = SessionPage routine st interval →
  timer_ok (timedOf st interval w) ∧ runnable routine.
Proof.
  intros [_ Hh _ _ Hp] E. unfold page_ok in Hp. rewrite E in Hp.
  destruct Hp as (Hl & now & tm & ? & ? & Hr).
  split; [by eapply timed_reachable_ok|].
  apply Forall_cons in Hh as [Hh _]. unfold entry_ok in Hh. by rewrite Hl in Hh.
Qed.

(** The mounted session is in a state its page reaches. *)
Lemma session_wf w routine st interval :
  world_ok w → w_page w = SessionPage routine st interval →
  wf routine (library ctx) st ∧ exclusive st.
Proof.
  intros H E. pose proof (ok_page _ H) as Hp. unfold page_ok in Hp.
  rewrite E in Hp. destruct Hp as (_ & now & tm & Hok & He & Ht).
  apply (ui_reachable_inv _ _ now).
  apply (timed_ui_reachable _ _ _ _ _ Hok He Ht).
Qed.

Lemma unmountPage_idle w :
  world_ok w → tm_live (unmountPage w) = ∅ ∧ timers_ok (unmountPage w).
Proof.
  intros H. pose proof (ok_idle _ H) as Hi. pose proof (ok_page _ H) as Hp.
  unfold unmountPage, idle, page_ok in *.
  destruct (w_page w) as [| | | |routine st interval|] eqn:E;
    [split; [done|apply H]..| |done].
  apply timer_ok_unmount. by eapply session_timer_ok.
Qed.

Lemma arrive_ok now l past app tm ps :
  stored_ok (app_env app) → entry_ok l → Forall entry_ok past →
  timers_ok tm → tm_live tm = ∅ →
  world_ok (arrive ctx now l past app tm ps).
Proof.
  intros Hs Hl Hp Hok He. unfold arrive, mountPage.
  destruct l as [path routine].
  destruct path; simpl;
    try (split; simpl; [done|by constructor|done|done|];
         first [done|split; [done|apply builds_initial]]).
  destruct routine as [r|]; [|split; simpl; auto; by repeat constructor].
  destruct (startSession_ok r (library ctx) now (proj1 Hl)) as (st & Hst & _).
  destruct (mountTimed r (library ctx) now tm) as [m|e m] eqn:Hm;
    [|unfold mountTimed in Hm; by rewrite Hst in Hm].
  pose proof (timer_ok_mount _ _ _ _ _ Hok He Hm) as (_ & ? & _).
  split; simpl; [done|by constructor|done|done|].
  split; [done|]. exists now, tm. split_and!; [done..|].
  rewrite timedOf_eta by done. by apply timed_mounted.
Qed.

Lemma navigate_ok now l app w :
  world_ok w → stored_ok (app_env app) → entry_ok l →
  world_ok (navigate ctx now l (withApp app w)).
Proof.
  intros H Hs Hl. destruct (unmountPage_idle _ H) as [He Hok].
  apply arrive_ok; try done. apply H.
Qed.

Lemma withApp_same w : withApp (w_app w) w = w.
Proof. by destruct w. Qed.

Lemma navigate_ok_same now l w :
  world_ok w → entry_ok l → world_ok (navigate ctx now l w).
Proof.
  intros H Hl. rewrite <-(withApp_same w). apply navigate_ok; [done| |done].
  apply H.
Qed.

Lemma goBack_ok now w : world_ok w → world_ok (goBack ctx now w).
Proof.
  intros H. unfold goBack. destruct (w_past w) as [|l past] eqn:E; [done|].
  destruct (unmountPage_idle _ H) as [He Hok].
  pose proof (ok_history _ H) as Hh. rewrite E in Hh.
  apply Forall_cons in Hh as [_ [Hl Hp]%Forall_cons].
  apply arrive_ok; try done. apply H.
Qed.

Lemma boot_ok env path now :
  stored_ok env → world_ok (boot ctx env path now).
Proof.
  intros Hs. unfold boot.
  assert (world_ok (arrive ctx now (mkLocation path None) [] (App_initial env)
                      noTimers noPromises)) as [? ? ? Hi Hp]
    by (apply arrive_ok; try done; apply noTimers_ok).
  split; try done.
Qed.

(** ** The events *)

Lemma withPage_ok page w :
  world_ok w → idle (withPage page w) → page_ok (withPage page w) →
  world_ok (withPage page w).
Proof. intros [? ? ? _ _] ? ?. by split. Qed.

Lemma withApp_ok app w :
  world_ok w → stored_ok (app_env app) → page_ok (withApp app w) →
  world_ok (withApp app w).
Proof. intros [_ ? ? Hi _] ? ?. by split. Qed.

Lemma handleSave_stored_ok idNow createdNow b env r env' :
  stored_ok env → builds (library ctx) b →
  handleSave idNow createdNow b env = Some (r, env') → stored_ok env'.
Proof.
  intros Hs Hb Hsave.
  pose proof (built_routine_ok _ _ _ _ _ _ _ (proj2 library_ok) Hb Hsave) as Hr.
  unfold handleSave in Hsave. destruct (saveDisabled b); [done|].
  injection Hsave as <- <-. unfold stored_ok.
  rewrite getRoutines_saveRoutine. apply Forall_app. split; [done|].
  by apply Forall_singleton.
Qed.

Lemma finishWorkout_stored_ok routine endTime idNow saveNow st app app' :
  stored_ok (app_env app) →
  finishWorkout routine (library ctx) endTime idNow saveNow st app = Some app' →
  stored_ok (app_env app').
Proof.
  unfold finishWorkout, stored_ok. intros Hs Hf.
  destruct (handleFinishWorkout _ _ _ _ _); [|done]. simpl in Hf.
  destruct (storedLog _ _); [|done]. injection Hf as <-. simpl.
  by rewrite getRoutines_saveLog.
Qed.

Lemma withPromises_ok ps w : world_ok w → world_ok (withPromises ps w).
Proof. by intros []. Qed.

Lemma tipArrives_ok id w : world_ok w → world_ok (tipArrives ctx id w).
Proof.
  intros H%(withPromises_ok (settle id (w_promises w))). unfold tipArrives.
  destruct (w_page (withPromises _ w)) as [logs tip| | | | |] eqn:E; try done.
  case_decide; [|done].
  pose proof (ok_page _ H) as Hp. pose proof (ok_idle _ H) as Hi.
  unfold page_ok, idle in Hp, Hi. rewrite E in Hp, Hi.
  by apply withPage_ok.
Qed.

Lemma start_ok now routine w :
  world_ok w → from_option runnable True routine →
  world_ok (start ctx now routine w).
Proof.
  intros H Hr. unfold start. destruct routine as [r|]; simpl; [|done].
  unfold handleStart. destruct (_ && _); [done|]. by apply navigate_ok_same.
Qed.

Lemma session_step_ok tev w routine st interval :
  world_ok w → w_page w = SessionPage routine st interval →
  possible routine tev (timedOf st interval w) →
  let m := tstep routine (library ctx) tev (timedOf st interval w) in
  world_ok
    (mkWorld (w_app w) (w_past w) (w_here w)
       (SessionPage routine (t_page m) (t_interval m)) (t_timers m)
       (w_promises w)).
Proof.
  intros H E Hp. cbv zeta.
  destruct (session_timer_ok _ _ _ _ H E) as [Hok _].
  pose proof (ok_page _ H) as Hpage. unfold page_ok in Hpage. rewrite E in Hpage.
  destruct Hpage as (Hl & now & tm & ? & ? & Hr).
  split; simpl; [apply H..| |done|].
  - by destruct (timer_ok_tstep routine (library ctx) tev _ Hok) as (_ & ? & _).
  - split; [done|]. exists now, tm. split_and!; [done..|].
    rewrite timedOf_eta by done. by apply timed_event.
Qed.

Lemma wstep_ok aev w :
  world_ok w → pageOffers ctx aev w → world_ok (wstep ctx aev w).
Proof.
  intros H Hoff. pose proof (ok_page _ H) as Hp. pose proof (ok_idle _ H) as Hi.
  unfold wstep, pageOffers, page_ok, idle, navLinkClick, startWorkoutClick,
    createClick, saveClick, finishClick, closeSessionClick,
    premadeStartOffered in *.
  destruct aev; destruct (w_page w) as [logs tip|routines| |b|routine st interval|]
    eqn:E; try (by apply tipArrives_ok); try done;
    try (by apply navigate_ok_same);
    try (destruct (_ && _); [by apply navigate_ok_same|done]);
    try (case_decide; [done|by apply goBack_ok]).
  - apply start_ok; [done|]. destruct Hp as [_ ->].
    destruct (getRoutines _ !! i) eqn:Er; simpl; [|done].
    eapply (proj1 (Forall_lookup _ _) (ok_stored _ H)), Er.
  - apply start_ok; [done|]. destruct (premade ctx !! i) eqn:Hr; [|done].
    by eapply premade_runnable_lookup.
  - apply withPage_ok; unfold idle, page_ok; simpl; [done..|].
    split; [apply Hp|]. by apply builds_step; [apply Hp|].
  - destruct (handleSave _ _ _ _) as [[r env']|] eqn:Es; [|done].
    apply navigate_ok; [done| |done]. simpl.
    eapply handleSave_stored_ok; [apply H|apply Hp|done].
  - by apply goBack_ok.
  - by apply session_step_ok.
  - destruct (finishWorkout _ _ _ _ _ _ _) as [app'|] eqn:Ef; [|done].
    apply navigate_ok; [done| |done].
    eapply finishWorkout_stored_ok; [apply H|done].
  - apply withApp_ok; [done| |unfold page_ok; simpl; by rewrite E].
    unfold stored_ok, togglePremium. simpl. rewrite getRoutines_saveStats. apply H.
Qed.

Lemma reachable_ok env path now w :
  stored_ok env → reachable ctx env path now w → world_ok w.
Proof.
  intros Hs. induction 1; [by apply boot_ok|by apply wstep_ok].
Qed.

(** ** Properties *)

(** C11: the application does not crash.  From a storage whose routines
    can all be run (an empty one for a start), whatever the user does on
    the pages, no render throws; a session is only ever mounted on a
    routine that can be run, its state is well formed, and no event its
    markup enables throws. *)
Theorem app_never_crashes env path now w :
  stored_ok env → reachable ctx env path now w →
  w_page w ≠ Crashed ∧
  ∀ routine st interval, w_page w = SessionPage routine st interval →
    runnable routine ∧ wf routine (library ctx) st ∧
    ∀ ev, enabled routine ev st →
      ∃ st', dispatch routine (library ctx) ev st = Done st'.
Proof.
  intros Hs Hr. pose proof (reachable_ok _ _ _ _ Hs Hr) as H.
  pose proof (ok_page _ H) as Hp. unfold page_ok in Hp.
  split; [by destruct (w_page w)|]. intros routine st interval E.
  rewrite E in Hp. destruct Hp as (_ & now' & tm & Hok & He & Ht).
  destruct (session_timer_ok _ _ _ _ H E) as [_ Hrun]. split; [done|].
  destruct (ui_reachable_inv _ _ _ _ (timed_ui_reachable _ _ _ _ _ Hok He Ht))
    as [Hwf _].
  split; [done|]. intros ev Hen.
  pose proof (valid_events_never_throw _ _ _ _ Hwf (enabled_valid _ _ _ Hen))
    as Hthrew.
  simpl in Hthrew.
  destruct (dispatch routine (library ctx) ev st) as [st'|]; [by exists st'|done].
Qed.

(** C7: what the pages hold.  In every world the application reaches,
    the home page lists the five newest logs of the storage and the
    training page the routines of the storage as they are now; every
    stored routine can be run; and the window holds an interval only
    while a session is mounted with its rest overlay shown and time
    left, and then exactly one. *)
Theorem pages_and_timers env path now w :
  stored_ok env → reachable ctx env path now w →
  (∀ logs tip, w_page w = HomePage logs tip →
     logs = recentLogs (app_env (w_app w))) ∧
  (∀ routines, w_page w = TrainingPage routines →
     routines = getRoutines (app_env (w_app w))) ∧
  stored_ok (app_env (w_app w)) ∧
  (tm_live (w_timers w) = ∅ ∨
   ∃ routine st id, w_page w = SessionPage routine st (Some id) ∧
     tm_live (w_timers w) = {[id]} ∧ showRestTimer st = true ∧ 0 < restTime st).
Proof.
  intros Hs Hr. pose proof (reachable_ok _ _ _ _ Hs Hr) as H.
  pose proof (ok_page _ H) as Hp. pose proof (ok_idle _ H) as Hi.
  unfold page_ok, idle in *. split_and!; [| |apply H|].
  - intros logs tip E. rewrite E in Hp. apply Hp.
  - intros routines E. rewrite E in Hp. apply Hp.
  - destruct (w_page w) as [| | | |routine st interval|] eqn:E; try by left.
    destruct (session_timer_ok _ _ _ _ H E) as [Hok _].
    pose proof (timer_ok_interval _ Hok) as Hint. destruct Hok as (Hl & _).
    simpl in *. destruct interval as [id|]; [right|by left].
    exists routine, st, id. split_and!; [done..|apply Hint|apply Hint]; by eexists.
Qed.

End inv.

(** ** Witnesses *)

Lemma emptyEnv_stored_ok ctx : stored_ok ctx emptyEnv.
Proof. constructor. Qed.

Lemma app_never_crashes_witness :
  w_page demo_world ≠ Crashed ∧
  ∀ routine st interval, w_page demo_world = SessionPage routine st interval →
    runnable demo_ctx routine ∧ wf routine (library demo_ctx) st ∧
    ∀ ev, enabled routine ev st →
      ∃ st', dispatch routine (library demo_ctx) ev st = Done st'.
Proof.
  apply (app_never_crashes demo_ctx emptyEnv PathHome demo_now);
    [apply emptyEnv_stored_ok|exact demo_world_reachable].
Defined.

Lemma pages_and_timers_witness :
  (∀ logs tip, w_page demo_world = HomePage logs tip →
     logs = recentLogs (app_env (w_app demo_world))) ∧
  (∀ routines, w_page demo_world = TrainingPage routines →
     routines = getRoutines (app_env (w_app demo_world))) ∧
  stored_ok demo_ctx (app_env (w_app demo_world)) ∧
  (tm_live (w_timers demo_world) = ∅ ∨
   ∃ routine st id, w_page demo_world = SessionPage routine st (Some id) ∧
     tm_live (w_timers demo_world) = {[id]} ∧ showRestTimer st = true ∧
     0 < restTime st).
Proof.
  apply (pages_and_timers demo_ctx emptyEnv PathHome demo_now);
    [apply emptyEnv_stored_ok|exact demo_world_reachable].
Defined.
