(* ===== verification/Views.v ===== *)
(** * Views: what the pages render ([App.tsx], the markup)

    The element a page returns, reduced to what depends on the state or
    can be clicked: the texts and figures between braces, the conditional
    parts, the data handed to a chart, and for each control the callback
    behind it and whether it is disabled.  A view is the list of these
    nodes in document order; nesting, class names and decorative icons
    are left out.  The shared components ([Button], [Card],
    [SectionHeader], [Chip], [Navigation], [MainLayout]) are functions on
    such lists, and each page's view is written with them as the markup
    is.

    The strings of [services/localization] are not among the sources: a
    text taken from the table [t] is its key.

    The lemmas relate the views to the events of [App]: a page offers
    an event exactly when its view holds an enabled control for it
    ([AppView] states it for the whole application). *)

From S2P Require Import Prelude Types Catalog Storage Builder Session.
From S2P Require Import Demo SessionUI SessionTimer Pages Launch App AppInv.
From stdpp Require Import gmap.

#[local] Open Scope Z_scope.
#[local] Set Warnings "-clear-no-such-hyp".

(** A text of the markup. *)
Inductive Text : Type :=
  | T (key : string)
  | TGroup (g : MuscleGroup)
  | Str (s : string)
  | Num (n : Z)
  | DateOf (ms : Z) (locale : option string)
  | Glyph (name : string)
  | Nothing.

(** The callback of a control. *)
Inductive Control : Type :=
  | GoTo (p : Path)
  | OnStartWorkout
  | OnCreate
  | OnCreateCard
  | OnStartRoutine (i : nat)
  | OnStartPremade (i : nat)
  | OnName
  | OnChip (v : option MuscleGroup)
  | OnAdd (ex : Exercise)
  | OnSave
  | OnCloseBuilder
  | OnTogglePremium
  | OnSession (ev : Event)
  | OnFinishWorkout
  | OnCloseSession.

Inductive Node : Type :=
  | Show (x : Text)
  | LockIcon
  | Chart (points : list (string * Z))
  | Img (src : option string) (alt : string)
  | Input (value : string) (placeholder : Text) (onChange : Control)
  | Btn (label : Text) (disabled : bool) (onClick : Control)
  | ChipBtn (label : Text) (active : bool) (onClick : Control)
  | Link (to : Path) (label : Text)
  | Veil.

#[export] Instance Text_eq_dec : EqDecision Text.
Proof. solve_decision. Defined.
#[export] Instance Control_eq_dec : EqDecision Control.
Proof. solve_decision. Defined.
#[export] Instance Node_eq_dec : EqDecision Node.
Proof. solve_decision. Defined.

(** [l.map((x, i) => ...)], the elements one after the other. *)
Definition rows {A B} (f : nat → A → list B) (l : list A) : list B :=
  mjoin (imap f l).

(** ** The shared components *)

Definition Button (label : Text) (onClick : Control) (disabled : bool)
    : list Node :=
  [Btn label disabled onClick].

Definition Card (children : list Node) : list Node := children.

Definition SectionHeader (title : Text) (action : list Node) : list Node :=
  Show title :: action.

Definition Chip (label : Text) (active : bool) (onClick : Control) : list Node :=
  [ChipBtn label active onClick].

Definition Navigation : list Node :=
  [Link PathHome (T "home"); Link PathTraining (T "training");
   Link PathProfile (T "profile")].

Definition MainLayout (children : list Node) : list Node :=
  children ++ Navigation.

(** ** The pages *)

(** A row of the home page's list of recent activity. *)
Definition logRow (lang : string) (log : StoredLog) : list Node :=
  [Show (Str (wl_routineName log)); Show (Num (minutesShown log));
   Show (T "min");
   Show (DateOf (wl_endTime log) (if decide (lang = "pt") then Some "pt-BR" else None));
   Show (T "done")].

(** [HomePage]; [now] is the reading of [new Date()]. *)
Definition HomePage_view (lang : string) (now : Z) (stats : UserStats)
    (logs : list StoredLog) (aiTip : string) : list Node :=
  [Show (T "goodMorning");
   Show (DateOf now (Some (if decide (lang = "pt") then "pt-BR" else "en-US")));
   Show (Num (us_streakDays stats))] ++
  Card [Show (T "coachTip"); Show (Str aiTip)] ++
  SectionHeader (T "weeklyVolume") [] ++
  Card [Chart (weeklyData logs)] ++
  SectionHeader (T "recentActivity") [] ++
  (if noWorkoutsShown logs then [Show (T "noWorkouts")]
   else rows (λ _, logRow lang) logs) ++
  Button (T "startWorkout") OnStartWorkout false.

(** The card of one of the user's routines. *)
Definition routineCard (i : nat) (routine : Routine) : list Node :=
  Card ([Show (Str (r_name routine));
         Show (Num (Z.of_nat (length (r_exercises routine))));
         Show (T "exercises")] ++
        Button (T "startRoutine") (OnStartRoutine i) false).

(** The card of a premade routine, and the veil over it. *)
Definition premadeCard (isPremium : bool) (i : nat) (routine : Routine)
    : list Node :=
  Card ([Show (Str (r_name routine))] ++
        (if r_isPremium routine then [LockIcon] else []) ++
        [Show (T "scientific");
         Show (Num (Z.of_nat (length (r_exercises routine))));
         Show (T "exercises")] ++
        Button (T (if isPremium then "startRoutine" else "premiumOnly"))
          (OnStartPremade i) (premadeStartDisabled isPremium routine)) ++
  (if negb isPremium && r_isPremium routine then [Veil] else []).

(** [TrainingPage]. *)
Definition TrainingPage_view (isPremium : bool) (premade routines : list Routine)
    : list Node :=
  SectionHeader (T "myRoutines") [Btn (T "create") false OnCreate] ++
  rows routineCard routines ++
  (if createCardShown isPremium routines
   then [Btn (T "createNewRoutine") false OnCreateCard] else []) ++
  SectionHeader (T "explore") [] ++
  rows (premadeCard isPremium) premade.

(** A row of the builder's list of selected exercises. *)
Definition selectedRow (library : list Exercise) (re : RoutineExercise)
    : list Node :=
  let ex := findExercise library (re_exerciseId re) in
  [Show (from_option (Str ∘ ex_name) Nothing ex);
   Show (Num (re_sets re)); Show (Str "x"); Show (Num (re_repsOrDuration re));
   Show (Str (if bool_decide (ex_type <$> ex = Some time) then "s" else "reps"))].

(** A row of the builder's library. *)
Definition libraryRow (ex : Exercise) : list Node :=
  [Img (Some (ex_thumbnailUrl ex)) (ex_name ex); Show (Str (ex_name ex));
   Show (TGroup (ex_muscleGroup ex)); Btn (Glyph "Plus") false (OnAdd ex)].

(** [CreateRoutinePage]. *)
Definition CreateRoutinePage_view (library : list Exercise) (b : BuilderState)
    : list Node :=
  [Btn (Glyph "X") false OnCloseBuilder; Show (T "newRoutine");
   Btn (T "save") (saveDisabled b) OnSave;
   Show (T "routineName");
   Input (b_name b) (T "placeholderRoutineName") OnName] ++
  SectionHeader (T "exercises") [] ++
  (if bool_decide (0 < length (b_selectedExercises b))%nat
   then rows (λ _, selectedRow library) (b_selectedExercises b) else []) ++
  Chip (Str "All") (bool_decide (b_filter b = None)) (OnChip None) ++
  rows (λ _ g, Chip (TGroup g) (bool_decide (b_filter b = Some g)) (OnChip (Some g)))
    MuscleGroup_values ++
  rows (λ _, libraryRow) (filteredLibrary library b).

(** [ProfilePage]. *)
Definition ProfilePage_view (stats : UserStats) : list Node :=
  SectionHeader (T "profile") [] ++
  [Show (Str "User");
   Show (T (if us_isPremium stats then "premiumMember" else "freeAccount"))] ++
  Card [Show (Num (us_totalWorkouts stats)); Show (T "workouts")] ++
  Card [Show (Num (us_totalMinutes stats)); Show (T "minutes")] ++
  SectionHeader (T "consistency") [] ++
  Card (if chartShown stats then [Chart (data stats)]
        else [LockIcon; Show (T "premiumStats"); Show (T "unlockStats")]) ++
  Card ([Show (Str "Mobilify Premium"); Show (T "premiumBenefits")] ++
        Button (T (if us_isPremium stats then "manageSubscription" else "upgrade"))
          OnTogglePremium false) ++
  [Btn (T "devToggle") false OnTogglePremium].

(** ** The mounted page *)

(** The callbacks a click or a key can reach in a node. *)
Definition clicks (n : Node) : list Control :=
  match n with
  | Btn _ false c | ChipBtn _ _ c | Input _ _ c => [c]
  | Link p _ => [GoTo p]
  | _ => []
  end.

Definition clickable (nodes : list Node) : list Control := nodes ≫= clicks.

(** The control an event of [App] goes through; the tip, the back button
    and the firing of an interval have none. *)
Definition controlOf (aev : AppEvent) : option Control :=
  match aev with
  | NavLinkTo p => Some (GoTo p)
  | HomeStartWorkout => Some OnStartWorkout
  | TrainingCreate => Some OnCreate
  | TrainingCreateCard => Some OnCreateCard
  | StartRoutine i _ => Some (OnStartRoutine i)
  | StartPremade i _ => Some (OnStartPremade i)
  | Build (TypeName _) => Some OnName
  | Build (PickFilter v) => Some (OnChip v)
  | Build (Builder.Add ex) => Some (OnAdd ex)
  | Save _ _ => Some OnSave
  | CloseBuilder _ => Some OnCloseBuilder
  | TogglePremium => Some OnTogglePremium
  | InSession (UserEvent ev) => Some (OnSession ev)
  | FinishWorkout _ _ _ => Some OnFinishWorkout
  | CloseSession => Some OnCloseSession
  | _ => None
  end.

Section views.
Context (ctx : AppContext).

(** What the route of the mounted page renders: the four pages inside
    [MainLayout]; the session page's markup is [SessionUI.enabled]. *)
Definition view (now : Z) (w : World) : option (list Node) :=
  match w_page w with
  | HomePage logs aiTip =>
      Some (MainLayout
              (HomePage_view (ctx_lang ctx) now (statsShown (w_app w)) logs aiTip))
  | TrainingPage routines =>
      Some (MainLayout (TrainingPage_view (isPremium w) (premade ctx) routines))
  | ProfilePage => Some (MainLayout (ProfilePage_view (statsShown (w_app w))))
  | CreateRoutinePage b =>
      Some (MainLayout (CreateRoutinePage_view (library ctx) b))
  | SessionPage _ _ _ | Crashed => None
  end.

End views.

(** The application of the examples on its training page, with one
    routine stored. *)
Definition demo_training : World :=
  wrun demo_ctx (take 5 demo_events) (boot demo_ctx emptyEnv PathHome demo_now).

(** ** Lists of rows *)

Section rows.
Context {A B : Type}.
Implicit Types (f : nat → A → list B) (l : list A).

Lemma rows_nil f : rows f [] = [].
Proof. done. Qed.

Lemma rows_cons f x l : rows f (x :: l) = f 0%nat x ++ rows (f ∘ S) l.
Proof. done. Qed.

Lemma rows_ext f g l : (∀ i x, l !! i = Some x → f i x = g i x) → rows f l = rows g l.
Proof. intros H. unfold rows. f_equal. by apply imap_ext. Qed.

Lemma rows_empty f l : (∀ i x, f i x = []) → rows f l = [].
Proof.
  revert f. induction l as [|x l IH]; intros f H; [done|].
  rewrite rows_cons, H. apply IH. intros i y. apply H.
Qed.

Lemma rows_singleton (g : A → B) l : rows (λ _ x, [g x]) l = g <$> l.
Proof. induction l as [|x l IH]; [done|]. rewrite rows_cons, fmap_cons. by f_equal. Qed.

Lemma elem_of_rows f l y :
  y ∈ rows f l ↔ ∃ i x, l !! i = Some x ∧ y ∈ f i x.
Proof.
  unfold rows. rewrite list_elem_of_join. split.
  - intros (ys & Hy & (i & x & -> & Hx)%elem_of_lookup_imap). by exists i, x.
  - intros (i & x & Hx & Hy). exists (f i x). split; [done|].
    by apply elem_of_lookup_imap_2.
Qed.

(** Rows that hold a control of their own index unless [d] hides it. *)
Lemma elem_of_rows_index (g : nat → B) (d : A → bool) l y :
  y ∈ rows (λ i x, if d x then [] else [g i]) l
  ↔ ∃ j, y = g j ∧ from_option (λ x, d x = false) False (l !! j).
Proof.
  rewrite elem_of_rows. split.
  - intros (i & x & Hx & Hin). exists i. rewrite Hx. simpl.
    destruct (d x); [by apply elem_of_nil in Hin|].
    by apply list_elem_of_singleton in Hin.
  - intros (j & -> & Hj). destruct (l !! j) as [x|] eqn:Hx; [|done].
    exists j, x. simpl in Hj. rewrite Hj. split; [done|].
    by apply list_elem_of_singleton.
Qed.

Lemma bind_rows {C} (h : B → list C) f l :
  rows f l ≫= h = rows (λ i x, f i x ≫= h) l.
Proof.
  revert f. induction l as [|x l IH]; intros f; [done|].
  by rewrite !rows_cons, bind_app, IH.
Qed.

End rows.

(** ** The controls of each page *)

Lemma clickable_app a b : clickable (a ++ b) = clickable a ++ clickable b.
Proof. apply bind_app. Qed.

Lemma clickable_MainLayout children :
  clickable (MainLayout children) = clickable children ++ (GoTo <$> navLinks).
Proof. unfold MainLayout. by rewrite clickable_app. Qed.

Lemma clickable_HomePage lang now stats logs tip :
  clickable (HomePage_view lang now stats logs tip) = [OnStartWorkout].
Proof.
  unfold HomePage_view, clickable. rewrite !bind_app.
  destruct (noWorkoutsShown logs); [done|]. by rewrite bind_rows, rows_empty.
Qed.

Lemma clickable_TrainingPage ip premade routines :
  clickable (TrainingPage_view ip premade routines)
  = [OnCreate] ++ rows (λ i _, [OnStartRoutine i]) routines ++
    (if createCardShown ip routines then [OnCreateCard] else []) ++
    rows (λ i r, if premadeStartDisabled ip r then [] else [OnStartPremade i])
      premade.
Proof.
  unfold TrainingPage_view, clickable. rewrite !bind_app, !bind_rows.
  f_equal. f_equal. f_equal; [by destruct (createCardShown _ _)|].
  apply rows_ext. intros i r _. unfold premadeCard, premadeStartDisabled.
  by destruct ip, (r_isPremium r).
Qed.

Lemma clickable_CreateRoutinePage lib b :
  clickable (CreateRoutinePage_view lib b)
  = [OnCloseBuilder] ++ (if saveDisabled b then [] else [OnSave]) ++
    [OnName; OnChip None] ++ (OnChip ∘ Some <$> MuscleGroup_values) ++
    (OnAdd <$> filteredLibrary lib b).
Proof.
  unfold CreateRoutinePage_view, clickable. rewrite !bind_app, !bind_rows.
  rewrite <-!rows_singleton. simpl. f_equal.
  assert ((if bool_decide (0 < length (b_selectedExercises b))%nat
           then rows (λ _, selectedRow lib) (b_selectedExercises b) else [])
          ≫= clicks = []) as ->.
  { case_bool_decide; [|done]. by rewrite bind_rows, rows_empty. }
  by destruct (saveDisabled b).
Qed.

Lemma clickable_ProfilePage stats :
  clickable (ProfilePage_view stats) = [OnTogglePremium; OnTogglePremium].
Proof.
  unfold ProfilePage_view, clickable. rewrite !bind_app.
  by destruct (chartShown stats).
Qed.

(** ** Views and events *)

Section view_facts.
Context (ctx : AppContext).

Lemma elem_of_clickable_MainLayout c children :
  c ∈ clickable (MainLayout children)
  ↔ c ∈ clickable children ∨ ∃ p, c = GoTo p ∧ p ∈ navLinks.
Proof.
  rewrite clickable_MainLayout, elem_of_app, list_elem_of_fmap. naive_solver.
Qed.

Lemma elem_of_clickable_TrainingPage c ip premade routines :
  c ∈ clickable (TrainingPage_view ip premade routines)
  ↔ match c with
    | OnCreate => True
    | OnCreateCard => createCardShown ip routines = true
    | OnStartRoutine i => is_Some (routines !! i)
    | OnStartPremade i =>
        from_option (λ r, premadeStartDisabled ip r = false) False (premade !! i)
    | _ => False
    end.
Proof.
  rewrite clickable_TrainingPage, !elem_of_app, list_elem_of_singleton.
  rewrite (elem_of_rows_index OnStartRoutine (λ _, false)).
  rewrite (elem_of_rows_index OnStartPremade (premadeStartDisabled ip)).
  destruct c, (createCardShown ip routines); try set_solver.
  all: split; [|intros [r Hr]; right; left; exists i; by rewrite Hr].
  all: intros [|[(j & [= <-] & Hj)|[|(? & ? & ?)]]]; try set_solver.
  all: by destruct (routines !! i).
Qed.

Lemma elem_of_clickable_CreateRoutinePage c b :
  c ∈ clickable (CreateRoutinePage_view (library ctx) b)
  ↔ match c with
    | OnCloseBuilder | OnName | OnChip _ => True
    | OnSave => saveDisabled b = false
    | OnAdd ex => ex ∈ filteredLibrary (library ctx) b
    | _ => False
    end.
Proof.
  rewrite clickable_CreateRoutinePage, !elem_of_app, !list_elem_of_fmap.
  destruct c as [| | | | | | |[g|]| | | | | | |], (saveDisabled b); try set_solver.
  all: split; [done|intros _; do 3 right; left; exists g].
  all: split; [done|apply MuscleGroup_values_complete].
Qed.

Lemma view_layout now w :
  hasNavigation (w_page w) = true → is_Some (view ctx now w).
Proof. unfold view. by destruct (w_page w). Qed.

Lemma selectedRow_planOf ex :
  ex ∈ library ctx →
  selectedRow (library ctx) (planOf ex)
  = [Show (Str (ex_name ex)); Show (Num (ex_defaultSets ex)); Show (Str "x");
     Show (Num (re_repsOrDuration (planOf ex)));
     Show (Str (match ex_type ex with time => "s" | reps => "reps" end))].
Proof.
  intros Hex. unfold selectedRow. simpl.
  destruct (library_fit (ctx_lang ctx)) as (_ & _ & _ & Hfind).
  unfold library. rewrite (Hfind _ Hex). simpl. by destruct (ex_type ex).
Qed.

End view_facts.

(** ** Properties *)

Section view_properties.
Context (ctx : AppContext).

(** The markup and the events agree on the four pages inside the layout:
    an event that goes through a control is offered by the page exactly
    when the page's view holds that control and it is not disabled. *)
Lemma page_offers now aev w c nodes :
  controlOf aev = Some c → view ctx now w = Some nodes →
  pageOffers ctx aev w ↔ c ∈ clickable nodes.
Proof.
  unfold view, pageOffers, premadeStartOffered. intros Hc Hv.
  destruct (w_page w) as [logs tip|routines| |b| |] eqn:E; simplify_eq.
  - rewrite elem_of_clickable_MainLayout, clickable_HomePage, list_elem_of_singleton.
    destruct aev as [| | | | | | |[]| | |[]| | | |]; simplify_eq/=; naive_solver.
  - rewrite elem_of_clickable_MainLayout, elem_of_clickable_TrainingPage.
    destruct aev as [| | | | | | |[]| | |[]| | | |]; simplify_eq/=; naive_solver.
  - rewrite elem_of_clickable_MainLayout, clickable_ProfilePage.
    destruct aev as [| | | | | | |[]| | |[]| | | |]; simplify_eq/=; set_solver.
  - rewrite elem_of_clickable_MainLayout, elem_of_clickable_CreateRoutinePage.
    destruct aev as [| | | | | | |[]| | |[]| | | |]; simplify_eq/=; naive_solver.
Qed.

(** The builder's list of selected exercises has no blank row.  In
    every state the builder reaches, each selected entry is the plan of
    a library exercise, and its row shows that exercise's name, its
    default number of sets, the planned value and the unit of its type;
    [library.find] always finds the exercise. *)
Theorem selected_rows_named b re :
  builds (library ctx) b → re ∈ b_selectedExercises b →
  ∃ ex, ex ∈ library ctx ∧ re = planOf ex ∧
    selectedRow (library ctx) re
    = [Show (Str (ex_name ex)); Show (Num (ex_defaultSets ex)); Show (Str "x");
       Show (Num (re_repsOrDuration re));
       Show (Str (match ex_type ex with time => "s" | reps => "reps" end))].
Proof.
  intros Hb Hre.
  destruct (proj1 (Forall_forall _ _) (builds_selected _ _ Hb) _ Hre)
    as (ex & Hex & ->).
  exists ex. split_and!; [done..|]. by apply selectedRow_planOf.
Qed.

End view_properties.

(** ** Witnesses *)

Lemma selected_rows_named_witness :
  ∃ ex, ex ∈ library demo_ctx ∧ planOf e1 = planOf ex ∧
    selectedRow (library demo_ctx) (planOf e1)
    = [Show (Str (ex_name ex)); Show (Num (ex_defaultSets ex)); Show (Str "x");
       Show (Num (re_repsOrDuration (planOf e1)));
       Show (Str (match ex_type ex with time => "s" | reps => "reps" end))].
Proof.
  apply (selected_rows_named demo_ctx demo_builder);
    [apply demo_builder_builds|compute_done].
Defined.
