(* ===== verification/SessionView.v ===== *)
(** * SessionView: what the session page renders ([SessionPage], the markup)

    The element [SessionPage] returns, in the vocabulary of [Views].  The
    page has layers: the rest overlay and the summary cover the whole
    page, the summary over the rest overlay when both are there, so a
    click reaches the controls of the topmost layer only ([topLayer]).

    The render reads the exercise at the current position and the fields
    of every set object: without them it throws, and there is no view.

    [session_offers] derives [SessionUI.enabled], the condition under
    which the session page lets an event happen, from the markup. *)

From S2P Require Import Prelude Types Catalog Storage Session Demo.
From S2P Require Import SessionInv SessionUI SessionTimer Pages App Views.
From stdpp Require Import gmap.

#[local] Open Scope Z_scope.
#[local] Set Warnings "-clear-no-such-hyp".

(** A page with overlays, in document order: the last one is on top. *)
Record Layers : Type := mkLayers {
  overlays : list (list Node);
  base : list Node;
}.

(** The layer a click reaches. *)
Definition topLayer (v : Layers) : list Node := default (base v) (last (overlays v)).

Section session_view.
Context (routine : Routine) (library : list Exercise).
Implicit Types (st : SessionState) (set : WorkoutSetResult).

(** The rest overlay. *)
Definition restOverlay st : list Node :=
  [Show (T "rest"); Show (Num (restTime st)); Show (Str "s")] ++
  Button (Str "+10s") (OnSession ExtendRest) false ++
  Button (T "skip") (OnSession SkipRest) false.

(** The summary; [now] is the reading of [Date.now()] in the render. *)
Definition summaryModal (now : Z) st : list Node :=
  [Show (T "goodJob"); Show (T "totalTime"); Show (Num (totalTimeShown now st));
   Show (Str "m"); Show (T "exercisesCompleted");
   Show (Num (exercisesCompletedShown st))] ++
  Button (T "finish") OnFinishWorkout false ++
  Button (T "cancel") (OnSession CancelSummary) false.

Definition header st : list Node :=
  [Btn (Glyph "X") false OnCloseSession;
   Show (Num (positionShown routine st).1); Show (Str "/");
   Show (Num (positionShown routine st).2);
   Btn (T "finish") false (OnSession RequestFinish)].

(** The exercise found in the library, or not. *)
Definition exerciseInfo (exercise : option Exercise) : list Node :=
  [Img (ex_thumbnailUrl <$> exercise) "Exercise"; Show (Str "GIF");
   Show (from_option (Str ∘ ex_name) Nothing exercise);
   Show (T (if bool_decide (ex_type <$> exercise = Some time) then "time" else "reps"));
   Show (from_option (TGroup ∘ ex_muscleGroup) Nothing exercise)].

(** A row of the table of sets. *)
Definition setRow (idx : nat) set : list Node :=
  [Show (Num (ws_setNumber set))] ++
  (if valueButtonsShown set
   then [Btn (Glyph "Minus") false (OnSession (UpdateValue idx (-1)))] else []) ++
  [Show (Num (ws_repsOrDuration set))] ++
  (if valueButtonsShown set
   then [Btn (Glyph "Plus") false (OnSession (UpdateValue idx 1))] else []) ++
  [Show (Str "-"); Btn (Glyph "Check") false (OnSession (ToggleSet idx))].

Definition setsTable (exercise : option Exercise) st
    (sets : list WorkoutSetResult) : list Node :=
  [Show (T "set");
   Show (if bool_decide (ex_type <$> exercise = Some time) then Str "Sec" else T "reps");
   Show (T "previous")] ++
  rows setRow sets ++
  [Btn (T "addSet") false (OnSession AddSet)] ++
  (if removeSetShown st then [Btn (T "removeSet") false (OnSession RemoveSet)]
   else []).

Definition footer st : list Node :=
  Button (Glyph "ChevronLeft") (OnSession PrevExercise) (prevDisabled st) ++
  Button (T (if nextIsFinish routine st then "finish" else "complete"))
    (OnSession NextExercise) false.

(** [SessionPage] with a routine. *)
Definition SessionPage_view (now : Z) st : option Layers :=
  '(_, exercise) ← render routine library st;
  sets ← currentSetValues st;
  Some (mkLayers
          ((if showRestTimer st then [restOverlay st] else []) ++
           (if showSummary st then [summaryModal now st] else []))
          (header st ++ exerciseInfo exercise ++ setsTable exercise st sets ++
           footer st)).

(** The controls of a row of the table. *)
Definition setControls (idx : nat) set : list Control :=
  (if valueButtonsShown set
   then [OnSession (UpdateValue idx (-1)); OnSession (UpdateValue idx 1)] else []) ++
  [OnSession (ToggleSet idx)].

End session_view.

(** The view of the demo session after its first set was ticked. *)
Definition demo_session_view : option Layers :=
  SessionPage_view demo_routine demo_library (demo_now + 5000)
    (run demo_routine demo_library [ToggleSet 0] demo_start).

(** ** The controls of the layers *)

Section session_view_facts.
Context (routine : Routine) (library : list Exercise).
Implicit Types (st : SessionState) (set : WorkoutSetResult).

Lemma topLayer_cases (rest sum : bool) ro sm b :
  topLayer (mkLayers ((if rest then [ro] else []) ++ (if sum then [sm] else [])) b)
  = if sum then sm else if rest then ro else b.
Proof. by destruct rest, sum. Qed.

Lemma clickable_restOverlay st :
  clickable (restOverlay st) = [OnSession ExtendRest; OnSession SkipRest].
Proof. done. Qed.

Lemma clickable_summaryModal now st :
  clickable (summaryModal now st) = [OnFinishWorkout; OnSession CancelSummary].
Proof. done. Qed.

Lemma clickable_setsTable exercise st sets :
  clickable (setsTable exercise st sets)
  = rows setControls sets ++ [OnSession AddSet] ++
    (if removeSetShown st then [OnSession RemoveSet] else []).
Proof.
  unfold setsTable. rewrite !clickable_app. unfold clickable at 2.
  rewrite bind_rows. change (clickable [_; _; _]) with (@nil Control). simpl.
  f_equal; [|by destruct (removeSetShown st)].
  apply rows_ext. intros idx set _. unfold setRow, setControls.
  by destruct (valueButtonsShown set).
Qed.

Lemma clickable_footer st :
  clickable (footer routine st)
  = (if prevDisabled st then [] else [OnSession PrevExercise]) ++
    [OnSession NextExercise].
Proof. unfold footer. by destruct (prevDisabled st). Qed.

Lemma clickable_base exercise st sets :
  clickable (header routine st ++ exerciseInfo exercise ++
             setsTable exercise st sets ++ footer routine st)
  = [OnCloseSession; OnSession RequestFinish] ++ rows setControls sets ++
    [OnSession AddSet] ++
    (if removeSetShown st then [OnSession RemoveSet] else []) ++
    (if prevDisabled st then [] else [OnSession PrevExercise]) ++
    [OnSession NextExercise].
Proof.
  rewrite !clickable_app, clickable_setsTable, clickable_footer.
  by rewrite <-!app_assoc.
Qed.

Lemma elem_of_setControls sets ev :
  OnSession ev ∈ rows setControls sets
  ↔ match ev with
    | ToggleSet index => (index < length sets)%nat
    | UpdateValue index delta =>
        (delta = 1 ∨ delta = -1) ∧
        from_option valueButtonsShown false (sets !! index) = true
    | _ => False
    end.
Proof.
  rewrite elem_of_rows. unfold setControls. split.
  - intros (i & set & Hset & Hin). apply elem_of_app in Hin as [Hin|Hin].
    + destruct (valueButtonsShown set) eqn:Hv; [|by apply elem_of_nil in Hin].
      apply elem_of_cons in Hin as [[= ->]|[= ->]%list_elem_of_singleton];
        rewrite Hset; simpl; auto.
    + apply list_elem_of_singleton in Hin as [= ->]. by eapply lookup_lt_Some.
  - destruct ev as [index|index delta| | | | | | | | |]; try done.
    + intros (set & Hset)%lookup_lt_is_Some_2. exists index, set. set_solver.
    + intros (Hd & Hv). destruct (sets !! index) as [set|] eqn:Hset; [|done].
      exists index, set. simpl in Hv. rewrite Hv. set_solver.
Qed.

Lemma elem_of_clickable_base exercise st sets ev :
  OnSession ev ∈ clickable (header routine st ++ exerciseInfo exercise ++
                            setsTable exercise st sets ++ footer routine st)
  ↔ match ev with
    | ToggleSet index => (index < length sets)%nat
    | UpdateValue index delta =>
        (delta = 1 ∨ delta = -1) ∧
        from_option valueButtonsShown false (sets !! index) = true
    | RemoveSet => removeSetShown st = true
    | PrevExercise => prevDisabled st = false
    | AddSet | NextExercise | RequestFinish => True
    | _ => False
    end.
Proof.
  rewrite clickable_base, !elem_of_app, elem_of_setControls.
  destruct ev, (removeSetShown st), (prevDisabled st); set_solver.
Qed.

Lemma not_elem_of_clickable_base exercise st sets c :
  c = OnFinishWorkout ∨ c = OnCloseSession →
  c ∈ clickable (header routine st ++ exerciseInfo exercise ++
                 setsTable exercise st sets ++ footer routine st)
  ↔ c = OnCloseSession.
Proof.
  rewrite clickable_base, !elem_of_app, elem_of_rows. unfold setControls.
  intros [-> | ->]; (split; [|set_solver]).
  all: intros [|[(i & set & _ & Hin)|[|[|[|]]]]];
    destruct (removeSetShown st), (prevDisabled st); try set_solver.
  all: destruct (valueButtonsShown set); set_solver.
Qed.

(** The shape of the view, when the render does not throw. *)
Lemma SessionPage_view_Some now st v :
  SessionPage_view routine library now st = Some v →
  ∃ exercise sets,
    currentSetValues st = Some sets ∧
    v = mkLayers
          ((if showRestTimer st then [restOverlay st] else []) ++
           (if showSummary st then [summaryModal now st] else []))
          (header routine st ++ exerciseInfo exercise ++
           setsTable exercise st sets ++ footer routine st).
Proof.
  unfold SessionPage_view.
  destruct (render routine library st) as [[rex exercise]|]; [|done].
  destruct (currentSetValues st) as [sets|]; [|done].
  intros Hv. exists exercise, sets. split; [done|].
  apply (inj Some). by rewrite <-Hv.
Qed.

(** The session page has controls of its own only. *)
Lemma session_controls now st v c :
  SessionPage_view routine library now st = Some v →
  c ∈ clickable (topLayer v) →
  (∃ ev, c = OnSession ev) ∨ c = OnFinishWorkout ∨ c = OnCloseSession.
Proof.
  intros (exercise & sets & _ & ->)%SessionPage_view_Some.
  rewrite topLayer_cases.
  destruct (showSummary st); [set_solver|].
  destruct (showRestTimer st); [set_solver|].
  rewrite clickable_base, !elem_of_app, elem_of_rows. unfold setControls.
  intros [|[(i & set & _ & Hin)|[|[|[|]]]]];
    destruct (removeSetShown st), (prevDisabled st); try set_solver.
  all: destruct (valueButtonsShown set); set_solver.
Qed.

(** No control of the page stands for a second of the clock. *)
Lemma session_no_tick now st v :
  SessionPage_view routine library now st = Some v →
  OnSession Tick ∉ clickable (topLayer v).
Proof.
  intros (exercise & sets & _ & ->)%SessionPage_view_Some. rewrite topLayer_cases.
  destruct (showSummary st); [set_solver|].
  destruct (showRestTimer st); [set_solver|].
  rewrite elem_of_clickable_base. tauto.
Qed.

(** The view of a well-formed state. *)
Lemma SessionPage_view_wf now st :
  wf routine library st →
  ∃ exercise sets,
    currentSetValues st = Some sets ∧
    SessionPage_view routine library now st
    = Some (mkLayers
              ((if showRestTimer st then [restOverlay st] else []) ++
               (if showSummary st then [summaryModal now st] else []))
              (header routine st ++ exerciseInfo exercise ++
               setsTable exercise st sets ++ footer routine st)).
Proof.
  intros H. destruct (wf_render _ _ _ H) as [[rex exercise] Hr].
  destruct (wf_currentSetValues _ _ _ H) as [sets Hs].
  exists exercise, sets. unfold SessionPage_view. by rewrite Hr, Hs.
Qed.

End session_view_facts.

(** ** Properties *)

Section session_view_properties.
Context (routine : Routine) (library : list Exercise).

(** The markup of the session page and its events agree.  In every
    well-formed state the page renders, and a click reaches exactly the
    controls of the events the page lets happen: under the summary only
    finish and cancel, under the rest overlay only the two buttons of
    the countdown, and otherwise the close and finish buttons of the
    header, a tick button per set, the minus and plus buttons of the
    sets that are not completed, add set, remove set when there is more
    than one set, previous except on the first exercise, and next. *)
Lemma session_offers now st :
  wf routine library st →
  ∃ v, SessionPage_view routine library now st = Some v ∧
    (∀ ev, ev ≠ Tick → enabled routine ev st ↔ OnSession ev ∈ clickable (topLayer v)) ∧
    (showSummary st = true ↔ OnFinishWorkout ∈ clickable (topLayer v)) ∧
    (closeSessionShown st ↔ OnCloseSession ∈ clickable (topLayer v)).
Proof.
  intros H. destruct (SessionPage_view_wf _ _ now _ H) as (exercise & sets & Hs & ->).
  eexists. split; [done|]. rewrite topLayer_cases. unfold closeSessionShown.
  destruct (showSummary st) eqn:Hsum; [|destruct (showRestTimer st) eqn:Hrest].
  - rewrite clickable_summaryModal. split_and!; [|set_solver..].
    intros ev Hev. destruct ev; simpl; rewrite ?Hsum; set_solver.
  - rewrite clickable_restOverlay. split_and!; [|set_solver..].
    intros ev Hev. destruct ev; simpl; rewrite ?Hsum, ?Hrest; set_solver.
  - rewrite !not_elem_of_clickable_base by auto. split_and!; [|done..].
    intros ev Hev. rewrite elem_of_clickable_base.
    unfold enabled, valueButtonsAt. rewrite Hsum, Hrest, Hs, <-(deref_length _ _ _ Hs).
    destruct ev; simpl; naive_solver.
Qed.

End session_view_properties.
