(* ===== verification/AppView.v ===== *)
(** * AppView: the markup of the application and its events

    [appView] is what the application renders in a world: the view of
    the mounted page, with its layers.  The theorem states that the
    events the model lets the user trigger ([App.pageOffers]) are exactly
    those the markup has an enabled, uncovered control for. *)

From S2P Require Import Prelude Types Catalog Storage Builder Session Demo.
From S2P Require Import SessionInv SessionUI SessionTimer Pages App AppInv.
From S2P Require Import Views SessionView.
From stdpp Require Import gmap.

#[local] Open Scope Z_scope.
#[local] Set Warnings "-clear-no-such-hyp".

Section app_view.
Context (ctx : AppContext).

(** What [App] renders; [now] is the clock reading in the render.  A
    page of the layout has no overlay. *)
Definition appView (now : Z) (w : World) : option Layers :=
  match w_page w with
  | SessionPage routine st _ => SessionPage_view routine (library ctx) now st
  | _ => mkLayers [] <$> view ctx now w
  end.

(** ** Properties *)

Context (env : Env) (path : Path) (now0 : Z) (env_ok : stored_ok ctx env).

(** C32: the markup and the events agree.  In every world the application
    reaches, the mounted page renders, and an event that goes through a
    control (a navigation link, a button, a chip, the name field) is
    offered exactly when the topmost layer of the page holds that
    control and it is not disabled: on the training page the create card
    only under the limit, a start button per stored routine and per
    premade routine that is not locked; in the builder save only with a
    name and a selection and an add button per exercise of the filtered
    library; in a session the controls of the summary, of the rest
    overlay, or of the page under them. *)
Theorem markup_offers now w aev c :
  reachable ctx env path now0 w → controlOf aev = Some c →
  ∃ v, appView now w = Some v ∧
    (pageOffers ctx aev w ↔ c ∈ clickable (topLayer v)).
Proof.
  intros Hr Hc. pose proof (reachable_ok _ _ _ _ _ env_ok Hr) as H.
  unfold appView.
  destruct (w_page w) as [logs tip|routines| |b|routine st interval|] eqn:E.
  1-4: destruct (view_layout ctx now w) as [nodes Hn]; [by rewrite E|];
    rewrite Hn; exists (mkLayers [] nodes); split; [done|];
    by apply (page_offers ctx now).
  - destruct (session_wf _ _ _ _ _ H E) as [Hwf _].
    destruct (session_offers _ _ now _ Hwf) as (v & Hv & Hev & Hfin & Hclose).
    exists v. split; [done|]. unfold pageOffers. rewrite E.
    pose proof (session_controls _ _ _ _ _ c Hv) as Hc'.
    pose proof (session_no_tick _ _ _ _ _ Hv) as Htick.
    destruct aev as [| | | | | | |[]| | |[ev|]| | | |]; simplify_eq/=;
      try done; try (split; [done|naive_solver]).
    + split; [by intros [[=] _]|naive_solver].
    + destruct (decide (ev = Tick)) as [->|Hne]; [tauto|].
      rewrite <-(Hev _ Hne). tauto.
  - by pose proof (ok_page _ _ H) as Hp; unfold page_ok in Hp; rewrite E in Hp.
Qed.

End app_view.

(** ** Witnesses *)

Lemma markup_offers_witness :
  ∃ v, appView demo_ctx 1700000002000 demo_world = Some v ∧
    (pageOffers demo_ctx (InSession (UserEvent SkipRest)) demo_world
     ↔ OnSession SkipRest ∈ clickable (topLayer v)).
Proof.
  exact (markup_offers demo_ctx emptyEnv PathHome demo_now (emptyEnv_stored_ok _)
           1700000002000 demo_world (InSession (UserEvent SkipRest)) _
           demo_world_reachable eq_refl).
Defined.
