(* ===== verification/AppStorage.v ===== *)
(** * AppStorage: the application over the texts of [localStorage]

    The pages reach the storage through three writers of
    [storageService.ts] only: the builder's save calls [saveRoutine],
    the finish button [saveLog], the premium toggle [saveStats].
    [writesOf] lists the calls an event makes, and the theorem follows
    them through the text layer of [RawStorage]: a [localStorage] that
    can be read when the application is opened can be read ever after,
    and holds the texts of what the pages of [App] take the storage to
    hold. *)

From S2P Require Import Prelude Types Catalog Storage Codec RawStorage.
From S2P Require Import Builder Session Demo SessionLog SessionTimer Pages.
From S2P Require Import App AppInv.
From stdpp Require Import gmap.

#[local] Open Scope Z_scope.
#[local] Arguments navigate : simpl never.

Section app_storage.
Context (ctx : AppContext).

(** The calls of the writers of [storageService.ts] that the handler of
    an event makes. *)
Definition writesOf (aev : AppEvent) (w : World) : list StorageOp :=
  match aev, w_page w with
  | Save idNow createdNow, CreateRoutinePage b =>
      from_option (λ saved, [SaveRoutine saved.1]) []
        (handleSave idNow createdNow b (app_env (w_app w)))
  | FinishWorkout endTime idNow saveNow, SessionPage routine st _ =>
      from_option (λ stored, [SaveLog saveNow stored]) []
        (handleFinishWorkout routine (library ctx) endTime idNow st
           ≫= storedLog st)
  | TogglePremium, ProfilePage =>
      [SaveStats (statsShown (togglePremium (w_app w)))]
  | _, _ => []
  end.

(** ** Navigation leaves the storage alone *)

Lemma w_app_arrive now l past app tm ps :
  w_app (arrive ctx now l past app tm ps) = app.
Proof.
  unfold arrive. by destruct (mountPage ctx now l app tm) as [[page tm']|].
Qed.

Lemma w_app_navigate now l w : w_app (navigate ctx now l w) = w_app w.
Proof. apply w_app_arrive. Qed.

Lemma w_app_goBack now w : w_app (goBack ctx now w) = w_app w.
Proof. unfold goBack. destruct (w_past w); [done|]. apply w_app_arrive. Qed.

Lemma w_app_start now routine w : w_app (start ctx now routine w) = w_app w.
Proof.
  unfold start. destruct (routine ≫= _); [|done]. apply w_app_navigate.
Qed.

Lemma w_app_tipArrives id w : w_app (tipArrives ctx id w) = w_app w.
Proof.
  unfold tipArrives. destruct (w_page _); try done. by case_decide.
Qed.

Lemma w_app_navLinkClick p w : w_app (navLinkClick ctx p w) = w_app w.
Proof. unfold navLinkClick. case_match; [apply w_app_navigate|done]. Qed.

(** ** The storage after an event *)

Lemma wstep_writes aev w :
  app_env (w_app (wstep ctx aev w)) = execs (writesOf aev w) (app_env (w_app w)).
Proof.
  unfold wstep, writesOf.
  destruct aev, (w_page w) as [| | |b|routine st interval|] eqn:E;
    simpl; rewrite ?w_app_navLinkClick, ?w_app_tipArrives, ?w_app_start,
      ?w_app_goBack; try done.
  - unfold saveClick, handleSave. destruct (saveDisabled b); [done|].
    by rewrite w_app_navigate.
  - unfold finishClick, finishWorkout.
    destruct (handleFinishWorkout _ _ _ _ _) as [log|]; [|done]. simpl.
    by destruct (storedLog st log) as [stored|].
Qed.

(** The storage of a reachable world is that of the boot after a
    sequence of writes. *)
Lemma reachable_writes env path now w :
  reachable ctx env path now w →
  ∃ ops, app_env (w_app w) = execs ops env.
Proof.
  induction 1 as [|aev w _ [ops IH] _].
  - exists []. unfold boot. simpl. by rewrite w_app_arrive.
  - exists (ops ++ writesOf aev w). by rewrite wstep_writes, IH, execs_app.
Qed.

(** ** Properties *)

Context `{Codec (list Routine), Codec (list StoredLog), Codec UserStats}.

(** C12: the application keeps its storage readable.  Opened on a
    [localStorage] whose three items can be read, whatever the user does
    the storage the pages work on is the result of calls of the writers
    of [storageService.ts]; over the texts none of these calls throws,
    the texts they leave are those of the storage the pages work on, no
    item under another key is touched, and the three readers return what
    the pages read. *)
Theorem app_storage_readable renv env path now w :
  typed renv = Some env → reachable ctx env path now w →
  ∃ ops renv',
    execs_raw ops renv = Returned tt renv' ∧
    typed renv' = Some (app_env (w_app w)) ∧ framed renv renv' ∧
    getRoutines_raw renv' = Returned (getRoutines (app_env (w_app w))) renv' ∧
    getLogs_raw renv' = Returned (getLogs (app_env (w_app w))) renv' ∧
    getStats_raw renv' = Returned (getStats (app_env (w_app w))) renv'.
Proof.
  intros Ht [ops ->]%reachable_writes.
  destruct (execs_raw_typed ops _ _ Ht) as (renv' & Hops & Ht' & Hf).
  exists ops, renv'.
  split_and!; [done..|by apply getRoutines_raw_typed|by apply getLogs_raw_typed
              |by apply getStats_raw_typed].
Qed.

End app_storage.

(** ** Witnesses *)

Section app_storage_witnesses.

#[local] Existing Instances demo_codec_routines demo_codec_logs demo_codec_stats.

Lemma app_storage_readable_witness :
  ∃ ops renv',
    execs_raw ops emptyRawEnv = Returned tt renv' ∧
    typed renv' = Some (app_env (w_app demo_world)) ∧ framed emptyRawEnv renv' ∧
    getRoutines_raw renv'
    = Returned (getRoutines (app_env (w_app demo_world))) renv' ∧
    getLogs_raw renv' = Returned (getLogs (app_env (w_app demo_world))) renv' ∧
    getStats_raw renv' = Returned (getStats (app_env (w_app demo_world))) renv'.
Proof.
  exact (app_storage_readable demo_ctx emptyRawEnv emptyEnv PathHome demo_now
           demo_world eq_refl demo_world_reachable).
Defined.

End app_storage_witnesses.
