(* ===== verification/AppTips.v ===== *)
(** * AppTips: the tip of the home page and the promises behind it

    The mount effect of [HomePage] shows [t.loading] and asks
    [getAITip] for a tip; the promise is fulfilled later, at a moment the
    page does not choose.  The user may have left the page by then, or
    left it and come back, so that several promises are pending and the
    one that is fulfilled was made by a page that is gone.  [App] keeps
    the pending promises in the world and makes the fulfilment of one an
    event; this file shows that the interleaving does no harm: the home
    page shows [t.loading] exactly until its own promise is fulfilled,
    and the sentence of [getAITip] from then on. *)

From S2P Require Import Prelude Types Catalog Tips Storage Builder Session Demo.
From S2P Require Import SessionTimer Pages App AppInv.
From stdpp Require Import gmap.

#[local] Open Scope Z_scope.

Section tips.
Context (ctx : AppContext).

(** Every pending promise has been made. *)
Definition promises_ok (ps : Promises) : Prop :=
  ∀ id, id ∈ pr_pending ps → (id < pr_next ps)%nat.

(** What the home page shows while promise [id] is its own. *)
Definition tipShown (id : nat) (ps : Promises) : string :=
  if decide (id ∈ pr_pending ps) then ctx_loading ctx else theTip ctx.

(** The home page waits for the last promise made, and shows the tip
    once that one is fulfilled. *)
Definition tip_ok (w : World) : Prop :=
  match w_page w with
  | HomePage _ tip =>
      ∃ id, pr_next (w_promises w) = S id ∧ tip = tipShown id (w_promises w)
  | _ => True
  end.

Definition tips_ok (w : World) : Prop :=
  promises_ok (w_promises w) ∧ tip_ok w.

(** The application of the examples after the user has left the home
    page and come back: two promises are pending. *)
Definition demo_tips : World :=
  wrun demo_ctx [NavLinkTo PathTraining; NavLinkTo PathHome]
    (boot demo_ctx emptyEnv PathHome demo_now).

(** ** The promises *)

Lemma promises_ok_issue ps : promises_ok ps → promises_ok (issue ps).
Proof.
  intros H id [->%elem_of_singleton|Hid%H]%elem_of_union; simpl; lia.
Qed.

Lemma promises_ok_settle id ps : promises_ok ps → promises_ok (settle id ps).
Proof. intros H id' [Hid _]%elem_of_difference. by apply H. Qed.

Lemma tipShown_issue ps :
  promises_ok ps → tipShown (pr_next ps) (issue ps) = ctx_loading ctx.
Proof. intros _. unfold tipShown. rewrite decide_True; [done|set_solver]. Qed.

Lemma tipShown_settle_own id ps : tipShown id (settle id ps) = theTip ctx.
Proof. unfold tipShown. rewrite decide_False; [done|set_solver]. Qed.

Lemma tipShown_settle_other id id' ps :
  id ≠ id' → tipShown id (settle id' ps) = tipShown id ps.
Proof.
  intros Hne. unfold tipShown, settle. simpl.
  destruct (decide (id ∈ pr_pending ps));
    [rewrite decide_True|rewrite decide_False]; set_solver.
Qed.

(** ** The steps *)

Lemma arrive_tips now l past app tm ps :
  promises_ok ps → tips_ok (arrive ctx now l past app tm ps).
Proof.
  intros H. unfold arrive, mountPage, mountPromises.
  destruct l as [[] routine]; simpl; try done.
  - split; [by apply promises_ok_issue|].
    exists (pr_next ps). by rewrite tipShown_issue.
  - destruct routine as [r|]; [|done].
    by destruct (mountTimed r (library ctx) now tm).
Qed.

(** A step that keeps the promises and the tip. *)
Lemma tips_ok_frame w w' :
  w_promises w' = w_promises w →
  (∀ logs tip, w_page w' = HomePage logs tip →
     ∃ logs0, w_page w = HomePage logs0 tip) →
  tips_ok w → tips_ok w'.
Proof.
  intros Hps Hpage [Hok Htip]. unfold tips_ok, tip_ok in *. rewrite Hps.
  split; [done|]. destruct (w_page w') as [logs tip| | | | |]; try done.
  destruct (Hpage logs tip eq_refl) as [logs0 E]. by rewrite E in Htip.
Qed.

Lemma navigate_tips now l w : tips_ok w → tips_ok (navigate ctx now l w).
Proof. intros [H _]. by apply arrive_tips. Qed.

Lemma goBack_tips now w : tips_ok w → tips_ok (goBack ctx now w).
Proof.
  intros H. unfold goBack. destruct (w_past w); [done|].
  apply arrive_tips, H.
Qed.

Lemma withApp_tips app w : tips_ok w → tips_ok (withApp app w).
Proof. apply tips_ok_frame; [done|]. intros logs tip E. by exists logs. Qed.

Lemma tipArrives_tips id w : tips_ok w → tips_ok (tipArrives ctx id w).
Proof.
  intros [Hok Htip]. unfold tipArrives, tips_ok, tip_ok in *. simpl.
  destruct (w_page w) as [logs tip| | | | |] eqn:E; simpl; rewrite ?E;
    try (split; [by apply promises_ok_settle|done]).
  destruct Htip as (id0 & Hn & ->). rewrite Hn.
  case_decide as Hid; simpl; rewrite ?E;
    (split; [by apply promises_ok_settle|]); exists id0; (split; [done|]).
  - injection Hid as ->. by rewrite tipShown_settle_own.
  - rewrite tipShown_settle_other; [done|congruence].
Qed.

Lemma wstep_tips aev w : tips_ok w → tips_ok (wstep ctx aev w).
Proof.
  intros H. unfold wstep, navLinkClick, startWorkoutClick, createClick, start,
    saveClick, finishClick, closeSessionClick, sessionStep.
  destruct aev; destruct (w_page w) as [logs tip|routines| |b|routine st interval|]
    eqn:E; simpl; try done; try (by apply tipArrives_tips);
    try (by apply navigate_tips); try (by apply goBack_tips);
    try (case_match; [by apply navigate_tips|done]);
    try (case_decide; [done|by apply goBack_tips]).
  all: try (revert H; apply tips_ok_frame; [done|]; simpl; intros ?? [=]).
  - destruct (handleSave _ _ _ _) as [[r env']|]; [|done].
    by apply navigate_tips, withApp_tips.
Qed.

Lemma reachable_tips env path now w : reachable ctx env path now w → tips_ok w.
Proof.
  induction 1 as [|aev w _ IH _]; [|by apply wstep_tips].
  unfold boot. apply withApp_tips, arrive_tips. intros id. set_solver.
Qed.

(** ** Properties *)

(** C15: the tip shown is the tip of this mount.  In every world the
    application reaches on the home page, the page waits for the last
    promise made.  While that promise is pending the page shows
    [t.loading], afterwards the sentence [getAITip] resolved to.  The
    fulfilment of a promise of an earlier mount, which can come at any
    moment, changes nothing on the page; the fulfilment of the page's
    own promise, which is possible as long as [t.loading] is shown for
    it, puts the sentence there. *)
Theorem tip_of_this_mount env path now w logs tip :
  reachable ctx env path now w → w_page w = HomePage logs tip →
  ∃ id, pr_next (w_promises w) = S id ∧
    tip = (if decide (id ∈ pr_pending (w_promises w))
           then ctx_loading ctx else theTip ctx) ∧
    (∀ id', id' ≠ id → w_page (wstep ctx (TipArrives id') w) = w_page w) ∧
    w_page (wstep ctx (TipArrives id) w) = HomePage logs (theTip ctx).
Proof.
  intros [_ Htip]%reachable_tips E. unfold tip_ok in Htip. rewrite E in Htip.
  destruct Htip as (id & Hn & ->). exists id. split_and!; [done..| |].
  - intros id' Hne. unfold wstep, tipArrives. simpl. rewrite E, Hn.
    rewrite decide_False; [by simpl|congruence].
  - unfold wstep, tipArrives. simpl. rewrite E, Hn. by rewrite decide_True.
Qed.

End tips.

(** ** Witnesses *)

Lemma demo_tips_reachable : reachable demo_ctx emptyEnv PathHome demo_now demo_tips.
Proof. apply reachable_wrun; [apply reachable_boot|compute_done]. Qed.

Lemma tip_of_this_mount_witness :
  ∃ id, pr_next (w_promises demo_tips) = S id ∧
    "Loading..."
    = (if decide (id ∈ pr_pending (w_promises demo_tips))
       then ctx_loading demo_ctx else theTip demo_ctx) ∧
    (∀ id', id' ≠ id →
       w_page (wstep demo_ctx (TipArrives id') demo_tips) = w_page demo_tips) ∧
    w_page (wstep demo_ctx (TipArrives id) demo_tips)
    = HomePage [] (theTip demo_ctx).
Proof.
  exact (tip_of_this_mount demo_ctx emptyEnv PathHome demo_now demo_tips []
           "Loading..." demo_tips_reachable ltac:(by vm_compute)).
Defined.
